(** * StoryStudy: the spaced-repetition scheduler and the goal engine

    A shallow embedding of the rule-based core of the StoryStudy
    front end:

    - [SpacedRepetitionScheduler] and [FlashcardStorage] (the flashcard
      library),
    - [GoalManager] ([lib/goalSystem.ts]): storage access, session
      linking, progress calculation and daily recommendations,
    - [StoryGoalEngine] ([lib/storyGoalIntegration.ts]): the choice of
      the story shown for a session.

    The arithmetic core is embedded twice.

    - At top level a [number] that holds a measured quantity is an
      exact rational.  This embedding carries the properties that do
      not depend on rounding: bounds and order, counting, the control
      flow, what is read from and written to the storage.
    - In [Doubles] the same functions are embedded on [Binary64]
      numbers, with the rounding of every operation, [NaN], the
      infinities, the two zeros and the invalid [Date].  This embedding
      carries the properties that name the values computed: the
      scheduling rule, the progress percentage, the on-track test and
      the round trip of the cards through JSON.

    Conventions of the embedding at top level.

    - A JavaScript [number] that holds a measured quantity (hours,
      minutes, ease factor, quality, percentage) is an exact rational
      [Q]; [NaN], the infinities and binary rounding are left to
      [Doubles].  Every division of the source is guarded by a test
      that its divisor is non-zero, so [Qdiv] is only used where the
      source divides by a non-zero number.  Equality of such numbers is
      [Qeq].
    - A [number] that only ever counts (it starts at 0 and is changed
      by [+= 1], or is an array length) is a [nat]; the value of
      [Math.ceil] or [Math.round] and the priority of a recommendation
      are integers, [Z].
    - A [Date] is its [getTime()] value: the milliseconds since the
      epoch, a [Z].  [new Date()] reads the clock; the clock value is
      the explicit argument [now] of every function that reads it, and
      the clock does not advance during a call.
    - [localStorage] is a record of the slots the code uses.  A slot is
      absent, or holds a text.  The text is one on which [JSON.parse]
      throws, or a JSON text whose value is no array, or the
      [JSON.stringify] image of a well-typed array, which the
      embedding keeps as that value.  A write throws when the storage
      refuses it.
    - A [try { ... } catch] block is written in the [result] monad:
      [Throw] inside [try_catch] is turned into the handler's value.
    - Template literals that interpolate numbers are kept as the name
      of the template and the values interpolated. *)

From Stdlib Require Import QArith Qround Qminmax Qabs Qpower Lqa Lia ZArith.
From Stdlib Require Import Ascii String List Sorting.Sorted Sorting.Permutation.
From stdpp Require Import gmap strings.

Open Scope Q_scope.

(** ** JavaScript numbers, [Math] and [Date] *)

Module JS.

Definition number : Type := Q.
Definition Date : Type := Z.

(** [x < y], [x <= y], [x > y], [x >= y] and [x === y] on numbers. *)
Definition ltb (x y : number) : bool := negb (Qle_bool y x).
Definition leb (x y : number) : bool := Qle_bool x y.
Definition gtb (x y : number) : bool := ltb y x.
Definition geb (x y : number) : bool := leb y x.
Definition eqb (x y : number) : bool := Qeq_bool x y.

(** Truthiness of a number: every number but zero. *)
Definition truthy (x : number) : bool := negb (Qeq_bool x 0).

Definition Math_max (x y : number) : number := Qmax x y.
Definition Math_min (x y : number) : number := Qmin x y.

(** [Math.ceil] and [Math.round] (the nearest integer, a tie going up);
    their values are integers. *)
Definition Math_ceil (x : number) : Z := Qceiling x.
Definition Math_round (x : number) : Z := Qfloor (x + (1 # 2)).
Definition Math_floor (x : number) : Z := Qfloor x.

(** [new Date(x)] for a number [x]: the time value is [x] with its
    fraction dropped (rounding toward zero). *)
Definition truncate (x : number) : Z :=
  if Qle_bool 0 x then Qfloor x else Qceiling x.
Definition Date_of_number (x : number) : Date := truncate x.
Definition getTime (d : Date) : number := inject_Z d.

Definition of_nat (n : nat) : number := inject_Z (Z.of_nat n).

End JS.

(** ** The [result] monad: code that may throw *)

Inductive result (A : Type) : Type :=
| Ok (a : A)
| Throw (error : string).
Arguments Ok {A} a.
Arguments Throw {A} error.

Definition bind_result {A B} (m : result A) (k : A -> result B) : result B :=
  match m with
  | Ok a => k a
  | Throw e => Throw e
  end.

(** [try { body } catch (error) { handler }] *)
Definition try_catch {A} (body : result A) (handler : string -> result A) : result A :=
  match body with
  | Ok a => Ok a
  | Throw e => handler e
  end.

Notation "'let*' x ':=' m 'in' k" := (bind_result m (fun x => k))
  (at level 10, x name, m at level 100, k at level 200).
Notation "'let*' ' p ':=' m 'in' k" :=
  (bind_result m (fun x => match x with p => k end))
  (at level 10, p pattern, m at level 100, k at level 200).

(** ** [localStorage] items *)

(** The text held by a storage slot for values of type [A], an array
    type. *)
Inductive Stored (A : Type) : Type :=
| NotJson (text : string)   (* a text on which [JSON.parse] throws *)
| NotArray (text : string)  (* a JSON text whose value is no array: [null], [{}], [3] *)
| Json (value : A).         (* [JSON.stringify value] *)
Arguments NotJson {A} text.
Arguments NotArray {A} text.
Arguments Json {A} value.

(** [!stored] for the value of [localStorage.getItem]: [null] and the
    empty string are falsy; a JSON text is not empty. *)
Definition is_falsy {A} (stored : option (Stored A)) : bool :=
  match stored with
  | None => true
  | Some (NotJson text) => if decide (text = EmptyString) then true else false
  | Some (NotArray _) => false
  | Some (Json _) => false
  end.

(** [JSON.parse(stored)], followed by the array method that the code
    calls on its value ([map], [filter], [push]).  On a value that is
    no array the method is missing and the call throws a [TypeError];
    so it does on [null], the value of [JSON.parse(null)], but the code
    never gets here with [null]. *)
Definition JSON_parse {A} (stored : option (Stored A)) : result A :=
  match stored with
  | Some (Json v) => Ok v
  | Some (NotJson _) => Throw "SyntaxError"
  | Some (NotArray _) => Throw "TypeError"
  | None => Throw "TypeError"
  end.

(** [JSON.stringify(value)], as the text a slot then holds.  The goals,
    session links and milestones that the program writes hold valid
    dates and finite numbers, which [JSON.parse] and the revival of the
    dates give back; what becomes of an invalid date and of a number
    that is not finite is in [Doubles], for the cards. *)
Definition JSON_stringify {A} (value : A) : Stored A := Json value.

(** Truthiness of an optional object ([undefined] is falsy, an object
    such as a [Date] is truthy). *)
Definition defined {A} (o : option A) : bool :=
  match o with
  | Some _ => true
  | None => false
  end.

(** [array.find(p)] is the first element that satisfies [p]; an object
    found this way and then mutated is the element of the array, so the
    mutation is an update of the first element that satisfies [p]. *)
Fixpoint update_first {A} (p : A -> bool) (f : A -> A) (l : list A) : list A :=
  match l with
  | nil => nil
  | x :: l' => if p x then f x :: l' else x :: update_first p f l'
  end.

(** [array.sort(compare)]: the sort is stable, and [a] stays before [b]
    unless [compare(a, b) > 0].  For a comparator that orders by a key
    the result of a stable sort is unique; it is computed here by
    insertion from the right. *)
Fixpoint sort_insert {A} (compare : A -> A -> Z) (a : A) (l : list A) : list A :=
  match l with
  | nil => a :: nil
  | b :: l' =>
      if (compare a b <=? 0)%Z then a :: b :: l' else b :: sort_insert compare a l'
  end.

Fixpoint Array_sort {A} (compare : A -> A -> Z) (l : list A) : list A :=
  match l with
  | nil => nil
  | a :: l' => sort_insert compare a (Array_sort compare l')
  end.

(** A [for ... of] loop whose body may throw and pushes one element. *)
Fixpoint for_each_push {A B} (body : A -> result B) (l : list A) : result (list B) :=
  match l with
  | nil => Ok nil
  | a :: l' =>
      let* b := body a in
      let* bs := for_each_push body l' in
      Ok (b :: bs)
  end.

(** [array.slice(0, end)] for an integer [end]; a negative [end] counts
    from the end of the array. *)
Definition Array_slice0 {A} (l : list A) (end_ : Z) : list A :=
  if (end_ <? 0)%Z
  then List.firstn (Z.to_nat (Z.max (Z.of_nat (length l) + end_) 0)) l
  else List.firstn (Z.to_nat end_) l.

(** ** The data model *)

Module FlashcardData.
Inductive Source : Type := session_reflection | manual | imported.
Record t : Type := {
  id : string;
  front : string;
  back : string;
  created : JS.Date;
  lastReviewed : option JS.Date;
  nextReview : JS.Date;
  interval : JS.number;          (* days *)
  easeFactor : JS.number;
  repetitions : nat;
  quality : option JS.number;    (* last response quality *)
  tags : option (list string);
  source : option Source;
  sessionId : option string
}.
End FlashcardData.

Module ReviewResult.
Record t : Type := { quality : JS.number }.
End ReviewResult.

(** The value of [getCardStats]. *)
Module CardStats.
Record t : Type := {
  total : nat;
  due : nat;
  new : nat;
  learning : nat;
  mature : nat;
  retention : JS.number
}.
End CardStats.

(** The value of [generateStudyPlan]; the times are in seconds. *)
Module StudyPlan.
Record t : Type := {
  dueCards : list FlashcardData.t;
  newCards : list FlashcardData.t;
  reviewTime : JS.number;
  newTime : JS.number
}.
End StudyPlan.

Inductive GoalType : Type := exam | project | skill | course | certification | personal.
Inductive GoalPriority : Type := low | medium | high | critical.
Inductive TaskStatus : Type := not_started | in_progress | completed | blocked.

Definition TaskStatus_eqb (a b : TaskStatus) : bool :=
  match a, b with
  | not_started, not_started | in_progress, in_progress
  | completed, completed | blocked, blocked => true
  | _, _ => false
  end.

Module GoalTask.
Record t : Type := {
  id : string;
  goalId : string;
  title : string;
  description : option string;
  status : TaskStatus;
  estimatedMinutes : option JS.number;
  actualMinutes : JS.number;
  dueDate : option JS.Date;
  completedAt : option JS.Date;
  tags : list string;
  flashcardCount : option nat;
  notesLink : option string
}.
End GoalTask.

Module StudyGoal.
Record t : Type := {
  id : string;
  title : string;
  type : GoalType;
  subject : string;
  description : option string;
  deadline : option JS.Date;
  priority : GoalPriority;
  targetHours : option JS.number;
  hoursCompleted : JS.number;
  createdAt : JS.Date;
  completedAt : option JS.Date;
  isActive : bool;
  tasks : list GoalTask.t;
  dailyCommitment : option JS.number;     (* minutes per day *)
  weeklyCommitment : option JS.number;
  preferredStudyTimes : option (list string);
  sessionsCompleted : nat;
  flashcardsCreated : nat;
  flashcardsMastered : nat;
  currentStreak : nat;
  storyMilestones : list string;
  currentChapter : nat
}.
End StudyGoal.

Module GoalProgress.
Record t : Type := {
  goalId : string;
  progressPercentage : JS.number;
  tasksCompleted : nat;
  totalTasks : nat;
  hoursCompleted : JS.number;
  targetHours : JS.number;
  daysUntilDeadline : option Z;
  onTrack : bool;
  recommendedDailyMinutes : JS.number;
  projectedCompletionDate : option JS.Date
}.
End GoalProgress.

Inductive Action : Type := deep_work | review | flashcards | light_study | break.
Inductive Urgency : Type := urgency_low | urgency_medium | urgency_high | urgency_critical.
Inductive Preset : Type := preset_classic | preset_deep_work | preset_quick_study.

(** The [reasoning] text of a recommendation: the template literal that
    was chosen, with the values it interpolates. *)
Inductive Reasoning : Type :=
| reasoning_review (roundedPercentage : Z)
| reasoning_deadline (daysUntilDeadline : option Z)
| reasoning_behind (recommendedDailyMinutes : JS.number)
| reasoning_flashcards
| reasoning_steady (subject : string).

Module DailyRecommendation.
Record t : Type := {
  goalId : string;
  goalTitle : string;
  priority : Z;
  recommendedAction : Action;
  suggestedDuration : nat;       (* minutes *)
  suggestedPreset : Preset;
  reasoning : Reasoning;
  urgency : Urgency
}.
End DailyRecommendation.

Module SessionGoalLink.
Record t : Type := {
  sessionId : string;
  goalId : string;
  taskId : option string;
  minutesWorked : JS.number;
  focusRating : JS.number;
  progressMade : bool;
  completedTask : bool;
  notes : option string;
  timestamp : JS.Date
}.
End SessionGoalLink.

(** The argument of [createGoal]: a [StudyGoal] without the fields that
    [createGoal] sets itself.  [tasks] is [None] when the caller leaves
    it undefined. *)
Module GoalData.
Record t : Type := {
  title : string;
  type : GoalType;
  subject : string;
  description : option string;
  deadline : option JS.Date;
  priority : GoalPriority;
  targetHours : option JS.number;
  completedAt : option JS.Date;
  tasks : option (list GoalTask.t);
  dailyCommitment : option JS.number;
  weeklyCommitment : option JS.number;
  preferredStudyTimes : option (list string)
}.
End GoalData.

(** [Partial<StudyGoal>]: a field is [None] when the object does not
    have the key; an optional field that is present can hold
    [undefined]. *)
Module StudyGoalUpdates.
Record t : Type := {
  id : option string;
  title : option string;
  type : option GoalType;
  subject : option string;
  description : option (option string);
  deadline : option (option JS.Date);
  priority : option GoalPriority;
  targetHours : option (option JS.number);
  hoursCompleted : option JS.number;
  createdAt : option JS.Date;
  completedAt : option (option JS.Date);
  isActive : option bool;
  tasks : option (list GoalTask.t);
  dailyCommitment : option (option JS.number);
  weeklyCommitment : option (option JS.number);
  preferredStudyTimes : option (option (list string));
  sessionsCompleted : option nat;
  flashcardsCreated : option nat;
  flashcardsMastered : option nat;
  currentStreak : option nat;
  storyMilestones : option (list string);
  currentChapter : option nat
}.
End StudyGoalUpdates.

(** The argument of [addTask]: a [GoalTask] without [id], [goalId],
    [actualMinutes] and [status]. *)
Module TaskData.
Record t : Type := {
  title : string;
  description : option string;
  estimatedMinutes : option JS.number;
  dueDate : option JS.Date;
  completedAt : option JS.Date;
  tags : list string;
  flashcardCount : option nat;
  notesLink : option string
}.
End TaskData.

(** [Partial<GoalTask>] *)
Module GoalTaskUpdates.
Record t : Type := {
  id : option string;
  goalId : option string;
  title : option string;
  description : option (option string);
  status : option TaskStatus;
  estimatedMinutes : option (option JS.number);
  actualMinutes : option JS.number;
  dueDate : option (option JS.Date);
  completedAt : option (option JS.Date);
  tags : option (list string);
  flashcardCount : option (option nat);
  notesLink : option (option string)
}.
End GoalTaskUpdates.

(** A key of a spread [{...old, ...updates}]: the value of [updates]
    when it has the key, the old value otherwise. *)
Definition spread {A} (update : option A) (old : A) : A :=
  match update with
  | Some v => v
  | None => old
  end.

Inductive TriggerType : Type :=
  trigger_progress | trigger_streak | trigger_completion | trigger_task_count
| trigger_deadline_proximity.
Inductive Mood : Type := focused | struggling | successful | determined.

(** The [text] of a story: which template literal was chosen, with what
    it interpolates.  The wording of the templates is not part of the
    model. *)
Inductive StoryText : Type :=
| text_milestone (name : string) (goalTitle : string)
| text_adaptive (chapter : nat) (isFocused isOnTrack isBreak : bool)
    (goalTitle : string) (progress : GoalProgress.t)
| text_focus (isFocused isBreak : bool).

Module StoryContent.
Record t : Type := {
  title : string;
  text : StoryText;
  characterMood : Mood;
  backgroundUrl : option string;
  unlocked : bool;
  unlockedAt : option JS.Date
}.
End StoryContent.

Module StoryMilestone.
Record t : Type := {
  id : string;
  goalId : string;
  triggerType : TriggerType;
  triggerValue : JS.number;
  storyContent : StoryContent.t
}.
End StoryMilestone.

Module AdaptiveStoryContent.
Record t : Type := {
  text : StoryText;
  characterMood : Mood;
  chapter : string;
  milestone : option StoryMilestone.t
}.
End AdaptiveStoryContent.

(** The slots of [localStorage] that the code reads and writes.  The
    milestones of a goal live under the key
    ['pomodoro-story-milestones-' + goalId]; the map is indexed by the
    [goalId] part of the key.  [write_fails] tells that the storage
    refuses writes (its quota is used up, or it is disabled). *)
Record LocalStorage : Type := {
  flashcards_item : option (Stored (list FlashcardData.t));   (* 'pomodoro-flashcards' *)
  goals_item : option (Stored (list StudyGoal.t));            (* 'pomodoro-study-goals' *)
  sessions_item : option (Stored (list SessionGoalLink.t));   (* 'pomodoro-goal-sessions' *)
  milestones_items : gmap string (Stored (list StoryMilestone.t));
  write_fails : bool
}.

(** [localStorage.setItem(key, value)], slot by slot: it throws when the
    storage refuses the write. *)
Definition setItem_goals (ls : LocalStorage)
    (value : Stored (list StudyGoal.t)) : result LocalStorage :=
  if write_fails ls then Throw "QuotaExceededError"
  else Ok {| flashcards_item := flashcards_item ls;
             goals_item := Some value;
             sessions_item := sessions_item ls;
             milestones_items := milestones_items ls;
             write_fails := write_fails ls |}.

Definition setItem_sessions (ls : LocalStorage)
    (value : Stored (list SessionGoalLink.t)) : result LocalStorage :=
  if write_fails ls then Throw "QuotaExceededError"
  else Ok {| flashcards_item := flashcards_item ls;
             goals_item := goals_item ls;
             sessions_item := Some value;
             milestones_items := milestones_items ls;
             write_fails := write_fails ls |}.

Definition setItem_milestones (ls : LocalStorage) (goalId : string)
    (value : Stored (list StoryMilestone.t)) : result LocalStorage :=
  if write_fails ls then Throw "QuotaExceededError"
  else Ok {| flashcards_item := flashcards_item ls;
             goals_item := goals_item ls;
             sessions_item := sessions_item ls;
             milestones_items := <[goalId := value]> (milestones_items ls);
             write_fails := write_fails ls |}.

(** ** [SpacedRepetitionScheduler] *)

Module SpacedRepetitionScheduler.
Import JS FlashcardData.

Definition MIN_EASE_FACTOR : number := 1.3.
Definition INITIAL_EASE_FACTOR : number := 2.5.
Definition INITIAL_INTERVAL : number := 1.

(** [createFlashcard(front, back, tags, source, sessionId)]; [uuid] is
    the value of [crypto.randomUUID()]. *)
Definition createFlashcard (now : Date) (uuid : string) (front back : string)
    (tags : option (list string)) (source : option FlashcardData.Source)
    (sessionId : option string) : FlashcardData.t :=
  {| id := uuid;
     front := front;
     back := back;
     created := now;
     lastReviewed := None;
     nextReview := Date_of_number (getTime now + 24 * 60 * 60 * 1000);
     interval := INITIAL_INTERVAL;
     easeFactor := INITIAL_EASE_FACTOR;
     repetitions := 0;
     quality := None;
     tags := Some (match tags with Some l => l | None => nil end);
     source := Some (match source with Some s => s | None => manual end);
     sessionId := sessionId |}.

(** The quality that [reviewCard] works with,
    [Math.max(0, Math.min(5, result.quality))]. *)
Definition clamped (result : ReviewResult.t) : number :=
  Math_max 0 (Math_min 5 (ReviewResult.quality result)).

(** [reviewCard(card, result)]; [now] is the value of [new Date()]. *)
Definition reviewCard (now : Date) (card : FlashcardData.t) (result : ReviewResult.t)
  : FlashcardData.t :=
  let quality := clamped result in
  (* Update ease factor based on response quality *)
  let easeFactor0 :=
    easeFactor card + (0.1 - (5 - quality) * (0.08 + (5 - quality) * 0.02)) in
  let easeFactor1 := Math_max MIN_EASE_FACTOR easeFactor0 in
  (* Calculate new interval *)
  let '(repetitions1, interval1) :=
    if ltb quality 3 then
      (* Poor response - restart the sequence *)
      (0%nat, INITIAL_INTERVAL)
    else
      let repetitions1 := (repetitions card + 1)%nat in
      if Nat.eqb repetitions1 1 then (repetitions1, 1)
      else if Nat.eqb repetitions1 2 then (repetitions1, 6)
      else (repetitions1, inject_Z (Math_round (interval card * easeFactor1))) in
  (* Calculate next review date *)
  let nextReview1 :=
    Date_of_number (getTime now + interval1 * 24 * 60 * 60 * 1000) in
  {| id := id card;
     front := front card;
     back := back card;
     created := created card;
     lastReviewed := Some now;
     nextReview := nextReview1;
     interval := interval1;
     easeFactor := easeFactor1;
     repetitions := repetitions1;
     quality := Some quality;
     tags := tags card;
     source := source card;
     sessionId := sessionId card |}.

(** A run of reviews of one card: each review starts from the card the
    previous one returned. *)
Definition reviewAll (card : FlashcardData.t) (reviews : list (Date * ReviewResult.t))
  : FlashcardData.t :=
  fold_left (fun c r => reviewCard (fst r) c (snd r)) reviews card.

(** [card.nextReview <= now] *)
Definition is_due (now : Date) (card : FlashcardData.t) : bool :=
  (nextReview card <=? now)%Z.

Definition by_nextReview (a b : FlashcardData.t) : Z :=
  (nextReview a - nextReview b)%Z.

Definition getDueCards (now : Date) (cards : list FlashcardData.t)
  : list FlashcardData.t :=
  Array_sort by_nextReview (List.filter (is_due now) cards).

(** [card.repetitions === 0] *)
Definition is_new (card : FlashcardData.t) : bool :=
  Nat.eqb (repetitions card) 0.

Definition by_created (a b : FlashcardData.t) : Z :=
  (created a - created b)%Z.

(** [getNewCards(cards, limit = 20)]; [limit] is [None] when the
    argument is left out. *)
Definition getNewCards (cards : list FlashcardData.t) (limit : option Z)
  : list FlashcardData.t :=
  let limit := match limit with Some n => n | None => 20%Z end in
  Array_slice0 (Array_sort by_created (List.filter is_new cards)) limit.

Definition getCardStats (now : Date) (cards : list FlashcardData.t) : CardStats.t :=
  let due := length (List.filter (is_due now) cards) in
  let newCards := length (List.filter is_new cards) in
  let learning :=
    length (List.filter
              (fun card => (0 <? repetitions card)%nat && (repetitions card <? 3)%nat)
              cards) in
  let mature := length (List.filter (fun card => (3 <=? repetitions card)%nat) cards) in
  {| CardStats.total := length cards;
     CardStats.due := due;
     CardStats.new := newCards;
     CardStats.learning := learning;
     CardStats.mature := mature;
     CardStats.retention :=
       if (0 <? length cards)%nat
       then (of_nat (mature + learning) / of_nat (length cards)) * 100
       else 0 |}.

Definition generateStudyPlan (now : Date) (cards : list FlashcardData.t)
    (timeAvailable : number) : StudyPlan.t :=
  let dueCards := getDueCards now cards in
  let timePerDueCard := 45 in   (* seconds *)
  let timePerNewCard := 60 in   (* seconds *)
  let dueTime := of_nat (length dueCards) * timePerDueCard in
  let remainingTime := Math_max 0 (timeAvailable - dueTime) in
  let newCardsCount := Math_floor (remainingTime / timePerNewCard) in
  let newCards := getNewCards cards (Some newCardsCount) in
  {| StudyPlan.dueCards := dueCards;
     StudyPlan.newCards := newCards;
     StudyPlan.reviewTime := dueTime;
     StudyPlan.newTime := of_nat (length newCards) * timePerNewCard |}.

End SpacedRepetitionScheduler.

(** *** The update rule in the words of the specification, in exact
    arithmetic *)

Module SM2.
Import JS.

Definition easeFactor (q ef : number) : number :=
  Qmax 1.3 (ef + (0.1 - (5 - q) * (0.08 + (5 - q) * 0.02))).

Definition interval (q : number) (reps : nat) (iv ef' : number) : number :=
  if ltb q 3 then 1
  else match S reps with
       | 1%nat => 1
       | 2%nat => 6
       | _ => inject_Z (Math_round (iv * ef'))
       end.

End SM2.

(** ** [FlashcardStorage] *)

Module FlashcardStorage.

(** The revival of the dates of a parsed card,
    [{...card, created: new Date(card.created), ...}]: a date is kept
    as its time value, which the revival gives back.  [saveCards],
    [exportCards] and [importCards] are in [Doubles]. *)
Definition revive (card : FlashcardData.t) : FlashcardData.t := card.

Definition loadCards (ls : LocalStorage) : result (list FlashcardData.t) :=
  try_catch
    (let stored := flashcards_item ls in
     if is_falsy stored then Ok nil
     else
       let* cards := JSON_parse stored in
       Ok (map revive cards))
    (fun error => Ok nil).

End FlashcardStorage.

(** ** [GoalManager] *)

Module GoalManager.
Import JS.

(** The revival of the dates of a parsed goal and of its tasks; see
    [FlashcardStorage.revive]. *)
Definition revive (goal : StudyGoal.t) : StudyGoal.t := goal.

Definition getGoals (ls : LocalStorage) : result (list StudyGoal.t) :=
  try_catch
    (let stored := goals_item ls in
     if is_falsy stored then Ok nil
     else
       let* parsed := JSON_parse stored in
       Ok (map revive parsed))
    (fun error => Ok nil).

Definition saveGoals (ls : LocalStorage) (goals : list StudyGoal.t)
  : result LocalStorage :=
  try_catch
    (setItem_goals ls (JSON_stringify goals))
    (fun error => Ok ls).

Definition has_id (goalId : string) (g : StudyGoal.t) : bool :=
  String.eqb (StudyGoal.id g) goalId.

(** [g.isActive && !g.completedAt] *)
Definition is_active (g : StudyGoal.t) : bool :=
  StudyGoal.isActive g && negb (defined (StudyGoal.completedAt g)).

Definition getActiveGoals (ls : LocalStorage) : result (list StudyGoal.t) :=
  let* goals := getGoals ls in
  Ok (List.filter is_active goals).

(** *** Session linking *)

(** The update of the task named by the link. *)
Definition link_task (now : Date) (sessionLink : SessionGoalLink.t) (task : GoalTask.t)
  : GoalTask.t :=
  let actualMinutes1 :=
    GoalTask.actualMinutes task + SessionGoalLink.minutesWorked sessionLink in
  let '(status1, completedAt1) :=
    if SessionGoalLink.completedTask sessionLink then (completed, Some now)
    else if TaskStatus_eqb (GoalTask.status task) not_started
         then (in_progress, GoalTask.completedAt task)
         else (GoalTask.status task, GoalTask.completedAt task) in
  {| GoalTask.id := GoalTask.id task;
     GoalTask.goalId := GoalTask.goalId task;
     GoalTask.title := GoalTask.title task;
     GoalTask.description := GoalTask.description task;
     GoalTask.status := status1;
     GoalTask.estimatedMinutes := GoalTask.estimatedMinutes task;
     GoalTask.actualMinutes := actualMinutes1;
     GoalTask.dueDate := GoalTask.dueDate task;
     GoalTask.completedAt := completedAt1;
     GoalTask.tags := GoalTask.tags task;
     GoalTask.flashcardCount := GoalTask.flashcardCount task;
     GoalTask.notesLink := GoalTask.notesLink task |}.

(** The update of the goal named by the link. *)
Definition link_goal (now : Date) (sessionLink : SessionGoalLink.t) (goal : StudyGoal.t)
  : StudyGoal.t :=
  let tasks1 :=
    match SessionGoalLink.taskId sessionLink with
    | Some taskId =>
        if String.eqb taskId EmptyString then StudyGoal.tasks goal
        else update_first (fun t => String.eqb (GoalTask.id t) taskId)
               (link_task now sessionLink) (StudyGoal.tasks goal)
    | None => StudyGoal.tasks goal
    end in
  {| StudyGoal.id := StudyGoal.id goal;
     StudyGoal.title := StudyGoal.title goal;
     StudyGoal.type := StudyGoal.type goal;
     StudyGoal.subject := StudyGoal.subject goal;
     StudyGoal.description := StudyGoal.description goal;
     StudyGoal.deadline := StudyGoal.deadline goal;
     StudyGoal.priority := StudyGoal.priority goal;
     StudyGoal.targetHours := StudyGoal.targetHours goal;
     StudyGoal.hoursCompleted :=
       StudyGoal.hoursCompleted goal + SessionGoalLink.minutesWorked sessionLink / 60;
     StudyGoal.createdAt := StudyGoal.createdAt goal;
     StudyGoal.completedAt := StudyGoal.completedAt goal;
     StudyGoal.isActive := StudyGoal.isActive goal;
     StudyGoal.tasks := tasks1;
     StudyGoal.dailyCommitment := StudyGoal.dailyCommitment goal;
     StudyGoal.weeklyCommitment := StudyGoal.weeklyCommitment goal;
     StudyGoal.preferredStudyTimes := StudyGoal.preferredStudyTimes goal;
     StudyGoal.sessionsCompleted := (StudyGoal.sessionsCompleted goal + 1)%nat;
     StudyGoal.flashcardsCreated := StudyGoal.flashcardsCreated goal;
     StudyGoal.flashcardsMastered := StudyGoal.flashcardsMastered goal;
     StudyGoal.currentStreak := StudyGoal.currentStreak goal;
     StudyGoal.storyMilestones := StudyGoal.storyMilestones goal;
     StudyGoal.currentChapter := StudyGoal.currentChapter goal |}.

(** [linkSessionToGoal(sessionLink)]: the storage after the call.  The
    statements of the [try] block that can throw are the [JSON.parse]
    of the session log and the write of the new log; nothing has been
    written when they do, and the handler only logs, so the storage is
    then the one before the call. *)
Definition linkSessionToGoal (ls : LocalStorage) (now : Date)
    (sessionLink : SessionGoalLink.t) : result LocalStorage :=
  try_catch
    (let stored := sessions_item ls in
     let* sessions := if is_falsy stored then Ok nil else JSON_parse stored in
     let sessions1 := sessions ++ sessionLink :: nil in
     let* ls1 := setItem_sessions ls (JSON_stringify sessions1) in
     (* Update goal progress *)
     let* goals := getGoals ls1 in
     match find (has_id (SessionGoalLink.goalId sessionLink)) goals with
     | Some _ =>
         let goals1 :=
           update_first (has_id (SessionGoalLink.goalId sessionLink))
             (link_goal now sessionLink) goals in
         saveGoals ls1 goals1
     | None => Ok ls1
     end)
    (fun error => Ok ls).

(** *** Progress calculation *)

Definition MS_PER_DAY : number := 1000 * 60 * 60 * 24.

(** The record returned for an id that matches no goal. *)
Definition no_progress (goalId : string) : GoalProgress.t :=
  {| GoalProgress.goalId := goalId;
     GoalProgress.progressPercentage := 0;
     GoalProgress.tasksCompleted := 0;
     GoalProgress.totalTasks := 0;
     GoalProgress.hoursCompleted := 0;
     GoalProgress.targetHours := 0;
     GoalProgress.daysUntilDeadline := None;
     GoalProgress.onTrack := false;
     GoalProgress.recommendedDailyMinutes := 0;
     GoalProgress.projectedCompletionDate := None |}.

(** [goal.targetHours || 0] *)
Definition targetHours_or_0 (goal : StudyGoal.t) : number :=
  match StudyGoal.targetHours goal with
  | Some h => if truthy h then h else 0
  | None => 0
  end.

Definition count_completed (tasks : list GoalTask.t) : nat :=
  length (List.filter (fun t => TaskStatus_eqb (GoalTask.status t) completed) tasks).

(** The weighted progress percentage, before it is clamped. *)
Definition raw_progressPercentage (goal : StudyGoal.t) : number :=
  let totalTasks := length (StudyGoal.tasks goal) in
  let tasksCompleted := count_completed (StudyGoal.tasks goal) in
  let targetHours := targetHours_or_0 goal in
  let hoursCompleted := StudyGoal.hoursCompleted goal in
  if (0 <? totalTasks)%nat && gtb targetHours 0 then
    let taskProgress := (of_nat tasksCompleted / of_nat totalTasks) * 100 in
    let hourProgress := (hoursCompleted / targetHours) * 100 in
    taskProgress * 0.6 + hourProgress * 0.4
  else if (0 <? totalTasks)%nat then
    (of_nat tasksCompleted / of_nat totalTasks) * 100
  else if gtb targetHours 0 then
    (hoursCompleted / targetHours) * 100
  else 0.

(** The average number of minutes studied per day since the goal was
    created ([currentDailyAverage]). *)
Definition currentDailyAverage (now : Date) (goal : StudyGoal.t) : number :=
  if (0 <? StudyGoal.sessionsCompleted goal)%nat then
    (StudyGoal.hoursCompleted goal * 60)
    / Math_max 1 ((getTime now - getTime (StudyGoal.createdAt goal)) / MS_PER_DAY)
  else 0.

(** The part of [calculateProgress] that follows the lookup of the goal. *)
Definition progress_of (now : Date) (goalId : string) (goal : StudyGoal.t)
  : GoalProgress.t :=
  let totalTasks := length (StudyGoal.tasks goal) in
  let tasksCompleted := count_completed (StudyGoal.tasks goal) in
  let targetHours := targetHours_or_0 goal in
  let hoursCompleted := StudyGoal.hoursCompleted goal in
  (* Calculate progress percentage (weighted between tasks and hours) *)
  let progressPercentage := raw_progressPercentage goal in
  (* Calculate days until deadline *)
  let '(daysUntilDeadline, onTrack, recommendedDailyMinutes, projectedCompletionDate) :=
    match StudyGoal.deadline goal with
    | Some deadline =>
        let daysUntilDeadline :=
          Math_ceil ((getTime deadline - getTime now) / MS_PER_DAY) in
        if gtb targetHours 0 then
          let hoursRemaining := targetHours - hoursCompleted in
          if (0 <? daysUntilDeadline)%Z then
            (* Calculate if on track *)
            let requiredDailyHours := hoursRemaining / inject_Z daysUntilDeadline in
            let recommendedDailyMinutes :=
              inject_Z (Math_ceil (requiredDailyHours * 60)) in
            (* Consider on track if current pace meets deadline *)
            let currentDailyAverage := currentDailyAverage now goal in
            let onTrack := geb currentDailyAverage (recommendedDailyMinutes * 0.8) in
            (* Project completion date based on current pace *)
            let projectedCompletionDate :=
              if gtb currentDailyAverage 0 then
                let daysToComplete := (hoursRemaining * 60) / currentDailyAverage in
                Some (Date_of_number
                        (getTime now + daysToComplete * 24 * 60 * 60 * 1000))
              else None in
            (Some daysUntilDeadline, onTrack, recommendedDailyMinutes,
             projectedCompletionDate)
          else (Some daysUntilDeadline, true, 0, None)
        else (Some daysUntilDeadline, true, 0, None)
    | None =>
        match StudyGoal.dailyCommitment goal with
        | Some dailyCommitment =>
            if truthy dailyCommitment && gtb targetHours 0 then
              let hoursRemaining := targetHours - hoursCompleted in
              let daysToComplete := (hoursRemaining * 60) / dailyCommitment in
              (None, true, dailyCommitment,
               Some (Date_of_number
                       (getTime now + daysToComplete * 24 * 60 * 60 * 1000)))
            else (None, true, 0, None)
        | None => (None, true, 0, None)
        end
    end in
  {| GoalProgress.goalId := goalId;
     GoalProgress.progressPercentage := Math_min 100 (Math_max 0 progressPercentage);
     GoalProgress.tasksCompleted := tasksCompleted;
     GoalProgress.totalTasks := totalTasks;
     GoalProgress.hoursCompleted := hoursCompleted;
     GoalProgress.targetHours := targetHours;
     GoalProgress.daysUntilDeadline := daysUntilDeadline;
     GoalProgress.onTrack := onTrack;
     GoalProgress.recommendedDailyMinutes := recommendedDailyMinutes;
     GoalProgress.projectedCompletionDate := projectedCompletionDate |}.

Definition calculateProgress (ls : LocalStorage) (now : Date) (goalId : string)
  : result GoalProgress.t :=
  let* goals := getGoals ls in
  match find (has_id goalId) goals with
  | None => Ok (no_progress goalId)
  | Some goal => Ok (progress_of now goalId goal)
  end.

(** *** Recommendations *)

Definition Urgency_eqb (a b : Urgency) : bool :=
  match a, b with
  | urgency_low, urgency_low | urgency_medium, urgency_medium
  | urgency_high, urgency_high | urgency_critical, urgency_critical => true
  | _, _ => false
  end.

Definition priorityBoost (p : GoalPriority) : Z :=
  match p with
  | critical => 3
  | high => 2
  | medium => 0
  | low => -1
  end.

(** The body of the loop of [getDailyRecommendations]: the
    recommendation pushed for [goal], whose progress is [progress]. *)
Definition recommendation (goal : StudyGoal.t) (progress : GoalProgress.t)
  : DailyRecommendation.t :=
  (* Determine urgency *)
  let '(urgency, priority) :=
    match GoalProgress.daysUntilDeadline progress with
    | Some daysUntilDeadline =>
        if (daysUntilDeadline <=? 2)%Z then (urgency_critical, 10%Z)
        else if (daysUntilDeadline <=? 7)%Z then (urgency_high, 8%Z)
        else if (daysUntilDeadline <=? 14)%Z then (urgency_medium, 6%Z)
        else (urgency_low, 4%Z)
    | None => (urgency_medium, 5%Z)
    end in
  (* Adjust by priority *)
  let priority := (priority + priorityBoost (StudyGoal.priority goal))%Z in
  (* Determine action based on progress and status *)
  let '(recommendedAction, suggestedDuration, suggestedPreset, reasoning) :=
    if gtb (GoalProgress.progressPercentage progress) 70 then
      (review, 25%nat, preset_classic,
       reasoning_review (Math_round (GoalProgress.progressPercentage progress)))
    else if Urgency_eqb urgency urgency_critical then
      (deep_work, 50%nat, preset_deep_work,
       reasoning_deadline (GoalProgress.daysUntilDeadline progress))
    else if negb (GoalProgress.onTrack progress)
            && negb (Urgency_eqb urgency urgency_low) then
      (deep_work, 50%nat, preset_deep_work,
       reasoning_behind (GoalProgress.recommendedDailyMinutes progress))
    else if (0 <? StudyGoal.flashcardsCreated goal)%nat
            && (StudyGoal.flashcardsMastered goal * 2
                <? StudyGoal.flashcardsCreated goal)%nat then
      (flashcards, 15%nat, preset_quick_study, reasoning_flashcards)
    else
      (deep_work, 25%nat, preset_classic, reasoning_steady (StudyGoal.subject goal)) in
  {| DailyRecommendation.goalId := StudyGoal.id goal;
     DailyRecommendation.goalTitle := StudyGoal.title goal;
     DailyRecommendation.priority := priority;
     DailyRecommendation.recommendedAction := recommendedAction;
     DailyRecommendation.suggestedDuration := suggestedDuration;
     DailyRecommendation.suggestedPreset := suggestedPreset;
     DailyRecommendation.reasoning := reasoning;
     DailyRecommendation.urgency := urgency |}.

Definition by_priority (a b : DailyRecommendation.t) : Z :=
  (DailyRecommendation.priority b - DailyRecommendation.priority a)%Z.

Definition getDailyRecommendations (ls : LocalStorage) (now : Date)
  : result (list DailyRecommendation.t) :=
  let* activeGoals := getActiveGoals ls in
  let* recommendations :=
    for_each_push
      (fun goal =>
         let* progress := calculateProgress ls now (StudyGoal.id goal) in
         Ok (recommendation goal progress))
      activeGoals in
  (* Sort by priority *)
  Ok (Array_sort by_priority recommendations).

(** *** Goals: create, update, delete *)

(** [createGoal(goalData)]: the new goal and the storage after the
    call; [uuid] is the value of [crypto.randomUUID()]. *)
Definition new_goal (now : Date) (uuid : string) (goalData : GoalData.t) : StudyGoal.t :=
  {| StudyGoal.id := uuid;
     StudyGoal.title := GoalData.title goalData;
     StudyGoal.type := GoalData.type goalData;
     StudyGoal.subject := GoalData.subject goalData;
     StudyGoal.description := GoalData.description goalData;
     StudyGoal.deadline := GoalData.deadline goalData;
     StudyGoal.priority := GoalData.priority goalData;
     StudyGoal.targetHours := GoalData.targetHours goalData;
     StudyGoal.hoursCompleted := 0;
     StudyGoal.createdAt := now;
     StudyGoal.completedAt := GoalData.completedAt goalData;
     StudyGoal.isActive := true;
     StudyGoal.tasks :=
       match GoalData.tasks goalData with Some tasks => tasks | None => nil end;
     StudyGoal.dailyCommitment := GoalData.dailyCommitment goalData;
     StudyGoal.weeklyCommitment := GoalData.weeklyCommitment goalData;
     StudyGoal.preferredStudyTimes := GoalData.preferredStudyTimes goalData;
     StudyGoal.sessionsCompleted := 0;
     StudyGoal.flashcardsCreated := 0;
     StudyGoal.flashcardsMastered := 0;
     StudyGoal.currentStreak := 0;
     StudyGoal.storyMilestones := nil;
     StudyGoal.currentChapter := 1 |}.

Definition createGoal (ls : LocalStorage) (now : Date) (uuid : string)
    (goalData : GoalData.t) : result (StudyGoal.t * LocalStorage) :=
  let newGoal := new_goal now uuid goalData in
  let* goals := getGoals ls in
  let goals1 := goals ++ newGoal :: nil in
  let* ls1 := saveGoals ls goals1 in
  Ok (newGoal, ls1).

(** [{ ...goal, ...updates }] *)
Definition update_goal (updates : StudyGoalUpdates.t) (goal : StudyGoal.t) : StudyGoal.t :=
  {| StudyGoal.id := spread (StudyGoalUpdates.id updates) (StudyGoal.id goal);
     StudyGoal.title := spread (StudyGoalUpdates.title updates) (StudyGoal.title goal);
     StudyGoal.type := spread (StudyGoalUpdates.type updates) (StudyGoal.type goal);
     StudyGoal.subject :=
       spread (StudyGoalUpdates.subject updates) (StudyGoal.subject goal);
     StudyGoal.description :=
       spread (StudyGoalUpdates.description updates) (StudyGoal.description goal);
     StudyGoal.deadline :=
       spread (StudyGoalUpdates.deadline updates) (StudyGoal.deadline goal);
     StudyGoal.priority :=
       spread (StudyGoalUpdates.priority updates) (StudyGoal.priority goal);
     StudyGoal.targetHours :=
       spread (StudyGoalUpdates.targetHours updates) (StudyGoal.targetHours goal);
     StudyGoal.hoursCompleted :=
       spread (StudyGoalUpdates.hoursCompleted updates) (StudyGoal.hoursCompleted goal);
     StudyGoal.createdAt :=
       spread (StudyGoalUpdates.createdAt updates) (StudyGoal.createdAt goal);
     StudyGoal.completedAt :=
       spread (StudyGoalUpdates.completedAt updates) (StudyGoal.completedAt goal);
     StudyGoal.isActive :=
       spread (StudyGoalUpdates.isActive updates) (StudyGoal.isActive goal);
     StudyGoal.tasks := spread (StudyGoalUpdates.tasks updates) (StudyGoal.tasks goal);
     StudyGoal.dailyCommitment :=
       spread (StudyGoalUpdates.dailyCommitment updates) (StudyGoal.dailyCommitment goal);
     StudyGoal.weeklyCommitment :=
       spread (StudyGoalUpdates.weeklyCommitment updates)
         (StudyGoal.weeklyCommitment goal);
     StudyGoal.preferredStudyTimes :=
       spread (StudyGoalUpdates.preferredStudyTimes updates)
         (StudyGoal.preferredStudyTimes goal);
     StudyGoal.sessionsCompleted :=
       spread (StudyGoalUpdates.sessionsCompleted updates)
         (StudyGoal.sessionsCompleted goal);
     StudyGoal.flashcardsCreated :=
       spread (StudyGoalUpdates.flashcardsCreated updates)
         (StudyGoal.flashcardsCreated goal);
     StudyGoal.flashcardsMastered :=
       spread (StudyGoalUpdates.flashcardsMastered updates)
         (StudyGoal.flashcardsMastered goal);
     StudyGoal.currentStreak :=
       spread (StudyGoalUpdates.currentStreak updates) (StudyGoal.currentStreak goal);
     StudyGoal.storyMilestones :=
       spread (StudyGoalUpdates.storyMilestones updates)
         (StudyGoal.storyMilestones goal);
     StudyGoal.currentChapter :=
       spread (StudyGoalUpdates.currentChapter updates)
         (StudyGoal.currentChapter goal) |}.

(** [updateGoal(goalId, updates)]: [findIndex] gives the first goal with
    the id; without one nothing is written. *)
Definition updateGoal (ls : LocalStorage) (goalId : string)
    (updates : StudyGoalUpdates.t) : result LocalStorage :=
  let* goals := getGoals ls in
  match find (has_id goalId) goals with
  | Some _ => saveGoals ls (update_first (has_id goalId) (update_goal updates) goals)
  | None => Ok ls
  end.

Definition deleteGoal (ls : LocalStorage) (goalId : string) : result LocalStorage :=
  let* goals := getGoals ls in
  saveGoals ls (List.filter (fun g => negb (has_id goalId g)) goals).

(** *** The primary goal *)

Definition priorityOrder (p : GoalPriority) : Z :=
  match p with
  | critical => 0
  | high => 1
  | medium => 2
  | low => 3
  end.

(** The comparator of [getPrimaryGoal]. *)
Definition by_priority_then_deadline (a b : StudyGoal.t) : Z :=
  (* First sort by priority *)
  let priorityDiff :=
    (priorityOrder (StudyGoal.priority a) - priorityOrder (StudyGoal.priority b))%Z in
  if negb (priorityDiff =? 0)%Z then priorityDiff
  else
    (* Then by deadline *)
    match StudyGoal.deadline a, StudyGoal.deadline b with
    | Some da, Some db => (da - db)%Z
    | Some _, None => (-1)%Z
    | None, Some _ => 1%Z
    | None, None => 0%Z
    end.

Definition getPrimaryGoal (ls : LocalStorage) : result (option StudyGoal.t) :=
  let* activeGoals := getActiveGoals ls in
  if Nat.eqb (length activeGoals) 0 then Ok None
  else
    (* Return highest priority goal with nearest deadline *)
    Ok (List.head (Array_sort by_priority_then_deadline activeGoals)).

(** *** Tasks *)

Definition has_task_id (taskId : string) (t : GoalTask.t) : bool :=
  String.eqb (GoalTask.id t) taskId.

Definition has_status (status : TaskStatus) (t : GoalTask.t) : bool :=
  TaskStatus_eqb (GoalTask.status t) status.

Definition new_task (uuid goalId : string) (taskData : TaskData.t) : GoalTask.t :=
  {| GoalTask.id := uuid;
     GoalTask.goalId := goalId;
     GoalTask.title := TaskData.title taskData;
     GoalTask.description := TaskData.description taskData;
     GoalTask.status := not_started;
     GoalTask.estimatedMinutes := TaskData.estimatedMinutes taskData;
     GoalTask.actualMinutes := 0;
     GoalTask.dueDate := TaskData.dueDate taskData;
     GoalTask.completedAt := TaskData.completedAt taskData;
     GoalTask.tags := TaskData.tags taskData;
     GoalTask.flashcardCount := TaskData.flashcardCount taskData;
     GoalTask.notesLink := TaskData.notesLink taskData |}.

(** A goal with other tasks, as a mutation of [goal.tasks] leaves it. *)
Definition with_tasks (f : list GoalTask.t -> list GoalTask.t) (goal : StudyGoal.t)
  : StudyGoal.t :=
  {| StudyGoal.id := StudyGoal.id goal;
     StudyGoal.title := StudyGoal.title goal;
     StudyGoal.type := StudyGoal.type goal;
     StudyGoal.subject := StudyGoal.subject goal;
     StudyGoal.description := StudyGoal.description goal;
     StudyGoal.deadline := StudyGoal.deadline goal;
     StudyGoal.priority := StudyGoal.priority goal;
     StudyGoal.targetHours := StudyGoal.targetHours goal;
     StudyGoal.hoursCompleted := StudyGoal.hoursCompleted goal;
     StudyGoal.createdAt := StudyGoal.createdAt goal;
     StudyGoal.completedAt := StudyGoal.completedAt goal;
     StudyGoal.isActive := StudyGoal.isActive goal;
     StudyGoal.tasks := f (StudyGoal.tasks goal);
     StudyGoal.dailyCommitment := StudyGoal.dailyCommitment goal;
     StudyGoal.weeklyCommitment := StudyGoal.weeklyCommitment goal;
     StudyGoal.preferredStudyTimes := StudyGoal.preferredStudyTimes goal;
     StudyGoal.sessionsCompleted := StudyGoal.sessionsCompleted goal;
     StudyGoal.flashcardsCreated := StudyGoal.flashcardsCreated goal;
     StudyGoal.flashcardsMastered := StudyGoal.flashcardsMastered goal;
     StudyGoal.currentStreak := StudyGoal.currentStreak goal;
     StudyGoal.storyMilestones := StudyGoal.storyMilestones goal;
     StudyGoal.currentChapter := StudyGoal.currentChapter goal |}.

(** [addTask(goalId, taskData)]: the new task is returned whether or not
    a goal was found to hold it. *)
Definition addTask (ls : LocalStorage) (uuid : string) (goalId : string)
    (taskData : TaskData.t) : result (GoalTask.t * LocalStorage) :=
  let newTask := new_task uuid goalId taskData in
  let* goals := getGoals ls in
  match find (has_id goalId) goals with
  | Some _ =>
      let goals1 :=
        update_first (has_id goalId) (with_tasks (fun tasks => tasks ++ newTask :: nil))
          goals in
      let* ls1 := saveGoals ls goals1 in
      Ok (newTask, ls1)
  | None => Ok (newTask, ls)
  end.

(** [{ ...task, ...updates }], then the completion time. *)
Definition update_task (now : Date) (updates : GoalTaskUpdates.t) (task : GoalTask.t)
  : GoalTask.t :=
  let completedAt1 :=
    spread (GoalTaskUpdates.completedAt updates) (GoalTask.completedAt task) in
  {| GoalTask.id := spread (GoalTaskUpdates.id updates) (GoalTask.id task);
     GoalTask.goalId := spread (GoalTaskUpdates.goalId updates) (GoalTask.goalId task);
     GoalTask.title := spread (GoalTaskUpdates.title updates) (GoalTask.title task);
     GoalTask.description :=
       spread (GoalTaskUpdates.description updates) (GoalTask.description task);
     GoalTask.status := spread (GoalTaskUpdates.status updates) (GoalTask.status task);
     GoalTask.estimatedMinutes :=
       spread (GoalTaskUpdates.estimatedMinutes updates)
         (GoalTask.estimatedMinutes task);
     GoalTask.actualMinutes :=
       spread (GoalTaskUpdates.actualMinutes updates) (GoalTask.actualMinutes task);
     GoalTask.dueDate := spread (GoalTaskUpdates.dueDate updates) (GoalTask.dueDate task);
     GoalTask.completedAt :=
       (* If task completed, mark completion time *)
       match GoalTaskUpdates.status updates with
       | Some completed => if defined completedAt1 then completedAt1 else Some now
       | _ => completedAt1
       end;
     GoalTask.tags := spread (GoalTaskUpdates.tags updates) (GoalTask.tags task);
     GoalTask.flashcardCount :=
       spread (GoalTaskUpdates.flashcardCount updates) (GoalTask.flashcardCount task);
     GoalTask.notesLink :=
       spread (GoalTaskUpdates.notesLink updates) (GoalTask.notesLink task) |}.

Definition updateTask (ls : LocalStorage) (now : Date) (goalId taskId : string)
    (updates : GoalTaskUpdates.t) : result LocalStorage :=
  let* goals := getGoals ls in
  match find (has_id goalId) goals with
  | Some goal =>
      match find (has_task_id taskId) (StudyGoal.tasks goal) with
      | Some _ =>
          saveGoals ls
            (update_first (has_id goalId)
               (with_tasks (update_first (has_task_id taskId) (update_task now updates)))
               goals)
      | None => Ok ls
      end
  | None => Ok ls
  end.

Definition deleteTask (ls : LocalStorage) (goalId taskId : string)
  : result LocalStorage :=
  let* goals := getGoals ls in
  match find (has_id goalId) goals with
  | Some _ =>
      saveGoals ls
        (update_first (has_id goalId)
           (with_tasks (List.filter (fun t => negb (has_task_id taskId t))))
           goals)
  | None => Ok ls
  end.

(** *** The sessions of a goal *)

(** The revival of [timestamp]; see [FlashcardStorage.revive]. *)
Definition revive_session (s : SessionGoalLink.t) : SessionGoalLink.t := s.

Definition getGoalSessions (ls : LocalStorage) (goalId : string)
  : result (list SessionGoalLink.t) :=
  try_catch
    (let stored := sessions_item ls in
     if is_falsy stored then Ok nil
     else
       let* sessions := JSON_parse stored in
       Ok (map revive_session
             (List.filter (fun s => String.eqb (SessionGoalLink.goalId s) goalId)
                sessions)))
    (fun error => Ok nil).

(** *** Today's tasks and the next task *)

(** [date.setHours(0, 0, 0, 0)]: the start of the local day of [date],
    for a local time that is [utcOffset] milliseconds ahead of UTC. *)
Definition startOfDay (utcOffset : Z) (date : Date) : Date :=
  ((date + utcOffset) / 86400000 * 86400000 - utcOffset)%Z.

(** The test of the inner loop of [getTodaysTasks]. *)
Definition due_today (utcOffset : Z) (today : Date) (task : GoalTask.t) : bool :=
  negb (has_status completed task)
  && match GoalTask.dueDate task with
     | Some dueDate => (startOfDay utcOffset dueDate <=? today)%Z
     | None => false
     end.

Definition getTodaysTasks (ls : LocalStorage) (now : Date) (utcOffset : Z)
  : result (list GoalTask.t) :=
  let* goals := getActiveGoals ls in
  let today := startOfDay utcOffset now in
  Ok (List.flat_map
        (fun goal => List.filter (due_today utcOffset today) (StudyGoal.tasks goal))
        goals).

(** The comparator of [getNextTask]: by due date, tasks without one last. *)
Definition by_dueDate (a b : GoalTask.t) : Z :=
  match GoalTask.dueDate a, GoalTask.dueDate b with
  | Some da, Some db => (da - db)%Z
  | Some _, None => (-1)%Z
  | None, Some _ => 1%Z
  | None, None => 0%Z
  end.

(** The body of the loop of [getNextTask]: the task to work on in [goal]. *)
Definition next_task_of (goal : StudyGoal.t) : option GoalTask.t :=
  (* First, get tasks that are already in progress *)
  match find (has_status in_progress) (StudyGoal.tasks goal) with
  | Some inProgressTask => Some inProgressTask
  | None =>
      (* Then get tasks with nearest due date *)
      List.head
        (Array_sort by_dueDate
           (List.filter (has_status not_started) (StudyGoal.tasks goal)))
  end.

Fixpoint first_next_task (goals : list StudyGoal.t) : option (StudyGoal.t * GoalTask.t) :=
  match goals with
  | nil => None
  | goal :: rest =>
      match next_task_of goal with
      | Some task => Some (goal, task)
      | None => first_next_task rest
      end
  end.

(** [getNextTask(goalId)]; [goalId] is [None] when it is left out, and
    the empty string counts as left out. *)
Definition getNextTask (ls : LocalStorage) (goalId : option string)
  : result (option (StudyGoal.t * GoalTask.t)) :=
  let* goals :=
    match goalId with
    | Some goalId =>
        if String.eqb goalId EmptyString then getActiveGoals ls
        else
          let* goals := getGoals ls in
          Ok (List.filter (fun g => has_id goalId g && StudyGoal.isActive g) goals)
    | None => getActiveGoals ls
    end in
  Ok (first_next_task goals).

End GoalManager.

(** *** The priority rule in the words of the specification *)

Module PrioritySpec.

Definition urgencyTier (daysUntilDeadline : option Z) : Z :=
  match daysUntilDeadline with
  | None => 5
  | Some d =>
      if (d <=? 2)%Z then 10
      else if (d <=? 7)%Z then 8
      else if (d <=? 14)%Z then 6
      else 4
  end.

Definition boost (p : GoalPriority) : Z :=
  match p with
  | critical => 3
  | high => 2
  | medium => 0
  | low => -1
  end.

End PrioritySpec.

(** ** [StoryGoalEngine] *)

(** [s.split('-')[0]]: the part of [s] before its first dash. *)
Fixpoint before_dash (s : string) : string :=
  match s with
  | EmptyString => EmptyString
  | String c s' => if Ascii.eqb c "-"%char then EmptyString else String c (before_dash s')
  end.

Module StoryGoalEngine.
Import JS.

Definition saveMilestones (ls : LocalStorage) (goalId : string)
    (milestones : list StoryMilestone.t) : result LocalStorage :=
  try_catch
    (setItem_milestones ls goalId (JSON_stringify milestones))
    (fun error => Ok ls).

Definition default_milestone (goalId name : string) (goal : StudyGoal.t)
    (triggerType : TriggerType) (triggerValue : number) (title : string) (mood : Mood)
  : StoryMilestone.t :=
  {| StoryMilestone.id := goalId ++ "-" ++ name;
     StoryMilestone.goalId := goalId;
     StoryMilestone.triggerType := triggerType;
     StoryMilestone.triggerValue := triggerValue;
     StoryMilestone.storyContent :=
       {| StoryContent.title := title;
          StoryContent.text := text_milestone name (StudyGoal.title goal);
          StoryContent.characterMood := mood;
          StoryContent.backgroundUrl := None;
          StoryContent.unlocked := false;
          StoryContent.unlockedAt := None |} |}.

Definition default_milestones (goalId : string) (goal : StudyGoal.t)
  : list StoryMilestone.t :=
  default_milestone goalId "first-session" goal trigger_progress 5
    "🎯 First Steps" determined
  :: default_milestone goalId "quarter" goal trigger_progress 25
       "⚔️ First Blood" successful
  :: default_milestone goalId "halfway" goal trigger_progress 50
       "🔥 The Turning Point" successful
  :: default_milestone goalId "three-quarters" goal trigger_progress 75
       "🌟 Victory Approaches" successful
  :: default_milestone goalId "completion" goal trigger_completion 100
       "🏆 ULTIMATE VICTORY" successful
  :: default_milestone goalId "streak-3" goal trigger_streak 3
       "🔥 Building Momentum" focused
  :: default_milestone goalId "streak-7" goal trigger_streak 7
       "⚡ Week Warrior" successful
  :: nil.

Definition generateDefaultMilestones (ls : LocalStorage) (goalId : string)
  : result (list StoryMilestone.t * LocalStorage) :=
  let* goals := GoalManager.getGoals ls in
  match find (GoalManager.has_id goalId) goals with
  | None => Ok (nil, ls)
  | Some goal =>
      let milestones := default_milestones goalId goal in
      let* ls1 := saveMilestones ls goalId milestones in
      Ok (milestones, ls1)
  end.

(** The revival of [unlockedAt]; see [FlashcardStorage.revive]. *)
Definition revive (m : StoryMilestone.t) : StoryMilestone.t := m.

Definition getMilestones (ls : LocalStorage) (goalId : string)
  : result (list StoryMilestone.t * LocalStorage) :=
  try_catch
    (let stored := milestones_items ls !! goalId in
     if is_falsy stored then
       (* Generate default milestones for this goal *)
       generateDefaultMilestones ls goalId
     else
       let* parsed := JSON_parse stored in
       Ok (map revive parsed, ls))
    (fun error => generateDefaultMilestones ls goalId).

Definition shouldUnlock (goal : StudyGoal.t) (progress : GoalProgress.t)
    (milestone : StoryMilestone.t) : bool :=
  match StoryMilestone.triggerType milestone with
  | trigger_progress =>
      geb (GoalProgress.progressPercentage progress)
          (StoryMilestone.triggerValue milestone)
  | trigger_streak =>
      geb (of_nat (StudyGoal.currentStreak goal))
          (StoryMilestone.triggerValue milestone)
  | trigger_completion => geb (GoalProgress.progressPercentage progress) 100
  | trigger_task_count =>
      geb (of_nat (GoalProgress.tasksCompleted progress))
          (StoryMilestone.triggerValue milestone)
  | trigger_deadline_proximity =>
      match GoalProgress.daysUntilDeadline progress with
      | Some daysUntilDeadline =>
          leb (inject_Z daysUntilDeadline) (StoryMilestone.triggerValue milestone)
          && GoalProgress.onTrack progress
      | None => false
      end
  end.

(** The loop of [checkForMilestone]: the first milestone that is still
    locked and whose trigger holds. *)
Fixpoint first_unlockable (goal : StudyGoal.t) (progress : GoalProgress.t)
    (milestones : list StoryMilestone.t) : option StoryMilestone.t :=
  match milestones with
  | nil => None
  | milestone :: rest =>
      if StoryContent.unlocked (StoryMilestone.storyContent milestone)
      then first_unlockable goal progress rest
      else if shouldUnlock goal progress milestone then Some milestone
      else first_unlockable goal progress rest
  end.

Definition checkForMilestone (ls : LocalStorage) (goal : StudyGoal.t)
    (progress : GoalProgress.t) (focusLevel : number)
  : result (option StoryMilestone.t * LocalStorage) :=
  let* '(milestones, ls1) := getMilestones ls (StudyGoal.id goal) in
  Ok (first_unlockable goal progress milestones, ls1).

Definition unlock (now : Date) (m : StoryMilestone.t) : StoryMilestone.t :=
  let c := StoryMilestone.storyContent m in
  {| StoryMilestone.id := StoryMilestone.id m;
     StoryMilestone.goalId := StoryMilestone.goalId m;
     StoryMilestone.triggerType := StoryMilestone.triggerType m;
     StoryMilestone.triggerValue := StoryMilestone.triggerValue m;
     StoryMilestone.storyContent :=
       {| StoryContent.title := StoryContent.title c;
          StoryContent.text := StoryContent.text c;
          StoryContent.characterMood := StoryContent.characterMood c;
          StoryContent.backgroundUrl := StoryContent.backgroundUrl c;
          StoryContent.unlocked := true;
          StoryContent.unlockedAt := Some now |} |}.

Definition unlockMilestone (ls : LocalStorage) (now : Date) (milestoneId : string)
  : result LocalStorage :=
  let goalId := before_dash milestoneId in
  let* '(milestones, ls1) := getMilestones ls goalId in
  let is_it := fun m => String.eqb (StoryMilestone.id m) milestoneId in
  match find is_it milestones with
  | Some _ => saveMilestones ls1 goalId (update_first is_it (unlock now) milestones)
  | None => Ok ls1
  end.

(** *** The stories *)

Definition chapters : list (string * (nat * nat)) :=
  ("Chapter 1: The Dragon Awakens", (0, 2)%nat)
  :: ("Chapter 2: The Battle Intensifies", (2, 4)%nat)
  :: ("Chapter 3: The Final Confrontation", (4, 999)%nat)
  :: nil.

Definition getFocusBasedStory (focusLevel : number) (isBreak : bool) (sessionCount : nat)
  : AdaptiveStoryContent.t :=
  let isFocused := geb focusLevel 4 in
  let chapter :=
    match find (fun c => (fst (snd c) <=? sessionCount)%nat
                         && (sessionCount <? snd (snd c))%nat) chapters with
    | Some c => fst c
    | None => "Chapter 1: The Dragon Awakens"
    end in
  let mood :=
    if isBreak then (if isFocused then successful else struggling)
    else (if isFocused then focused else struggling) in
  {| AdaptiveStoryContent.text := text_focus isFocused isBreak;
     AdaptiveStoryContent.characterMood := mood;
     AdaptiveStoryContent.chapter := chapter;
     AdaptiveStoryContent.milestone := None |}.

Definition getAdaptiveStory (goal : StudyGoal.t) (progress : GoalProgress.t)
    (focusLevel : number) (isBreak : bool) : AdaptiveStoryContent.t :=
  let isFocused := geb focusLevel 4 in
  let isOnTrack := GoalProgress.onTrack progress in
  let progressPercent := GoalProgress.progressPercentage progress in
  let text := fun n =>
    text_adaptive n isFocused isOnTrack isBreak (StudyGoal.title goal) progress in
  (* Chapter progression based on actual goal progress *)
  let '(chapter, text, mood) :=
    if ltb progressPercent 25 then
      ("Chapter 1: The Quest Begins", text 1%nat,
       if isFocused && isOnTrack then focused
       else if negb isFocused && isOnTrack then determined
       else if isFocused && negb isOnTrack then determined
       else struggling)
    else if ltb progressPercent 50 then
      ("Chapter 2: The Dragon Weakens", text 2%nat,
       if isFocused && isOnTrack then successful
       else if negb isFocused && isOnTrack then determined
       else if isFocused && negb isOnTrack then focused
       else struggling)
    else if ltb progressPercent 75 then
      ("Chapter 3: Victory in Sight", text 3%nat,
       if isFocused && isOnTrack then successful
       else if negb isFocused && isOnTrack then determined
       else if isFocused && negb isOnTrack then focused
       else struggling)
    else
      ("Chapter 4: The Final Strike", text 4%nat,
       if isFocused && isOnTrack then successful
       else if negb isFocused && isOnTrack then determined
       else if isFocused && negb isOnTrack then focused
       else struggling) in
  {| AdaptiveStoryContent.text := text;
     AdaptiveStoryContent.characterMood := mood;
     AdaptiveStoryContent.chapter := chapter;
     AdaptiveStoryContent.milestone := None |}.

(** [getStoryForSession(goalId, focusLevel, isBreak, sessionCount)]: the
    story and the storage after the call.  [goalId] is [None] for
    [undefined]; [!goalId] also holds for the empty string. *)
Definition getStoryForSession (ls : LocalStorage) (now : Date) (goalId : option string)
    (focusLevel : number) (isBreak : bool) (sessionCount : nat)
  : result (AdaptiveStoryContent.t * LocalStorage) :=
  match goalId with
  | None => Ok (getFocusBasedStory focusLevel isBreak sessionCount, ls)
  | Some goalId =>
      (* If no goal selected, fall back to focus-based story *)
      if String.eqb goalId EmptyString then
        Ok (getFocusBasedStory focusLevel isBreak sessionCount, ls)
      else
        let* progress := GoalManager.calculateProgress ls now goalId in
        let* goals := GoalManager.getGoals ls in
        match find (GoalManager.has_id goalId) goals with
        | None => Ok (getFocusBasedStory focusLevel isBreak sessionCount, ls)
        | Some goal =>
            (* Check for unlockable milestones *)
            let* '(milestone, ls1) := checkForMilestone ls goal progress focusLevel in
            match milestone with
            | Some m =>
                if negb (StoryContent.unlocked (StoryMilestone.storyContent m)) then
                  let* ls2 := unlockMilestone ls1 now (StoryMilestone.id m) in
                  Ok ({| AdaptiveStoryContent.text :=
                           StoryContent.text (StoryMilestone.storyContent m);
                         AdaptiveStoryContent.characterMood :=
                           StoryContent.characterMood (StoryMilestone.storyContent m);
                         AdaptiveStoryContent.chapter :=
                           StoryContent.title (StoryMilestone.storyContent m);
                         AdaptiveStoryContent.milestone := Some m |}, ls2)
                else
                  Ok (getAdaptiveStory goal progress focusLevel isBreak, ls1)
            | None =>
                (* Generate adaptive story based on goal progress + focus *)
                Ok (getAdaptiveStory goal progress focusLevel isBreak, ls1)
            end
        end
  end.

(** [getUnlockedMilestones(goalId)]; reading the milestones can store
    the default ones. *)
Definition getUnlockedMilestones (ls : LocalStorage) (goalId : string)
  : result (list StoryMilestone.t * LocalStorage) :=
  let* '(milestones, ls1) := getMilestones ls goalId in
  Ok (List.filter (fun m => StoryContent.unlocked (StoryMilestone.storyContent m))
        milestones,
      ls1).

End StoryGoalEngine.

(** *** The chapter rule in the words of the specification *)

Module ChapterSpec.

Definition chapter_of (progress : JS.number) : string :=
  if Qlt_le_dec progress 25 then "Chapter 1: The Quest Begins"
  else if Qlt_le_dec progress 50 then "Chapter 2: The Dragon Weakens"
  else if Qlt_le_dec progress 75 then "Chapter 3: Victory in Sight"
  else "Chapter 4: The Final Strike".

End ChapterSpec.

(** ** Binary64 numbers *)

(** The numbers of JavaScript with their rounding: a number is [NaN], an
    infinity, a zero with its sign, or a non-zero value of the binary64
    grid, kept as the rational it stands for, in lowest terms.  Every
    arithmetic operation returns its exact result rounded to the
    nearest value of the grid, a tie going to the even mantissa, and an
    infinity when that value is beyond the largest number (IEEE 754,
    which ECMAScript follows). *)
Module Binary64.

Inductive number : Type :=
| NaN
| Infinity (negative : bool)
| Zero (negative : bool)
| Finite (value : Q).

(** [2 ^ k] *)
Definition pow2 (k : Z) : Q :=
  match k with
  | Z0 => 1
  | Zpos p => inject_Z (Zpos (2 ^ p))
  | Zneg p => 1 # (2 ^ p)
  end.

(** The exponent of a positive rational: the [e] with
    [2 ^ e <= a < 2 ^ (e + 1)]. *)
Definition ilog2 (a : Q) : Z :=
  let e := (Z.log2 (Qnum a) - Z.log2 (Zpos (Qden a)))%Z in
  if Qle_bool (pow2 e) a then e else (e - 1)%Z.

(** The nearest integer, a tie going to the even one. *)
Definition round_half_even (y : Q) : Z :=
  let f := Qfloor y in
  match Qcompare (y - inject_Z f) (1 # 2) with
  | Lt => f
  | Gt => (f + 1)%Z
  | Eq => if Z.even f then f else (f + 1)%Z
  end.

(** The exponent of the grid around [a]: mantissas have 53 bits, and the
    grid is not finer than [2 ^ -1074]. *)
Definition grid (a : Q) : Z := Z.max (ilog2 a - 52) (-1074).

(** The value of the grid nearest to [a >= 0]. *)
Definition nearest (a : Q) : Q :=
  inject_Z (round_half_even (a / pow2 (grid a))) * pow2 (grid a).

(** The number with the given sign and magnitude. *)
Definition pack (negative : bool) (a : Q) : number :=
  if Qeq_bool a 0 then Zero negative
  else if Qle_bool (pow2 1024) a then Infinity negative
  else Finite (Qred (if negative then - a else a)).

(** The number nearest to a rational; the sign of a zero result is
    plus unless the operation says otherwise. *)
Definition round (q : Q) : number :=
  pack (negb (Qle_bool 0 q)) (nearest (Qabs q)).

(** A decimal literal of the source, [1.3], and an integer as a number. *)
Definition lit (q : Q) : number := round q.
Definition of_Z (z : Z) : number := round (inject_Z z).
Definition of_nat (n : nat) : number := of_Z (Z.of_nat n).

(** A number as a binary64 variable holds it: a finite value that is
    not zero lies on the grid and is kept in lowest terms, so rounding
    it gives it back. *)
Definition is_binary64 (x : number) : Prop :=
  match x with
  | Finite v => round v = x
  | _ => True
  end.

(** The value of a zero or a finite number. *)
Definition to_Q (x : number) : Q :=
  match x with
  | Finite v => v
  | _ => 0
  end.

Definition is_finite (x : number) : bool :=
  match x with
  | Zero _ | Finite _ => true
  | NaN | Infinity _ => false
  end.

Definition is_NaN (x : number) : bool :=
  match x with
  | NaN => true
  | _ => false
  end.

Definition sign (x : number) : bool :=
  match x with
  | NaN => false
  | Infinity s | Zero s => s
  | Finite v => negb (Qle_bool 0 v)
  end.

Definition opp (x : number) : number :=
  match x with
  | NaN => NaN
  | Infinity s => Infinity (negb s)
  | Zero s => Zero (negb s)
  | Finite v => Finite (Qred (- v))
  end.

Definition add (x y : number) : number :=
  match x, y with
  | NaN, _ | _, NaN => NaN
  | Infinity a, Infinity b => if Bool.eqb a b then x else NaN
  | Infinity _, _ => x
  | _, Infinity _ => y
  | Zero a, Zero b => Zero (a && b)
  | _, _ => round (to_Q x + to_Q y)
  end.

Definition sub (x y : number) : number := add x (opp y).

Definition mul (x y : number) : number :=
  let s := xorb (sign x) (sign y) in
  match x, y with
  | NaN, _ | _, NaN => NaN
  | Infinity _, Zero _ | Zero _, Infinity _ => NaN
  | Infinity _, _ | _, Infinity _ => Infinity s
  | _, _ => pack s (nearest (Qabs (to_Q x * to_Q y)))
  end.

Definition div (x y : number) : number :=
  let s := xorb (sign x) (sign y) in
  match x, y with
  | NaN, _ | _, NaN => NaN
  | Infinity _, Infinity _ | Zero _, Zero _ => NaN
  | Infinity _, _ | _, Zero _ => Infinity s
  | _, Infinity _ => Zero s
  | _, _ => pack s (nearest (Qabs (to_Q x / to_Q y)))
  end.

(** The order of two numbers; there is none when one of them is [NaN],
    and the two zeros are equal. *)
Definition compare (x y : number) : option comparison :=
  match x, y with
  | NaN, _ | _, NaN => None
  | Infinity a, Infinity b =>
      Some (if a then (if b then Eq else Lt) else (if b then Gt else Eq))
  | Infinity a, _ => Some (if a then Lt else Gt)
  | _, Infinity b => Some (if b then Gt else Lt)
  | _, _ => Some (Qcompare (to_Q x) (to_Q y))
  end.

(** [x < y], [x <= y], [x > y], [x >= y] and [x === y] *)
Definition ltb (x y : number) : bool :=
  match compare x y with Some Lt => true | _ => false end.
Definition leb (x y : number) : bool :=
  match compare x y with Some Lt | Some Eq => true | _ => false end.
Definition gtb (x y : number) : bool := ltb y x.
Definition geb (x y : number) : bool := leb y x.
Definition eqb (x y : number) : bool :=
  match compare x y with Some Eq => true | _ => false end.

(** Truthiness of a number: every number but the zeros and [NaN]. *)
Definition truthy (x : number) : bool :=
  match x with
  | NaN | Zero _ => false
  | _ => true
  end.

(** [Math.max] and [Math.min]: [NaN] when an argument is [NaN]; [+0]
    counts as larger than [-0]. *)
Definition Math_max (x y : number) : number :=
  match compare x y with
  | None => NaN
  | Some Lt => y
  | Some Gt => x
  | Some Eq => match x, y with Zero true, Zero false => y | _, _ => x end
  end.

Definition Math_min (x y : number) : number :=
  match compare x y with
  | None => NaN
  | Some Lt => x
  | Some Gt => y
  | Some Eq => match x, y with Zero false, Zero true => y | _, _ => x end
  end.

(** An integer result of [Math.round], [Math.ceil] or [Math.floor] on
    the finite number [x]; a zero result has the sign of [x] unless
    [positive_zero] is set. *)
Definition integral (positive_zero : bool) (x : number) (n : Z) : number :=
  if (n =? 0)%Z then Zero (if positive_zero then false else sign x)
  else Finite (inject_Z n).

(** [Math.round]: the nearest integer, a tie going up; [Math.ceil];
    [Math.floor].  They leave [NaN], the infinities and the zeros as
    they are. *)
Definition Math_round (x : number) : number :=
  match x with
  | Finite v => integral false x (Qfloor (v + (1 # 2)))
  | _ => x
  end.

Definition Math_ceil (x : number) : number :=
  match x with
  | Finite v => integral false x (Qceiling v)
  | _ => x
  end.

Definition Math_floor (x : number) : number :=
  match x with
  | Finite v => integral true x (Qfloor v)
  | _ => x
  end.

(** A [Date]: its time value is an integer of at most 8.64e15
    milliseconds, or the date is invalid. *)
Inductive Date : Type :=
| Invalid
| Valid (time : Z).

(** [new Date(x)] for a number [x]: the fraction is dropped; the date
    is invalid when [x] is not finite or beyond 8.64e15. *)
Definition Date_of_number (x : number) : Date :=
  match x with
  | Zero _ => Valid 0
  | Finite v =>
      if Qle_bool (Qabs v) 8640000000000000
      then Valid (if Qle_bool 0 v then Qfloor v else Qceiling v)
      else Invalid
  | NaN | Infinity _ => Invalid
  end.

(** [date.getTime()] *)
Definition getTime (d : Date) : number :=
  match d with
  | Valid t => of_Z t
  | Invalid => NaN
  end.

End Binary64.

(** ** The program on binary64 numbers

    The scheduler and the progress calculation once more, with the
    numbers that the program computes with: every [number] that holds
    a measured quantity is a [Binary64.number], every arithmetic
    operation is the rounded one, and a [Date] can be invalid.  The
    counters stay [nat]s.  The modules have the names of the source and
    of the modules above, inside [Doubles]. *)
Module Doubles.
Import Binary64.

Declare Scope double_scope.
Delimit Scope double_scope with D.
Bind Scope double_scope with number.
Notation "x + y" := (add x y) : double_scope.
Notation "x - y" := (sub x y) : double_scope.
Notation "x * y" := (mul x y) : double_scope.
Notation "x / y" := (div x y) : double_scope.
Local Open Scope double_scope.

Definition CardSource : Type := FlashcardData.Source.
Definition manual_source : CardSource := FlashcardData.manual.

(** *** What [JSON.stringify] and the revival after [JSON.parse] do *)

(** [JSON.stringify] writes [NaN] and the infinities as [null] and
    [-0] as [0].  A number field that holds [null] after
    [JSON.parse] counts as 0 in arithmetic and comparisons; it is kept
    as [+0]. *)
Definition JSON_number (x : number) : number :=
  match x with
  | Finite _ => x
  | NaN | Infinity _ | Zero _ => Zero false
  end.

(** [JSON.stringify] writes a valid date as its ISO string, which names
    the same time value, and an invalid date as [null]; the stored
    form of a date is kept as a [Date], [Invalid] standing for [null].
    [new Date(stored)] gives the date of the ISO string, and the epoch
    for [null]. *)
Definition revive_Date (stored : Date) : Date :=
  match stored with
  | Valid t => Valid t
  | Invalid => Valid 0
  end.

(** [stored ? new Date(stored) : undefined] for an optional date: [null]
    is falsy. *)
Definition revive_optional_Date (stored : option Date) : option Date :=
  match stored with
  | Some (Valid t) => Some (Valid t)
  | Some Invalid | None => None
  end.

(** *** The data model *)

Module FlashcardData.
Record t : Type := {
  id : string;
  front : string;
  back : string;
  created : Date;
  lastReviewed : option Date;
  nextReview : Date;
  interval : number;          (* days *)
  easeFactor : number;
  repetitions : nat;
  quality : option number;    (* last response quality *)
  tags : option (list string);
  source : option CardSource;
  sessionId : option string
}.
End FlashcardData.

Module ReviewResult.
Record t : Type := { quality : number }.
End ReviewResult.

Module GoalTask.
Record t : Type := {
  id : string;
  goalId : string;
  title : string;
  description : option string;
  status : TaskStatus;
  estimatedMinutes : option number;
  actualMinutes : number;
  dueDate : option Date;
  completedAt : option Date;
  tags : list string;
  flashcardCount : option nat;
  notesLink : option string
}.
End GoalTask.

Module StudyGoal.
Record t : Type := {
  id : string;
  title : string;
  type : GoalType;
  subject : string;
  description : option string;
  deadline : option Date;
  priority : GoalPriority;
  targetHours : option number;
  hoursCompleted : number;
  createdAt : Date;
  completedAt : option Date;
  isActive : bool;
  tasks : list GoalTask.t;
  dailyCommitment : option number;     (* minutes per day *)
  weeklyCommitment : option number;
  preferredStudyTimes : option (list string);
  sessionsCompleted : nat;
  flashcardsCreated : nat;
  flashcardsMastered : nat;
  currentStreak : nat;
  storyMilestones : list string;
  currentChapter : nat
}.
End StudyGoal.

Module GoalProgress.
Record t : Type := {
  goalId : string;
  progressPercentage : number;
  tasksCompleted : nat;
  totalTasks : nat;
  hoursCompleted : number;
  targetHours : number;
  daysUntilDeadline : option number;
  onTrack : bool;
  recommendedDailyMinutes : number;
  projectedCompletionDate : option Date
}.
End GoalProgress.

(** The slots of [localStorage] that the functions below use. *)
Record LocalStorage : Type := {
  flashcards_item : option (Stored (list FlashcardData.t));
  goals_item : option (Stored (list StudyGoal.t));
  write_fails : bool
}.

Definition setItem_flashcards (ls : LocalStorage)
    (value : Stored (list FlashcardData.t)) : result LocalStorage :=
  if write_fails ls then Throw "QuotaExceededError"
  else Ok {| flashcards_item := Some value;
             goals_item := goals_item ls;
             write_fails := write_fails ls |}.

(** *** [SpacedRepetitionScheduler] *)

Module SpacedRepetitionScheduler.
Import FlashcardData.

Definition MIN_EASE_FACTOR : number := lit 1.3.
Definition INITIAL_EASE_FACTOR : number := lit 2.5.
Definition INITIAL_INTERVAL : number := lit 1.

(** [createFlashcard(front, back, tags, source, sessionId)]; [now] is
    the time value of [new Date()] and [uuid] the value of
    [crypto.randomUUID()]. *)
Definition createFlashcard (now : Z) (uuid : string) (front back : string)
    (tags : option (list string)) (source : option CardSource)
    (sessionId : option string) : FlashcardData.t :=
  {| id := uuid;
     front := front;
     back := back;
     created := Valid now;
     lastReviewed := None;
     nextReview :=
       Date_of_number (getTime (Valid now) + lit 24 * lit 60 * lit 60 * lit 1000);
     interval := INITIAL_INTERVAL;
     easeFactor := INITIAL_EASE_FACTOR;
     repetitions := 0;
     quality := None;
     tags := Some (match tags with Some l => l | None => nil end);
     source := Some (match source with Some s => s | None => manual_source end);
     sessionId := sessionId |}.

(** The quality that [reviewCard] works with,
    [Math.max(0, Math.min(5, result.quality))]. *)
Definition clamped (result : ReviewResult.t) : number :=
  Math_max (lit 0) (Math_min (lit 5) (ReviewResult.quality result)).

(** [reviewCard(card, result)]; [now] is the time value of
    [new Date()]. *)
Definition reviewCard (now : Z) (card : FlashcardData.t) (result : ReviewResult.t)
  : FlashcardData.t :=
  let quality := clamped result in
  (* Update ease factor based on response quality *)
  let easeFactor0 :=
    easeFactor card
    + (lit 0.1 - (lit 5 - quality) * (lit 0.08 + (lit 5 - quality) * lit 0.02)) in
  let easeFactor1 := Math_max MIN_EASE_FACTOR easeFactor0 in
  (* Calculate new interval *)
  let '(repetitions1, interval1) :=
    if ltb quality (lit 3) then
      (* Poor response - restart the sequence *)
      (0%nat, INITIAL_INTERVAL)
    else
      let repetitions1 := (repetitions card + 1)%nat in
      if Nat.eqb repetitions1 1 then (repetitions1, lit 1)
      else if Nat.eqb repetitions1 2 then (repetitions1, lit 6)
      else (repetitions1, Math_round (interval card * easeFactor1)) in
  (* Calculate next review date *)
  let nextReview1 :=
    Date_of_number
      (getTime (Valid now) + interval1 * lit 24 * lit 60 * lit 60 * lit 1000) in
  {| id := id card;
     front := front card;
     back := back card;
     created := created card;
     lastReviewed := Some (Valid now);
     nextReview := nextReview1;
     interval := interval1;
     easeFactor := easeFactor1;
     repetitions := repetitions1;
     quality := Some quality;
     tags := tags card;
     source := source card;
     sessionId := sessionId card |}.

(** A run of reviews of one card: each review starts from the card the
    previous one returned. *)
Definition reviewAll (card : FlashcardData.t) (reviews : list (Z * ReviewResult.t))
  : FlashcardData.t :=
  fold_left (fun c r => reviewCard (fst r) c (snd r)) reviews card.

(** [card.nextReview <= now]: the comparison of the two time values;
    it is false for an invalid date. *)
Definition is_due (now : Z) (card : FlashcardData.t) : bool :=
  leb (getTime (nextReview card)) (getTime (Valid now)).

End SpacedRepetitionScheduler.

(** *** [FlashcardStorage] *)

Module FlashcardStorage.
Import FlashcardData.

(** What [JSON.stringify] writes for a card. *)
Definition stringify_card (card : FlashcardData.t) : FlashcardData.t :=
  {| id := id card;
     front := front card;
     back := back card;
     created := created card;
     lastReviewed := lastReviewed card;
     nextReview := nextReview card;
     interval := JSON_number (interval card);
     easeFactor := JSON_number (easeFactor card);
     repetitions := repetitions card;
     quality := option_map JSON_number (quality card);
     tags := tags card;
     source := source card;
     sessionId := sessionId card |}.

Definition JSON_stringify (cards : list FlashcardData.t) : Stored (list FlashcardData.t) :=
  Json (map stringify_card cards).

(** The revival of the dates of a parsed card,
    [{...card, created: new Date(card.created), lastReviewed:
    card.lastReviewed ? new Date(card.lastReviewed) : undefined,
    nextReview: new Date(card.nextReview)}]. *)
Definition revive (card : FlashcardData.t) : FlashcardData.t :=
  {| id := id card;
     front := front card;
     back := back card;
     created := revive_Date (created card);
     lastReviewed := revive_optional_Date (lastReviewed card);
     nextReview := revive_Date (nextReview card);
     interval := interval card;
     easeFactor := easeFactor card;
     repetitions := repetitions card;
     quality := quality card;
     tags := tags card;
     source := source card;
     sessionId := sessionId card |}.

Definition saveCards (ls : LocalStorage) (cards : list FlashcardData.t)
  : result LocalStorage :=
  try_catch
    (setItem_flashcards ls (JSON_stringify cards))
    (fun error => Ok ls).

Definition loadCards (ls : LocalStorage) : result (list FlashcardData.t) :=
  try_catch
    (let stored := flashcards_item ls in
     if is_falsy stored then Ok nil
     else
       let* cards := JSON_parse stored in
       Ok (map revive cards))
    (fun error => Ok nil).

(** [exportCards(cards)]: the JSON text of the cards. *)
Definition exportCards (cards : list FlashcardData.t) : Stored (list FlashcardData.t) :=
  JSON_stringify cards.

(** [importCards(jsonData)]: unlike [loadCards] it throws again, with a
    message of its own. *)
Definition importCards (jsonData : Stored (list FlashcardData.t))
  : result (list FlashcardData.t) :=
  try_catch
    (let* cards := JSON_parse (Some jsonData) in
     Ok (map revive cards))
    (fun error => Throw "Invalid flashcard data format").

End FlashcardStorage.

(** *** [GoalManager] *)

Module GoalManager.
Import StudyGoal.

(** The revival of the dates of a parsed task and of a parsed goal. *)
Definition revive_task (task : GoalTask.t) : GoalTask.t :=
  {| GoalTask.id := GoalTask.id task;
     GoalTask.goalId := GoalTask.goalId task;
     GoalTask.title := GoalTask.title task;
     GoalTask.description := GoalTask.description task;
     GoalTask.status := GoalTask.status task;
     GoalTask.estimatedMinutes := GoalTask.estimatedMinutes task;
     GoalTask.actualMinutes := GoalTask.actualMinutes task;
     GoalTask.dueDate := revive_optional_Date (GoalTask.dueDate task);
     GoalTask.completedAt := revive_optional_Date (GoalTask.completedAt task);
     GoalTask.tags := GoalTask.tags task;
     GoalTask.flashcardCount := GoalTask.flashcardCount task;
     GoalTask.notesLink := GoalTask.notesLink task |}.

Definition revive (goal : StudyGoal.t) : StudyGoal.t :=
  {| id := id goal;
     title := title goal;
     type := type goal;
     subject := subject goal;
     description := description goal;
     deadline := revive_optional_Date (deadline goal);
     priority := priority goal;
     targetHours := targetHours goal;
     hoursCompleted := hoursCompleted goal;
     createdAt := revive_Date (createdAt goal);
     completedAt := revive_optional_Date (completedAt goal);
     isActive := isActive goal;
     tasks := map revive_task (tasks goal);
     dailyCommitment := dailyCommitment goal;
     weeklyCommitment := weeklyCommitment goal;
     preferredStudyTimes := preferredStudyTimes goal;
     sessionsCompleted := sessionsCompleted goal;
     flashcardsCreated := flashcardsCreated goal;
     flashcardsMastered := flashcardsMastered goal;
     currentStreak := currentStreak goal;
     storyMilestones := storyMilestones goal;
     currentChapter := currentChapter goal |}.

Definition getGoals (ls : LocalStorage) : result (list StudyGoal.t) :=
  try_catch
    (let stored := goals_item ls in
     if is_falsy stored then Ok nil
     else
       let* parsed := JSON_parse stored in
       Ok (map revive parsed))
    (fun error => Ok nil).

Definition has_id (goalId : string) (g : StudyGoal.t) : bool :=
  String.eqb (id g) goalId.

Definition MS_PER_DAY : number := lit 1000 * lit 60 * lit 60 * lit 24.

(** The record returned for an id that matches no goal. *)
Definition no_progress (goalId : string) : GoalProgress.t :=
  {| GoalProgress.goalId := goalId;
     GoalProgress.progressPercentage := lit 0;
     GoalProgress.tasksCompleted := 0;
     GoalProgress.totalTasks := 0;
     GoalProgress.hoursCompleted := lit 0;
     GoalProgress.targetHours := lit 0;
     GoalProgress.daysUntilDeadline := None;
     GoalProgress.onTrack := false;
     GoalProgress.recommendedDailyMinutes := lit 0;
     GoalProgress.projectedCompletionDate := None |}.

(** [goal.targetHours || 0] *)
Definition targetHours_or_0 (goal : StudyGoal.t) : number :=
  match targetHours goal with
  | Some h => if truthy h then h else lit 0
  | None => lit 0
  end.

Definition count_completed (tasks : list GoalTask.t) : nat :=
  length (List.filter (fun t => TaskStatus_eqb (GoalTask.status t) completed) tasks).

(** The weighted progress percentage, before it is clamped. *)
Definition raw_progressPercentage (goal : StudyGoal.t) : number :=
  let totalTasks := length (tasks goal) in
  let tasksCompleted := count_completed (tasks goal) in
  let targetHours := targetHours_or_0 goal in
  let hoursCompleted := hoursCompleted goal in
  if (0 <? totalTasks)%nat && gtb targetHours (lit 0) then
    let taskProgress := (of_nat tasksCompleted / of_nat totalTasks) * lit 100 in
    let hourProgress := (hoursCompleted / targetHours) * lit 100 in
    taskProgress * lit 0.6 + hourProgress * lit 0.4
  else if (0 <? totalTasks)%nat then
    (of_nat tasksCompleted / of_nat totalTasks) * lit 100
  else if gtb targetHours (lit 0) then
    (hoursCompleted / targetHours) * lit 100
  else lit 0.

(** The average number of minutes studied per day since the goal was
    created ([currentDailyAverage]). *)
Definition currentDailyAverage (now : Z) (goal : StudyGoal.t) : number :=
  if (0 <? sessionsCompleted goal)%nat then
    (hoursCompleted goal * lit 60)
    / Math_max (lit 1) ((getTime (Valid now) - getTime (createdAt goal)) / MS_PER_DAY)
  else lit 0.

(** The part of [calculateProgress] that follows the lookup of the
    goal; [now] is the time value of [new Date()]. *)
Definition progress_of (now : Z) (goalId : string) (goal : StudyGoal.t)
  : GoalProgress.t :=
  let totalTasks := length (tasks goal) in
  let tasksCompleted := count_completed (tasks goal) in
  let targetHours := targetHours_or_0 goal in
  let hoursCompleted := hoursCompleted goal in
  (* Calculate progress percentage (weighted between tasks and hours) *)
  let progressPercentage := raw_progressPercentage goal in
  (* Calculate days until deadline *)
  let '(daysUntilDeadline, onTrack, recommendedDailyMinutes, projectedCompletionDate) :=
    match deadline goal with
    | Some deadline =>
        let daysUntilDeadline :=
          Math_ceil ((getTime deadline - getTime (Valid now)) / MS_PER_DAY) in
        if gtb targetHours (lit 0) then
          let hoursRemaining := targetHours - hoursCompleted in
          if gtb daysUntilDeadline (lit 0) then
            (* Calculate if on track *)
            let requiredDailyHours := hoursRemaining / daysUntilDeadline in
            let recommendedDailyMinutes := Math_ceil (requiredDailyHours * lit 60) in
            (* Consider on track if current pace meets deadline *)
            let currentDailyAverage := currentDailyAverage now goal in
            let onTrack := geb currentDailyAverage (recommendedDailyMinutes * lit 0.8) in
            (* Project completion date based on current pace *)
            let projectedCompletionDate :=
              if gtb currentDailyAverage (lit 0) then
                let daysToComplete := (hoursRemaining * lit 60) / currentDailyAverage in
                Some (Date_of_number
                        (getTime (Valid now)
                         + daysToComplete * lit 24 * lit 60 * lit 60 * lit 1000))
              else None in
            (Some daysUntilDeadline, onTrack, recommendedDailyMinutes,
             projectedCompletionDate)
          else (Some daysUntilDeadline, true, lit 0, None)
        else (Some daysUntilDeadline, true, lit 0, None)
    | None =>
        match dailyCommitment goal with
        | Some dailyCommitment =>
            if truthy dailyCommitment && gtb targetHours (lit 0) then
              let hoursRemaining := targetHours - hoursCompleted in
              let daysToComplete := (hoursRemaining * lit 60) / dailyCommitment in
              (None, true, dailyCommitment,
               Some (Date_of_number
                       (getTime (Valid now)
                        + daysToComplete * lit 24 * lit 60 * lit 60 * lit 1000)))
            else (None, true, lit 0, None)
        | None => (None, true, lit 0, None)
        end
    end in
  {| GoalProgress.goalId := goalId;
     GoalProgress.progressPercentage :=
       Math_min (lit 100) (Math_max (lit 0) progressPercentage);
     GoalProgress.tasksCompleted := tasksCompleted;
     GoalProgress.totalTasks := totalTasks;
     GoalProgress.hoursCompleted := hoursCompleted;
     GoalProgress.targetHours := targetHours;
     GoalProgress.daysUntilDeadline := daysUntilDeadline;
     GoalProgress.onTrack := onTrack;
     GoalProgress.recommendedDailyMinutes := recommendedDailyMinutes;
     GoalProgress.projectedCompletionDate := projectedCompletionDate |}.

Definition calculateProgress (ls : LocalStorage) (now : Z) (goalId : string)
  : result GoalProgress.t :=
  let* goals := getGoals ls in
  match find (has_id goalId) goals with
  | None => Ok (no_progress goalId)
  | Some goal => Ok (progress_of now goalId goal)
  end.

End GoalManager.

(** *** What the storage holds *)

(** The goals that [getGoals] returns. *)
Definition loaded_goals (ls : LocalStorage) : list StudyGoal.t :=
  match goals_item ls with
  | Some (Json goals) => map GoalManager.revive goals
  | _ => nil
  end.

(** The goal that [goals.find(g => g.id === goalId)] returns. *)
Definition goal_with_id (ls : LocalStorage) (goalId : string) : option StudyGoal.t :=
  find (GoalManager.has_id goalId) (loaded_goals ls).

(** The progress that [calculateProgress] reports for [goalId]. *)
Definition progress_for (ls : LocalStorage) (now : Z) (goalId : string)
  : GoalProgress.t :=
  match goal_with_id ls goalId with
  | None => GoalManager.no_progress goalId
  | Some goal => GoalManager.progress_of now goalId goal
  end.

(** The hour target of a goal: [targetHours], or 0 when there is none. *)
Definition hour_target (goal : StudyGoal.t) : number :=
  match StudyGoal.targetHours goal with
  | Some h => h
  | None => lit 0
  end.

(** *** The words of the specification, on binary64 numbers *)

(** [x] clamped into [[lo, hi]]; there is no clamping of [NaN]. *)
Definition clamp (lo hi x : number) : number :=
  if is_NaN x then NaN
  else if leb x lo then lo
  else if leb hi x then hi
  else x.

(** [r] is the integer nearest to [x], a tie going up; an [x] that is
    not finite is left as it is. *)
Definition nearest_integer (x r : number) : Prop :=
  if is_finite x then
    is_finite r = true
    /\ exists n : Z, to_Q r = inject_Z n
                     /\ inject_Z n - (1 # 2) <= to_Q x /\ to_Q x < inject_Z n + (1 # 2)
  else r = x.

(** [r] is the least integer that is not below [x]; an [x] that is not
    finite is left as it is. *)
Definition least_integer_above (x r : number) : Prop :=
  if is_finite x then
    is_finite r = true
    /\ exists n : Z, to_Q r = inject_Z n
                     /\ inject_Z n - 1 < to_Q x /\ to_Q x <= inject_Z n
  else r = x.

(** The scheduling rule of the specification. *)
Module SM2.

Definition quality (result : ReviewResult.t) : number :=
  clamp (lit 0) (lit 5) (ReviewResult.quality result).

Definition increment (q : number) : number :=
  lit 0.1 - (lit 5 - q) * (lit 0.08 + (lit 5 - q) * lit 0.02).

Definition easeFactor (q old : number) : number :=
  Math_max (lit 1.3) (old + increment q).

(** The date [days] days after the time [now]; there is no date beyond
    8.64e15 milliseconds. *)
Definition days_after (now days : Z) : Date :=
  if (now + days * 86400000 <=? 8640000000000000)%Z
  then Valid (now + days * 86400000)
  else Invalid.

End SM2.

(** The blend that the specification of the progress percentage names,
    in the order in which the program computes it. *)
Module ProgressSpec.

Definition task_ratio (goal : StudyGoal.t) : number :=
  of_nat (GoalManager.count_completed (StudyGoal.tasks goal))
  / of_nat (length (StudyGoal.tasks goal)) * lit 100.

Definition hour_ratio (goal : StudyGoal.t) : number :=
  StudyGoal.hoursCompleted goal / hour_target goal * lit 100.

Definition blend (goal : StudyGoal.t) : number :=
  task_ratio goal * lit 0.6 + hour_ratio goal * lit 0.4.

End ProgressSpec.

(** The quantities that the specification of [onTrack] names. *)
Module OnTrackSpec.

Definition days_since_creation (now : Z) (goal : StudyGoal.t) : number :=
  (of_Z now - getTime (StudyGoal.createdAt goal)) / lit 86400000.

Definition average_daily_minutes (now : Z) (goal : StudyGoal.t) : number :=
  match StudyGoal.sessionsCompleted goal with
  | O => lit 0
  | S _ =>
      StudyGoal.hoursCompleted goal * lit 60
      / Math_max (lit 1) (days_since_creation now goal)
  end.

Definition days_until (now : Z) (deadline : Date) : number :=
  Math_ceil ((getTime deadline - of_Z now) / lit 86400000).

(** The minutes per day that are left to study, before they are rounded
    up. *)
Definition required_daily_minutes (goal : StudyGoal.t) (days : number) : number :=
  (hour_target goal - StudyGoal.hoursCompleted goal) / days * lit 60.

(** The three ways in which a goal is outside the on-track test: no
    deadline, a deadline that is not ahead, no positive hour target. *)
Definition untested (now : Z) (goal : StudyGoal.t) : Prop :=
  StudyGoal.deadline goal = None
  \/ (exists deadline, StudyGoal.deadline goal = Some deadline
                       /\ gtb (days_until now deadline) (lit 0) = false)
  \/ gtb (hour_target goal) (lit 0) = false.

End OnTrackSpec.

(** What a card is after [JSON.stringify], [JSON.parse] and the revival
    of its dates: a date that is invalid comes back as the epoch, or as
    no date where the date is optional. *)
Definition reloaded_Date (d : Date) : Date :=
  match d with
  | Valid t => Valid t
  | Invalid => Valid 0
  end.

(** A card that survives the round trip through JSON: its dates are
    valid and its numbers are finite, with no negative zero. *)
Definition plain_number (x : number) : Prop :=
  match x with
  | Finite _ | Zero false => True
  | _ => False
  end.

Definition valid_Date (d : Date) : Prop :=
  match d with
  | Valid _ => True
  | Invalid => False
  end.

Definition plain_card (card : FlashcardData.t) : Prop :=
  valid_Date (FlashcardData.created card)
  /\ valid_Date (FlashcardData.nextReview card)
  /\ FlashcardData.lastReviewed card <> Some Invalid
  /\ plain_number (FlashcardData.interval card)
  /\ plain_number (FlashcardData.easeFactor card)
  /\ match FlashcardData.quality card with
     | Some q => plain_number q
     | None => True
     end.

(** *** Sample data *)

Module Sample.

Definition day : Z := 86400000.
Definition now : Z := (10 * day)%Z.

Definition quality (q : Q) : ReviewResult.t := {| ReviewResult.quality := lit q |}.

(** A card as [createFlashcard] makes it, at time 0. *)
Definition card : FlashcardData.t :=
  SpacedRepetitionScheduler.createFlashcard 0 "c1" "2 + 2" "4" None None None.

(** A card with the given interval, ease factor and repetitions. *)
Definition card_with (interval easeFactor : number) (repetitions : nat)
  : FlashcardData.t :=
  {| FlashcardData.id := "c2";
     FlashcardData.front := "3 * 3";
     FlashcardData.back := "9";
     FlashcardData.created := Valid day;
     FlashcardData.lastReviewed := Some (Valid (6 * day));
     FlashcardData.nextReview := Valid (12 * day);
     FlashcardData.interval := interval;
     FlashcardData.easeFactor := easeFactor;
     FlashcardData.repetitions := repetitions;
     FlashcardData.quality := Some (lit 5);
     FlashcardData.tags := Some nil;
     FlashcardData.source := Some manual_source;
     FlashcardData.sessionId := None |}.

(** Reviews on the days 10, 11, ... with the given qualities. *)
Fixpoint reviews_from (time : Z) (qualities : list Q) : list (Z * ReviewResult.t) :=
  match qualities with
  | nil => nil
  | q :: qualities' => (time, quality q) :: reviews_from (time + day) qualities'
  end.

Definition task (id : string) (status : TaskStatus) : GoalTask.t :=
  {| GoalTask.id := id;
     GoalTask.goalId := "g1";
     GoalTask.title := "Read the chapter";
     GoalTask.description := None;
     GoalTask.status := status;
     GoalTask.estimatedMinutes := Some (lit 50);
     GoalTask.actualMinutes := lit 0;
     GoalTask.dueDate := None;
     GoalTask.completedAt := None;
     GoalTask.tags := nil;
     GoalTask.flashcardCount := None;
     GoalTask.notesLink := None |}.

Definition goal (id : string) (createdAt : Z) (deadline : option Z)
    (targetHours : option Q) (hoursCompleted : Q)
    (tasks : list GoalTask.t) (sessionsCompleted : nat) : StudyGoal.t :=
  {| StudyGoal.id := id;
     StudyGoal.title := "Pass the exam";
     StudyGoal.type := exam;
     StudyGoal.subject := "Algebra";
     StudyGoal.description := None;
     StudyGoal.deadline := option_map Valid deadline;
     StudyGoal.priority := medium;
     StudyGoal.targetHours := option_map lit targetHours;
     StudyGoal.hoursCompleted := lit hoursCompleted;
     StudyGoal.createdAt := Valid createdAt;
     StudyGoal.completedAt := None;
     StudyGoal.isActive := true;
     StudyGoal.tasks := tasks;
     StudyGoal.dailyCommitment := None;
     StudyGoal.weeklyCommitment := None;
     StudyGoal.preferredStudyTimes := None;
     StudyGoal.sessionsCompleted := sessionsCompleted;
     StudyGoal.flashcardsCreated := 0%nat;
     StudyGoal.flashcardsMastered := 0%nat;
     StudyGoal.currentStreak := 0%nat;
     StudyGoal.storyMilestones := nil;
     StudyGoal.currentChapter := 1%nat |}.

Definition storage (goals : list StudyGoal.t) : LocalStorage :=
  {| flashcards_item := None;
     goals_item := Some (Json goals);
     write_fails := false |}.

(** Half of the tasks done, 4 of 10 hours studied in 3 sessions, the
    deadline ten days ahead. *)
Definition halfway : StudyGoal.t :=
  goal "g2" 0 (Some (20 * day)%Z) (Some 10) 4
    (task "t1" completed :: task "t2" not_started :: nil) 3%nat.

(** One task of one done and two hours studied for a target of one. *)
Definition overshoot : StudyGoal.t :=
  goal "g1" 0 (Some (20 * day)%Z) (Some 1) 2 (task "t1" completed :: nil) 2%nat.

(** One task of three done and one hour of eight studied. *)
Definition third : StudyGoal.t :=
  goal "g3" 0 (Some (20 * day)%Z) (Some 8) 1
    (task "t1" completed :: task "t2" not_started :: task "t3" not_started :: nil) 1%nat.

(** 25 hours to study in the three days that are left. *)
Definition cram : StudyGoal.t :=
  goal "g4" 0 (Some (13 * day)%Z) (Some 25) 0 nil 0%nat.

(** Half a day after its creation and a day before its deadline: 0.04
    of 0.08 hours studied in one session. *)
Definition noon : Z := (day / 2)%Z.

Definition sprint : StudyGoal.t :=
  goal "g5" 0 (Some (noon + day)%Z) (Some 0.08) 0.04 nil 1%nat.

(** A card reviewed on the last day that a [Date] can hold: there is no
    date for its next review. *)
Definition undated : FlashcardData.t :=
  SpacedRepetitionScheduler.reviewCard 8640000000000000 card (quality 5).

End Sample.

End Doubles.

(** ** What the storage holds *)

(** The goals that [getGoals] finds in the storage. *)
Definition stored_goals (ls : LocalStorage) : list StudyGoal.t :=
  match goals_item ls with
  | Some (Json goals) => goals
  | _ => nil
  end.

(** The goal that [goals.find(g => g.id === goalId)] returns. *)
Definition goal_with_id (ls : LocalStorage) (goalId : string) : option StudyGoal.t :=
  find (GoalManager.has_id goalId) (stored_goals ls).

(** A blob is absent when [getItem] returns [null]; it is unparseable
    when it is present and [JSON.parse] throws on it. *)
Definition absent {A} (item : option (Stored A)) : Prop := item = None.
Definition unparseable {A} (item : option (Stored A)) : Prop :=
  exists text, item = Some (NotJson text).

(** The stored session log as [linkSessionToGoal] reads it,
    [stored ? JSON.parse(stored) : []]. *)
Definition stored_sessions (ls : LocalStorage) : result (list SessionGoalLink.t) :=
  let stored := sessions_item ls in
  if is_falsy stored then Ok nil else JSON_parse stored.

(** The session log holds [sessionLink]. *)
Definition logged (ls : LocalStorage) (sessionLink : SessionGoalLink.t) : Prop :=
  exists sessions, sessions_item ls = Some (Json sessions) /\ In sessionLink sessions.

(** The progress that [calculateProgress] reports for [goalId]. *)
Definition progress_for (ls : LocalStorage) (now : JS.Date) (goalId : string)
  : GoalProgress.t :=
  match goal_with_id ls goalId with
  | None => GoalManager.no_progress goalId
  | Some goal => GoalManager.progress_of now goalId goal
  end.

(** The recommendation that [getDailyRecommendations] pushes for [goal]. *)
Definition recommendation_for (ls : LocalStorage) (now : JS.Date) (goal : StudyGoal.t)
  : DailyRecommendation.t :=
  GoalManager.recommendation goal (progress_for ls now (StudyGoal.id goal)).

(** The active goals, in the order in which they are stored: the goals
    with [isActive] set and no [completedAt]. *)
Definition active_goals (ls : LocalStorage) : list StudyGoal.t :=
  List.filter
    (fun g => StudyGoal.isActive g
              && match StudyGoal.completedAt g with None => true | Some _ => false end)
    (stored_goals ls).

(** The hour target of a goal: [targetHours], or 0 when there is none. *)
Definition hour_target (goal : StudyGoal.t) : JS.number :=
  match StudyGoal.targetHours goal with
  | Some h => h
  | None => 0
  end.

(** The quantities that the specification of [onTrack] names, in
    exact arithmetic. *)
Module OnTrackSpec.

Definition days_since_creation (now : JS.Date) (goal : StudyGoal.t) : Q :=
  (inject_Z now - inject_Z (StudyGoal.createdAt goal)) / 86400000.

Definition average_daily_minutes (now : JS.Date) (goal : StudyGoal.t) : Q :=
  match StudyGoal.sessionsCompleted goal with
  | O => 0
  | S _ => (StudyGoal.hoursCompleted goal * 60) / Qmax 1 (days_since_creation now goal)
  end.

Definition days_until (now deadline : JS.Date) : Z :=
  Qceiling ((inject_Z deadline - inject_Z now) / 86400000).

Definition recommended_daily_minutes (goal : StudyGoal.t) (days : Z) : Q :=
  inject_Z
    (Qceiling (60 * (hour_target goal - StudyGoal.hoursCompleted goal) / inject_Z days)).

End OnTrackSpec.

(** The blend that the specification of the progress percentage names,
    in exact arithmetic. *)
Module ProgressSpec.

Definition task_ratio (goal : StudyGoal.t) : Q :=
  100 * JS.of_nat (GoalManager.count_completed (StudyGoal.tasks goal))
  / JS.of_nat (length (StudyGoal.tasks goal)).

Definition hour_ratio (goal : StudyGoal.t) : Q :=
  100 * StudyGoal.hoursCompleted goal / hour_target goal.

Definition blend (goal : StudyGoal.t) : Q :=
  0.6 * task_ratio goal + 0.4 * hour_ratio goal.

End ProgressSpec.

(** The storage after [saveMilestones]: the write is dropped when the
    storage refuses it. *)
Definition with_milestones (ls : LocalStorage) (goalId : string)
    (milestones : list StoryMilestone.t) : LocalStorage :=
  if write_fails ls then ls
  else {| flashcards_item := flashcards_item ls;
          goals_item := goals_item ls;
          sessions_item := sessions_item ls;
          milestones_items := <[goalId := Json milestones]> (milestones_items ls);
          write_fails := write_fails ls |}.

(** The milestones that [getMilestones] returns for [goalId], and the
    storage it leaves: the stored list when it parses, the default
    milestones (saved on the way) otherwise. *)
Definition default_milestones_for (ls : LocalStorage) (goalId : string)
  : list StoryMilestone.t * LocalStorage :=
  match goal_with_id ls goalId with
  | None => (nil, ls)
  | Some goal =>
      (StoryGoalEngine.default_milestones goalId goal,
       with_milestones ls goalId (StoryGoalEngine.default_milestones goalId goal))
  end.

Definition milestones_for (ls : LocalStorage) (goalId : string)
  : list StoryMilestone.t * LocalStorage :=
  match milestones_items ls !! goalId with
  | Some (Json milestones) => (milestones, ls)
  | _ => default_milestones_for ls goalId
  end.

(** No milestone unlocks during
    [getStoryForSession(goalId, focusLevel, ...)]: the check for an
    unlockable milestone of the goal finds none. *)
Definition no_unlock (ls : LocalStorage) (now : JS.Date) (goal : StudyGoal.t)
    (focusLevel : JS.number) : Prop :=
  exists ls1,
    StoryGoalEngine.checkForMilestone ls goal
      (progress_for ls now (StudyGoal.id goal)) focusLevel
    = Ok (None, ls1).

(** The storage after [saveGoals]: the write is dropped when the
    storage refuses it. *)
Definition with_goals (ls : LocalStorage) (goals : list StudyGoal.t) : LocalStorage :=
  if write_fails ls then ls
  else {| flashcards_item := flashcards_item ls;
          goals_item := Some (Json goals);
          sessions_item := sessions_item ls;
          milestones_items := milestones_items ls;
          write_fails := write_fails ls |}.

(** The ids of the stored goals are pairwise different. *)
Definition unique_ids (ls : LocalStorage) : Prop :=
  List.NoDup (map StudyGoal.id (stored_goals ls)).

(** The storage after a write of the session log that the storage
    takes. *)
Definition with_sessions (ls : LocalStorage) (sessions : list SessionGoalLink.t)
  : LocalStorage :=
  {| flashcards_item := flashcards_item ls;
     goals_item := goals_item ls;
     sessions_item := Some (Json sessions);
     milestones_items := milestones_items ls;
     write_fails := write_fails ls |}.

(** The task that [goal.tasks.find(t => t.id === taskId)] returns. *)
Definition task_with_id (goal : StudyGoal.t) (taskId : string) : option GoalTask.t :=
  find (GoalManager.has_task_id taskId) (StudyGoal.tasks goal).

(** The goals that [getNextTask(goalId)] goes through. *)
Definition candidate_goals (ls : LocalStorage) (goalId : option string)
  : list StudyGoal.t :=
  match goalId with
  | Some (String c s) =>
      List.filter (fun g => GoalManager.has_id (String c s) g && StudyGoal.isActive g)
        (stored_goals ls)
  | _ => List.filter GoalManager.is_active (stored_goals ls)
  end.

(** A task that [getNextTask] can return: in progress or not started. *)
Definition workable (task : GoalTask.t) : Prop :=
  GoalTask.status task = in_progress \/ GoalTask.status task = not_started.

(** [s] has a dash. *)
Fixpoint has_dash (s : string) : bool :=
  match s with
  | EmptyString => false
  | String c s' => Ascii.eqb c "-"%char || has_dash s'
  end.

(** The story that [getStoryForSession] returns when it unlocks the
    milestone [m]. *)
Definition milestone_story (m : StoryMilestone.t) : AdaptiveStoryContent.t :=
  {| AdaptiveStoryContent.text := StoryContent.text (StoryMilestone.storyContent m);
     AdaptiveStoryContent.characterMood :=
       StoryContent.characterMood (StoryMilestone.storyContent m);
     AdaptiveStoryContent.chapter := StoryContent.title (StoryMilestone.storyContent m);
     AdaptiveStoryContent.milestone := Some m |}.

(** The milestones of a goal as [generateDefaultMilestones] names them:
    pairwise different ids, each with the goal id before its first
    dash. *)
Definition own_milestones (goalId : string) (milestones : list StoryMilestone.t) : Prop :=
  List.NoDup (map StoryMilestone.id milestones)
  /\ forall m, In m milestones -> before_dash (StoryMilestone.id m) = goalId.

(** ** Sample data *)

Module Sample.

Definition day : Z := 86400000.

Definition task (id : string) (status : TaskStatus) : GoalTask.t :=
  {| GoalTask.id := id;
     GoalTask.goalId := "g1";
     GoalTask.title := "Read the chapter";
     GoalTask.description := None;
     GoalTask.status := status;
     GoalTask.estimatedMinutes := Some 50;
     GoalTask.actualMinutes := 0;
     GoalTask.dueDate := None;
     GoalTask.completedAt := None;
     GoalTask.tags := nil;
     GoalTask.flashcardCount := None;
     GoalTask.notesLink := None |}.

Definition goal (id : string) (deadline : option JS.Date) (priority : GoalPriority)
    (targetHours : option JS.number) (hoursCompleted : JS.number)
    (tasks : list GoalTask.t) (sessionsCompleted : nat) : StudyGoal.t :=
  {| StudyGoal.id := id;
     StudyGoal.title := "Pass the exam";
     StudyGoal.type := exam;
     StudyGoal.subject := "Algebra";
     StudyGoal.description := None;
     StudyGoal.deadline := deadline;
     StudyGoal.priority := priority;
     StudyGoal.targetHours := targetHours;
     StudyGoal.hoursCompleted := hoursCompleted;
     StudyGoal.createdAt := 0%Z;
     StudyGoal.completedAt := None;
     StudyGoal.isActive := true;
     StudyGoal.tasks := tasks;
     StudyGoal.dailyCommitment := None;
     StudyGoal.weeklyCommitment := None;
     StudyGoal.preferredStudyTimes := None;
     StudyGoal.sessionsCompleted := sessionsCompleted;
     StudyGoal.flashcardsCreated := 0%nat;
     StudyGoal.flashcardsMastered := 0%nat;
     StudyGoal.currentStreak := 0%nat;
     StudyGoal.storyMilestones := nil;
     StudyGoal.currentChapter := 1%nat |}.

Definition storage (goals : option (Stored (list StudyGoal.t)))
    (sessions : option (Stored (list SessionGoalLink.t))) : LocalStorage :=
  {| flashcards_item := None;
     goals_item := goals;
     sessions_item := sessions;
     milestones_items := ∅;
     write_fails := false |}.

(** Ten days after its creation: one task of one done, two hours studied
    for a target of one hour, the deadline twenty days after creation. *)
Definition now : JS.Date := (10 * day)%Z.

Definition overshoot : StudyGoal.t :=
  goal "g1" (Some (20 * day)%Z) high (Some 1) 2 (task "t1" completed :: nil) 2%nat.

Definition overshoot_storage : LocalStorage :=
  storage (Some (Json (overshoot :: nil))) None.

(** The same without tasks. *)
Definition overshoot_hours : StudyGoal.t :=
  goal "g1" (Some (20 * day)%Z) high (Some 1) 2 nil 2%nat.

Definition overshoot_hours_storage : LocalStorage :=
  storage (Some (Json (overshoot_hours :: nil))) None.

(** Half of the tasks done, 4 of 10 hours studied in 3 sessions. *)
Definition halfway : StudyGoal.t :=
  goal "g2" (Some (20 * day)%Z) medium (Some 10) 4
    (task "t1" completed :: task "t2" not_started :: nil) 3%nat.

Definition halfway_storage : LocalStorage :=
  storage (Some (Json (halfway :: nil))) None.

Definition card : FlashcardData.t :=
  {| FlashcardData.id := "c1";
     FlashcardData.front := "2 + 2";
     FlashcardData.back := "4";
     FlashcardData.created := 0%Z;
     FlashcardData.lastReviewed := None;
     FlashcardData.nextReview := day;
     FlashcardData.interval := 1;
     FlashcardData.easeFactor := 2.5;
     FlashcardData.repetitions := 0%nat;
     FlashcardData.quality := None;
     FlashcardData.tags := Some nil;
     FlashcardData.source := Some FlashcardData.manual;
     FlashcardData.sessionId := None |}.

(** A storage whose three blobs are not JSON. *)
Definition corrupt_storage : LocalStorage :=
  {| flashcards_item := Some (NotJson "{oops");
     goals_item := Some (NotJson "{oops");
     sessions_item := Some (NotJson "{oops");
     milestones_items := ∅;
     write_fails := false |}.

(** A storage whose quota is used up: it holds [halfway] and an empty
    session log, and it refuses every write. *)
Definition full_storage : LocalStorage :=
  {| flashcards_item := None;
     goals_item := Some (Json (halfway :: nil));
     sessions_item := Some (Json nil);
     milestones_items := ∅;
     write_fails := true |}.

(** The storage of [halfway] with a session log that holds the JSON
    text of an object. *)
Definition object_log_storage : LocalStorage :=
  {| flashcards_item := None;
     goals_item := Some (Json (halfway :: nil));
     sessions_item := Some (NotArray "{}");
     milestones_items := ∅;
     write_fails := false |}.

Definition link (goalId : string) : SessionGoalLink.t :=
  {| SessionGoalLink.sessionId := "s1";
     SessionGoalLink.goalId := goalId;
     SessionGoalLink.taskId := None;
     SessionGoalLink.minutesWorked := 25;
     SessionGoalLink.focusRating := 4;
     SessionGoalLink.progressMade := true;
     SessionGoalLink.completedTask := false;
     SessionGoalLink.notes := None;
     SessionGoalLink.timestamp := now |}.

(** A goal whose id is the empty string. *)
Definition nameless : StudyGoal.t :=
  goal "" None medium (Some 10) 0 nil 0%nat.

Definition nameless_storage : LocalStorage :=
  storage (Some (Json (nameless :: nil))) None.

(** A goal that has just been created: nothing done yet. *)
Definition fresh : StudyGoal.t :=
  goal "g3" None low (Some 10) 0 nil 0%nat.

Definition fresh_storage : LocalStorage :=
  storage (Some (Json (fresh :: nil))) None.

(** The goal [halfway] under an id with a dash, as the ids that
    [crypto.randomUUID()] makes have. *)
Definition dashed : StudyGoal.t :=
  goal "a-b" (Some (20 * day)%Z) medium (Some 10) 4
    (task "t1" completed :: task "t2" not_started :: nil) 3%nat.

Definition dashed_storage : LocalStorage :=
  storage (Some (Json (dashed :: nil))) None.

(** The storage of [halfway] after its milestones have been generated and
    all of them unlocked. *)
Definition veteran_storage : LocalStorage :=
  {| flashcards_item := None;
     goals_item := Some (Json (halfway :: nil));
     sessions_item := None;
     milestones_items :=
       {[ "g2" := Json (map (StoryGoalEngine.unlock now)
                          (StoryGoalEngine.default_milestones "g2" halfway)) ]};
     write_fails := false |}.

(** Two active goals: [fresh] (low priority, no deadline) stored before
    an urgent one (critical priority, the deadline a day away). *)
Definition urgent : StudyGoal.t :=
  goal "g4" (Some (11 * day)%Z) critical (Some 10) 4 nil 3%nat.

Definition two_goals_storage : LocalStorage :=
  storage (Some (Json (fresh :: urgent :: nil))) None.

(** Two active goals stored under one id: the first is due in a day, the
    second has no deadline. *)
Definition pressing : StudyGoal.t :=
  goal "g6" (Some (11 * day)%Z) medium (Some 10) 4 nil 3%nat.

Definition shadowed : StudyGoal.t :=
  goal "g6" None medium (Some 10) 0 nil 0%nat.

Definition twins_storage : LocalStorage :=
  storage (Some (Json (pressing :: shadowed :: nil))) None.

(** A card reviewed twice, due again on day 12. *)
Definition reviewed_card : FlashcardData.t :=
  {| FlashcardData.id := "c2";
     FlashcardData.front := "3 * 3";
     FlashcardData.back := "9";
     FlashcardData.created := day;
     FlashcardData.lastReviewed := Some (6 * day)%Z;
     FlashcardData.nextReview := (12 * day)%Z;
     FlashcardData.interval := 6;
     FlashcardData.easeFactor := 2.6;
     FlashcardData.repetitions := 2%nat;
     FlashcardData.quality := Some 5;
     FlashcardData.tags := Some nil;
     FlashcardData.source := Some FlashcardData.manual;
     FlashcardData.sessionId := None |}.

Definition deck : list FlashcardData.t := card :: reviewed_card :: nil.

(** [reviewed_card] after a failed review on day 10: it has been
    reviewed, and its repetitions are back at 0. *)
Definition lapsed_card : FlashcardData.t :=
  SpacedRepetitionScheduler.reviewCard now reviewed_card {| ReviewResult.quality := 1 |}.


(** One task of three done and one hour of eight studied. *)
Definition third : StudyGoal.t :=
  goal "g3" (Some (20 * day)%Z) medium (Some 8) 1
    (task "t1" completed :: task "t2" not_started :: task "t3" not_started :: nil) 1%nat.

(** 25 hours to study in the three days that are left on day 10. *)
Definition cram : StudyGoal.t :=
  goal "g4" (Some (13 * day)%Z) medium (Some 25) 0 nil 0%nat.

(** Half a day after its creation and a day before its deadline: 0.04
    of 0.08 hours studied in one session. *)
Definition noon : JS.Date := (day / 2)%Z.

Definition sprint : StudyGoal.t :=
  goal "g5" (Some (noon + day)%Z) medium (Some 0.08) 0.04 nil 1%nat.

Definition goal_data : GoalData.t :=
  {| GoalData.title := "Learn to prove";
     GoalData.type := skill;
     GoalData.subject := "Logic";
     GoalData.description := None;
     GoalData.deadline := None;
     GoalData.priority := medium;
     GoalData.targetHours := Some 20;
     GoalData.completedAt := None;
     GoalData.tasks := None;
     GoalData.dailyCommitment := None;
     GoalData.weeklyCommitment := None;
     GoalData.preferredStudyTimes := None |}.

Definition task_data : TaskData.t :=
  {| TaskData.title := "Exercises";
     TaskData.description := None;
     TaskData.estimatedMinutes := Some 30;
     TaskData.dueDate := Some (11 * day)%Z;
     TaskData.completedAt := None;
     TaskData.tags := nil;
     TaskData.flashcardCount := None;
     TaskData.notesLink := None |}.

(** [{ completedAt: now }] *)
Definition completion : StudyGoalUpdates.t :=
  {| StudyGoalUpdates.id := None;
     StudyGoalUpdates.title := None;
     StudyGoalUpdates.type := None;
     StudyGoalUpdates.subject := None;
     StudyGoalUpdates.description := None;
     StudyGoalUpdates.deadline := None;
     StudyGoalUpdates.priority := None;
     StudyGoalUpdates.targetHours := None;
     StudyGoalUpdates.hoursCompleted := None;
     StudyGoalUpdates.createdAt := None;
     StudyGoalUpdates.completedAt := Some (Some now);
     StudyGoalUpdates.isActive := None;
     StudyGoalUpdates.tasks := None;
     StudyGoalUpdates.dailyCommitment := None;
     StudyGoalUpdates.weeklyCommitment := None;
     StudyGoalUpdates.preferredStudyTimes := None;
     StudyGoalUpdates.sessionsCompleted := None;
     StudyGoalUpdates.flashcardsCreated := None;
     StudyGoalUpdates.flashcardsMastered := None;
     StudyGoalUpdates.currentStreak := None;
     StudyGoalUpdates.storyMilestones := None;
     StudyGoalUpdates.currentChapter := None |}.

(** [{ status: 'completed' }] *)
Definition task_done : GoalTaskUpdates.t :=
  {| GoalTaskUpdates.id := None;
     GoalTaskUpdates.goalId := None;
     GoalTaskUpdates.title := None;
     GoalTaskUpdates.description := None;
     GoalTaskUpdates.status := Some completed;
     GoalTaskUpdates.estimatedMinutes := None;
     GoalTaskUpdates.actualMinutes := None;
     GoalTaskUpdates.dueDate := None;
     GoalTaskUpdates.completedAt := None;
     GoalTaskUpdates.tags := None;
     GoalTaskUpdates.flashcardCount := None;
     GoalTaskUpdates.notesLink := None |}.

(** A session on the task ["t2"] of [halfway] that completes it. *)
Definition task_link : SessionGoalLink.t :=
  {| SessionGoalLink.sessionId := "s2";
     SessionGoalLink.goalId := "g2";
     SessionGoalLink.taskId := Some "t2";
     SessionGoalLink.minutesWorked := 50;
     SessionGoalLink.focusRating := 5;
     SessionGoalLink.progressMade := true;
     SessionGoalLink.completedTask := true;
     SessionGoalLink.notes := None;
     SessionGoalLink.timestamp := now |}.

Definition task_due (id : string) (status : TaskStatus) (dueDate : JS.Date) : GoalTask.t :=
  {| GoalTask.id := id;
     GoalTask.goalId := "g5";
     GoalTask.title := "Hand in the sheet";
     GoalTask.description := None;
     GoalTask.status := status;
     GoalTask.estimatedMinutes := None;
     GoalTask.actualMinutes := 0;
     GoalTask.dueDate := Some dueDate;
     GoalTask.completedAt := None;
     GoalTask.tags := nil;
     GoalTask.flashcardCount := None;
     GoalTask.notesLink := None |}.

(** A goal with a task done, a task that was due yesterday, and a task
    in progress that is due in five days. *)
Definition overdue : GoalTask.t := task_due "t3" not_started (9 * day)%Z.
Definition running : GoalTask.t := task_due "t4" in_progress (15 * day)%Z.

Definition planner : StudyGoal.t :=
  goal "g5" None medium None 0 (task "t1" completed :: overdue :: running :: nil) 0%nat.

Definition planner_storage : LocalStorage :=
  storage (Some (Json (planner :: nil))) None.

End Sample.

(** * Properties *)

(** ** Numbers *)

Lemma ltb_lt x y : JS.ltb x y = true <-> x < y.
Proof.
  unfold JS.ltb. rewrite negb_true_iff, <- not_true_iff_false, Qle_bool_iff.
  split; [apply Qnot_le_lt | apply Qlt_not_le].
Qed.

Lemma ltb_ge x y : JS.ltb x y = false <-> y <= x.
Proof. unfold JS.ltb. rewrite negb_false_iff. apply Qle_bool_iff. Qed.

Lemma leb_le x y : JS.leb x y = true <-> x <= y.
Proof. apply Qle_bool_iff. Qed.

Lemma leb_gt x y : JS.leb x y = false <-> y < x.
Proof.
  unfold JS.leb. rewrite <- not_true_iff_false, Qle_bool_iff.
  split; [apply Qnot_le_lt | apply Qlt_not_le].
Qed.

Lemma gtb_gt x y : JS.gtb x y = true <-> y < x.
Proof. apply ltb_lt. Qed.

Lemma gtb_le x y : JS.gtb x y = false <-> x <= y.
Proof. apply ltb_ge. Qed.

Lemma geb_ge x y : JS.geb x y = true <-> y <= x.
Proof. apply leb_le. Qed.

Lemma geb_lt x y : JS.geb x y = false <-> x < y.
Proof. apply leb_gt. Qed.

Lemma max_cases x y :
  (x <= y /\ JS.Math_max x y == y) \/ (y <= x /\ JS.Math_max x y == x).
Proof.
  unfold JS.Math_max.
  destruct (Q.max_spec x y) as [[H E]|[H E]]; [left|right]; split;
    auto using Qlt_le_weak.
Qed.

Lemma min_cases x y :
  (x <= y /\ JS.Math_min x y == x) \/ (y <= x /\ JS.Math_min x y == y).
Proof.
  unfold JS.Math_min.
  destruct (Q.min_spec x y) as [[H E]|[H E]]; [left|right]; split;
    auto using Qlt_le_weak.
Qed.

(** Case analysis on a [Math.max] or [Math.min] of the goal: the call is
    replaced by a variable, with the linear facts that describe it. *)
Ltac minmax_case :=
  match goal with
  | |- context [JS.Math_max ?a ?b] =>
      let m := fresh "m" in
      let Em := fresh "Em" in
      let H := fresh "Hmax" in
      let E := fresh "Emax" in
      destruct (max_cases a b) as [[H E]|[H E]];
      remember (JS.Math_max a b) as m eqn:Em; clear Em; revert H E
  | |- context [JS.Math_min ?a ?b] =>
      let m := fresh "m" in
      let Em := fresh "Em" in
      let H := fresh "Hmin" in
      let E := fresh "Emin" in
      destruct (min_cases a b) as [[H E]|[H E]];
      remember (JS.Math_min a b) as m eqn:Em; clear Em; revert H E
  end.
Ltac minmax := repeat minmax_case; intros.

Lemma truncate_inject (z : Z) : JS.truncate (inject_Z z) = z.
Proof.
  unfold JS.truncate.
  destruct (Qle_bool 0 (inject_Z z)); [apply Qfloor_Z | apply Qceiling_Z].
Qed.

Lemma truncate_comp x y : x == y -> JS.truncate x = JS.truncate y.
Proof.
  intros E. unfold JS.truncate. rewrite (Qleb_comp 0 0 (Qeq_refl 0) x y E).
  destruct (Qle_bool 0 y); [apply Qfloor_comp | apply Qceiling_comp]; exact E.
Qed.

(** ** The scheduler *)

Section ReviewCard.
Import SpacedRepetitionScheduler.

Lemma easeFactor_reviewCard now card result :
  FlashcardData.easeFactor (reviewCard now card result)
  = JS.Math_max MIN_EASE_FACTOR
      (FlashcardData.easeFactor card
       + (0.1 - (5 - clamped result) * (0.08 + (5 - clamped result) * 0.02))).
Proof.
  unfold reviewCard. fold (clamped result).
  destruct (JS.ltb (clamped result) 3); [reflexivity|].
  destruct (Nat.eqb _ 1); [reflexivity|].
  destruct (Nat.eqb _ 2); reflexivity.
Qed.

Lemma easeFactor_reviewCard_ge (now : JS.Date) (card : FlashcardData.t)
    (result : ReviewResult.t) :
  1.3 <= FlashcardData.easeFactor (reviewCard now card result).
Proof. rewrite easeFactor_reviewCard. unfold MIN_EASE_FACTOR. minmax; lra. Qed.



(** The bound is an invariant of every run of reviews. *)
Corollary easeFactor_lower_bound_reviewAll (reviews : list (JS.Date * ReviewResult.t))
    (card : FlashcardData.t) :
  1.3 <= FlashcardData.easeFactor card ->
  1.3 <= FlashcardData.easeFactor (reviewAll card reviews).
Proof.
  revert card. induction reviews as [|[now result] reviews IH]; intros card H.
  - exact H.
  - cbn. apply IH. apply easeFactor_reviewCard_ge.
Qed.

(** Every card that the scheduler creates and then reviews, any number
    of times, keeps an ease factor of at least 1.3. *)
Corollary easeFactor_invariant (now : JS.Date) (uuid front back : string)
    (tags : option (list string)) (source : option FlashcardData.Source)
    (sessionId : option string) (reviews : list (JS.Date * ReviewResult.t)) :
  1.3 <= FlashcardData.easeFactor
           (reviewAll (createFlashcard now uuid front back tags source sessionId)
              reviews).
Proof.
  apply easeFactor_lower_bound_reviewAll. cbn. unfold INITIAL_EASE_FACTOR. lra.
Qed.

End ReviewCard.

(** ** Reading the storage *)

Lemma map_revive_goals (l : list StudyGoal.t) : map GoalManager.revive l = l.
Proof. apply map_id. Qed.

Lemma getGoals_ok (ls : LocalStorage) :
  GoalManager.getGoals ls = Ok (stored_goals ls).
Proof.
  unfold GoalManager.getGoals, stored_goals.
  destruct (goals_item ls) as [[text|text|goals]|]; cbn.
  - destruct (decide (text = EmptyString)); reflexivity.
  - reflexivity.
  - now rewrite map_revive_goals.
  - reflexivity.
Qed.

Lemma getActiveGoals_ok (ls : LocalStorage) :
  GoalManager.getActiveGoals ls = Ok (List.filter GoalManager.is_active (stored_goals ls)).
Proof. unfold GoalManager.getActiveGoals. now rewrite getGoals_ok. Qed.

Lemma calculateProgress_ok (ls : LocalStorage) (now : JS.Date) (goalId : string) :
  GoalManager.calculateProgress ls now goalId = Ok (progress_for ls now goalId).
Proof.
  unfold GoalManager.calculateProgress, progress_for, goal_with_id.
  rewrite getGoals_ok. cbn. now destruct (find _ _).
Qed.

(** The fields of [progress_of], one by one. *)
Ltac progress_of_cases goal :=
  unfold GoalManager.progress_of;
  destruct (StudyGoal.deadline goal);
  [ destruct (JS.gtb (GoalManager.targetHours_or_0 goal) 0);
    [ match goal with |- context [(0 <? ?d)%Z] => destruct (0 <? d)%Z end | ]
  | destruct (StudyGoal.dailyCommitment goal) as [dc|];
    [ destruct (JS.truthy dc && JS.gtb (GoalManager.targetHours_or_0 goal) 0) | ] ].


Lemma targetHours_or_0_target goal :
  GoalManager.targetHours_or_0 goal == hour_target goal.
Proof.
  unfold GoalManager.targetHours_or_0, hour_target, JS.truthy.
  destruct (StudyGoal.targetHours goal) as [h|]; [|reflexivity].
  destruct (Qeq_bool h 0) eqn:E; cbn; [|reflexivity].
  symmetry. now apply Qeq_bool_eq.
Qed.

Lemma targetHours_progress_of now goalId goal :
  GoalProgress.targetHours (GoalManager.progress_of now goalId goal)
  = GoalManager.targetHours_or_0 goal.
Proof. progress_of_cases goal; reflexivity. Qed.

Lemma count_completed_le (tasks : list GoalTask.t) :
  (GoalManager.count_completed tasks <= length tasks)%nat.
Proof. unfold GoalManager.count_completed. apply filter_length_le. Qed.

Lemma of_nat_le (n m : nat) : (n <= m)%nat -> JS.of_nat n <= JS.of_nat m.
Proof. intros H. unfold JS.of_nat. rewrite <- Zle_Qle. lia. Qed.

Lemma of_nat_pos (n : nat) : (0 < n)%nat -> 0 < JS.of_nat n.
Proof. intros H. unfold JS.of_nat. change 0 with (inject_Z 0). rewrite <- Zlt_Qlt. lia. Qed.

Lemma of_nat_nonneg (n : nat) : 0 <= JS.of_nat n.
Proof. unfold JS.of_nat. change 0 with (inject_Z 0). rewrite <- Zle_Qle. lia. Qed.

(** A completed-task ratio lies between 0 and 100. *)
Lemma task_percentage_range (t n : nat) :
  (t <= n)%nat -> (0 < n)%nat ->
  0 <= JS.of_nat t / JS.of_nat n * 100 <= 100.
Proof.
  intros Hle Hpos.
  pose proof (of_nat_le _ _ Hle) as H1.
  pose proof (of_nat_pos _ Hpos) as H2.
  pose proof (of_nat_nonneg t) as H3.
  revert H1 H2 H3. generalize (JS.of_nat t) (JS.of_nat n). intros a b H1 H2 H3.
  assert (Hq : 0 <= a / b /\ a / b <= 1).
  { split.
    - apply Qle_shift_div_l; [exact H2 | lra].
    - apply Qle_shift_div_r; [exact H2 | lra]. }
  destruct Hq. split; nra.
Qed.

Lemma find_has_id_None (goalId : string) (goals : list StudyGoal.t) :
  find (GoalManager.has_id goalId) goals = None
  <-> (forall g, In g goals -> StudyGoal.id g <> goalId).
Proof.
  split.
  - intros H g Hin E. apply (find_none _ _ H) in Hin.
    unfold GoalManager.has_id in Hin. apply String.eqb_neq in Hin. contradiction.
  - intros H. induction goals as [|g goals IH]; [reflexivity|]. cbn.
    destruct (GoalManager.has_id goalId g) eqn:E.
    + apply String.eqb_eq in E. exfalso. apply (H g); [now left | exact E].
    + apply IH. intros g' Hin. apply H. now right.
Qed.

(** ** Progress *)

Section ProgressClaims.
Import GoalManager.



End ProgressClaims.

(** ** On track *)

Section OnTrack.
Import GoalManager.

Lemma MS_PER_DAY_value : MS_PER_DAY == 86400000.
Proof. reflexivity. Qed.

Lemma days_until_code now deadline :
  JS.Math_ceil ((JS.getTime deadline - JS.getTime now) / MS_PER_DAY)
  = OnTrackSpec.days_until now deadline.
Proof.
  unfold JS.Math_ceil, OnTrackSpec.days_until, JS.getTime.
  apply Qceiling_comp. now rewrite MS_PER_DAY_value.
Qed.

Lemma daysUntilDeadline_progress_of now goalId goal :
  GoalProgress.daysUntilDeadline (progress_of now goalId goal)
  = option_map (OnTrackSpec.days_until now) (StudyGoal.deadline goal).
Proof.
  progress_of_cases goal; cbn; try reflexivity; now rewrite days_until_code.
Qed.

End OnTrack.

(** ** Unreadable blobs *)

(** C7.  When the flashcards blob (the goals blob) is absent, or is
    present and not parseable as JSON, [loadCards] ([getGoals]) returns
    the empty list and throws nothing. *)
Theorem load_unreadable (ls : LocalStorage) :
  (absent (flashcards_item ls) \/ unparseable (flashcards_item ls) ->
   FlashcardStorage.loadCards ls = Ok nil)
  /\ (absent (goals_item ls) \/ unparseable (goals_item ls) ->
      GoalManager.getGoals ls = Ok nil).
Proof.
  split.
  - unfold FlashcardStorage.loadCards.
    intros [-> | [text ->]]; [reflexivity|]. cbn.
    destruct (decide (text = EmptyString)); reflexivity.
  - unfold GoalManager.getGoals.
    intros [-> | [text ->]]; [reflexivity|]. cbn.
    destruct (decide (text = EmptyString)); reflexivity.
Qed.

Lemma load_unreadable_witness :
  FlashcardStorage.loadCards Sample.corrupt_storage = Ok nil
  /\ GoalManager.getGoals Sample.corrupt_storage = Ok nil
  /\ FlashcardStorage.loadCards Sample.halfway_storage = Ok nil.
Proof.
  destruct (load_unreadable Sample.corrupt_storage) as [Hcards Hgoals].
  destruct (load_unreadable Sample.halfway_storage) as [Hcards' _].
  split; [apply Hcards; right; eexists; reflexivity|].
  split; [apply Hgoals; right; eexists; reflexivity|].
  apply Hcards'. left. reflexivity.
Defined.

(** Both functions are total: they return a list for every storage. *)
Lemma load_never_throws (ls : LocalStorage) :
  (exists cards, FlashcardStorage.loadCards ls = Ok cards)
  /\ (exists goals, GoalManager.getGoals ls = Ok goals).
Proof.
  split; [|eexists; apply getGoals_ok].
  unfold FlashcardStorage.loadCards.
  destruct (flashcards_item ls) as [[text|text|cards]|]; cbn; [|eauto..].
  destruct (decide (text = EmptyString)); eauto.
Qed.

(** ** Session linking *)

Section LinkSession.
Import GoalManager.

Lemma saveMilestones_ok ls goalId milestones :
  StoryGoalEngine.saveMilestones ls goalId milestones
  = Ok (with_milestones ls goalId milestones).
Proof.
  unfold StoryGoalEngine.saveMilestones, setItem_milestones, with_milestones.
  now destruct (write_fails ls).
Qed.

(** C10 (as amended).  For a session link whose [goalId] matches no
    stored goal, [linkSessionToGoal] leaves the goals blob (every stored
    goal, with its hours, sessions and tasks) and the other blobs but
    the session log unchanged.  When the storage takes the write, it
    appends the link to the stored session log if that log is absent,
    empty or a JSON array.  When the stored text is not JSON, or is JSON
    but no array (the [push] then throws), or the storage refuses the
    write, the storage is left as it was. *)
Theorem linkSession_unknown_goal (ls : LocalStorage) (now : JS.Date)
    (sessionLink : SessionGoalLink.t) :
  (forall g, In g (stored_goals ls) ->
             StudyGoal.id g <> SessionGoalLink.goalId sessionLink) ->
  exists ls', linkSessionToGoal ls now sessionLink = Ok ls'
    /\ goals_item ls' = goals_item ls
    /\ flashcards_item ls' = flashcards_item ls
    /\ milestones_items ls' = milestones_items ls
    /\ (write_fails ls = false ->
        (sessions_item ls = None \/ sessions_item ls = Some (NotJson EmptyString) ->
         sessions_item ls' = Some (Json (sessionLink :: nil)))
        /\ (forall sessions,
              sessions_item ls = Some (Json sessions) ->
              sessions_item ls' = Some (Json (sessions ++ sessionLink :: nil))))
    /\ ((exists text, text <> EmptyString /\ sessions_item ls = Some (NotJson text))
        \/ (exists text, sessions_item ls = Some (NotArray text))
        \/ write_fails ls = true ->
        ls' = ls).
Proof.
  intros Hnone. apply find_has_id_None in Hnone.
  unfold linkSessionToGoal.
  destruct (if is_falsy (sessions_item ls) then Ok nil else JSON_parse (sessions_item ls))
    as [sessions|error] eqn:Hread; cbn.
  - unfold setItem_sessions. destruct (write_fails ls) eqn:Hw; cbn.
    + exists ls. repeat split; try reflexivity; discriminate.
    + rewrite getGoals_ok. unfold stored_goals at 1. cbn.
      fold (stored_goals ls). rewrite Hnone.
      eexists. split; [reflexivity|]. cbn. repeat split; try reflexivity.
      * intros [E|E]; rewrite E in Hread; cbn in Hread; now injection Hread as <-.
      * intros sessions' E. rewrite E in Hread. cbn in Hread. now injection Hread as <-.
      * intros [(text & Hne & E) | [(text & E) | E]]; [| |discriminate E];
          rewrite E in Hread; cbn in Hread; [|discriminate Hread].
        destruct (decide (text = EmptyString)); [contradiction | discriminate Hread].
  - exists ls. repeat split; try reflexivity.
    + intros [E|E]; rewrite E in Hread; discriminate Hread.
    + intros sessions' E. rewrite E in Hread. discriminate Hread.
Qed.

Lemma linkSession_unknown_goal_witness :
  exists ls', linkSessionToGoal Sample.halfway_storage Sample.now (Sample.link "g9")
              = Ok ls'
    /\ goals_item ls' = goals_item Sample.halfway_storage
    /\ sessions_item ls' = Some (Json (Sample.link "g9" :: nil)).
Proof.
  destruct (linkSession_unknown_goal Sample.halfway_storage Sample.now
              (Sample.link "g9")) as (ls' & Hls' & Hgoals & _ & _ & Hlog & _).
  - intros g [<-|[]]. discriminate.
  - exists ls'. split; [exact Hls'|]. split; [exact Hgoals|].
    destruct (Hlog eq_refl) as (Hempty & _). apply Hempty. now left.
Defined.

(** C10, the counterexample: the session log is not JSON; the link names
    no stored goal, and it is not in the log after the call.  The same
    happens when the log holds the JSON text of an object, on which
    [push] throws, and when the log is a JSON array and the storage
    refuses the write. *)
Lemma linkSession_unknown_goal_counterexample :
  ((forall g, In g (stored_goals Sample.corrupt_storage) ->
              StudyGoal.id g <> SessionGoalLink.goalId (Sample.link "g9"))
   /\ linkSessionToGoal Sample.corrupt_storage Sample.now (Sample.link "g9")
      = Ok Sample.corrupt_storage
   /\ ~ logged Sample.corrupt_storage (Sample.link "g9"))
  /\ ((forall g, In g (stored_goals Sample.object_log_storage) ->
                 StudyGoal.id g <> SessionGoalLink.goalId (Sample.link "g9"))
      /\ linkSessionToGoal Sample.object_log_storage Sample.now (Sample.link "g9")
         = Ok Sample.object_log_storage
      /\ ~ logged Sample.object_log_storage (Sample.link "g9"))
  /\ ((forall g, In g (stored_goals Sample.full_storage) ->
                 StudyGoal.id g <> SessionGoalLink.goalId (Sample.link "g9"))
      /\ linkSessionToGoal Sample.full_storage Sample.now (Sample.link "g9")
         = Ok Sample.full_storage
      /\ ~ logged Sample.full_storage (Sample.link "g9")).
Proof.
  split; [|split].
  - split; [intros g []|]. split; [reflexivity|].
    intros (sessions & H & _). discriminate H.
  - split; [intros g [<-|[]]; discriminate|]. split; [reflexivity|].
    intros (sessions & H & _). discriminate H.
  - split; [intros g [<-|[]]; discriminate|]. split; [reflexivity|].
    intros (sessions & [= <-] & []).
Qed.

End LinkSession.

(** ** Sorting *)

Section ArraySort.
Context {A : Type} (compare : A -> A -> Z) (key : A -> Z).
Hypothesis compare_key : forall a b, (compare a b <= 0)%Z <-> (key b <= key a)%Z.

(** [a] comes before [b] in a list sorted by non-increasing key. *)
Let before (a b : A) : Prop := (key b <= key a)%Z.

Lemma sort_insert_perm (a : A) (l : list A) :
  Permutation (sort_insert compare a l) (a :: l).
Proof using Type.
  induction l as [|b l IH]; cbn; [reflexivity|].
  destruct (compare a b <=? 0)%Z; [reflexivity|].
  rewrite IH. apply perm_swap.
Qed.

Lemma Array_sort_perm (l : list A) : Permutation (Array_sort compare l) l.
Proof using Type.
  induction l as [|a l IH]; cbn; [reflexivity|].
  rewrite sort_insert_perm. now constructor.
Qed.

Lemma sort_insert_sorted (a : A) (l : list A) :
  StronglySorted before l -> StronglySorted before (sort_insert compare a l).
Proof using compare_key.
  induction 1 as [|b l Hl IH Hb]; cbn.
  - repeat constructor.
  - destruct (compare a b <=? 0)%Z eqn:E.
    + apply Z.leb_le, compare_key in E.
      constructor; [now constructor|].
      constructor; [exact E|].
      eapply List.Forall_impl; [|exact Hb]. unfold before. intros c Hc. lia.
    + apply Z.leb_gt in E.
      assert (Hab : before b a).
      { unfold before. destruct (Z.le_gt_cases (key a) (key b)) as [H|H]; [exact H|].
        exfalso. assert (compare a b <= 0)%Z by (apply compare_key; lia). lia. }
      constructor; [exact IH|].
      rewrite (sort_insert_perm a l). now constructor.
Qed.

Lemma Array_sort_sorted (l : list A) : StronglySorted before (Array_sort compare l).
Proof using compare_key.
  induction l as [|a l IH]; cbn; [constructor | now apply sort_insert_sorted].
Qed.

End ArraySort.

Lemma for_each_push_total {A B} (body : A -> result B) (f : A -> B) (l : list A) :
  (forall a, body a = Ok (f a)) -> for_each_push body l = Ok (map f l).
Proof.
  intros H. induction l as [|a l IH]; cbn; [reflexivity|]. now rewrite H, IH.
Qed.

(** ** Recommendations *)

Section Recommendations.
Import GoalManager.

Lemma by_priority_key (a b : DailyRecommendation.t) :
  (by_priority a b <= 0)%Z
  <-> (DailyRecommendation.priority b <= DailyRecommendation.priority a)%Z.
Proof. unfold by_priority. lia. Qed.

Lemma getDailyRecommendations_ok (ls : LocalStorage) (now : JS.Date) :
  getDailyRecommendations ls now
  = Ok (Array_sort by_priority
          (map (recommendation_for ls now) (List.filter is_active (stored_goals ls)))).
Proof.
  unfold getDailyRecommendations. rewrite getActiveGoals_ok. cbn.
  rewrite (for_each_push_total _ (recommendation_for ls now)); [reflexivity|].
  intros goal. now rewrite calculateProgress_ok.
Qed.

Lemma priority_recommendation (goal : StudyGoal.t) (progress : GoalProgress.t) :
  DailyRecommendation.priority (recommendation goal progress)
  = (PrioritySpec.urgencyTier (GoalProgress.daysUntilDeadline progress)
     + PrioritySpec.boost (StudyGoal.priority goal))%Z.
Proof.
  unfold recommendation, PrioritySpec.urgencyTier.
  destruct (GoalProgress.daysUntilDeadline progress) as [d|].
  - destruct (d <=? 2)%Z; [|destruct (d <=? 7)%Z; [|destruct (d <=? 14)%Z]];
      cbn -[Z.add]; repeat (match goal with |- context [if ?c then _ else _] =>
                                      destruct c end); cbn -[Z.add];
      now destruct (StudyGoal.priority goal).
  - cbn -[Z.add]. repeat (match goal with |- context [if ?c then _ else _] =>
                                      destruct c end); cbn -[Z.add];
      now destruct (StudyGoal.priority goal).
Qed.

Lemma goalId_recommendation (goal : StudyGoal.t) (progress : GoalProgress.t) :
  DailyRecommendation.goalId (recommendation goal progress) = StudyGoal.id goal.
Proof.
  unfold recommendation.
  destruct (GoalProgress.daysUntilDeadline progress) as [d|].
  - destruct (d <=? 2)%Z; [|destruct (d <=? 7)%Z; [|destruct (d <=? 14)%Z]];
      cbn; repeat (match goal with |- context [if ?c then _ else _] =>
                                      destruct c end); reflexivity.
  - cbn. repeat (match goal with |- context [if ?c then _ else _] =>
                                      destruct c end); reflexivity.
Qed.

End Recommendations.

Section RecommendationClaims.
Import GoalManager.

(** A stored goal is the one found under its id when the ids of the
    stored goals are pairwise different. *)
Lemma goal_with_id_own (ls : LocalStorage) (goal : StudyGoal.t) :
  List.NoDup (map StudyGoal.id (stored_goals ls)) ->
  In goal (stored_goals ls) ->
  goal_with_id ls (StudyGoal.id goal) = Some goal.
Proof.
  unfold goal_with_id. induction (stored_goals ls) as [|g goals IH]; [intros _ []|].
  cbn. intros Hnd Hin. apply List.NoDup_cons_iff in Hnd as [Hnotin Hnd].
  unfold has_id at 1. destruct (String.eqb_spec (StudyGoal.id g) (StudyGoal.id goal)) as [E|E].
  - destruct Hin as [->|Hin]; [reflexivity|].
    exfalso. apply Hnotin. rewrite E. now apply in_map.
  - destruct Hin as [->|Hin]; [contradiction|]. now apply IH.
Qed.

Lemma active_goals_filter (ls : LocalStorage) :
  List.filter is_active (stored_goals ls) = active_goals ls.
Proof.
  unfold active_goals. apply List.filter_ext. intros g. unfold is_active.
  now destruct (StudyGoal.completedAt g).
Qed.

(** C6 (as amended).  [getDailyRecommendations] returns one
    recommendation for each active goal (a stored goal with [isActive]
    set and no [completedAt]), sorted by non-increasing priority.  The
    priority of a goal's recommendation is the urgency tier of the
    [daysUntilDeadline] that [calculateProgress] reports for the id of
    the goal (10 when it is at most 2, 8 when at most 7, 6 when at most
    14, 4 otherwise, 5 when there is none) plus the boost of the goal's
    own priority (+3 critical, +2 high, 0 medium, -1 low).  The
    [daysUntilDeadline] reported is that of the deadline of the first
    stored goal with that id: the goal's own deadline when the ids of
    the stored goals are pairwise different. *)
Theorem dailyRecommendations_sorted (ls : LocalStorage) (now : JS.Date) :
  exists recs,
    getDailyRecommendations ls now = Ok recs
    /\ Permutation recs (map (recommendation_for ls now) (active_goals ls))
    /\ StronglySorted
         (fun a b => (DailyRecommendation.priority b <= DailyRecommendation.priority a)%Z)
         recs
    /\ (forall goal,
          DailyRecommendation.goalId (recommendation_for ls now goal) = StudyGoal.id goal
          /\ exists progress,
               calculateProgress ls now (StudyGoal.id goal) = Ok progress
               /\ DailyRecommendation.priority (recommendation_for ls now goal)
                  = (PrioritySpec.urgencyTier (GoalProgress.daysUntilDeadline progress)
                     + PrioritySpec.boost (StudyGoal.priority goal))%Z
               /\ (forall first,
                     goal_with_id ls (StudyGoal.id goal) = Some first ->
                     GoalProgress.daysUntilDeadline progress
                     = option_map (OnTrackSpec.days_until now) (StudyGoal.deadline first))
               /\ (unique_ids ls -> In goal (stored_goals ls) ->
                   GoalProgress.daysUntilDeadline progress
                   = option_map (OnTrackSpec.days_until now) (StudyGoal.deadline goal))).
Proof.
  eexists.
  split; [apply getDailyRecommendations_ok|].
  split; [rewrite <- active_goals_filter; apply Array_sort_perm|].
  split; [apply (Array_sort_sorted by_priority DailyRecommendation.priority by_priority_key)|].
  intros goal. split; [apply goalId_recommendation|].
  exists (progress_for ls now (StudyGoal.id goal)).
  split; [apply calculateProgress_ok|].
  split; [apply priority_recommendation|].
  assert (Hfirst : forall first,
            goal_with_id ls (StudyGoal.id goal) = Some first ->
            GoalProgress.daysUntilDeadline (progress_for ls now (StudyGoal.id goal))
            = option_map (OnTrackSpec.days_until now) (StudyGoal.deadline first)).
  { intros first Hown. unfold progress_for. rewrite Hown.
    apply daysUntilDeadline_progress_of. }
  split; [exact Hfirst|].
  intros Hnd Hin. apply Hfirst. now apply goal_with_id_own.
Qed.

(** The urgent goal comes first although it is stored last. *)
Example two_recommendations :
  exists r1 r2,
    getDailyRecommendations Sample.two_goals_storage Sample.now = Ok (r1 :: r2 :: nil)
    /\ DailyRecommendation.goalId r1 = "g4"
    /\ DailyRecommendation.priority r1 = 13%Z
    /\ DailyRecommendation.goalId r2 = "g3"
    /\ DailyRecommendation.priority r2 = 4%Z.
Proof. eexists. eexists. split; [vm_compute; reflexivity|]. repeat split. Qed.

End RecommendationClaims.

Lemma dailyRecommendations_sorted_witness :
  exists recs,
    GoalManager.getDailyRecommendations Sample.two_goals_storage Sample.now = Ok recs
    /\ length recs = 2%nat
    /\ DailyRecommendation.priority
         (recommendation_for Sample.two_goals_storage Sample.now Sample.urgent) = 13%Z
    /\ DailyRecommendation.priority
         (recommendation_for Sample.two_goals_storage Sample.now Sample.fresh) = 4%Z.
Proof.
  destruct (dailyRecommendations_sorted Sample.two_goals_storage Sample.now)
    as (recs & Hrecs & Hperm & _ & Hgoal).
  assert (Hnd : unique_ids Sample.two_goals_storage).
  { unfold unique_ids. cbn.
    apply List.NoDup_cons; [intros [H|[]]; discriminate H|].
    apply List.NoDup_cons; [intros []|]. apply List.NoDup_nil. }
  exists recs. split; [exact Hrecs|].
  split; [rewrite (Permutation_length Hperm); reflexivity|].
  split.
  - destruct (Hgoal Sample.urgent) as (_ & progress & _ & Hprio & _ & Hown).
    rewrite Hprio, (Hown Hnd); [reflexivity | right; now left].
  - destruct (Hgoal Sample.fresh) as (_ & progress & _ & Hprio & _ & Hown).
    rewrite Hprio, (Hown Hnd); [reflexivity | now left].
Defined.

(** C6, the counterexample: two active goals are stored under one id;
    the second has no deadline, but its recommendation is ranked by the
    deadline of the first, a day away: priority 10 where the tier of a
    goal without deadline gives 5. *)
Lemma dailyRecommendations_sorted_counterexample :
  In Sample.shadowed (active_goals Sample.twins_storage)
  /\ StudyGoal.deadline Sample.shadowed = None
  /\ (PrioritySpec.urgencyTier None + PrioritySpec.boost (StudyGoal.priority Sample.shadowed)
      = 5)%Z
  /\ exists r1 r2,
       GoalManager.getDailyRecommendations Sample.twins_storage Sample.now
       = Ok (r1 :: r2 :: nil)
       /\ DailyRecommendation.priority r1 = 10%Z
       /\ DailyRecommendation.priority r2 = 10%Z.
Proof.
  split; [right; now left|]. split; [reflexivity|]. split; [reflexivity|].
  eexists. eexists. split; [vm_compute; reflexivity|]. split; reflexivity.
Qed.

(** ** Stories *)

Section Stories.
Import StoryGoalEngine.

Lemma generateDefaultMilestones_ok ls goalId :
  generateDefaultMilestones ls goalId = Ok (default_milestones_for ls goalId).
Proof.
  unfold generateDefaultMilestones, default_milestones_for, goal_with_id.
  rewrite getGoals_ok. cbn. destruct (find _ _); [|reflexivity].
  now rewrite saveMilestones_ok.
Qed.

Lemma getMilestones_ok ls goalId :
  getMilestones ls goalId = Ok (milestones_for ls goalId).
Proof.
  unfold getMilestones, milestones_for.
  destruct (milestones_items ls !! goalId) as [[text|text|milestones]|]; cbn.
  - destruct (decide (text = EmptyString)); cbn;
      now rewrite generateDefaultMilestones_ok.
  - now rewrite generateDefaultMilestones_ok.
  - now rewrite map_id.
  - now rewrite generateDefaultMilestones_ok.
Qed.

Lemma checkForMilestone_ok ls goal progress focusLevel :
  checkForMilestone ls goal progress focusLevel
  = Ok (first_unlockable goal progress (fst (milestones_for ls (StudyGoal.id goal))),
        snd (milestones_for ls (StudyGoal.id goal))).
Proof.
  unfold checkForMilestone. rewrite getMilestones_ok. cbn.
  now destruct (milestones_for ls (StudyGoal.id goal)).
Qed.

Lemma unlockMilestone_total ls now milestoneId :
  exists ls', unlockMilestone ls now milestoneId = Ok ls'.
Proof.
  unfold unlockMilestone. rewrite getMilestones_ok. cbn.
  destruct (milestones_for ls (before_dash milestoneId)) as [milestones ls1].
  destruct (find _ milestones); [rewrite saveMilestones_ok|]; eauto.
Qed.

(** A milestone that the check returns is still locked. *)
Lemma first_unlockable_locked goal progress milestones m :
  first_unlockable goal progress milestones = Some m ->
  StoryContent.unlocked (StoryMilestone.storyContent m) = false.
Proof.
  induction milestones as [|m' rest IH]; cbn; [discriminate|].
  destruct (StoryContent.unlocked (StoryMilestone.storyContent m')) eqn:E; [exact IH|].
  destruct (shouldUnlock goal progress m'); [|exact IH].
  now intros [= <-].
Qed.

Lemma chapter_getAdaptiveStory goal progress focusLevel isBreak :
  AdaptiveStoryContent.chapter (getAdaptiveStory goal progress focusLevel isBreak)
  = ChapterSpec.chapter_of (GoalProgress.progressPercentage progress).
Proof.
  unfold getAdaptiveStory, ChapterSpec.chapter_of.
  generalize (GoalProgress.progressPercentage progress). intros pp.
  destruct (JS.ltb pp 25) eqn:H25; [apply ltb_lt in H25 | apply ltb_ge in H25];
    destruct (Qlt_le_dec pp 25); try lra; [reflexivity|].
  destruct (JS.ltb pp 50) eqn:H50; [apply ltb_lt in H50 | apply ltb_ge in H50];
    destruct (Qlt_le_dec pp 50); try lra; [reflexivity|].
  destruct (JS.ltb pp 75) eqn:H75; [apply ltb_lt in H75 | apply ltb_ge in H75];
    destruct (Qlt_le_dec pp 75); try lra; reflexivity.
Qed.

Lemma milestone_getAdaptiveStory goal progress focusLevel isBreak :
  AdaptiveStoryContent.milestone (getAdaptiveStory goal progress focusLevel isBreak)
  = None.
Proof.
  unfold getAdaptiveStory.
  destruct (JS.ltb _ 25); [reflexivity|].
  destruct (JS.ltb _ 50); [reflexivity|].
  destruct (JS.ltb _ 75); reflexivity.
Qed.

(** C5 (as amended).  When [getStoryForSession] is called with the
    non-empty id of an existing goal and no milestone unlocks during the
    call, the chapter of the story is chosen by the thresholds 25, 50
    and 75 on the progress percentage alone: the story carries no
    milestone, and the focus level, the break flag and the session
    count do not change the chapter. *)
Theorem chapter_by_progress (ls : LocalStorage) (now : JS.Date) (goalId : string)
    (goal : StudyGoal.t) (focusLevel : JS.number) (isBreak : bool) (sessionCount : nat) :
  goalId <> EmptyString ->
  goal_with_id ls goalId = Some goal ->
  no_unlock ls now goal focusLevel ->
  exists story ls',
    getStoryForSession ls now (Some goalId) focusLevel isBreak sessionCount
    = Ok (story, ls')
    /\ AdaptiveStoryContent.milestone story = None
    /\ AdaptiveStoryContent.chapter story
       = ChapterSpec.chapter_of
           (GoalProgress.progressPercentage (progress_for ls now goalId))
    /\ (forall focusLevel' isBreak' sessionCount',
          exists story' ls'',
            getStoryForSession ls now (Some goalId) focusLevel' isBreak' sessionCount'
            = Ok (story', ls'')
            /\ AdaptiveStoryContent.chapter story' = AdaptiveStoryContent.chapter story).
Proof.
  intros Hid Hfind [ls1 Hcheck].
  assert (Eid : StudyGoal.id goal = goalId).
  { unfold goal_with_id in Hfind. apply find_some in Hfind as [_ H].
    now apply String.eqb_eq in H. }
  rewrite Eid in Hcheck.
  assert (Hstory : forall f b n,
    getStoryForSession ls now (Some goalId) f b n
    = Ok (getAdaptiveStory goal (progress_for ls now goalId) f b, ls1)).
  { intros f b n. unfold getStoryForSession.
    apply String.eqb_neq in Hid. rewrite Hid.
    rewrite calculateProgress_ok, getGoals_ok. cbn.
    fold (goal_with_id ls goalId). rewrite Hfind.
    change (checkForMilestone ls goal (progress_for ls now goalId) f)
      with (checkForMilestone ls goal (progress_for ls now goalId) focusLevel).
    rewrite Hcheck. reflexivity. }
  eexists. eexists. split; [apply Hstory|].
  split; [apply milestone_getAdaptiveStory|].
  split; [apply chapter_getAdaptiveStory|].
  intros f b n. eexists. eexists. split; [apply Hstory|].
  now rewrite !chapter_getAdaptiveStory.
Qed.

End Stories.

Section StoryExamples.
Import StoryGoalEngine.

Lemma chapter_by_progress_witness :
  exists story ls',
    getStoryForSession Sample.veteran_storage Sample.now (Some "g2") 5 false 3%nat
    = Ok (story, ls')
    /\ AdaptiveStoryContent.chapter story = "Chapter 2: The Dragon Weakens".
Proof.
  destruct (chapter_by_progress Sample.veteran_storage Sample.now "g2" Sample.halfway
              5 false 3%nat) as (story & ls' & Hstory & _ & Hchapter & _).
  - discriminate.
  - reflexivity.
  - eexists. vm_compute. reflexivity.
  - exists story, ls'. split; [exact Hstory|]. rewrite Hchapter. reflexivity.
Defined.

(** C5, the counterexample: a stored goal whose id is the empty string,
    with nothing done and so no milestone to unlock.  The guard
    [!goalId] sends the call to the focus-based story, whose chapter is
    chosen by the session count. *)
Lemma chapter_by_progress_counterexample :
  goal_with_id Sample.nameless_storage "" = Some Sample.nameless
  /\ no_unlock Sample.nameless_storage Sample.now Sample.nameless 5
  /\ exists story story',
       getStoryForSession Sample.nameless_storage Sample.now (Some "") 5 false 3%nat
       = Ok (story, Sample.nameless_storage)
       /\ getStoryForSession Sample.nameless_storage Sample.now (Some "") 5 false 0%nat
          = Ok (story', Sample.nameless_storage)
       /\ AdaptiveStoryContent.milestone story = None
       /\ AdaptiveStoryContent.chapter story = "Chapter 2: The Battle Intensifies"
       /\ AdaptiveStoryContent.chapter story' = "Chapter 1: The Dragon Awakens"
       /\ AdaptiveStoryContent.chapter story
          <> ChapterSpec.chapter_of
               (GoalProgress.progressPercentage
                  (progress_for Sample.nameless_storage Sample.now ""))
       /\ AdaptiveStoryContent.chapter story' <> AdaptiveStoryContent.chapter story.
Proof.
  split; [reflexivity|].
  split; [eexists; vm_compute; reflexivity|].
  eexists. eexists.
  split; [reflexivity|]. split; [reflexivity|]. split; [reflexivity|].
  split; [reflexivity|]. split; [reflexivity|].
  split; vm_compute; discriminate.
Qed.

(** The id of a milestone is [goalId + '-' + name], and [unlockMilestone]
    recovers the goal id as the part of the milestone id before its first
    dash.  For a goal id that itself has a dash the milestones are looked
    up under another key and the unlock is lost: the same milestone story
    comes back at the next call. *)
Remark unlock_lost_for_dashed_id :
  exists story ls' story2,
    getStoryForSession Sample.dashed_storage Sample.now (Some "a-b") 5 false 1%nat
    = Ok (story, ls')
    /\ getStoryForSession ls' Sample.now (Some "a-b") 5 false 2%nat = Ok (story2, ls')
    /\ AdaptiveStoryContent.chapter story = "🎯 First Steps"
    /\ AdaptiveStoryContent.chapter story2 = "🎯 First Steps".
Proof.
  eexists. eexists. eexists.
  split; [vm_compute; reflexivity|].
  split; [vm_compute; reflexivity|].
  split; reflexivity.
Qed.

(** For a goal id without a dash the unlock is stored and the next call
    moves on to the next milestone. *)
Remark unlock_kept_for_plain_id :
  exists story ls' story2 ls'',
    getStoryForSession Sample.halfway_storage Sample.now (Some "g2") 5 false 1%nat
    = Ok (story, ls')
    /\ getStoryForSession ls' Sample.now (Some "g2") 5 false 2%nat = Ok (story2, ls'')
    /\ AdaptiveStoryContent.chapter story = "🎯 First Steps"
    /\ AdaptiveStoryContent.chapter story2 = "⚔️ First Blood".
Proof.
  eexists. eexists. eexists. eexists.
  split; [vm_compute; reflexivity|].
  split; [vm_compute; reflexivity|].
  split; reflexivity.
Qed.

End StoryExamples.

(** * Further properties of the scheduler, the goals and the stories *)

(** ** Sorting with a comparator that is a total preorder *)

Section ArraySortOrder.
Context {A : Type} (compare : A -> A -> Z).

(** [a] may stand before [b]. *)
Let ordered (a b : A) : Prop := (compare a b <= 0)%Z.

Hypothesis compare_total : forall a b, ordered a b \/ ordered b a.
Hypothesis compare_trans : forall a b c, ordered a b -> ordered b c -> ordered a c.

Lemma sort_insert_ordered (a : A) (l : list A) :
  StronglySorted ordered l -> StronglySorted ordered (sort_insert compare a l).
Proof using compare_total compare_trans.
  induction 1 as [|b l Hl IH Hb]; cbn.
  - repeat constructor.
  - destruct (compare a b <=? 0)%Z eqn:E.
    + apply Z.leb_le in E.
      constructor; [now constructor|].
      constructor; [exact E|].
      eapply List.Forall_impl; [|exact Hb]. intros c Hc. now apply (compare_trans a b c).
    + apply Z.leb_gt in E.
      assert (Hba : ordered b a).
      { destruct (compare_total a b) as [H|H]; [unfold ordered in H; lia | exact H]. }
      constructor; [exact IH|].
      rewrite (sort_insert_perm compare a l). now constructor.
Qed.

Lemma Array_sort_ordered (l : list A) : StronglySorted ordered (Array_sort compare l).
Proof using compare_total compare_trans.
  induction l as [|a l IH]; cbn; [constructor | now apply sort_insert_ordered].
Qed.

(** The first element of the sorted array may stand before every element. *)
Lemma Array_sort_head (l : list A) (a : A) :
  List.head (Array_sort compare l) = Some a ->
  In a l /\ forall b, In b l -> ordered a b.
Proof using compare_total compare_trans.
  intros Hhead.
  pose proof (Array_sort_ordered l) as Hsorted.
  pose proof (Array_sort_perm compare l) as Hperm.
  destruct (Array_sort compare l) as [|a' l'] eqn:E; [discriminate|].
  cbn in Hhead. injection Hhead as ->.
  split.
  - apply (Permutation_in _ Hperm). now left.
  - intros b Hb. apply (Permutation_in _ (Permutation_sym Hperm)) in Hb.
    destruct Hb as [<-|Hb].
    + destruct (compare_total a a); assumption.
    + apply StronglySorted_inv in Hsorted as [_ Hall].
      rewrite List.Forall_forall in Hall. now apply Hall.
Qed.

End ArraySortOrder.

Lemma Array_sort_head_None {A} (compare : A -> A -> Z) (l : list A) :
  List.head (Array_sort compare l) = None <-> l = nil.
Proof.
  split.
  - intros H. pose proof (Array_sort_perm compare l) as Hperm.
    destruct (Array_sort compare l); [|discriminate].
    now apply Permutation_nil in Hperm.
  - now intros ->.
Qed.

(** What stands in the first part of a sorted list is in order with what
    stands in the rest. *)
Lemma StronglySorted_app_inv {A} (R : A -> A -> Prop) (l1 l2 : list A) :
  StronglySorted R (l1 ++ l2) ->
  StronglySorted R l1 /\ forall a b, In a l1 -> In b l2 -> R a b.
Proof.
  induction l1 as [|x l1 IH]; cbn; intros H.
  - split; [constructor | intros a b []].
  - apply StronglySorted_inv in H as [H Hx]. destruct (IH H) as [IH1 IH2].
    rewrite List.Forall_forall in Hx. split.
    + constructor; [exact IH1|]. rewrite List.Forall_forall.
      intros y Hy. apply Hx. apply in_or_app. now left.
    + intros a b [<-|Ha] Hb; [|now apply IH2].
      apply Hx. apply in_or_app. now right.
Qed.

Lemma StronglySorted_weaken {A} (R R' : A -> A -> Prop) (l : list A) :
  (forall a b, R a b -> R' a b) -> StronglySorted R l -> StronglySorted R' l.
Proof.
  intros Himp. induction 1 as [|a l Hl IH Ha]; constructor; [exact IH|].
  eapply List.Forall_impl; [|exact Ha]. intros b. apply Himp.
Qed.

(** ** The card queries of the scheduler *)

Section CardQueries.
Import SpacedRepetitionScheduler.

Lemma by_nextReview_total a b :
  (by_nextReview a b <= 0)%Z \/ (by_nextReview b a <= 0)%Z.
Proof. unfold by_nextReview. lia. Qed.

Lemma by_created_total a b : (by_created a b <= 0)%Z \/ (by_created b a <= 0)%Z.
Proof. unfold by_created. lia. Qed.

Lemma getDueCards_In (now : JS.Date) (cards : list FlashcardData.t) card :
  In card (getDueCards now cards)
  <-> In card cards /\ (FlashcardData.nextReview card <= now)%Z.
Proof.
  assert (Hperm : Permutation (getDueCards now cards) (List.filter (is_due now) cards))
    by apply Array_sort_perm.
  split.
  - intros H. apply (Permutation_in _ Hperm) in H.
    apply List.filter_In in H as [Hin Hdue]. split; [exact Hin|].
    now apply Z.leb_le in Hdue.
  - intros [Hin Hdue]. apply (Permutation_in _ (Permutation_sym Hperm)).
    apply List.filter_In. split; [exact Hin|]. now apply Z.leb_le.
Qed.

(** X1.  [getDueCards] returns exactly the cards whose review date is not
    after [now], each as often as it is in [cards], in the order of
    their review dates. *)
Theorem getDueCards_sorted (now : JS.Date) (cards : list FlashcardData.t) :
  Permutation (getDueCards now cards) (List.filter (is_due now) cards)
  /\ (forall card,
        In card (getDueCards now cards)
        <-> In card cards /\ (FlashcardData.nextReview card <= now)%Z)
  /\ StronglySorted
       (fun a b => (FlashcardData.nextReview a <= FlashcardData.nextReview b)%Z)
       (getDueCards now cards).
Proof.
  assert (Hperm : Permutation (getDueCards now cards) (List.filter (is_due now) cards))
    by apply Array_sort_perm.
  split; [exact Hperm|]. split.
  - intros card. apply getDueCards_In.
  - unfold getDueCards.
    eapply StronglySorted_weaken; [|apply (Array_sort_ordered by_nextReview)].
    + unfold by_nextReview. intros a b H. lia.
    + apply by_nextReview_total.
    + unfold by_nextReview. intros a b c. lia.
Qed.

Lemma firstn_skipn_sorted {A} (R : A -> A -> Prop) (n : nat) (l : list A) :
  StronglySorted R l ->
  StronglySorted R (List.firstn n l)
  /\ forall a b, In a (List.firstn n l) -> In b (List.skipn n l) -> R a b.
Proof. intros H. apply StronglySorted_app_inv. now rewrite List.firstn_skipn. Qed.

Lemma getNewCards_firstn (cards : list FlashcardData.t) (limit : Z) :
  (0 <= limit)%Z ->
  getNewCards cards (Some limit)
  = List.firstn (Z.to_nat limit) (Array_sort by_created (List.filter is_new cards)).
Proof.
  intros Hlimit. unfold getNewCards, Array_slice0.
  destruct (limit <? 0)%Z eqn:E; [apply Z.ltb_lt in E; lia | reflexivity].
Qed.

Lemma getNewCards_length (cards : list FlashcardData.t) (limit : Z) :
  (0 <= limit)%Z ->
  length (getNewCards cards (Some limit))
  = Nat.min (Z.to_nat limit) (length (List.filter is_new cards)).
Proof.
  intros Hlimit. rewrite (getNewCards_firstn _ _ Hlimit), List.length_firstn.
  now rewrite (Permutation_length (Array_sort_perm by_created _)).
Qed.

(** X2.  For a limit that is not negative, [getNewCards] returns at most
    [limit] cards, all of them with [repetitions] 0 (the cards never
    reviewed and the cards whose last review failed, which
    [reviewCard] sends back to 0), oldest first; they are the oldest of
    the cards with [repetitions] 0: each such card left out was created
    no earlier than each card returned. *)
Theorem getNewCards_oldest (cards : list FlashcardData.t) (limit : Z) :
  (0 <= limit)%Z ->
  let picked := getNewCards cards (Some limit) in
  length picked = Nat.min (Z.to_nat limit) (length (List.filter is_new cards))
  /\ (forall card, In card picked ->
        In card cards /\ FlashcardData.repetitions card = 0%nat)
  /\ StronglySorted
       (fun a b => (FlashcardData.created a <= FlashcardData.created b)%Z) picked
  /\ exists rest,
       Permutation (picked ++ rest) (List.filter is_new cards)
       /\ forall a b, In a picked -> In b rest ->
            (FlashcardData.created a <= FlashcardData.created b)%Z.
Proof.
  intros Hlimit picked.
  set (sorted := Array_sort by_created (List.filter is_new cards)).
  assert (Epicked : picked = List.firstn (Z.to_nat limit) sorted)
    by now apply getNewCards_firstn.
  assert (Hperm : Permutation sorted (List.filter is_new cards))
    by apply Array_sort_perm.
  assert (Hsorted : StronglySorted
            (fun a b => (FlashcardData.created a <= FlashcardData.created b)%Z) sorted).
  { eapply StronglySorted_weaken; [|apply (Array_sort_ordered by_created)].
    - unfold by_created. intros a b H. lia.
    - apply by_created_total.
    - unfold by_created. intros a b c. lia. }
  destruct (firstn_skipn_sorted _ (Z.to_nat limit) sorted Hsorted) as [Hfirst Hcross].
  rewrite Epicked. split; [|split; [|split]].
  - rewrite List.length_firstn. now rewrite (Permutation_length Hperm).
  - intros card Hin.
    assert (Hin' : In card sorted).
    { rewrite <- (List.firstn_skipn (Z.to_nat limit) sorted).
      apply in_or_app. now left. }
    clear Hin. rename Hin' into Hin.
    apply (Permutation_in _ Hperm) in Hin.
    apply List.filter_In in Hin as [Hin Hnew]. split; [exact Hin|].
    now apply Nat.eqb_eq in Hnew.
  - exact Hfirst.
  - exists (List.skipn (Z.to_nat limit) sorted). split; [|exact Hcross].
    now rewrite List.firstn_skipn.
Qed.

Lemma filter_partition3 {A} (p1 p2 p3 : A -> bool) (l : list A) :
  (forall x, (Nat.b2n (p1 x) + Nat.b2n (p2 x) + Nat.b2n (p3 x) = 1)%nat) ->
  (length (List.filter p1 l) + length (List.filter p2 l) + length (List.filter p3 l)
   = length l)%nat.
Proof.
  intros Hone. induction l as [|x l IH]; [reflexivity|].
  cbn [List.filter]. specialize (Hone x).
  destruct (p1 x), (p2 x), (p3 x); cbn in Hone |- *; lia.
Qed.

Lemma stats_partition (cards : list FlashcardData.t) :
  (length (List.filter is_new cards)
   + length (List.filter
               (fun card => (0 <? FlashcardData.repetitions card)%nat
                            && (FlashcardData.repetitions card <? 3)%nat) cards)
   + length (List.filter (fun card => (3 <=? FlashcardData.repetitions card)%nat) cards)
   = length cards)%nat.
Proof.
  apply filter_partition3. intros card. unfold is_new.
  destruct (FlashcardData.repetitions card) as [|[|[|n]]]; reflexivity.
Qed.

(** X3.  In the statistics of [getCardStats] every card is counted in
    exactly one of [new] ([repetitions] 0), [learning] (1 or 2) and
    [mature] (3 or more), so the three add up to [total]; [due] is at
    most [total]; the retention lies in [[0, 100]], it is 0 exactly when
    every card has [repetitions] 0 (so for the empty deck, and for a
    deck of cards whose last review failed), and 100 exactly when the
    deck is not empty and no card has [repetitions] 0. *)
Theorem getCardStats_partition (now : JS.Date) (cards : list FlashcardData.t) :
  let stats := getCardStats now cards in
  CardStats.total stats = length cards
  /\ CardStats.new stats
     = length (List.filter (fun card => Nat.eqb (FlashcardData.repetitions card) 0) cards)
  /\ (CardStats.new stats + CardStats.learning stats + CardStats.mature stats
      = CardStats.total stats)%nat
  /\ (CardStats.due stats <= CardStats.total stats)%nat
  /\ 0 <= CardStats.retention stats <= 100
  /\ (CardStats.retention stats == 0 <-> CardStats.new stats = CardStats.total stats)
  /\ (CardStats.retention stats == 100
      <-> (0 < CardStats.total stats)%nat /\ CardStats.new stats = 0%nat).
Proof.
  intros stats. pose proof (stats_partition cards) as Hsum.
  split; [reflexivity|]. split; [reflexivity|]. split; [exact Hsum|].
  split; [apply List.filter_length_le|].
  subst stats. unfold getCardStats.
  cbn [CardStats.total CardStats.new CardStats.retention].
  revert Hsum. fold is_new.
  generalize (length (List.filter is_new cards)).
  generalize (length (List.filter
               (fun card => (0 <? FlashcardData.repetitions card)%nat
                            && (FlashcardData.repetitions card <? 3)%nat) cards)).
  generalize (length (List.filter
               (fun card => (3 <=? FlashcardData.repetitions card)%nat) cards)).
  intros mature learning new Hsum.
  destruct cards as [|card cards].
  - cbn in Hsum |- *. split; [lra|]. split.
    + split; [intros _; lia | reflexivity].
    + split; [intros H; discriminate H | intros [H _]; lia].
  - assert (Hn : (0 < length (card :: cards))%nat) by (cbn [length]; lia).
    pose proof Hn as Hn'. apply Nat.ltb_lt in Hn'. rewrite Hn'.
    revert Hsum Hn. generalize (length (card :: cards)). intros n Hsum Hn.
    pose proof (of_nat_pos _ Hn) as Hpos.
    split; [apply task_percentage_range; [lia | exact Hn]|].
    split; split.
    + intros H. destruct (mature + learning)%nat as [|a] eqn:E; [lia|].
      exfalso. assert (0 < JS.of_nat (S a)) by (apply of_nat_pos; lia).
      assert (0 < JS.of_nat (S a) / JS.of_nat n) by (apply Qlt_shift_div_l; lra).
      lra.
    + intros H. replace (mature + learning)%nat with 0%nat by lia.
      change (JS.of_nat 0) with 0. field. lra.
    + intros H. split; [exact Hn|].
      destruct (Nat.eq_dec (mature + learning)%nat n) as [E|E]; [lia|].
      exfalso. assert (JS.of_nat (mature + learning) < JS.of_nat n).
      { unfold JS.of_nat. rewrite <- Zlt_Qlt. lia. }
      assert (JS.of_nat (mature + learning) / JS.of_nat n < 1)
        by (apply Qlt_shift_div_r; lra).
      lra.
    + intros [_ H]. replace (mature + learning)%nat with n by lia. field. lra.
Qed.

Lemma Qfloor_times_le (x d : Q) : 0 < d -> inject_Z (Qfloor (x / d)) * d <= x.
Proof.
  intros Hd. pose proof (Qfloor_le (x / d)) as H.
  apply (Qmult_le_compat_r _ _ d) in H; [|lra].
  assert (E : x / d * d == x) by (field; lra). now rewrite E in H.
Qed.

(** X4.  A study plan never drops a due card, and it takes new cards
    only for the time that the due cards leave: the time for the new
    cards is at most what is left of [timeAvailable] after the reviews,
    so a plan whose reviews fit the time fits it as a whole, and with
    less than a minute left there are no new cards. *)
Theorem generateStudyPlan_fits (now : JS.Date) (cards : list FlashcardData.t)
    (timeAvailable : JS.number) :
  let plan := generateStudyPlan now cards timeAvailable in
  StudyPlan.dueCards plan = getDueCards now cards
  /\ StudyPlan.reviewTime plan == 45 * JS.of_nat (length (getDueCards now cards))
  /\ StudyPlan.newTime plan <= Qmax 0 (timeAvailable - StudyPlan.reviewTime plan)
  /\ (StudyPlan.reviewTime plan <= timeAvailable ->
      StudyPlan.reviewTime plan + StudyPlan.newTime plan <= timeAvailable)
  /\ (timeAvailable < StudyPlan.reviewTime plan + 60 -> StudyPlan.newCards plan = nil).
Proof.
  intros plan. subst plan. unfold generateStudyPlan.
  cbn [StudyPlan.dueCards StudyPlan.newCards StudyPlan.reviewTime StudyPlan.newTime].
  set (dueTime := JS.of_nat (length (getDueCards now cards)) * 45).
  set (remaining := JS.Math_max 0 (timeAvailable - dueTime)).
  assert (Hrem : 0 <= remaining) by (subst remaining; minmax; lra).
  assert (Hcount : (0 <= JS.Math_floor (remaining / 60)%Q)%Z).
  { unfold JS.Math_floor. change 0%Z with (Qfloor 0). apply Qfloor_resp_le.
    apply Qle_shift_div_l; lra. }
  pose proof (getNewCards_length cards _ Hcount) as Hlen.
  assert (Hnew : JS.of_nat (length (getNewCards cards (Some (JS.Math_floor (remaining / 60)))))
                 * 60 <= remaining).
  { eapply Qle_trans; [|apply (Qfloor_times_le remaining 60); lra].
    apply Qmult_le_compat_r; [|lra].
    unfold JS.of_nat, JS.Math_floor in *. rewrite <- Zle_Qle. lia. }
  split; [reflexivity|]. split; [subst dueTime; ring|].
  split; [exact Hnew|]. split.
  - intros Hfit. revert Hnew.
    generalize (JS.of_nat
                  (length (getNewCards cards (Some (JS.Math_floor (remaining / 60)))))).
    subst remaining dueTime. intros n. minmax; lra.
  - intros Hshort.
    assert (Hzero : JS.Math_floor (remaining / 60) = 0%Z).
    { unfold JS.Math_floor. apply Z.le_antisymm; [|exact Hcount].
      assert (Hlt : remaining / 60 < 1).
      { apply Qlt_shift_div_r; [lra|]. subst remaining dueTime. minmax; lra. }
      pose proof (Qfloor_le (remaining / 60)) as Hfl.
      assert (inject_Z (Qfloor (remaining / 60)) < inject_Z 1)
        by (change (inject_Z 1) with 1; lra).
      rewrite <- Zlt_Qlt in H. lia. }
    rewrite Hzero in Hlen. cbn in Hlen. rewrite Hzero.
    now apply List.length_zero_iff_nil.
Qed.

End CardQueries.

(** ** The life of a card *)

Section CardLife.
Import SpacedRepetitionScheduler.

Lemma interval_reviewCard_cases now card result :
  FlashcardData.interval (reviewCard now card result) = 1
  \/ FlashcardData.interval (reviewCard now card result) = 6
  \/ FlashcardData.interval (reviewCard now card result)
     = inject_Z (JS.Math_round
                   (FlashcardData.interval card
                    * FlashcardData.easeFactor (reviewCard now card result))).
Proof.
  rewrite easeFactor_reviewCard. unfold reviewCard.
  destruct (JS.ltb (clamped result) 3); [now left|].
  destruct (Nat.eqb _ 1); [now left|].
  destruct (Nat.eqb _ 2); [right; now left|]. right. right. reflexivity.
Qed.


Lemma Date_of_number_days (now k : Z) :
  JS.Date_of_number (JS.getTime now + inject_Z k * 24 * 60 * 60 * 1000)
  = (now + k * 86400000)%Z.
Proof.
  unfold JS.Date_of_number, JS.getTime.
  rewrite (truncate_comp _ (inject_Z (now + k * 86400000))); [apply truncate_inject|].
  rewrite inject_Z_plus, inject_Z_mult.
  change (inject_Z 86400000) with 86400000. lra.
Qed.

(** The interval after a review is a whole number of days, at least one
    when the interval before was at least one. *)
Lemma interval_reviewCard_whole now card result :
  1 <= FlashcardData.interval card ->
  exists k : Z,
    (1 <= k)%Z /\ FlashcardData.interval (reviewCard now card result) = inject_Z k.
Proof.
  intros Hiv.
  destruct (interval_reviewCard_cases now card result) as [E|[E|E]]; rewrite E.
  - exists 1%Z. split; [lia | reflexivity].
  - exists 6%Z. split; [lia | reflexivity].
  - eexists. split; [|reflexivity].
    unfold JS.Math_round.
    pose proof (easeFactor_reviewCard_ge now card result) as Hef.
    revert Hef. generalize (FlashcardData.easeFactor (reviewCard now card result)).
    intros ef Hef.
    apply (Qfloor_resp_le 1 (FlashcardData.interval card * ef + (1 # 2))). nra.
Qed.

Lemma interval_reviewCard_ge now card result :
  1 <= FlashcardData.interval card ->
  1 <= FlashcardData.interval (reviewCard now card result).
Proof.
  intros Hiv. destruct (interval_reviewCard_whole now card result Hiv) as (k & Hk & ->).
  change 1 with (inject_Z 1). now rewrite <- Zle_Qle.
Qed.


(** Every card that the scheduler creates and then reviews, any number
    of times, has an interval of at least one day. *)
Corollary interval_invariant (now : JS.Date) (uuid front back : string)
    (tags : option (list string)) (source : option FlashcardData.Source)
    (sessionId : option string) (reviews : list (JS.Date * ReviewResult.t)) :
  1 <= FlashcardData.interval
         (reviewAll (createFlashcard now uuid front back tags source sessionId) reviews).
Proof.
  assert (H : forall card, 1 <= FlashcardData.interval card ->
                           1 <= FlashcardData.interval (reviewAll card reviews)).
  { induction reviews as [|[t r] reviews IH]; intros card Hc; [exact Hc|].
    cbn. apply IH. now apply interval_reviewCard_ge. }
  apply H. cbn. unfold INITIAL_INTERVAL. lra.
Qed.

(** X6.  A card made by [createFlashcard] has never been reviewed and is
    first due exactly 24 hours after its creation: [getDueCards] returns
    it at time [t] if and only if [t] is at least a day after [now]. *)
Theorem created_card_due_after_a_day (now : JS.Date) (uuid front back : string)
    (tags : option (list string)) (source : option FlashcardData.Source)
    (sessionId : option string) (t : JS.Date) :
  let card := createFlashcard now uuid front back tags source sessionId in
  getNewCards (card :: nil) None = card :: nil
  /\ FlashcardData.nextReview card = (now + 86400000)%Z
  /\ ((now + 86400000 <= t)%Z -> getDueCards t (card :: nil) = card :: nil)
  /\ ((t < now + 86400000)%Z -> getDueCards t (card :: nil) = nil).
Proof.
  intros card.
  assert (Hnext : FlashcardData.nextReview card = (now + 86400000)%Z).
  { unfold card, createFlashcard. cbn [FlashcardData.nextReview].
    change (JS.getTime now + 24 * 60 * 60 * 1000)
      with (JS.getTime now + inject_Z 1 * 24 * 60 * 60 * 1000).
    rewrite Date_of_number_days. lia. }
  split; [reflexivity|]. split; [exact Hnext|].
  unfold getDueCards. cbn [List.filter]. unfold is_due. rewrite Hnext. split.
  - intros H. apply Z.leb_le in H. now rewrite H.
  - intros H. apply Z.leb_gt in H. now rewrite H.
Qed.

End CardLife.

(** ** Lists of goals *)

Lemma find_update_first_same {A} (p : A -> bool) (f : A -> A) (l : list A) (x : A) :
  find p l = Some x -> p (f x) = true -> find p (update_first p f l) = Some (f x).
Proof.
  induction l as [|y l IH]; cbn; [discriminate|].
  destruct (p y) eqn:E.
  - intros [= ->] Hf. cbn. now rewrite Hf.
  - intros Hfind Hf. cbn. rewrite E. now apply IH.
Qed.

(** A lookup by [q] does not see an update of the first element that
    satisfies [p] when [q] does not hold of that element, before or
    after the update. *)
Lemma find_update_first_other {A} (p q : A -> bool) (f : A -> A) (l : list A) :
  (forall x, p x = true -> q x = false /\ q (f x) = false) ->
  find q (update_first p f l) = find q l.
Proof.
  intros H. induction l as [|y l IH]; cbn; [reflexivity|].
  destruct (p y) eqn:E.
  - destruct (H y E) as [H1 H2]. cbn. now rewrite H1, H2.
  - cbn. now rewrite IH.
Qed.

Lemma update_first_absent {A} (p : A -> bool) (f : A -> A) (l : list A) :
  find p l = None -> update_first p f l = l.
Proof.
  induction l as [|y l IH]; cbn; [reflexivity|].
  destruct (p y); [discriminate|]. intros H. now rewrite IH.
Qed.

Lemma length_update_first {A} (p : A -> bool) (f : A -> A) (l : list A) :
  length (update_first p f l) = length l.
Proof. induction l as [|y l IH]; cbn; [reflexivity|]. destruct (p y); cbn; lia. Qed.

Lemma has_id_other (goalId goalId' : string) (g : StudyGoal.t) :
  goalId <> goalId' ->
  GoalManager.has_id goalId g = true -> GoalManager.has_id goalId' g = false.
Proof.
  unfold GoalManager.has_id. intros Hne H. apply String.eqb_eq in H.
  apply String.eqb_neq. congruence.
Qed.

Lemma saveGoals_ok ls goals : GoalManager.saveGoals ls goals = Ok (with_goals ls goals).
Proof.
  unfold GoalManager.saveGoals, setItem_goals, with_goals. now destruct (write_fails ls).
Qed.

Lemma stored_goals_with_goals ls goals :
  write_fails ls = false -> stored_goals (with_goals ls goals) = goals.
Proof. unfold with_goals. now intros ->. Qed.

(** ** Creating, updating and deleting goals *)

Section GoalCrud.
Import GoalManager.

Lemma createGoal_ok ls now uuid goalData :
  createGoal ls now uuid goalData
  = Ok (new_goal now uuid goalData,
        with_goals ls (stored_goals ls ++ new_goal now uuid goalData :: nil)).
Proof. unfold createGoal. now rewrite getGoals_ok; cbn; rewrite saveGoals_ok. Qed.

Lemma deleteGoal_ok ls goalId :
  deleteGoal ls goalId
  = Ok (with_goals ls (List.filter (fun g => negb (has_id goalId g)) (stored_goals ls))).
Proof. unfold deleteGoal. now rewrite getGoals_ok; cbn; rewrite saveGoals_ok. Qed.

Lemma find_has_id_app_fresh goals goal :
  (forall g, In g goals -> StudyGoal.id g <> StudyGoal.id goal) ->
  find (has_id (StudyGoal.id goal)) (goals ++ goal :: nil) = Some goal.
Proof.
  intros Hfresh. induction goals as [|g goals IH]; cbn.
  - unfold has_id. now rewrite String.eqb_refl.
  - destruct (has_id (StudyGoal.id goal) g) eqn:E.
    + apply String.eqb_eq in E. exfalso. apply (Hfresh g); [now left | exact E].
    + apply IH. intros g' Hin. apply Hfresh. now right.
Qed.

(** X9.  [createGoal] returns a goal with the new id that is active, with
    no hours and no sessions, and never throws.  When the storage takes
    the write, the stored goals are the ones that [getGoals] found
    before (none, when the goals blob could not be read) followed by the
    new goal; with an id that no stored goal has, the new goal is the
    one found under its id and the ids stay pairwise different.  When
    the storage refuses the write, the goal is returned all the same and
    nothing is stored. *)
Theorem createGoal_appends (ls : LocalStorage) (now : JS.Date) (uuid : string)
    (goalData : GoalData.t) :
  exists goal ls' before,
    createGoal ls now uuid goalData = Ok (goal, ls')
    /\ getGoals ls = Ok before
    /\ StudyGoal.id goal = uuid
    /\ StudyGoal.isActive goal = true
    /\ StudyGoal.hoursCompleted goal = 0
    /\ StudyGoal.sessionsCompleted goal = 0%nat
    /\ (write_fails ls = false ->
        getGoals ls' = Ok (before ++ goal :: nil)
        /\ ((forall g, In g before -> StudyGoal.id g <> uuid) ->
            goal_with_id ls' uuid = Some goal
            /\ (unique_ids ls -> unique_ids ls')))
    /\ (write_fails ls = true -> ls' = ls).
Proof.
  eexists. eexists. exists (stored_goals ls).
  split; [apply createGoal_ok|]. split; [apply getGoals_ok|].
  repeat (split; [reflexivity|]). split.
  - intros Hw. rewrite getGoals_ok, (stored_goals_with_goals _ _ Hw).
    split; [reflexivity|]. intros Hfresh.
    unfold goal_with_id, unique_ids. rewrite (stored_goals_with_goals _ _ Hw). split.
    + now apply (find_has_id_app_fresh (stored_goals ls) (new_goal now uuid goalData)).
    + intros Hnd. rewrite map_app. cbn.
      apply List.NoDup_app; [exact Hnd | repeat constructor; intros [] |].
      intros id Hin [<-|[]]. apply in_map_iff in Hin as (g & Eg & Hin).
      now apply (Hfresh g).
  - unfold with_goals. now intros ->.
Qed.

(** X10.  [deleteGoal] never throws.  When the storage takes the write,
    the stored goals are the ones stored before without those that have
    the id, in the same order, and [calculateProgress] reports the
    all-zero record for the id; the session log and the milestones,
    also those of the deleted goal, are left as they were. *)
Theorem deleteGoal_removes (ls : LocalStorage) (now : JS.Date) (goalId : string) :
  exists ls' before,
    deleteGoal ls goalId = Ok ls'
    /\ getGoals ls = Ok before
    /\ sessions_item ls' = sessions_item ls
    /\ milestones_items ls' = milestones_items ls
    /\ getGoalSessions ls' goalId = getGoalSessions ls goalId
    /\ (write_fails ls = false ->
        getGoals ls' = Ok (List.filter (fun g => negb (has_id goalId g)) before)
        /\ (forall g, In g (stored_goals ls') <-> In g before /\ StudyGoal.id g <> goalId)
        /\ calculateProgress ls' now goalId = Ok (no_progress goalId)).
Proof.
  eexists. exists (stored_goals ls).
  split; [apply deleteGoal_ok|]. split; [apply getGoals_ok|].
  assert (Hkeep : sessions_item (with_goals ls
                    (List.filter (fun g => negb (has_id goalId g)) (stored_goals ls)))
                  = sessions_item ls)
    by (unfold with_goals; now destruct (write_fails ls)).
  split; [exact Hkeep|].
  split; [unfold with_goals; now destruct (write_fails ls)|].
  split; [unfold getGoalSessions; now rewrite Hkeep|].
  intros Hw. rewrite getGoals_ok, calculateProgress_ok.
  unfold progress_for, goal_with_id. rewrite (stored_goals_with_goals _ _ Hw).
  assert (Hin : forall g,
    In g (List.filter (fun g => negb (has_id goalId g)) (stored_goals ls))
    <-> In g (stored_goals ls) /\ StudyGoal.id g <> goalId).
  { intros g. rewrite List.filter_In. unfold has_id.
    rewrite negb_true_iff, String.eqb_neq. reflexivity. }
  split; [reflexivity|]. split; [exact Hin|].
  assert (Hnone : find (has_id goalId)
                    (List.filter (fun g => negb (has_id goalId g)) (stored_goals ls))
                  = None).
  { apply find_has_id_None. intros g Hg. now apply Hin in Hg. }
  now rewrite Hnone.
Qed.

(** X11.  Creating a goal under an id that no stored goal has and then
    deleting that id gives back the goals that were stored before. *)
Theorem createGoal_deleteGoal (ls : LocalStorage) (now : JS.Date) (uuid : string)
    (goalData : GoalData.t) :
  write_fails ls = false ->
  (forall g, In g (stored_goals ls) -> StudyGoal.id g <> uuid) ->
  exists goal ls1 ls2,
    createGoal ls now uuid goalData = Ok (goal, ls1)
    /\ deleteGoal ls1 uuid = Ok ls2
    /\ getGoals ls2 = getGoals ls.
Proof.
  intros Hw Hfresh. eexists. eexists. eexists.
  split; [apply createGoal_ok|]. split; [apply deleteGoal_ok|].
  assert (Hw1 : write_fails (with_goals ls
                  (stored_goals ls ++ new_goal now uuid goalData :: nil)) = false)
    by (unfold with_goals; now rewrite Hw).
  rewrite !getGoals_ok, (stored_goals_with_goals _ _ Hw1),
    (stored_goals_with_goals _ _ Hw). f_equal.
  assert (Hnew : has_id uuid (new_goal now uuid goalData) = true)
    by apply String.eqb_refl.
  rewrite List.filter_app. cbn [List.filter]. rewrite Hnew. cbn [negb].
  rewrite app_nil_r. apply List.forallb_filter_id.
  apply List.forallb_forall. intros g Hg. unfold has_id.
  apply negb_true_iff, String.eqb_neq. now apply Hfresh.
Qed.

Lemma updateGoal_ok ls goalId updates :
  updateGoal ls goalId updates
  = Ok (match goal_with_id ls goalId with
        | Some _ =>
            with_goals ls
              (update_first (has_id goalId) (update_goal updates) (stored_goals ls))
        | None => ls
        end).
Proof.
  unfold updateGoal, goal_with_id. rewrite getGoals_ok. cbn.
  destruct (find _ _); [apply saveGoals_ok | reflexivity].
Qed.

(** X12.  [updateGoal] with an id that no stored goal has writes nothing.
    With the id of a stored goal, and the storage taking the write, as
    many goals are stored as before; when the update leaves the id
    alone, the goal found under the id afterwards is the old one with
    the updates spread over it, and the goal found under any other id is
    the same as before. *)
Theorem updateGoal_frame (ls : LocalStorage) (goalId : string)
    (updates : StudyGoalUpdates.t) :
  (goal_with_id ls goalId = None -> updateGoal ls goalId updates = Ok ls)
  /\ (forall goal,
        goal_with_id ls goalId = Some goal ->
        exists ls',
          updateGoal ls goalId updates = Ok ls'
          /\ (write_fails ls = true -> ls' = ls)
          /\ (write_fails ls = false ->
              length (stored_goals ls') = length (stored_goals ls)
              /\ (StudyGoalUpdates.id updates = None ->
                  goal_with_id ls' goalId = Some (update_goal updates goal)
                  /\ forall other, other <> goalId ->
                       goal_with_id ls' other = goal_with_id ls other))).
Proof.
  split.
  - intros Hnone. rewrite updateGoal_ok. now rewrite Hnone.
  - intros goal Hfind. eexists. split; [rewrite updateGoal_ok, Hfind; reflexivity|].
    split; [unfold with_goals; now intros ->|].
    intros Hw. unfold goal_with_id. rewrite (stored_goals_with_goals _ _ Hw).
    split; [apply length_update_first|]. intros Hid.
    assert (Eid : forall g, StudyGoal.id (update_goal updates g) = StudyGoal.id g)
      by (intros g; unfold update_goal; cbn; now rewrite Hid).
    split.
    + apply find_update_first_same; [exact Hfind|].
      unfold goal_with_id in Hfind. apply find_some in Hfind as [_ H].
      unfold has_id in *. now rewrite Eid.
    + intros other Hne. apply find_update_first_other. intros g Hg.
      assert (H : has_id other g = false) by (apply (has_id_other goalId); auto).
      split; [exact H|]. unfold has_id in *. now rewrite Eid.
Qed.

(** With pairwise different ids, what is stored under an id after an
    update of the first goal with that id is the updated goal. *)
Lemma In_update_first_unique (goalId : string) (f : StudyGoal.t -> StudyGoal.t)
    (goals : list StudyGoal.t) (g : StudyGoal.t) :
  (forall x, StudyGoal.id (f x) = StudyGoal.id x) ->
  List.NoDup (map StudyGoal.id goals) ->
  In g (update_first (has_id goalId) f goals) ->
  StudyGoal.id g = goalId ->
  exists x, In x goals /\ g = f x.
Proof.
  intros Hf. induction goals as [|y goals IH]; cbn; [intros _ []|].
  intros Hnd Hin Hid. apply List.NoDup_cons_iff in Hnd as [Hnotin Hnd].
  destruct (has_id goalId y) eqn:E.
  - destruct Hin as [<-|Hin]; [exists y; split; [now left | reflexivity]|].
    exfalso. apply Hnotin. apply String.eqb_eq in E. rewrite E, <- Hid.
    now apply in_map.
  - destruct Hin as [<-|Hin].
    + apply String.eqb_neq in E. contradiction.
    + destruct (IH Hnd Hin Hid) as (x & Hx & ->). exists x. split; [now right | reflexivity].
Qed.

(** X13.  Marking a goal as completed takes it out of the daily
    recommendations: after [updateGoal] with a [completedAt] date (and
    no new id), in a storage with pairwise different goal ids,
    [getActiveGoals] returns no goal with that id and
    [getDailyRecommendations] makes no recommendation for it. *)
Theorem completed_goal_not_recommended (ls : LocalStorage) (now : JS.Date)
    (goalId : string) (updates : StudyGoalUpdates.t) (date : JS.Date) :
  write_fails ls = false ->
  unique_ids ls ->
  StudyGoalUpdates.id updates = None ->
  StudyGoalUpdates.completedAt updates = Some (Some date) ->
  exists ls' active recs,
    updateGoal ls goalId updates = Ok ls'
    /\ getActiveGoals ls' = Ok active
    /\ getDailyRecommendations ls' now = Ok recs
    /\ (forall g, In g active -> StudyGoal.id g <> goalId)
    /\ (forall r, In r recs -> DailyRecommendation.goalId r <> goalId).
Proof.
  intros Hw Hnd Hid Hdone.
  assert (Eid : forall g, StudyGoal.id (update_goal updates g) = StudyGoal.id g)
    by (intros g; unfold update_goal; cbn; now rewrite Hid).
  assert (Hinactive : forall g, is_active (update_goal updates g) = false).
  { intros g. unfold is_active, update_goal. cbn. rewrite Hdone. cbn.
    apply andb_false_r. }
  eexists. eexists. eexists.
  split; [apply updateGoal_ok|]. split; [apply getActiveGoals_ok|].
  split; [apply getDailyRecommendations_ok|].
  set (ls' := match goal_with_id ls goalId with Some _ => _ | None => ls end).
  assert (Hactive : forall g, In g (List.filter is_active (stored_goals ls')) ->
                              StudyGoal.id g <> goalId).
  { intros g Hg E. apply List.filter_In in Hg as [Hin Hact]. subst ls'.
    destruct (goal_with_id ls goalId) as [goal|] eqn:Hfind.
    - rewrite (stored_goals_with_goals _ _ Hw) in Hin.
      destruct (In_update_first_unique goalId _ _ g Eid Hnd Hin E) as (x & _ & ->).
      rewrite Hinactive in Hact. discriminate.
    - unfold goal_with_id in Hfind.
      now apply (proj1 (find_has_id_None _ _) Hfind g). }
  split; [exact Hactive|].
  intros r Hr. apply (Permutation_in _ (Array_sort_perm by_priority _)) in Hr.
  apply in_map_iff in Hr as (g & <- & Hg).
  unfold recommendation_for. rewrite goalId_recommendation. now apply Hactive.
Qed.

End GoalCrud.

(** ** The primary goal *)

Section PrimaryGoal.
Import GoalManager.

(** The tests [priorityDiff !== 0] on the ranks of two given priorities. *)
Ltac decide_diffs :=
  repeat match goal with
  | |- context [(?n - ?m =? 0)%Z] =>
      let v := eval vm_compute in (n - m =? 0)%Z in
      change (n - m =? 0)%Z with v
  | H : context [(?n - ?m =? 0)%Z] |- _ =>
      let v := eval vm_compute in (n - m =? 0)%Z in
      change (n - m =? 0)%Z with v in H
  end;
  cbn [negb] in *.

Lemma by_priority_then_deadline_total a b :
  (by_priority_then_deadline a b <= 0)%Z \/ (by_priority_then_deadline b a <= 0)%Z.
Proof.
  unfold by_priority_then_deadline.
  destruct (StudyGoal.priority a), (StudyGoal.priority b); cbn; decide_diffs;
    destruct (StudyGoal.deadline a), (StudyGoal.deadline b); lia.
Qed.

Lemma by_priority_then_deadline_trans a b c :
  (by_priority_then_deadline a b <= 0)%Z ->
  (by_priority_then_deadline b c <= 0)%Z ->
  (by_priority_then_deadline a c <= 0)%Z.
Proof.
  unfold by_priority_then_deadline.
  destruct (StudyGoal.priority a), (StudyGoal.priority b), (StudyGoal.priority c); cbn;
    decide_diffs;
    destruct (StudyGoal.deadline a), (StudyGoal.deadline b), (StudyGoal.deadline c); lia.
Qed.

(** What the comparator says of two goals, in plain terms. *)
Lemma by_priority_then_deadline_spec a b :
  (by_priority_then_deadline a b <= 0)%Z ->
  (priorityOrder (StudyGoal.priority a) <= priorityOrder (StudyGoal.priority b))%Z
  /\ (StudyGoal.priority b = StudyGoal.priority a ->
      forall db, StudyGoal.deadline b = Some db ->
                 exists da, StudyGoal.deadline a = Some da /\ (da <= db)%Z).
Proof.
  unfold by_priority_then_deadline. intros H. split.
  - revert H. destruct (StudyGoal.priority a), (StudyGoal.priority b); cbn;
      decide_diffs;
      destruct (StudyGoal.deadline a), (StudyGoal.deadline b); lia.
  - intros Ep db Edb. rewrite Ep, Z.sub_diag, Edb in H. cbn in H.
    destruct (StudyGoal.deadline a) as [da|]; [|lia].
    exists da. split; [reflexivity | lia].
Qed.

(** X14.  [getPrimaryGoal] returns [null] exactly when there is no active
    goal.  Otherwise it returns an active goal such that no active goal
    has a more urgent priority (critical before high before medium
    before low), and such that among the active goals of its own
    priority none has an earlier deadline: when one of them has a
    deadline, so has the goal returned, and it is not later. *)
Theorem getPrimaryGoal_best (ls : LocalStorage) :
  exists active,
    getActiveGoals ls = Ok active
    /\ (active = nil -> getPrimaryGoal ls = Ok None)
    /\ (active <> nil ->
        exists goal,
          getPrimaryGoal ls = Ok (Some goal)
          /\ In goal active
          /\ forall other, In other active ->
               (priorityOrder (StudyGoal.priority goal)
                <= priorityOrder (StudyGoal.priority other))%Z
               /\ (StudyGoal.priority other = StudyGoal.priority goal ->
                   forall d', StudyGoal.deadline other = Some d' ->
                     exists d, StudyGoal.deadline goal = Some d /\ (d <= d')%Z)).
Proof.
  exists (List.filter is_active (stored_goals ls)).
  split; [apply getActiveGoals_ok|].
  unfold getPrimaryGoal. rewrite getActiveGoals_ok. cbn.
  set (active := List.filter is_active (stored_goals ls)).
  split.
  - intros ->. reflexivity.
  - intros Hne.
    destruct (List.head (Array_sort by_priority_then_deadline active)) as [goal|] eqn:Hhead.
    + destruct (Array_sort_head by_priority_then_deadline
                  by_priority_then_deadline_total by_priority_then_deadline_trans
                  active goal Hhead) as [Hin Hmin].
      exists goal. split.
      * destruct active; [contradiction|reflexivity].
      * split; [exact Hin|]. intros other Hother.
        apply by_priority_then_deadline_spec. now apply Hmin.
    + apply Array_sort_head_None in Hhead. contradiction.
Qed.

End PrimaryGoal.

(** ** Tasks *)

Lemma count_update_first_ge {A} (p c : A -> bool) (f : A -> A) (l : list A) :
  (forall x, c x = true -> c (f x) = true) ->
  (length (List.filter c l) <= length (List.filter c (update_first p f l)))%nat.
Proof.
  intros Hc. induction l as [|y l IH]; cbn; [lia|].
  destruct (p y); cbn.
  - destruct (c y) eqn:E; [rewrite (Hc y E); cbn; lia|].
    destruct (c (f y)); cbn; lia.
  - destruct (c y); cbn; lia.
Qed.

Lemma count_update_first_S {A} (p c : A -> bool) (f : A -> A) (l : list A) (x : A) :
  find p l = Some x -> c x = false -> c (f x) = true ->
  length (List.filter c (update_first p f l)) = S (length (List.filter c l)).
Proof.
  induction l as [|y l IH]; cbn; [discriminate|].
  destruct (p y).
  - intros [= ->] H1 H2. cbn. now rewrite H1, H2.
  - intros Hfind H1 H2. cbn. destruct (c y); cbn; now rewrite IH.
Qed.

Section Tasks.
Import GoalManager.

Lemma id_with_tasks f goal : StudyGoal.id (with_tasks f goal) = StudyGoal.id goal.
Proof. reflexivity. Qed.

(** The storage after an update of the tasks of the first goal with the
    id. *)
Lemma tasks_update_lookup ls goalId goal f :
  write_fails ls = false ->
  goal_with_id ls goalId = Some goal ->
  let ls' := with_goals ls (update_first (has_id goalId) (with_tasks f) (stored_goals ls)) in
  goal_with_id ls' goalId = Some (with_tasks f goal)
  /\ forall other, other <> goalId -> goal_with_id ls' other = goal_with_id ls other.
Proof.
  intros Hw Hfind ls'. unfold ls', goal_with_id.
  rewrite (stored_goals_with_goals _ _ Hw). split.
  - apply find_update_first_same; [exact Hfind|].
    unfold goal_with_id in Hfind. now apply find_some in Hfind as [_ H].
  - intros other Hne. apply find_update_first_other. intros g Hg.
    assert (H : has_id other g = false) by (apply (has_id_other goalId); auto).
    split; exact H.
Qed.

Lemma addTask_ok ls uuid goalId taskData :
  addTask ls uuid goalId taskData
  = Ok (new_task uuid goalId taskData,
        match goal_with_id ls goalId with
        | Some _ =>
            with_goals ls
              (update_first (has_id goalId)
                 (with_tasks (fun tasks => tasks ++ new_task uuid goalId taskData :: nil))
                 (stored_goals ls))
        | None => ls
        end).
Proof.
  unfold addTask, goal_with_id. rewrite getGoals_ok. cbn.
  destruct (find _ _); [now rewrite saveGoals_ok | reflexivity].
Qed.

Lemma totalTasks_progress_of now goalId goal :
  GoalProgress.totalTasks (progress_of now goalId goal) = length (StudyGoal.tasks goal).
Proof. progress_of_cases goal; reflexivity. Qed.

Lemma tasksCompleted_progress_of now goalId goal :
  GoalProgress.tasksCompleted (progress_of now goalId goal)
  = count_completed (StudyGoal.tasks goal).
Proof. progress_of_cases goal; reflexivity. Qed.

Lemma hoursCompleted_progress_of now goalId goal :
  GoalProgress.hoursCompleted (progress_of now goalId goal)
  = StudyGoal.hoursCompleted goal.
Proof. progress_of_cases goal; reflexivity. Qed.

(** X15.  [addTask] returns a task with the new id, the goal id given and
    the status 'not-started', and never throws.  With a goal id that no
    stored goal has (or a storage that refuses the write) the task is
    returned but nothing is stored.  Otherwise the task is the last task
    of the goal found under the id: [calculateProgress] then counts one
    task more and as many completed tasks as before, and the goal found
    under any other id is the same as before. *)
Theorem addTask_stores (ls : LocalStorage) (now : JS.Date) (uuid goalId : string)
    (taskData : TaskData.t) :
  exists task ls',
    addTask ls uuid goalId taskData = Ok (task, ls')
    /\ GoalTask.id task = uuid
    /\ GoalTask.goalId task = goalId
    /\ GoalTask.status task = not_started
    /\ (goal_with_id ls goalId = None \/ write_fails ls = true -> ls' = ls)
    /\ (forall goal,
          goal_with_id ls goalId = Some goal -> write_fails ls = false ->
          (exists goal',
             goal_with_id ls' goalId = Some goal'
             /\ StudyGoal.tasks goal' = StudyGoal.tasks goal ++ task :: nil)
          /\ (exists p p',
                calculateProgress ls now goalId = Ok p
                /\ calculateProgress ls' now goalId = Ok p'
                /\ GoalProgress.totalTasks p' = S (GoalProgress.totalTasks p)
                /\ GoalProgress.tasksCompleted p' = GoalProgress.tasksCompleted p)
          /\ forall other, other <> goalId ->
               goal_with_id ls' other = goal_with_id ls other).
Proof.
  eexists. eexists. split; [apply addTask_ok|].
  repeat (split; [reflexivity|]). split.
  - intros [-> | Hw]; [reflexivity|].
    destruct (goal_with_id ls goalId); [|reflexivity].
    unfold with_goals. now rewrite Hw.
  - intros goal Hfind Hw. rewrite Hfind.
    destruct (tasks_update_lookup ls goalId goal
                (fun tasks => tasks ++ new_task uuid goalId taskData :: nil) Hw Hfind)
      as [Hsame Hother].
    split; [eexists; split; [exact Hsame | reflexivity]|].
    split; [|exact Hother].
    eexists. eexists. split; [apply calculateProgress_ok|].
    split; [apply calculateProgress_ok|].
    unfold progress_for. rewrite Hsame, Hfind.
    rewrite !totalTasks_progress_of, !tasksCompleted_progress_of. cbn.
    unfold count_completed. rewrite List.filter_app, !List.length_app. cbn. lia.
Qed.

Lemma updateTask_ok ls now goalId taskId updates :
  updateTask ls now goalId taskId updates
  = Ok (match goal_with_id ls goalId with
        | Some goal =>
            match find (has_task_id taskId) (StudyGoal.tasks goal) with
            | Some _ =>
                with_goals ls
                  (update_first (has_id goalId)
                     (with_tasks
                        (update_first (has_task_id taskId) (update_task now updates)))
                     (stored_goals ls))
            | None => ls
            end
        | None => ls
        end).
Proof.
  unfold updateTask, goal_with_id. rewrite getGoals_ok. cbn.
  destruct (find _ _) as [goal|]; [|reflexivity].
  destruct (find _ _); [apply saveGoals_ok | reflexivity].
Qed.

(** X16.  [updateTask] writes nothing when no stored goal has the goal id
    or the goal found has no task with the task id.  Otherwise (the
    storage taking the write, the update leaving the task id alone) the
    task found under the id afterwards is the old one with the updates
    spread over it.  An update to the status 'completed' leaves the task
    with a completion time: the one of the update or of the task when
    there is one, else the time of the call; it raises the number of
    completed tasks of the goal by one when the task was not completed
    before.  An update to another status with no [completedAt] key does
    not touch the completion time of the task. *)
Theorem updateTask_completes (ls : LocalStorage) (now : JS.Date)
    (goalId taskId : string) (updates : GoalTaskUpdates.t) :
  (goal_with_id ls goalId = None -> updateTask ls now goalId taskId updates = Ok ls)
  /\ (forall goal,
        goal_with_id ls goalId = Some goal ->
        find (has_task_id taskId) (StudyGoal.tasks goal) = None ->
        updateTask ls now goalId taskId updates = Ok ls)
  /\ (forall goal task,
        goal_with_id ls goalId = Some goal ->
        find (has_task_id taskId) (StudyGoal.tasks goal) = Some task ->
        write_fails ls = false ->
        GoalTaskUpdates.id updates = None ->
        exists ls' goal' task',
          updateTask ls now goalId taskId updates = Ok ls'
          /\ goal_with_id ls' goalId = Some goal'
          /\ find (has_task_id taskId) (StudyGoal.tasks goal') = Some task'
          /\ task' = update_task now updates task
          /\ (GoalTaskUpdates.status updates = Some completed ->
              GoalTask.status task' = completed
              /\ GoalTask.completedAt task' <> None
              /\ (GoalTaskUpdates.completedAt updates = None ->
                  GoalTask.completedAt task = None ->
                  GoalTask.completedAt task' = Some now)
              /\ (GoalTask.status task <> completed ->
                  count_completed (StudyGoal.tasks goal')
                  = S (count_completed (StudyGoal.tasks goal))))
          /\ (forall status,
                GoalTaskUpdates.status updates = Some status -> status <> completed ->
                GoalTaskUpdates.completedAt updates = None ->
                GoalTask.completedAt task' = GoalTask.completedAt task)).
Proof.
  split; [|split].
  - intros Hnone. rewrite updateTask_ok. now rewrite Hnone.
  - intros goal Hg Hnone. rewrite updateTask_ok. now rewrite Hg, Hnone.
  - intros goal task Hg Ht Hw Hid.
    destruct (tasks_update_lookup ls goalId goal
                (update_first (has_task_id taskId) (update_task now updates)) Hw Hg)
      as [Hsame _].
    eexists. eexists. exists (update_task now updates task).
    split; [rewrite updateTask_ok, Hg, Ht; reflexivity|].
    split; [exact Hsame|].
    assert (Hstill : has_task_id taskId (update_task now updates task) = true).
    { pose proof Ht as H. apply find_some in H as [_ H].
      unfold has_task_id, update_task in *. cbn. now rewrite Hid. }
    split; [cbn; now apply find_update_first_same|].
    split; [reflexivity|]. split.
    + intros Hs. split; [unfold update_task; cbn; now rewrite Hs|].
      split; [|split].
      * unfold update_task. cbn. rewrite Hs.
        destruct (spread _ _) as [d|]; cbn; discriminate.
      * intros Hc Hc'. unfold update_task. cbn. now rewrite Hs, Hc, Hc'.
      * intros Hopen. cbn. unfold count_completed.
        apply (count_update_first_S _ _ _ _ task Ht).
        -- destruct (GoalTask.status task); try reflexivity. now contradiction Hopen.
        -- unfold update_task. cbn. now rewrite Hs.
    + intros status Hs Hne Hc. unfold update_task. cbn. rewrite Hs, Hc. cbn.
      now destruct status.
Qed.

Lemma deleteTask_ok ls goalId taskId :
  deleteTask ls goalId taskId
  = Ok (match goal_with_id ls goalId with
        | Some _ =>
            with_goals ls
              (update_first (has_id goalId)
                 (with_tasks (List.filter (fun t => negb (has_task_id taskId t))))
                 (stored_goals ls))
        | None => ls
        end).
Proof.
  unfold deleteTask, goal_with_id. rewrite getGoals_ok. cbn.
  destruct (find _ _); [apply saveGoals_ok | reflexivity].
Qed.

(** X17.  [deleteTask] writes nothing when no stored goal has the goal
    id.  Otherwise (the storage taking the write) the goal found under
    the id keeps its tasks with another id, in their order, and has no
    task with the task id any more; the goal found under any other id is
    the same as before. *)
Theorem deleteTask_removes (ls : LocalStorage) (goalId taskId : string) :
  (goal_with_id ls goalId = None -> deleteTask ls goalId taskId = Ok ls)
  /\ (forall goal,
        goal_with_id ls goalId = Some goal -> write_fails ls = false ->
        exists ls' goal',
          deleteTask ls goalId taskId = Ok ls'
          /\ goal_with_id ls' goalId = Some goal'
          /\ (forall t, In t (StudyGoal.tasks goal')
                        <-> In t (StudyGoal.tasks goal) /\ GoalTask.id t <> taskId)
          /\ StudyGoal.tasks goal'
             = List.filter (fun t => negb (has_task_id taskId t)) (StudyGoal.tasks goal)
          /\ find (has_task_id taskId) (StudyGoal.tasks goal') = None
          /\ forall other, other <> goalId ->
               goal_with_id ls' other = goal_with_id ls other).
Proof.
  split.
  - intros Hnone. rewrite deleteTask_ok. now rewrite Hnone.
  - intros goal Hg Hw.
    destruct (tasks_update_lookup ls goalId goal
                (List.filter (fun t => negb (has_task_id taskId t))) Hw Hg)
      as [Hsame Hother].
    eexists. eexists. split; [rewrite deleteTask_ok, Hg; reflexivity|].
    split; [exact Hsame|]. cbn.
    assert (Hin : forall t,
      In t (List.filter (fun t => negb (has_task_id taskId t)) (StudyGoal.tasks goal))
      <-> In t (StudyGoal.tasks goal) /\ GoalTask.id t <> taskId).
    { intros t0. rewrite List.filter_In. unfold has_task_id.
      rewrite negb_true_iff, String.eqb_neq. reflexivity. }
    split; [exact Hin|]. split; [reflexivity|]. split; [|exact Hother].
    destruct (find _ _) as [t0|] eqn:E; [|reflexivity].
    apply find_some in E as [E1 E2]. apply Hin in E1 as [_ E1].
    apply String.eqb_eq in E2. contradiction.
Qed.

End Tasks.

(** ** Sessions *)

Section Sessions.
Import GoalManager.

Lemma stored_goals_with_sessions ls sessions :
  stored_goals (with_sessions ls sessions) = stored_goals ls.
Proof. reflexivity. Qed.

Lemma linkSessionToGoal_ok ls now sessionLink :
  linkSessionToGoal ls now sessionLink
  = Ok (match stored_sessions ls with
        | Ok sessions =>
            if write_fails ls then ls
            else
              let ls1 := with_sessions ls (sessions ++ sessionLink :: nil) in
              match goal_with_id ls (SessionGoalLink.goalId sessionLink) with
              | Some _ =>
                  with_goals ls1
                    (update_first (has_id (SessionGoalLink.goalId sessionLink))
                       (link_goal now sessionLink) (stored_goals ls))
              | None => ls1
              end
        | Throw _ => ls
        end).
Proof.
  unfold linkSessionToGoal, stored_sessions, goal_with_id.
  destruct (if is_falsy (sessions_item ls) then Ok nil else JSON_parse (sessions_item ls))
    as [sessions|error]; cbn; [|reflexivity].
  unfold setItem_sessions. destruct (write_fails ls) eqn:Hw; cbn; [reflexivity|].
  rewrite getGoals_ok. unfold stored_goals at 1. cbn. fold (stored_goals ls).
  destruct (find _ _); unfold with_goals, with_sessions; cbn; now rewrite Hw.
Qed.

Lemma id_link_goal now sessionLink goal :
  StudyGoal.id (link_goal now sessionLink goal) = StudyGoal.id goal.
Proof. reflexivity. Qed.

Lemma completed_link_task now sessionLink task :
  TaskStatus_eqb (GoalTask.status task) completed = true ->
  TaskStatus_eqb (GoalTask.status (link_task now sessionLink task)) completed = true.
Proof.
  unfold link_task. destruct (SessionGoalLink.completedTask sessionLink); [reflexivity|].
  now destruct (GoalTask.status task).
Qed.

Lemma count_completed_link_goal now sessionLink goal :
  (count_completed (StudyGoal.tasks goal)
   <= count_completed (StudyGoal.tasks (link_goal now sessionLink goal)))%nat.
Proof.
  unfold link_goal, count_completed. cbn [StudyGoal.tasks].
  destruct (SessionGoalLink.taskId sessionLink) as [taskId|]; [|lia].
  destruct (String.eqb taskId EmptyString); [lia|].
  apply count_update_first_ge. intros t. apply completed_link_task.
Qed.

(** X18.  For a session link whose goal id a stored goal has, a session
    log that can be read and a storage that takes the writes,
    [linkSessionToGoal] appends the link to the log and updates the goal
    found under the id: one session more, hours that have not gone down
    when the minutes worked are not negative, as many tasks as before
    and no fewer completed ones.  The flashcards and milestones blobs
    are untouched and the goal found under any other id is the same as
    before. *)
Theorem linkSession_known_goal (ls : LocalStorage) (now : JS.Date)
    (sessionLink : SessionGoalLink.t) (goal : StudyGoal.t)
    (sessions : list SessionGoalLink.t) :
  goal_with_id ls (SessionGoalLink.goalId sessionLink) = Some goal ->
  stored_sessions ls = Ok sessions ->
  write_fails ls = false ->
  exists ls' goal',
    linkSessionToGoal ls now sessionLink = Ok ls'
    /\ sessions_item ls' = Some (Json (sessions ++ sessionLink :: nil))
    /\ flashcards_item ls' = flashcards_item ls
    /\ milestones_items ls' = milestones_items ls
    /\ goal_with_id ls' (SessionGoalLink.goalId sessionLink) = Some goal'
    /\ StudyGoal.sessionsCompleted goal' = S (StudyGoal.sessionsCompleted goal)
    /\ (0 <= SessionGoalLink.minutesWorked sessionLink ->
        StudyGoal.hoursCompleted goal <= StudyGoal.hoursCompleted goal')
    /\ length (StudyGoal.tasks goal') = length (StudyGoal.tasks goal)
    /\ (count_completed (StudyGoal.tasks goal)
        <= count_completed (StudyGoal.tasks goal'))%nat
    /\ forall other, other <> SessionGoalLink.goalId sessionLink ->
         goal_with_id ls' other = goal_with_id ls other.
Proof.
  intros Hgoal Hlog Hw.
  set (goalId := SessionGoalLink.goalId sessionLink) in *.
  exists (with_goals (with_sessions ls (sessions ++ sessionLink :: nil))
            (update_first (has_id goalId) (link_goal now sessionLink) (stored_goals ls))).
  exists (link_goal now sessionLink goal).
  split; [rewrite linkSessionToGoal_ok, Hlog, Hw; cbn; fold goalId; now rewrite Hgoal|].
  unfold with_goals, with_sessions. cbn [write_fails]. rewrite Hw.
  cbn [sessions_item flashcards_item milestones_items].
  repeat (split; [reflexivity|]).
  unfold goal_with_id, stored_goals. cbn [goals_item]. fold (stored_goals ls).
  split.
  { apply find_update_first_same; [exact Hgoal|].
    unfold goal_with_id in Hgoal. now apply find_some in Hgoal as [_ H]. }
  split; [cbn; lia|]. split.
  { intros Hm. cbn [link_goal StudyGoal.hoursCompleted].
    assert (0 <= SessionGoalLink.minutesWorked sessionLink / 60)
      by (apply Qle_shift_div_l; lra).
    lra. }
  split.
  { unfold link_goal. cbn [StudyGoal.tasks].
    destruct (SessionGoalLink.taskId sessionLink) as [taskId|]; [|reflexivity].
    destruct (String.eqb taskId EmptyString); [reflexivity|].
    apply length_update_first. }
  split; [apply count_completed_link_goal|].
  intros other Hne. apply find_update_first_other. intros g Hg.
  assert (H : has_id other g = false) by (apply (has_id_other goalId); auto).
  split; exact H.
Qed.

(** What [linkSessionToGoal] does to the task that the link names. *)
Lemma link_goal_task (now : JS.Date) (sessionLink : SessionGoalLink.t)
    (goal : StudyGoal.t) :
  (forall taskId task,
     SessionGoalLink.taskId sessionLink = Some taskId ->
     taskId <> EmptyString ->
     task_with_id goal taskId = Some task ->
     exists task',
       task_with_id (link_goal now sessionLink goal) taskId = Some task'
       /\ GoalTask.actualMinutes task'
          == GoalTask.actualMinutes task + SessionGoalLink.minutesWorked sessionLink
       /\ (SessionGoalLink.completedTask sessionLink = true ->
           GoalTask.status task' = completed
           /\ GoalTask.completedAt task' = Some now)
       /\ (SessionGoalLink.completedTask sessionLink = false ->
           GoalTask.completedAt task' = GoalTask.completedAt task
           /\ (GoalTask.status task = not_started -> GoalTask.status task' = in_progress)
           /\ (GoalTask.status task <> not_started ->
               GoalTask.status task' = GoalTask.status task)))
  /\ (SessionGoalLink.taskId sessionLink = None
      \/ SessionGoalLink.taskId sessionLink = Some EmptyString ->
      StudyGoal.tasks (link_goal now sessionLink goal) = StudyGoal.tasks goal).
Proof.
  split.
  - intros taskId task HtaskId Hne Hfind.
    exists (link_task now sessionLink task).
    unfold task_with_id, link_goal. cbn [StudyGoal.tasks]. rewrite HtaskId.
    apply String.eqb_neq in Hne. rewrite Hne.
    split.
    { apply (find_update_first_same (has_task_id taskId)); [exact Hfind|].
      unfold task_with_id in Hfind. apply find_some in Hfind as [_ H].
      unfold has_task_id, link_task in *.
      destruct (SessionGoalLink.completedTask sessionLink); [exact H|].
      destruct (TaskStatus_eqb _ _); exact H. }
    split; [unfold link_task; destruct (SessionGoalLink.completedTask sessionLink);
            [reflexivity | destruct (TaskStatus_eqb _ _); reflexivity]|].
    split.
    + intros Hc. unfold link_task. rewrite Hc. split; reflexivity.
    + intros Hc. unfold link_task. rewrite Hc.
      destruct (GoalTask.status task); cbn; repeat split; congruence.
  - intros [H|H]; unfold link_goal; cbn [StudyGoal.tasks]; rewrite H; reflexivity.
Qed.

(** The goal found under the id of the link after [linkSessionToGoal]. *)
Lemma linkSessionToGoal_goal ls now sessionLink goal sessions :
  goal_with_id ls (SessionGoalLink.goalId sessionLink) = Some goal ->
  stored_sessions ls = Ok sessions ->
  write_fails ls = false ->
  exists ls',
    linkSessionToGoal ls now sessionLink = Ok ls'
    /\ goal_with_id ls' (SessionGoalLink.goalId sessionLink)
       = Some (link_goal now sessionLink goal).
Proof.
  intros Hgoal Hlog Hw.
  eexists. split; [rewrite linkSessionToGoal_ok, Hlog, Hw; cbn; now rewrite Hgoal|].
  unfold with_goals, with_sessions. cbn [write_fails]. rewrite Hw.
  unfold goal_with_id, stored_goals. cbn [goals_item]. fold (stored_goals ls).
  apply find_update_first_same; [exact Hgoal|].
  unfold goal_with_id in Hgoal. now apply find_some in Hgoal as [_ H].
Qed.

(** X19.  When [linkSessionToGoal] updates a goal (as in X18) and the
    link names a task of it (a task id that is not empty and that a task
    of the goal has), the task found under that id afterwards has the
    minutes worked added to its actual minutes.  With [completedTask] it
    is 'completed', with the time of the call as its completion time;
    without, a task that was 'not-started' is 'in-progress', a task of
    any other status keeps it, and the completion time stays.  A link
    without a task id, or with the empty one, leaves the tasks of the
    goal as they are. *)
Theorem linkSession_task (ls : LocalStorage) (now : JS.Date)
    (sessionLink : SessionGoalLink.t) (goal : StudyGoal.t)
    (sessions : list SessionGoalLink.t) :
  goal_with_id ls (SessionGoalLink.goalId sessionLink) = Some goal ->
  stored_sessions ls = Ok sessions ->
  write_fails ls = false ->
  exists ls' goal',
    linkSessionToGoal ls now sessionLink = Ok ls'
    /\ goal_with_id ls' (SessionGoalLink.goalId sessionLink) = Some goal'
    /\ (forall taskId task,
          SessionGoalLink.taskId sessionLink = Some taskId ->
          taskId <> EmptyString ->
          task_with_id goal taskId = Some task ->
          exists task',
            task_with_id goal' taskId = Some task'
            /\ GoalTask.actualMinutes task'
               == GoalTask.actualMinutes task + SessionGoalLink.minutesWorked sessionLink
            /\ (SessionGoalLink.completedTask sessionLink = true ->
                GoalTask.status task' = completed
                /\ GoalTask.completedAt task' = Some now)
            /\ (SessionGoalLink.completedTask sessionLink = false ->
                GoalTask.completedAt task' = GoalTask.completedAt task
                /\ (GoalTask.status task = not_started ->
                    GoalTask.status task' = in_progress)
                /\ (GoalTask.status task <> not_started ->
                    GoalTask.status task' = GoalTask.status task)))
    /\ (SessionGoalLink.taskId sessionLink = None
        \/ SessionGoalLink.taskId sessionLink = Some EmptyString ->
        StudyGoal.tasks goal' = StudyGoal.tasks goal).
Proof.
  intros Hgoal Hlog Hw.
  destruct (linkSessionToGoal_goal ls now sessionLink goal sessions Hgoal Hlog Hw)
    as (ls' & Hlink & Hgoal').
  exists ls', (link_goal now sessionLink goal).
  split; [exact Hlink|]. split; [exact Hgoal'|].
  apply link_goal_task.
Qed.

Lemma getGoalSessions_ok ls goalId :
  getGoalSessions ls goalId
  = Ok (match stored_sessions ls with
        | Ok sessions =>
            List.filter (fun s => String.eqb (SessionGoalLink.goalId s) goalId) sessions
        | Throw _ => nil
        end).
Proof.
  unfold getGoalSessions, stored_sessions.
  destruct (is_falsy (sessions_item ls)); [reflexivity|].
  destruct (JSON_parse (sessions_item ls)) as [sessions|error]; cbn; [|reflexivity].
  unfold revive_session. now rewrite List.map_id.
Qed.

Lemma stored_sessions_linkSessionToGoal ls now sessionLink sessions ls' :
  stored_sessions ls = Ok sessions -> write_fails ls = false ->
  linkSessionToGoal ls now sessionLink = Ok ls' ->
  stored_sessions ls' = Ok (sessions ++ sessionLink :: nil).
Proof.
  intros Hlog Hw. rewrite linkSessionToGoal_ok, Hlog, Hw. cbn.
  intros [= <-].
  assert (Hne : forall (l : list SessionGoalLink.t) x,
             is_falsy (Some (Json (l ++ x :: nil))) = false).
  { intros l x. now destruct l. }
  destruct (goal_with_id ls _);
    unfold stored_sessions, with_goals, with_sessions; cbn [write_fails]; rewrite ?Hw;
    cbn [sessions_item]; now rewrite Hne.
Qed.

(** X20.  [getGoalSessions] never throws, and returns no session when
    the session log cannot be parsed.  After a [linkSessionToGoal] on a
    readable log that the storage takes, the sessions of the goal of the
    link are the ones before followed by the link, and the sessions of
    every other goal are the ones before, whether or not a stored goal
    has the id. *)
Theorem getGoalSessions_after_link (ls : LocalStorage) (now : JS.Date)
    (sessionLink : SessionGoalLink.t) :
  (forall goalId, exists sessions, getGoalSessions ls goalId = Ok sessions)
  /\ (unparseable (sessions_item ls) ->
      forall goalId, getGoalSessions ls goalId = Ok nil)
  /\ (forall sessions,
        stored_sessions ls = Ok sessions -> write_fails ls = false ->
        exists ls' before,
          linkSessionToGoal ls now sessionLink = Ok ls'
          /\ getGoalSessions ls (SessionGoalLink.goalId sessionLink) = Ok before
          /\ getGoalSessions ls' (SessionGoalLink.goalId sessionLink)
             = Ok (before ++ sessionLink :: nil)
          /\ forall other, other <> SessionGoalLink.goalId sessionLink ->
               getGoalSessions ls' other = getGoalSessions ls other).
Proof.
  split; [|split].
  - intros goalId. eexists. apply getGoalSessions_ok.
  - intros [text Htext] goalId. rewrite getGoalSessions_ok.
    unfold stored_sessions. rewrite Htext. now destruct text.
  - intros sessions Hlog Hw.
    destruct (linkSessionToGoal ls now sessionLink) as [ls'|error] eqn:Hlink;
      [|rewrite linkSessionToGoal_ok in Hlink; discriminate].
    pose proof (stored_sessions_linkSessionToGoal _ _ _ _ _ Hlog Hw Hlink) as Hlog'.
    exists ls'. eexists. split; [reflexivity|].
    split; [rewrite getGoalSessions_ok, Hlog; reflexivity|].
    split.
    + rewrite getGoalSessions_ok, Hlog', List.filter_app. cbn.
      now rewrite String.eqb_refl.
    + intros other Hne. rewrite !getGoalSessions_ok, Hlog, Hlog', List.filter_app. cbn.
      assert (E : String.eqb (SessionGoalLink.goalId sessionLink) other = false).
      { apply String.eqb_neq. congruence. }
      rewrite E. now rewrite List.app_nil_r.
Qed.

End Sessions.

(** ** The next task and today's tasks *)

Section NextTask.
Import GoalManager.

Lemma has_status_eq status task :
  has_status status task = true <-> GoalTask.status task = status.
Proof.
  unfold has_status. destruct (GoalTask.status task), status; cbn; split; congruence.
Qed.

Lemma by_dueDate_total a b : (by_dueDate a b <= 0)%Z \/ (by_dueDate b a <= 0)%Z.
Proof. unfold by_dueDate. destruct (GoalTask.dueDate a), (GoalTask.dueDate b); lia. Qed.

Lemma by_dueDate_trans a b c :
  (by_dueDate a b <= 0)%Z -> (by_dueDate b c <= 0)%Z -> (by_dueDate a c <= 0)%Z.
Proof.
  unfold by_dueDate.
  destruct (GoalTask.dueDate a), (GoalTask.dueDate b), (GoalTask.dueDate c); lia.
Qed.

(** What the comparator says of two tasks: the first is due no later,
    a task without a due date counting as due last. *)
Lemma by_dueDate_spec a b :
  (by_dueDate a b <= 0)%Z ->
  forall db, GoalTask.dueDate b = Some db ->
             exists da, GoalTask.dueDate a = Some da /\ (da <= db)%Z.
Proof.
  unfold by_dueDate. intros H db Edb. rewrite Edb in H.
  destruct (GoalTask.dueDate a) as [da|]; [|lia].
  exists da. split; [reflexivity | lia].
Qed.

Lemma next_task_of_None goal :
  next_task_of goal = None
  <-> forall task, In task (StudyGoal.tasks goal) -> ~ workable task.
Proof.
  unfold next_task_of, workable. split.
  - destruct (find _ _) as [t|] eqn:Hfind; [discriminate|].
    intros Hhead task Hin [Hs|Hs].
    + apply (find_none _ _ Hfind) in Hin. apply has_status_eq in Hs. congruence.
    + apply Array_sort_head_None in Hhead.
      assert (H : In task (List.filter (has_status not_started) (StudyGoal.tasks goal))).
      { apply List.filter_In. split; [exact Hin | now apply has_status_eq]. }
      rewrite Hhead in H. exact H.
  - intros Hnone.
    destruct (find _ _) as [t|] eqn:Hfind.
    + apply find_some in Hfind as [Hin Hs]. apply has_status_eq in Hs.
      exfalso. apply (Hnone t Hin). now left.
    + apply Array_sort_head_None.
      destruct (List.filter _ _) as [|t l] eqn:E; [reflexivity|].
      assert (H : In t (List.filter (has_status not_started) (StudyGoal.tasks goal))).
      { rewrite E. now left. }
      apply List.filter_In in H as [Hin Hs]. apply has_status_eq in Hs.
      exfalso. apply (Hnone t Hin). now right.
Qed.

Lemma next_task_of_Some goal task :
  next_task_of goal = Some task ->
  In task (StudyGoal.tasks goal)
  /\ workable task
  /\ (forall t, In t (StudyGoal.tasks goal) -> GoalTask.status t = in_progress ->
                GoalTask.status task = in_progress)
  /\ (GoalTask.status task = not_started ->
      forall t, In t (StudyGoal.tasks goal) -> GoalTask.status t = not_started ->
      forall d', GoalTask.dueDate t = Some d' ->
                 exists d, GoalTask.dueDate task = Some d /\ (d <= d')%Z).
Proof.
  unfold next_task_of, workable.
  destruct (find _ _) as [t|] eqn:Hfind.
  - intros [= ->]. apply find_some in Hfind as [Hin Hs]. apply has_status_eq in Hs.
    split; [exact Hin|]. split; [now left|]. split; [intros; exact Hs|].
    congruence.
  - intros Hhead.
    apply (Array_sort_head by_dueDate by_dueDate_total by_dueDate_trans) in Hhead
      as [Hin Hmin].
    apply List.filter_In in Hin as [Hin Hs]. apply has_status_eq in Hs.
    split; [exact Hin|]. split; [now right|]. split.
    + intros t Ht Hst. apply (find_none _ _ Hfind) in Ht.
      apply has_status_eq in Hst. congruence.
    + intros _ t Ht Hst. apply by_dueDate_spec. apply Hmin.
      apply List.filter_In. split; [exact Ht | now apply has_status_eq].
Qed.

Lemma first_next_task_spec goals :
  match first_next_task goals with
  | Some (goal, task) =>
      exists before after,
        goals = before ++ goal :: after
        /\ (forall g, In g before -> next_task_of g = None)
        /\ next_task_of goal = Some task
  | None => forall g, In g goals -> next_task_of g = None
  end.
Proof.
  induction goals as [|g goals IH]; cbn; [intros g []|].
  destruct (next_task_of g) as [task|] eqn:E.
  - exists nil, goals. split; [reflexivity|]. split; [intros g' []|exact E].
  - destruct (first_next_task goals) as [[goal task]|].
    + destruct IH as (before & after & -> & Hbefore & Hgoal).
      exists (g :: before), after. split; [reflexivity|].
      split; [|exact Hgoal]. intros g' [<-|Hin]; [exact E | now apply Hbefore].
    + intros g' [<-|Hin]; [exact E | now apply IH].
Qed.

Lemma getNextTask_ok ls goalId :
  getNextTask ls goalId = Ok (first_next_task (candidate_goals ls goalId)).
Proof.
  unfold getNextTask, candidate_goals.
  destruct goalId as [[|c s]|]; cbn; rewrite ?getActiveGoals_ok, ?getGoals_ok; reflexivity.
Qed.

(** X21.  [getNextTask] goes through the active goals (with a goal id
    that is not empty: the stored goals with that id whose [isActive] is
    set) in their stored order and answers with the first goal that has
    a task in progress or not started.  The task returned is a task of
    that goal; it is in progress whenever the goal has a task in
    progress; otherwise it is a not-started task that is due no later
    than any not-started task of the goal that has a due date.  The
    answer is [null] exactly when no such goal has a task in progress or
    not started. *)
Theorem getNextTask_choice (ls : LocalStorage) (goalId : option string) :
  exists answer,
    getNextTask ls goalId = Ok answer
    /\ match answer with
       | Some (goal, task) =>
           (exists before after,
              candidate_goals ls goalId = before ++ goal :: after
              /\ forall g t, In g before -> In t (StudyGoal.tasks g) -> ~ workable t)
           /\ In task (StudyGoal.tasks goal)
           /\ workable task
           /\ (forall t, In t (StudyGoal.tasks goal) -> GoalTask.status t = in_progress ->
                         GoalTask.status task = in_progress)
           /\ (GoalTask.status task = not_started ->
               forall t, In t (StudyGoal.tasks goal) ->
                 GoalTask.status t = not_started ->
                 forall d', GoalTask.dueDate t = Some d' ->
                   exists d, GoalTask.dueDate task = Some d /\ (d <= d')%Z)
       | None =>
           forall g t, In g (candidate_goals ls goalId) -> In t (StudyGoal.tasks g) ->
                       ~ workable t
       end.
Proof.
  eexists. split; [apply getNextTask_ok|].
  pose proof (first_next_task_spec (candidate_goals ls goalId)) as H.
  destruct (first_next_task _) as [[goal task]|].
  - destruct H as (before & after & Hsplit & Hbefore & Hgoal).
    split; [|now apply next_task_of_Some].
    exists before, after. split; [exact Hsplit|].
    intros g t Hg. apply next_task_of_None. now apply Hbefore.
  - intros g t Hg. apply next_task_of_None. now apply H.
Qed.

Lemma startOfDay_mono utcOffset d1 d2 :
  (d1 <= d2)%Z -> (startOfDay utcOffset d1 <= startOfDay utcOffset d2)%Z.
Proof.
  intros H. unfold startOfDay.
  assert ((d1 + utcOffset) / 86400000 <= (d2 + utcOffset) / 86400000)%Z
    by (apply Z.div_le_mono; lia).
  lia.
Qed.

Lemma startOfDay_le utcOffset d : (startOfDay utcOffset d <= d)%Z.
Proof.
  unfold startOfDay.
  pose proof (Z.mul_div_le (d + utcOffset) 86400000 ltac:(lia)). lia.
Qed.

Lemma startOfDay_gt utcOffset d : (d < startOfDay utcOffset d + 86400000)%Z.
Proof.
  unfold startOfDay.
  pose proof (Z.mod_pos_bound (d + utcOffset) 86400000 ltac:(lia)).
  pose proof (Z.div_mod (d + utcOffset) 86400000 ltac:(lia)). lia.
Qed.

Lemma getTodaysTasks_ok ls now utcOffset :
  getTodaysTasks ls now utcOffset
  = Ok (List.flat_map
          (fun goal => List.filter (due_today utcOffset (startOfDay utcOffset now))
                         (StudyGoal.tasks goal))
          (List.filter is_active (stored_goals ls))).
Proof. unfold getTodaysTasks. now rewrite getActiveGoals_ok. Qed.

(** X22.  [getTodaysTasks] never throws.  A task is listed exactly when
    it is a task of an active goal, is not completed and has a due date
    whose local day is today or earlier.  So every listed task is due
    before the end of the local day of the call, and every uncompleted
    task of an active goal that is due now or earlier (overdue tasks
    included) is listed. *)
Theorem getTodaysTasks_due (ls : LocalStorage) (now : JS.Date) (utcOffset : Z) :
  exists tasks,
    getTodaysTasks ls now utcOffset = Ok tasks
    /\ (forall task,
          In task tasks
          <-> exists goal dueDate,
                In goal (stored_goals ls) /\ is_active goal = true
                /\ In task (StudyGoal.tasks goal)
                /\ GoalTask.status task <> completed
                /\ GoalTask.dueDate task = Some dueDate
                /\ (startOfDay utcOffset dueDate <= startOfDay utcOffset now)%Z)
    /\ (forall task dueDate,
          In task tasks -> GoalTask.dueDate task = Some dueDate ->
          (dueDate < startOfDay utcOffset now + 86400000)%Z)
    /\ (forall goal task dueDate,
          In goal (stored_goals ls) -> is_active goal = true ->
          In task (StudyGoal.tasks goal) ->
          GoalTask.status task <> completed ->
          GoalTask.dueDate task = Some dueDate -> (dueDate <= now)%Z ->
          In task tasks).
Proof.
  eexists. split; [apply getTodaysTasks_ok|].
  assert (Hiff : forall task,
    In task (List.flat_map
               (fun goal => List.filter (due_today utcOffset (startOfDay utcOffset now))
                              (StudyGoal.tasks goal))
               (List.filter is_active (stored_goals ls)))
    <-> exists goal dueDate,
          In goal (stored_goals ls) /\ is_active goal = true
          /\ In task (StudyGoal.tasks goal)
          /\ GoalTask.status task <> completed
          /\ GoalTask.dueDate task = Some dueDate
          /\ (startOfDay utcOffset dueDate <= startOfDay utcOffset now)%Z).
  { intros task. rewrite List.in_flat_map. split.
    - intros (goal & Hgoal & Htask).
      apply List.filter_In in Hgoal as [Hgoal Hactive].
      apply List.filter_In in Htask as [Htask Hdue].
      unfold due_today in Hdue. apply andb_prop in Hdue as [Hs Hd].
      destruct (GoalTask.dueDate task) as [dueDate|] eqn:E; [|discriminate].
      exists goal, dueDate. repeat (split; [assumption|]). split.
      + intros Hc. apply has_status_eq in Hc. rewrite Hc in Hs. discriminate.
      + split; [reflexivity | now apply Z.leb_le].
    - intros (goal & dueDate & Hgoal & Hactive & Htask & Hs & Hd & Hle).
      exists goal. split; [apply List.filter_In; now split|].
      apply List.filter_In. split; [exact Htask|].
      unfold due_today. rewrite Hd. apply andb_true_intro. split.
      + apply negb_true_iff. destruct (has_status completed task) eqn:E; [|reflexivity].
        apply has_status_eq in E. contradiction.
      + now apply Z.leb_le. }
  split; [exact Hiff|]. split.
  - intros task dueDate Hin Hd. apply Hiff in Hin
      as (goal & dueDate' & _ & _ & _ & _ & Hd' & Hle).
    rewrite Hd in Hd'. injection Hd' as <-.
    pose proof (startOfDay_gt utcOffset dueDate). lia.
  - intros goal task dueDate Hgoal Hactive Htask Hs Hd Hle. apply Hiff.
    exists goal, dueDate. repeat (split; [assumption|]).
    now apply startOfDay_mono.
Qed.

End NextTask.

(** ** Stories and milestones *)

Section MoreStories.
Import StoryGoalEngine.

Lemma has_dash_before_dash s : has_dash (before_dash s) = false.
Proof.
  induction s as [|c s IH]; cbn [before_dash]; [reflexivity|].
  destruct (Ascii.eqb c "-") eqn:E; [reflexivity|].
  cbn [has_dash]. now rewrite E.
Qed.

Lemma before_dash_app s t : has_dash s = false -> before_dash (s ++ "-" ++ t) = s.
Proof.
  induction s as [|c s IH]; [reflexivity|].
  cbn [has_dash]. intros H. apply orb_false_elim in H as [Hc Hs].
  change (String c s ++ "-" ++ t)%string with (String c (s ++ "-" ++ t)).
  cbn [before_dash]. rewrite Hc. now rewrite IH.
Qed.

Lemma before_dash_neq milestoneId goalId :
  has_dash goalId = true -> before_dash milestoneId <> goalId.
Proof. intros H E. rewrite <- E, has_dash_before_dash in H. discriminate. Qed.

(** [getMilestones] and [saveMilestones] leave the goals and the other
    keys alone. *)
Lemma with_milestones_frame ls goalId milestones :
  goals_item (with_milestones ls goalId milestones) = goals_item ls
  /\ write_fails (with_milestones ls goalId milestones) = write_fails ls
  /\ forall key, key <> goalId ->
       milestones_items (with_milestones ls goalId milestones) !! key
       = milestones_items ls !! key.
Proof.
  unfold with_milestones. destruct (write_fails ls) eqn:Hw; cbn.
  - now rewrite Hw.
  - split; [reflexivity|]. split; [reflexivity|].
    intros key Hne. now apply lookup_insert_ne.
Qed.

Lemma milestones_for_frame ls goalId :
  goals_item (snd (milestones_for ls goalId)) = goals_item ls
  /\ write_fails (snd (milestones_for ls goalId)) = write_fails ls
  /\ forall key, key <> goalId ->
       milestones_items (snd (milestones_for ls goalId)) !! key
       = milestones_items ls !! key.
Proof.
  unfold milestones_for, default_milestones_for.
  destruct (milestones_items ls !! goalId) as [[text|text|milestones]|];
    try destruct (goal_with_id ls goalId); cbn [snd];
    try apply with_milestones_frame; repeat split.
Qed.

(** What [getMilestones] returns depends on the goals and on what is
    stored under the key of the goal. *)
Lemma milestones_for_fst ls ls' goalId :
  goals_item ls' = goals_item ls ->
  milestones_items ls' !! goalId = milestones_items ls !! goalId ->
  fst (milestones_for ls' goalId) = fst (milestones_for ls goalId).
Proof.
  intros Hg Hm. unfold milestones_for, default_milestones_for, goal_with_id, stored_goals.
  rewrite Hg, Hm.
  destruct (milestones_items ls !! goalId) as [[text|text|milestones]|];
    try destruct (find _ _); reflexivity.
Qed.

(** Reading the milestones twice gives the same as reading them once. *)
Lemma milestones_for_twice ls goalId :
  milestones_for (snd (milestones_for ls goalId)) goalId = milestones_for ls goalId.
Proof.
  unfold milestones_for at 2 3. unfold default_milestones_for.
  destruct (milestones_items ls !! goalId) as [[text|text|milestones]|] eqn:E; cbn [fst snd];
    try (unfold milestones_for; now rewrite E);
    (destruct (goal_with_id ls goalId) as [goal|] eqn:Hgoal; cbn [fst snd];
     [|unfold milestones_for, default_milestones_for; now rewrite E, Hgoal]);
    unfold with_milestones; (destruct (write_fails ls) eqn:Hw;
     [unfold milestones_for, default_milestones_for, with_milestones;
      now rewrite E, Hgoal, Hw|]);
    unfold milestones_for; cbn [milestones_items]; now rewrite lookup_insert_eq.
Qed.

Lemma milestones_for_again ls goalId :
  fst (milestones_for (snd (milestones_for ls goalId)) goalId)
  = fst (milestones_for ls goalId).
Proof. now rewrite milestones_for_twice. Qed.

Lemma unlockMilestone_ok ls now milestoneId :
  unlockMilestone ls now milestoneId
  = Ok (let goalId := before_dash milestoneId in
        let milestones := fst (milestones_for ls goalId) in
        let ls1 := snd (milestones_for ls goalId) in
        let is_it := fun m => String.eqb (StoryMilestone.id m) milestoneId in
        match find is_it milestones with
        | Some _ => with_milestones ls1 goalId (update_first is_it (unlock now) milestones)
        | None => ls1
        end).
Proof.
  unfold unlockMilestone. rewrite getMilestones_ok. cbn.
  destruct (milestones_for ls (before_dash milestoneId)) as [milestones ls1]. cbn.
  destruct (find _ milestones); [apply saveMilestones_ok | reflexivity].
Qed.

(** [unlockMilestone] writes under the part of the milestone id before
    its first dash, and nowhere else. *)
Lemma unlockMilestone_frame ls now milestoneId ls' :
  unlockMilestone ls now milestoneId = Ok ls' ->
  goals_item ls' = goals_item ls
  /\ write_fails ls' = write_fails ls
  /\ forall key, key <> before_dash milestoneId ->
       milestones_items ls' !! key = milestones_items ls !! key.
Proof.
  rewrite unlockMilestone_ok. intros [= <-]. cbn zeta.
  destruct (milestones_for_frame ls (before_dash milestoneId)) as (Hg & Hw & Hm).
  destruct (find _ _).
  - destruct (with_milestones_frame (snd (milestones_for ls (before_dash milestoneId)))
                (before_dash milestoneId)
                (update_first (fun m => String.eqb (StoryMilestone.id m) milestoneId)
                   (unlock now) (fst (milestones_for ls (before_dash milestoneId)))))
      as (Hg' & Hw' & Hm').
    split; [congruence|]. split; [congruence|].
    intros key Hne. rewrite Hm', Hm; auto.
  - auto.
Qed.

Lemma first_unlockable_In goal progress milestones m :
  first_unlockable goal progress milestones = Some m -> In m milestones.
Proof.
  induction milestones as [|m' rest IH]; cbn; [discriminate|].
  destruct (StoryContent.unlocked (StoryMilestone.storyContent m'));
    [intros H; right; now apply IH|].
  destruct (shouldUnlock goal progress m');
    [intros [= <-]; now left | intros H; right; now apply IH].
Qed.

(** The story for the id of a stored goal. *)
Lemma getStoryForSession_goal ls now goalId goal focusLevel isBreak sessionCount :
  goalId <> EmptyString ->
  goal_with_id ls goalId = Some goal ->
  getStoryForSession ls now (Some goalId) focusLevel isBreak sessionCount
  = match first_unlockable goal (progress_for ls now goalId)
            (fst (milestones_for ls goalId)) with
    | Some m =>
        let* ls2 := unlockMilestone (snd (milestones_for ls goalId)) now
                      (StoryMilestone.id m) in
        Ok (milestone_story m, ls2)
    | None =>
        Ok (getAdaptiveStory goal (progress_for ls now goalId) focusLevel isBreak,
            snd (milestones_for ls goalId))
    end.
Proof.
  intros Hid Hfind.
  assert (Eid : StudyGoal.id goal = goalId).
  { unfold goal_with_id in Hfind. apply find_some in Hfind as [_ H].
    now apply String.eqb_eq in H. }
  unfold getStoryForSession. apply String.eqb_neq in Hid. rewrite Hid.
  rewrite calculateProgress_ok, getGoals_ok. cbn.
  fold (goal_with_id ls goalId). rewrite Hfind.
  rewrite checkForMilestone_ok, Eid. cbn.
  destruct (first_unlockable _ _ _) as [m|] eqn:Hm; [|reflexivity].
  now rewrite (first_unlockable_locked _ _ _ _ Hm).
Qed.

Lemma milestone_getFocusBasedStory focusLevel isBreak sessionCount :
  AdaptiveStoryContent.milestone (getFocusBasedStory focusLevel isBreak sessionCount)
  = None.
Proof. reflexivity. Qed.

Lemma getUnlockedMilestones_ok ls goalId :
  getUnlockedMilestones ls goalId
  = Ok (List.filter (fun m => StoryContent.unlocked (StoryMilestone.storyContent m))
          (fst (milestones_for ls goalId)),
        snd (milestones_for ls goalId)).
Proof.
  unfold getUnlockedMilestones. rewrite getMilestones_ok. cbn.
  now destruct (milestones_for ls goalId).
Qed.

Lemma goal_with_id_congr ls ls' goalId :
  goals_item ls' = goals_item ls -> goal_with_id ls' goalId = goal_with_id ls goalId.
Proof. intros H. unfold goal_with_id, stored_goals. now rewrite H. Qed.

Lemma progress_for_congr ls ls' now goalId :
  goals_item ls' = goals_item ls -> progress_for ls' now goalId = progress_for ls now goalId.
Proof. intros H. unfold progress_for. now rewrite (goal_with_id_congr _ _ _ H). Qed.

(** X23.  The focus-based story picks its chapter by the session count
    alone: chapter 1 below 2 sessions, chapter 2 from 2 to 3, chapter 3
    from 4 to 998, and chapter 1 again from 999 sessions on, where no
    range of the table matches.  The mood is 'struggling' exactly when
    the focus level is below 4, and the story carries no milestone. *)
Theorem focus_story_chapters (focusLevel : JS.number) (isBreak : bool)
    (sessionCount : nat) :
  let story := getFocusBasedStory focusLevel isBreak sessionCount in
  ((sessionCount < 2)%nat ->
     AdaptiveStoryContent.chapter story = "Chapter 1: The Dragon Awakens")
  /\ ((2 <= sessionCount < 4)%nat ->
      AdaptiveStoryContent.chapter story = "Chapter 2: The Battle Intensifies")
  /\ ((4 <= sessionCount < 999)%nat ->
      AdaptiveStoryContent.chapter story = "Chapter 3: The Final Confrontation")
  /\ ((999 <= sessionCount)%nat ->
      AdaptiveStoryContent.chapter story = "Chapter 1: The Dragon Awakens")
  /\ (AdaptiveStoryContent.characterMood story = struggling <-> focusLevel < 4)
  /\ AdaptiveStoryContent.milestone story = None.
Proof.
  cbn zeta. unfold getFocusBasedStory, chapters.
  cbn [AdaptiveStoryContent.chapter AdaptiveStoryContent.characterMood
       AdaptiveStoryContent.milestone find fst snd].
  change (0 <=? sessionCount)%nat with true. cbn [andb].
  repeat split.
  - intros H. apply Nat.ltb_lt in H. now rewrite H.
  - intros [H1 H2].
    assert (E1 : (sessionCount <? 2)%nat = false) by (apply Nat.ltb_ge; lia).
    assert (E2 : (2 <=? sessionCount)%nat = true) by (apply Nat.leb_le; lia).
    assert (E3 : (sessionCount <? 4)%nat = true) by (apply Nat.ltb_lt; lia).
    now rewrite E1, E2, E3.
  - intros [H1 H2].
    assert (E1 : (sessionCount <? 2)%nat = false) by (apply Nat.ltb_ge; lia).
    assert (E3 : (sessionCount <? 4)%nat = false) by (apply Nat.ltb_ge; lia).
    assert (E4 : (4 <=? sessionCount)%nat = true) by (apply Nat.leb_le; lia).
    assert (E5 : (sessionCount <? 999)%nat = true) by (apply Nat.ltb_lt; lia).
    now rewrite E1, E3, E4, E5, Bool.andb_false_r.
  - intros H.
    assert (E1 : (sessionCount <? 2)%nat = false) by (apply Nat.ltb_ge; lia).
    assert (E3 : (sessionCount <? 4)%nat = false) by (apply Nat.ltb_ge; lia).
    assert (E5 : (sessionCount <? 999)%nat = false) by (apply Nat.ltb_ge; lia).
    now rewrite E1, E3, E5, !Bool.andb_false_r.
  - destruct (JS.geb focusLevel 4) eqn:E; [apply geb_ge in E | apply geb_lt in E];
      destruct isBreak; intros H; try discriminate; lra.
  - intros H. apply geb_lt in H. rewrite H. now destruct isBreak.
Qed.

Lemma getStoryForSession_fallback ls now goalId focusLevel isBreak sessionCount :
  goalId = None \/ goalId = Some EmptyString
  \/ (exists id, goalId = Some id /\ goal_with_id ls id = None) ->
  getStoryForSession ls now goalId focusLevel isBreak sessionCount
  = Ok (getFocusBasedStory focusLevel isBreak sessionCount, ls).
Proof.
  intros [-> | [-> | (id & -> & Hnone)]]; try reflexivity.
  unfold getStoryForSession. destruct (String.eqb id EmptyString); [reflexivity|].
  rewrite calculateProgress_ok, getGoals_ok. cbn.
  fold (goal_with_id ls id). now rewrite Hnone.
Qed.

(** X24.  Without a goal ([undefined] or the empty id), or with an id
    that no stored goal has, [getStoryForSession] answers with the
    focus-based story for the same arguments and writes nothing: no
    default milestones are generated for such an id. *)
Theorem story_without_goal (ls : LocalStorage) (now : JS.Date) (goalId : option string)
    (focusLevel : JS.number) (isBreak : bool) (sessionCount : nat) :
  goalId = None \/ goalId = Some EmptyString
  \/ (exists id, goalId = Some id /\ goal_with_id ls id = None) ->
  getStoryForSession ls now goalId focusLevel isBreak sessionCount
  = Ok (getFocusBasedStory focusLevel isBreak sessionCount, ls).
Proof. apply getStoryForSession_fallback. Qed.

(** X25.  For a goal whose id has a dash, as every id that
    [crypto.randomUUID] gives has, the unlock of a milestone is never
    stored: [unlockMilestone] looks the milestones up under the part of
    the milestone id before its first dash, which is not the goal id.
    When [getStoryForSession] answers with a milestone of such a goal,
    the milestones read for the goal afterwards are the ones read
    before, the unlocked ones among them are the same, and a further
    call at the same time answers with the same milestone story
    again. *)
Theorem unlock_lost_with_dash (ls : LocalStorage) (now : JS.Date) (goalId : string)
    (focusLevel : JS.number) (isBreak : bool) (sessionCount : nat)
    (story : AdaptiveStoryContent.t) (ls' : LocalStorage) (m : StoryMilestone.t) :
  has_dash goalId = true ->
  getStoryForSession ls now (Some goalId) focusLevel isBreak sessionCount
  = Ok (story, ls') ->
  AdaptiveStoryContent.milestone story = Some m ->
  fst (milestones_for ls' goalId) = fst (milestones_for ls goalId)
  /\ (exists unlocked ls1 ls'',
        getUnlockedMilestones ls goalId = Ok (unlocked, ls1)
        /\ getUnlockedMilestones ls' goalId = Ok (unlocked, ls''))
  /\ forall focusLevel' isBreak' sessionCount',
       exists ls'',
         getStoryForSession ls' now (Some goalId) focusLevel' isBreak' sessionCount'
         = Ok (story, ls'').
Proof.
  intros Hdash Hstory Hm.
  assert (Hid : goalId <> EmptyString) by (intros ->; discriminate).
  destruct (goal_with_id ls goalId) as [goal|] eqn:Hgoal.
  2: { rewrite getStoryForSession_fallback in Hstory by (right; right; eauto).
       injection Hstory as <- <-. discriminate. }
  rewrite (getStoryForSession_goal _ _ _ _ _ _ _ Hid Hgoal) in Hstory.
  destruct (first_unlockable _ _ _) as [m'|] eqn:Hfirst.
  2: { injection Hstory as <- <-. now rewrite milestone_getAdaptiveStory in Hm. }
  destruct (unlockMilestone _ now _) as [ls2|error] eqn:Hunlock; [|discriminate].
  cbn in Hstory. injection Hstory as <- <-. cbn in Hm. injection Hm as ->.
  apply unlockMilestone_frame in Hunlock as (Hg2 & Hw2 & Hm2).
  destruct (milestones_for_frame ls goalId) as (Hg1 & Hw1 & Hm1).
  assert (Hsame : fst (milestones_for ls2 goalId) = fst (milestones_for ls goalId)).
  { rewrite <- (milestones_for_again ls goalId).
    apply milestones_for_fst; [exact Hg2|].
    apply Hm2. intros E. now apply (before_dash_neq (StoryMilestone.id m) goalId). }
  assert (Hgoals : goals_item ls2 = goals_item ls) by congruence.
  split; [exact Hsame|]. split.
  - eexists. eexists. eexists. rewrite !getUnlockedMilestones_ok, Hsame.
    split; reflexivity.
  - intros f b n.
    rewrite (getStoryForSession_goal ls2 now goalId goal f b n Hid)
      by (now rewrite (goal_with_id_congr _ _ _ Hgoals)).
    rewrite (progress_for_congr _ _ _ _ Hgoals), Hsame, Hfirst.
    destruct (unlockMilestone_total (snd (milestones_for ls2 goalId)) now
                (StoryMilestone.id m)) as [ls3 ->].
    exists ls3. reflexivity.
Qed.

Lemma string_app_inv_head (s a b : string) : (s ++ a = s ++ b)%string -> a = b.
Proof. induction s as [|c s IH]; cbn; [auto|]. intros [= H]. now apply IH. Qed.

(** The default milestones of a goal whose id has no dash are its own. *)
Lemma default_milestones_own goalId goal :
  has_dash goalId = false -> own_milestones goalId (default_milestones goalId goal).
Proof.
  intros Hdash. split.
  - unfold default_milestones, default_milestone. cbn [map StoryMilestone.id].
    repeat (constructor;
            [cbn [In]; intros H;
             repeat (destruct H as [H|H];
                     [apply string_app_inv_head in H; discriminate H|]);
             exact H|]).
    constructor.
  - intros m Hm. unfold default_milestones in Hm. cbn [In] in Hm.
    repeat (destruct Hm as [<-|Hm]; [now apply before_dash_app|]).
    contradiction.
Qed.

Lemma find_unique_key {A} (key : A -> string) (l : list A) (x : A) :
  List.NoDup (map key l) -> In x l ->
  find (fun y => String.eqb (key y) (key x)) l = Some x.
Proof.
  induction l as [|y l IH]; cbn; [intros _ []|].
  intros Hnd Hin. apply List.NoDup_cons_iff in Hnd as [Hnotin Hnd].
  destruct (String.eqb (key y) (key x)) eqn:E.
  - destruct Hin as [->|Hin]; [reflexivity|].
    exfalso. apply Hnotin. apply String.eqb_eq in E. rewrite E. now apply in_map.
  - destruct Hin as [->|Hin]; [now rewrite String.eqb_refl in E | now apply IH].
Qed.

Lemma In_update_first_same {A} (p : A -> bool) (f : A -> A) (l : list A) (x : A) :
  find p l = Some x -> In (f x) (update_first p f l).
Proof.
  induction l as [|y l IH]; cbn; [discriminate|].
  destruct (p y); [intros [= ->]; now left | intros H; right; now apply IH].
Qed.

Lemma In_update_first_key {A} (key : A -> string) (k : string) (f : A -> A)
    (l : list A) (y : A) :
  (forall x, key (f x) = key x) ->
  List.NoDup (map key l) ->
  In y (update_first (fun x => String.eqb (key x) k) f l) ->
  key y = k ->
  exists x, In x l /\ y = f x.
Proof.
  intros Hf. induction l as [|z l IH]; cbn; [intros _ []|].
  intros Hnd Hin Hk. apply List.NoDup_cons_iff in Hnd as [Hnotin Hnd].
  destruct (String.eqb (key z) k) eqn:E.
  - destruct Hin as [<-|Hin]; [exists z; split; [now left | reflexivity]|].
    exfalso. apply Hnotin. apply String.eqb_eq in E. rewrite E, <- Hk.
    now apply in_map.
  - destruct Hin as [<-|Hin].
    + apply String.eqb_neq in E. contradiction.
    + destruct (IH Hnd Hin Hk) as (x & Hx & ->). exists x. split; [now right | reflexivity].
Qed.

(** X26.  For a goal whose id has no dash, with milestones that are its
    own (as the default ones are) and a storage that takes the write,
    the unlock is stored: when [getStoryForSession] answers with a
    milestone, that milestone is afterwards among the unlocked
    milestones of the goal, unlocked at the time of the call, the goal
    has as many milestones as before, and no later call answers with a
    milestone of the same id. *)
Theorem unlock_stored_without_dash (ls : LocalStorage) (now : JS.Date) (goalId : string)
    (focusLevel : JS.number) (isBreak : bool) (sessionCount : nat)
    (story : AdaptiveStoryContent.t) (ls' : LocalStorage) (m : StoryMilestone.t) :
  has_dash goalId = false ->
  write_fails ls = false ->
  own_milestones goalId (fst (milestones_for ls goalId)) ->
  getStoryForSession ls now (Some goalId) focusLevel isBreak sessionCount
  = Ok (story, ls') ->
  AdaptiveStoryContent.milestone story = Some m ->
  (exists unlocked,
     getUnlockedMilestones ls' goalId = Ok (unlocked, ls')
     /\ In (unlock now m) unlocked
     /\ StoryContent.unlockedAt (StoryMilestone.storyContent (unlock now m)) = Some now)
  /\ length (fst (milestones_for ls' goalId)) = length (fst (milestones_for ls goalId))
  /\ forall now' focusLevel' isBreak' sessionCount' story' ls'' m',
       getStoryForSession ls' now' (Some goalId) focusLevel' isBreak' sessionCount'
       = Ok (story', ls'') ->
       AdaptiveStoryContent.milestone story' = Some m' ->
       StoryMilestone.id m' <> StoryMilestone.id m.
Proof.
  intros Hdash Hw [Hnd Hown] Hstory Hm.
  assert (Hid : goalId <> EmptyString).
  { intros ->. rewrite getStoryForSession_fallback in Hstory by auto.
    injection Hstory as <- <-. discriminate. }
  destruct (goal_with_id ls goalId) as [goal|] eqn:Hgoal.
  2: { rewrite getStoryForSession_fallback in Hstory by (right; right; eauto).
       injection Hstory as <- <-. discriminate. }
  rewrite (getStoryForSession_goal _ _ _ _ _ _ _ Hid Hgoal) in Hstory.
  destruct (first_unlockable _ _ _) as [m0|] eqn:Hfirst.
  2: { injection Hstory as <- <-. now rewrite milestone_getAdaptiveStory in Hm. }
  rewrite unlockMilestone_ok in Hstory. cbn in Hstory.
  injection Hstory as <- <-. cbn in Hm. injection Hm as ->.
  pose proof (first_unlockable_In _ _ _ _ Hfirst) as Hin.
  pose proof (first_unlockable_locked _ _ _ _ Hfirst) as Hlocked.
  rewrite (Hown m Hin), milestones_for_twice.
  set (ms := fst (milestones_for ls goalId)) in *.
  set (ls1 := snd (milestones_for ls goalId)).
  pose proof (find_unique_key StoryMilestone.id ms m Hnd Hin) as Hfind.
  rewrite Hfind.
  set (ms' := update_first _ (unlock now) ms).
  destruct (milestones_for_frame ls goalId) as (Hg1 & Hw1 & _). fold ls1 in Hg1, Hw1.
  assert (Hfor : milestones_for (with_milestones ls1 goalId ms') goalId
                 = (ms', with_milestones ls1 goalId ms')).
  { unfold with_milestones. rewrite Hw1, Hw.
    unfold milestones_for. cbn [milestones_items]. now rewrite lookup_insert_eq. }
  assert (Hgoals : goals_item (with_milestones ls1 goalId ms') = goals_item ls).
  { destruct (with_milestones_frame ls1 goalId ms') as (H & _). congruence. }
  split; [|split].
  - eexists. rewrite getUnlockedMilestones_ok, Hfor. cbn [fst snd].
    split; [reflexivity|]. split; [|reflexivity].
    apply List.filter_In. split; [|reflexivity].
    now apply In_update_first_same.
  - rewrite Hfor. apply length_update_first.
  - intros now' f' b' n' story' ls'' m' Hstory' Hm' Eid.
    rewrite (getStoryForSession_goal _ now' goalId goal f' b' n' Hid) in Hstory'
      by (now rewrite (goal_with_id_congr _ _ _ Hgoals)).
    rewrite Hfor in Hstory'. cbn [fst snd] in Hstory'.
    destruct (first_unlockable _ _ ms') as [m1|] eqn:Hfirst'.
    2: { injection Hstory' as <- <-. now rewrite milestone_getAdaptiveStory in Hm'. }
    destruct (unlockMilestone _ now' _) as [ls3|error]; [|discriminate].
    cbn in Hstory'. injection Hstory' as <- <-. cbn in Hm'. injection Hm' as ->.
    pose proof (first_unlockable_In _ _ _ _ Hfirst') as Hin'.
    pose proof (first_unlockable_locked _ _ _ _ Hfirst') as Hlocked'.
    destruct (In_update_first_key StoryMilestone.id (StoryMilestone.id m)
                (unlock now) ms m' (fun x => eq_refl) Hnd Hin' Eid) as (x & _ & ->).
    discriminate Hlocked'.
Qed.

(** X27.  [getMilestones] never throws and leaves the goals alone, and
    reading the milestones again gives the same list and writes nothing
    more.  When nothing readable is stored for the goal id, it answers
    with no milestone and writes nothing if no stored goal has the id,
    and with the seven default milestones of the goal otherwise: all
    locked, all carrying the goal id, with pairwise different ids that
    have the goal id before their first dash when the goal id has no
    dash. *)
Theorem getMilestones_defaults (ls : LocalStorage) (goalId : string) :
  exists milestones ls1,
    getMilestones ls goalId = Ok (milestones, ls1)
    /\ getMilestones ls1 goalId = Ok (milestones, ls1)
    /\ goals_item ls1 = goals_item ls
    /\ (absent (milestones_items ls !! goalId)
        \/ unparseable (milestones_items ls !! goalId) ->
        (goal_with_id ls goalId = None -> milestones = nil /\ ls1 = ls)
        /\ (goal_with_id ls goalId <> None ->
            length milestones = 7%nat
            /\ (forall m, In m milestones ->
                   StoryContent.unlocked (StoryMilestone.storyContent m) = false
                   /\ StoryMilestone.goalId m = goalId)
            /\ (has_dash goalId = false -> own_milestones goalId milestones))).
Proof.
  exists (fst (milestones_for ls goalId)), (snd (milestones_for ls goalId)).
  split; [rewrite getMilestones_ok; now destruct (milestones_for ls goalId)|].
  split; [rewrite getMilestones_ok, milestones_for_twice;
          now destruct (milestones_for ls goalId)|].
  split; [apply milestones_for_frame|].
  intros Hstored.
  assert (Hfor : milestones_for ls goalId = default_milestones_for ls goalId).
  { unfold milestones_for. destruct Hstored as [-> | [text ->]]; reflexivity. }
  rewrite Hfor. unfold default_milestones_for.
  destruct (goal_with_id ls goalId) as [goal|]; cbn [fst snd].
  - split; [discriminate|]. intros _. split; [reflexivity|]. split.
    + intros m Hm. unfold default_milestones in Hm. cbn [In] in Hm.
      repeat (destruct Hm as [<-|Hm]; [split; reflexivity|]). contradiction.
    + apply default_milestones_own.
  - split; [now split | intros H; now contradiction H].
Qed.

(** X28.  The mood of the adaptive story depends on the focus and on
    the pace alone, in every chapter: it is 'struggling' exactly when
    the focus level is below 4 and the goal is off track, and
    'successful' or 'focused' only at a focus level of 4 or more;
    'successful' needs a goal on track with at least 25 percent done.
    The adaptive story never carries a milestone. *)
Theorem adaptive_story_mood (goal : StudyGoal.t) (progress : GoalProgress.t)
    (focusLevel : JS.number) (isBreak : bool) :
  let story := getAdaptiveStory goal progress focusLevel isBreak in
  (AdaptiveStoryContent.characterMood story = struggling
   <-> focusLevel < 4 /\ GoalProgress.onTrack progress = false)
  /\ (AdaptiveStoryContent.characterMood story = focused
      \/ AdaptiveStoryContent.characterMood story = successful -> 4 <= focusLevel)
  /\ (AdaptiveStoryContent.characterMood story = successful ->
      GoalProgress.onTrack progress = true
      /\ 25 <= GoalProgress.progressPercentage progress)
  /\ AdaptiveStoryContent.milestone story = None.
Proof.
  cbn zeta. unfold getAdaptiveStory.
  destruct (JS.geb focusLevel 4) eqn:Hf; [apply geb_ge in Hf | apply geb_lt in Hf];
    destruct (GoalProgress.onTrack progress);
    (destruct (JS.ltb _ 25) eqn:H25; [apply ltb_lt in H25 | apply ltb_ge in H25];
     [|destruct (JS.ltb _ 50); [|destruct (JS.ltb _ 75)]]);
    cbn; repeat split; try tauto; try discriminate; try lra;
    try (intros [? ?]; (discriminate || lra));
    try (intros [?|?]; discriminate).
Qed.

End MoreStories.

(** ** The shape of a recommendation *)

Section RecommendationShape.
Import GoalManager.

(** X29.  In every recommendation the duration, the preset and the
    action go together: 50 minutes with the deep-work preset, 15 with
    the quick-study preset and then for flashcards, 25 with the classic
    preset; a review is recommended exactly when the progress reported
    is above 70 percent, whatever the deadline.  The urgency is
    'critical' exactly when a deadline is at most two days away, and
    below 70 percent such a goal gets 50 minutes of deep work. *)
Theorem recommendation_shape (goal : StudyGoal.t) (progress : GoalProgress.t) :
  let r := recommendation goal progress in
  (DailyRecommendation.suggestedDuration r = 50%nat
   <-> DailyRecommendation.suggestedPreset r = preset_deep_work)
  /\ (DailyRecommendation.suggestedDuration r = 15%nat
      <-> DailyRecommendation.suggestedPreset r = preset_quick_study)
  /\ (DailyRecommendation.suggestedDuration r = 25%nat
      <-> DailyRecommendation.suggestedPreset r = preset_classic)
  /\ (DailyRecommendation.recommendedAction r = flashcards
      <-> DailyRecommendation.suggestedPreset r = preset_quick_study)
  /\ (DailyRecommendation.recommendedAction r = review
      <-> 70 < GoalProgress.progressPercentage progress)
  /\ (DailyRecommendation.urgency r = urgency_critical
      <-> exists days, GoalProgress.daysUntilDeadline progress = Some days
                       /\ (days <= 2)%Z)
  /\ (DailyRecommendation.urgency r = urgency_critical ->
      GoalProgress.progressPercentage progress <= 70 ->
      DailyRecommendation.recommendedAction r = deep_work
      /\ DailyRecommendation.suggestedDuration r = 50%nat).
Proof.
  cbn zeta. unfold recommendation.
  destruct (JS.gtb (GoalProgress.progressPercentage progress) 70) eqn:H70;
    [apply gtb_gt in H70 | apply gtb_le in H70];
    (destruct (GoalProgress.daysUntilDeadline progress) as [d|];
     [destruct (d <=? 2)%Z eqn:H2; [apply Z.leb_le in H2 | apply Z.leb_gt in H2];
      [|destruct (d <=? 7)%Z; [|destruct (d <=? 14)%Z]]|]);
    cbn -[Z.add];
    repeat (match goal with |- context [if ?c then _ else _] => destruct c end);
    cbn -[Z.add];
    repeat split; try discriminate; try (intros; lra); try reflexivity;
    try (intros (days & [= <-] & Hd); lia);
    try (intros (days & [=] & _));
    try (intros _; exists d; split; [reflexivity | lia]);
    try (intros ?; discriminate).
Qed.

End RecommendationShape.

(** ** The properties above on the sample data *)

Section Instances.
Import SpacedRepetitionScheduler FlashcardStorage GoalManager StoryGoalEngine.

Lemma getDueCards_sorted_witness :
  In Sample.card (getDueCards Sample.now Sample.deck).
Proof.
  destruct (getDueCards_sorted Sample.now Sample.deck) as (_ & Hin & _).
  apply Hin. split; [now left | vm_compute; discriminate].
Defined.

Lemma getNewCards_oldest_witness :
  length (getNewCards (Sample.card :: Sample.lapsed_card :: nil) (Some 5%Z)) = 2%nat
  /\ FlashcardData.lastReviewed Sample.lapsed_card = Some Sample.now.
Proof.
  pose proof (getNewCards_oldest (Sample.card :: Sample.lapsed_card :: nil) 5
                ltac:(lia)) as H.
  cbv zeta in H. destruct H as (Hlen & _). split; [exact Hlen | reflexivity].
Defined.

Lemma getCardStats_partition_witness :
  CardStats.retention (getCardStats Sample.now (Sample.reviewed_card :: nil)) == 100
  /\ CardStats.retention (getCardStats Sample.now (Sample.lapsed_card :: nil)) == 0.
Proof.
  split.
  - pose proof (getCardStats_partition Sample.now (Sample.reviewed_card :: nil)) as H.
    cbv zeta in H. destruct H as (_ & _ & _ & _ & _ & _ & Hfull).
    apply Hfull. split; [cbn; lia | reflexivity].
  - pose proof (getCardStats_partition Sample.now (Sample.lapsed_card :: nil)) as H.
    cbv zeta in H. destruct H as (_ & _ & _ & _ & _ & Hnone & _).
    apply Hnone. reflexivity.
Defined.

Lemma generateStudyPlan_fits_witness :
  StudyPlan.reviewTime (generateStudyPlan Sample.now Sample.deck 600)
  + StudyPlan.newTime (generateStudyPlan Sample.now Sample.deck 600) <= 600.
Proof.
  pose proof (generateStudyPlan_fits Sample.now Sample.deck 600) as H. cbv zeta in H.
  destruct H as (_ & _ & _ & Hfit & _). apply Hfit. vm_compute. discriminate.
Defined.


Lemma created_card_due_after_a_day_witness :
  getDueCards (2 * Sample.day)%Z
    (createFlashcard Sample.day "c9" "front" "back" None None None :: nil)
  = createFlashcard Sample.day "c9" "front" "back" None None None :: nil.
Proof.
  pose proof (created_card_due_after_a_day Sample.day "c9" "front" "back" None None None
                (2 * Sample.day)%Z) as H.
  cbv zeta in H. destruct H as (_ & _ & Hdue & _). apply Hdue. vm_compute. discriminate.
Defined.

Lemma createGoal_appends_witness :
  exists goal ls',
    createGoal Sample.halfway_storage Sample.now "g7" Sample.goal_data = Ok (goal, ls')
    /\ goal_with_id ls' "g7" = Some goal
    /\ goal_with_id ls' "g2" = Some Sample.halfway.
Proof.
  destruct (createGoal_appends Sample.halfway_storage Sample.now "g7" Sample.goal_data)
    as (goal & ls' & before & Hc & Hb & _ & _ & _ & _ & Hok & _).
  destruct (Hok eq_refl) as (Hgoals & Hfresh).
  injection Hb as <-.
  exists goal, ls'. split; [exact Hc|]. split.
  - apply Hfresh. intros g [<-|[]]. discriminate.
  - unfold goal_with_id, stored_goals. rewrite getGoals_ok in Hgoals.
    injection Hgoals as Hgoals. unfold stored_goals in Hgoals. rewrite Hgoals.
    reflexivity.
Defined.

Lemma deleteGoal_removes_witness :
  exists ls',
    deleteGoal Sample.two_goals_storage "g3" = Ok ls'
    /\ calculateProgress ls' Sample.now "g3" = Ok (no_progress "g3").
Proof.
  destruct (deleteGoal_removes Sample.two_goals_storage Sample.now "g3")
    as (ls' & before & Hd & _ & _ & _ & _ & Hok).
  exists ls'. split; [exact Hd|]. apply (Hok eq_refl).
Defined.

Lemma createGoal_deleteGoal_witness :
  exists goal ls1 ls2,
    createGoal Sample.halfway_storage Sample.now "g7" Sample.goal_data = Ok (goal, ls1)
    /\ deleteGoal ls1 "g7" = Ok ls2
    /\ getGoals ls2 = Ok (Sample.halfway :: nil).
Proof.
  destruct (createGoal_deleteGoal Sample.halfway_storage Sample.now "g7" Sample.goal_data)
    as (goal & ls1 & ls2 & Hc & Hd & Hsame).
  - reflexivity.
  - intros g [<-|[]]. discriminate.
  - exists goal, ls1, ls2. split; [exact Hc|]. split; [exact Hd|].
    rewrite Hsame. reflexivity.
Defined.

Lemma updateGoal_frame_witness :
  exists ls',
    updateGoal Sample.two_goals_storage "g4" Sample.completion = Ok ls'
    /\ goal_with_id ls' "g4" = Some (update_goal Sample.completion Sample.urgent)
    /\ goal_with_id ls' "g3" = Some Sample.fresh.
Proof.
  destruct (updateGoal_frame Sample.two_goals_storage "g4" Sample.completion)
    as (_ & Hknown).
  destruct (Hknown Sample.urgent eq_refl) as (ls' & Hu & _ & Hok).
  destruct (Hok eq_refl) as (_ & Hid). destruct (Hid eq_refl) as (Hsame & Hother).
  exists ls'. split; [exact Hu|]. split; [exact Hsame|].
  rewrite Hother by discriminate. reflexivity.
Defined.

Lemma completed_goal_not_recommended_witness :
  exists ls' recs,
    updateGoal Sample.two_goals_storage "g4" Sample.completion = Ok ls'
    /\ getDailyRecommendations ls' Sample.now = Ok recs
    /\ forall r, In r recs -> DailyRecommendation.goalId r <> "g4".
Proof.
  destruct (completed_goal_not_recommended Sample.two_goals_storage Sample.now "g4"
              Sample.completion Sample.now)
    as (ls' & active & recs & Hu & _ & Hr & _ & Hnot).
  - reflexivity.
  - unfold unique_ids. cbn.
    apply List.NoDup_cons; [intros [H|[]]; discriminate H|].
    apply List.NoDup_cons; [intros []|]. apply List.NoDup_nil.
  - reflexivity.
  - reflexivity.
  - exists ls', recs. split; [exact Hu|]. split; [exact Hr | exact Hnot].
Defined.

Lemma getPrimaryGoal_best_witness :
  exists goal,
    getPrimaryGoal Sample.two_goals_storage = Ok (Some goal)
    /\ (priorityOrder (StudyGoal.priority goal)
        <= priorityOrder (StudyGoal.priority Sample.fresh))%Z.
Proof.
  destruct (getPrimaryGoal_best Sample.two_goals_storage) as (active & Ha & _ & Hsome).
  rewrite getActiveGoals_ok in Ha. injection Ha as <-.
  destruct (Hsome ltac:(discriminate)) as (goal & Hg & _ & Hbest).
  exists goal. split; [exact Hg|]. apply Hbest. now left.
Defined.

Lemma addTask_stores_witness :
  exists task ls' goal',
    addTask Sample.halfway_storage "t9" "g2" Sample.task_data = Ok (task, ls')
    /\ goal_with_id ls' "g2" = Some goal'
    /\ StudyGoal.tasks goal' = StudyGoal.tasks Sample.halfway ++ task :: nil.
Proof.
  destruct (addTask_stores Sample.halfway_storage Sample.now "t9" "g2" Sample.task_data)
    as (task & ls' & Ha & _ & _ & _ & _ & Hknown).
  destruct (Hknown Sample.halfway eq_refl eq_refl) as ((goal' & Hg & Ht) & _).
  exists task, ls', goal'. split; [exact Ha|]. split; [exact Hg | exact Ht].
Defined.

Lemma updateTask_completes_witness :
  exists ls' goal',
    updateTask Sample.halfway_storage Sample.now "g2" "t2" Sample.task_done = Ok ls'
    /\ goal_with_id ls' "g2" = Some goal'
    /\ count_completed (StudyGoal.tasks goal') = 2%nat.
Proof.
  destruct (updateTask_completes Sample.halfway_storage Sample.now "g2" "t2"
              Sample.task_done) as (_ & _ & Hknown).
  destruct (Hknown Sample.halfway (Sample.task "t2" not_started)
              eq_refl eq_refl eq_refl eq_refl)
    as (ls' & goal' & task' & Hu & Hg & _ & _ & Hdone & _).
  destruct (Hdone eq_refl) as (_ & _ & _ & Hcount).
  exists ls', goal'. split; [exact Hu|]. split; [exact Hg|].
  rewrite Hcount by discriminate. reflexivity.
Defined.

Lemma deleteTask_removes_witness :
  exists ls' goal',
    deleteTask Sample.halfway_storage "g2" "t1" = Ok ls'
    /\ goal_with_id ls' "g2" = Some goal'
    /\ StudyGoal.tasks goal' = Sample.task "t2" not_started :: nil.
Proof.
  destruct (deleteTask_removes Sample.halfway_storage "g2" "t1") as (_ & Hknown).
  destruct (Hknown Sample.halfway eq_refl eq_refl)
    as (ls' & goal' & Hd & Hg & _ & Ht & _).
  exists ls', goal'. split; [exact Hd|]. split; [exact Hg|]. rewrite Ht. reflexivity.
Defined.

Lemma linkSession_known_goal_witness :
  exists ls' goal',
    linkSessionToGoal Sample.halfway_storage Sample.now (Sample.link "g2") = Ok ls'
    /\ goal_with_id ls' "g2" = Some goal'
    /\ StudyGoal.sessionsCompleted goal' = 4%nat
    /\ sessions_item ls' = Some (Json (Sample.link "g2" :: nil)).
Proof.
  destruct (linkSession_known_goal Sample.halfway_storage Sample.now (Sample.link "g2")
              Sample.halfway nil eq_refl eq_refl eq_refl)
    as (ls' & goal' & Hl & Hlog & _ & _ & Hg & Hs & _).
  exists ls', goal'. split; [exact Hl|]. split; [exact Hg|].
  split; [exact Hs | exact Hlog].
Defined.

Lemma linkSession_task_witness :
  exists ls' goal' task',
    linkSessionToGoal Sample.halfway_storage Sample.now Sample.task_link = Ok ls'
    /\ goal_with_id ls' "g2" = Some goal'
    /\ task_with_id goal' "t2" = Some task'
    /\ GoalTask.status task' = completed
    /\ GoalTask.completedAt task' = Some Sample.now.
Proof.
  destruct (linkSession_task Sample.halfway_storage Sample.now Sample.task_link
              Sample.halfway nil eq_refl eq_refl eq_refl)
    as (ls' & goal' & Hl & Hg & Hnamed & _).
  destruct (Hnamed "t2" (Sample.task "t2" not_started) eq_refl ltac:(discriminate) eq_refl)
    as (task' & Ht & _ & Hdone & _).
  exists ls', goal', task'. split; [exact Hl|]. split; [exact Hg|]. split; [exact Ht|].
  apply Hdone. reflexivity.
Defined.

Lemma getGoalSessions_after_link_witness :
  exists ls',
    linkSessionToGoal Sample.halfway_storage Sample.now (Sample.link "g2") = Ok ls'
    /\ getGoalSessions ls' "g2" = Ok (Sample.link "g2" :: nil)
    /\ getGoalSessions ls' "g3" = Ok nil.
Proof.
  destruct (getGoalSessions_after_link Sample.halfway_storage Sample.now
              (Sample.link "g2")) as (_ & _ & Hlink).
  destruct (Hlink nil eq_refl eq_refl) as (ls' & before & Hl & Hb & Hsame & Hother).
  injection Hb as <-.
  exists ls'. split; [exact Hl|]. split; [exact Hsame|].
  rewrite (Hother "g3") by discriminate. reflexivity.
Defined.

Lemma getNextTask_choice_witness :
  exists goal task,
    getNextTask Sample.planner_storage None = Ok (Some (goal, task))
    /\ GoalTask.status task = in_progress.
Proof.
  destruct (getNextTask_choice Sample.planner_storage None) as (answer & Ha & Hspec).
  destruct answer as [[goal task]|].
  - exists goal, task. split; [exact Ha|].
    destruct Hspec as ((before & after & Hsplit & _) & _ & _ & Hrun & _).
    assert (Hgoal : goal = Sample.planner).
    { assert (Hin : In goal (candidate_goals Sample.planner_storage None))
        by (rewrite Hsplit; apply in_or_app; right; now left).
      destruct Hin as [<-|[]]. reflexivity. }
    rewrite Hgoal in Hrun.
    apply (Hrun Sample.running); [right; right; now left | reflexivity].
  - exfalso. apply (Hspec Sample.planner Sample.running).
    + now left.
    + right; right; now left.
    + left; reflexivity.
Defined.

Lemma getTodaysTasks_due_witness :
  exists tasks,
    getTodaysTasks Sample.planner_storage Sample.now 0 = Ok tasks
    /\ In Sample.overdue tasks
    /\ ~ In Sample.running tasks.
Proof.
  destruct (getTodaysTasks_due Sample.planner_storage Sample.now 0)
    as (tasks & Ht & _ & Hsoon & Hlisted).
  exists tasks. split; [exact Ht|]. split.
  - apply (Hlisted Sample.planner Sample.overdue (9 * Sample.day)%Z).
    + now left.
    + reflexivity.
    + right; now left.
    + discriminate.
    + reflexivity.
    + vm_compute. discriminate.
  - intros Hin. pose proof (Hsoon Sample.running (15 * Sample.day)%Z Hin eq_refl) as H.
    vm_compute in H. discriminate H.
Defined.

Lemma focus_story_chapters_witness :
  AdaptiveStoryContent.chapter (getFocusBasedStory 5 false 1000)
  = "Chapter 1: The Dragon Awakens".
Proof.
  pose proof (focus_story_chapters 5 false 1000) as H. cbv zeta in H.
  destruct H as (_ & _ & _ & Hwrap & _). apply Hwrap. lia.
Defined.

Lemma story_without_goal_witness :
  getStoryForSession Sample.halfway_storage Sample.now (Some "g9") 5 false 1%nat
  = Ok (getFocusBasedStory 5 false 1%nat, Sample.halfway_storage).
Proof.
  apply story_without_goal. right. right. exists "g9". split; reflexivity.
Defined.

Lemma unlock_lost_with_dash_witness :
  exists story ls' ls'',
    getStoryForSession Sample.dashed_storage Sample.now (Some "a-b") 5 false 1%nat
    = Ok (story, ls')
    /\ AdaptiveStoryContent.milestone story <> None
    /\ getStoryForSession ls' Sample.now (Some "a-b") 2 true 2%nat = Ok (story, ls'').
Proof.
  assert (H : exists story ls' m,
             getStoryForSession Sample.dashed_storage Sample.now (Some "a-b") 5 false 1%nat
             = Ok (story, ls')
             /\ AdaptiveStoryContent.milestone story = Some m).
  { eexists. eexists. eexists. split; vm_compute; reflexivity. }
  destruct H as (story & ls' & m & Hs & Hm).
  destruct (unlock_lost_with_dash Sample.dashed_storage Sample.now "a-b" 5 false 1%nat
              story ls' m eq_refl Hs Hm) as (_ & _ & Hagain).
  destruct (Hagain 2 true 2%nat) as [ls'' Hs''].
  exists story, ls', ls''. split; [exact Hs|]. split; [|exact Hs''].
  rewrite Hm. discriminate.
Defined.

Lemma unlock_stored_without_dash_witness :
  exists story ls' m unlocked,
    getStoryForSession Sample.halfway_storage Sample.now (Some "g2") 5 false 1%nat
    = Ok (story, ls')
    /\ AdaptiveStoryContent.milestone story = Some m
    /\ getUnlockedMilestones ls' "g2" = Ok (unlocked, ls')
    /\ In (unlock Sample.now m) unlocked.
Proof.
  assert (H : exists story ls' m,
             getStoryForSession Sample.halfway_storage Sample.now (Some "g2") 5 false 1%nat
             = Ok (story, ls')
             /\ AdaptiveStoryContent.milestone story = Some m).
  { eexists. eexists. eexists. split; vm_compute; reflexivity. }
  destruct H as (story & ls' & m & Hs & Hm).
  destruct (unlock_stored_without_dash Sample.halfway_storage Sample.now "g2" 5 false 1%nat
              story ls' m eq_refl eq_refl
              (default_milestones_own "g2" Sample.halfway eq_refl) Hs Hm)
    as ((unlocked & Hu & Hin & _) & _).
  exists story, ls', m, unlocked.
  split; [exact Hs|]. split; [exact Hm|]. split; [exact Hu | exact Hin].
Defined.

Lemma getMilestones_defaults_witness :
  exists milestones ls1,
    getMilestones Sample.halfway_storage "g2" = Ok (milestones, ls1)
    /\ length milestones = 7%nat.
Proof.
  destruct (getMilestones_defaults Sample.halfway_storage "g2")
    as (milestones & ls1 & Hm & _ & _ & Hdefault).
  destruct (Hdefault (or_introl eq_refl)) as (_ & Hknown).
  destruct (Hknown ltac:(discriminate)) as (Hlen & _).
  exists milestones, ls1. split; [exact Hm | exact Hlen].
Defined.

Lemma adaptive_story_mood_witness :
  AdaptiveStoryContent.characterMood
    (getAdaptiveStory Sample.halfway (no_progress "g2") 2 false)
  = struggling.
Proof.
  pose proof (adaptive_story_mood Sample.halfway (no_progress "g2") 2 false) as H.
  cbv zeta in H. destruct H as (Hmood & _). apply Hmood. split; reflexivity.
Defined.

Lemma recommendation_shape_witness :
  DailyRecommendation.recommendedAction
    (recommendation_for Sample.overshoot_storage Sample.now Sample.overshoot)
  = review.
Proof.
  pose proof (recommendation_shape Sample.overshoot
                (progress_for Sample.overshoot_storage Sample.now "g1")) as H.
  cbv zeta in H. destruct H as (_ & _ & _ & _ & Hreview & _).
  apply Hreview. vm_compute. reflexivity.
Defined.

End Instances.

(** * Binary64 numbers: rounding and order *)

Section Binary64Facts.
Import Binary64.

Lemma pow2_Qpower (k : Z) : pow2 k == 2 ^ k.
Proof.
  destruct k as [|p|p]; cbn [pow2].
  - reflexivity.
  - rewrite Pos2Z.inj_pow. rewrite Zpower_Qpower by lia. reflexivity.
  - change (2 ^ Zneg p) with (/ (2 ^ Zpos p)).
    rewrite <- (Zpower_Qpower 2 (Zpos p)) by lia.
    rewrite <- Pos2Z.inj_pow. reflexivity.
Qed.

Lemma pow2_pos (k : Z) : 0 < pow2 k.
Proof. destruct k; cbn [pow2]; reflexivity. Qed.

Lemma pow2_add (a b : Z) : pow2 (a + b) == pow2 a * pow2 b.
Proof. rewrite !pow2_Qpower. apply Qpower_plus. discriminate. Qed.

Lemma pow2_nonneg_ge1 (k : Z) : (0 <= k)%Z -> 1 <= pow2 k.
Proof.
  destruct k as [|p|p]; [discriminate | | lia]. intros _. cbn [pow2].
  change 1 with (inject_Z 1). rewrite <- Zle_Qle. lia.
Qed.

Lemma pow2_le (a b : Z) : (a <= b)%Z -> pow2 a <= pow2 b.
Proof.
  intros H. replace b with (a + (b - a))%Z by lia. rewrite pow2_add.
  pose proof (pow2_pos a). pose proof (pow2_nonneg_ge1 (b - a) ltac:(lia)). nra.
Qed.

Lemma pow2_lt (a b : Z) : (a < b)%Z -> pow2 a < pow2 b.
Proof.
  intros H. replace b with (a + 1 + (b - a - 1))%Z by lia. rewrite !pow2_add.
  pose proof (pow2_pos a). pose proof (pow2_nonneg_ge1 (b - a - 1) ltac:(lia)).
  change (pow2 1) with 2. nra.
Qed.

Lemma pow2_lt_inv (a b : Z) : pow2 a < pow2 b -> (a < b)%Z.
Proof.
  intros H. destruct (Z_lt_le_dec a b) as [Hlt|Hle]; [exact Hlt|].
  apply pow2_le in Hle. lra.
Qed.

(** [2 ^ k] for [k >= 0] is the integer [2 ^ k]. *)
Lemma pow2_Z (k : Z) : (0 <= k)%Z -> pow2 k = inject_Z (2 ^ k).
Proof.
  destruct k as [|p|p]; [reflexivity | | lia]. intros _. cbn [pow2].
  now rewrite Pos2Z.inj_pow.
Qed.

Lemma pow2_opp (k : Z) : pow2 k * pow2 (- k) == 1.
Proof. rewrite <- pow2_add. now replace (k + - k)%Z with 0%Z by lia. Qed.

Lemma div_pow2 (a : Q) (k : Z) : a / pow2 k == a * pow2 (- k).
Proof.
  unfold Qdiv. apply Qmult_comp; [reflexivity|].
  rewrite !pow2_Qpower. symmetry. apply Qpower_opp.
Qed.

Lemma pow2_split (a b : Z) : pow2 (a - b) == pow2 a * pow2 (- b).
Proof. rewrite <- pow2_add. now replace (a + - b)%Z with (a - b)%Z by lia. Qed.

(** The exponent. *)
Lemma ilog2_spec (a : Q) : 0 < a -> pow2 (ilog2 a) <= a < pow2 (ilog2 a + 1).
Proof.
  intros Ha. destruct a as [n d]. unfold Qlt in Ha. cbn in Ha.
  assert (Hn : (0 < n)%Z) by lia. clear Ha.
  unfold ilog2. cbn [Qnum Qden].
  pose proof (Z.log2_spec n Hn) as [Hx1 Hx2].
  pose proof (Z.log2_spec (Zpos d) ltac:(lia)) as [Hy1 Hy2].
  pose proof (Z.log2_nonneg n) as Hx0. pose proof (Z.log2_nonneg (Zpos d)) as Hy0.
  set (x := Z.log2 n) in *. set (y := Z.log2 (Zpos d)) in *.
  assert (Hnd : n # d == inject_Z n / inject_Z (Zpos d)) by apply Qmake_Qdiv.
  assert (Hdpos : 0 < inject_Z (Zpos d)) by (change 0 with (inject_Z 0); rewrite <- Zlt_Qlt; lia).
  assert (Hx1q : pow2 x <= inject_Z n) by (rewrite (pow2_Z x Hx0), <- Zle_Qle; exact Hx1).
  assert (Hx2q : inject_Z n < pow2 (x + 1)).
  { rewrite (pow2_Z (x + 1)) by lia. rewrite <- Zlt_Qlt. now rewrite <- Z.add_1_r in Hx2. }
  assert (Hy1q : pow2 y <= inject_Z (Zpos d)) by (rewrite (pow2_Z y Hy0), <- Zle_Qle; exact Hy1).
  assert (Hy2q : inject_Z (Zpos d) < pow2 (y + 1)).
  { rewrite (pow2_Z (y + 1)) by lia. rewrite <- Zlt_Qlt. now rewrite <- Z.add_1_r in Hy2. }
  assert (Hup : n # d < pow2 (x - y + 1)).
  { rewrite Hnd. apply Qlt_shift_div_r; [exact Hdpos|].
    replace (x - y + 1)%Z with ((x + 1) + - y)%Z by lia. rewrite pow2_add.
    pose proof (pow2_opp y) as Ho. pose proof (pow2_pos (- y)) as Hp.
    pose proof (pow2_pos (x + 1)) as Hp1.
    revert Ho Hp Hp1 Hx2q Hy1q. generalize (pow2 (- y)) (pow2 (x + 1)) (pow2 y).
    generalize (inject_Z n) (inject_Z (Zpos d)). clear. intros n d iy x1 y Ho Hp Hp1 Hx Hy.
    assert (1 <= iy * d) by nra. nra. }
  assert (Hlow : pow2 (x - y - 1) <= n # d).
  { rewrite Hnd. apply Qle_shift_div_l; [exact Hdpos|].
    replace (x - y - 1)%Z with (x + - (y + 1))%Z by lia. rewrite pow2_add.
    pose proof (pow2_opp (y + 1)) as Ho. pose proof (pow2_pos (- (y + 1))) as Hp.
    pose proof (pow2_pos x) as Hp1.
    revert Ho Hp Hp1 Hx1q Hy2q Hdpos. generalize (pow2 (- (y + 1))) (pow2 x) (pow2 (y + 1)).
    generalize (inject_Z n) (inject_Z (Zpos d)). clear.
    intros n d iy x1 y Ho Hp Hp1 Hx Hy Hd.
    assert (iy * d <= 1) by nra. nra. }
  destruct (Qle_bool (pow2 (x - y)) (n # d)) eqn:E.
  - apply Qle_bool_iff in E. split; [exact E | exact Hup].
  - split; [exact Hlow|]. replace (x - y - 1 + 1)%Z with (x - y)%Z by lia.
    apply Qnot_le_lt. intros H. apply Qle_bool_iff in H. congruence.
Qed.

Lemma ilog2_unique (a : Q) (e : Z) : pow2 e <= a < pow2 (e + 1) -> ilog2 a = e.
Proof.
  intros [H1 H2]. assert (Ha : 0 < a) by (pose proof (pow2_pos e); lra).
  pose proof (ilog2_spec a Ha) as [H3 H4].
  assert (ilog2 a < e + 1)%Z by (apply pow2_lt_inv; lra).
  assert (e < ilog2 a + 1)%Z by (apply pow2_lt_inv; lra).
  lia.
Qed.

Lemma ilog2_compat (a b : Q) : 0 < a -> a == b -> ilog2 a = ilog2 b.
Proof.
  intros Ha E. symmetry. apply ilog2_unique. rewrite <- E. now apply ilog2_spec.
Qed.

Lemma ilog2_mono (a b : Q) : 0 < a -> a <= b -> (ilog2 a <= ilog2 b)%Z.
Proof.
  intros Ha Hab. pose proof (ilog2_spec a Ha) as [H1 _].
  pose proof (ilog2_spec b ltac:(lra)) as [_ H2].
  assert (ilog2 a < ilog2 b + 1)%Z by (apply pow2_lt_inv; lra). lia.
Qed.

Lemma round_half_even_Z (n : Z) : round_half_even (inject_Z n) = n.
Proof.
  unfold round_half_even. rewrite Qfloor_Z.
  destruct (Qcompare (inject_Z n - inject_Z n) (1 # 2)) eqn:E; [| reflexivity |].
  - apply Qeq_alt in E. lra.
  - apply Qgt_alt in E. lra.
Qed.

Lemma round_half_even_compat (y y' : Q) : y == y' -> round_half_even y = round_half_even y'.
Proof.
  intros E. unfold round_half_even. rewrite (Qfloor_comp _ _ E).
  assert (H : Qcompare (y - inject_Z (Qfloor y')) (1 # 2)
              = Qcompare (y' - inject_Z (Qfloor y')) (1 # 2)).
  { apply Qcompare_comp; [rewrite E|]; reflexivity. }
  now rewrite H.
Qed.

Lemma round_half_even_mono (y y' : Q) :
  y <= y' -> (round_half_even y <= round_half_even y')%Z.
Proof.
  intros H. pose proof (Qfloor_resp_le _ _ H) as Hf.
  destruct (Z.eq_dec (Qfloor y) (Qfloor y')) as [E|E].
  - unfold round_half_even. rewrite E.
    destruct (Qcompare (y - inject_Z (Qfloor y')) (1 # 2)) eqn:E1;
      destruct (Qcompare (y' - inject_Z (Qfloor y')) (1 # 2)) eqn:E2;
      try destruct (Z.even (Qfloor y')); try lia;
      repeat match goal with
      | H : Qcompare _ _ = Eq |- _ => apply Qeq_alt in H
      | H : Qcompare _ _ = Lt |- _ => apply Qlt_alt in H
      | H : Qcompare _ _ = Gt |- _ => apply Qgt_alt in H
      end; exfalso; lra.
  - assert (Hlt : (Qfloor y + 1 <= Qfloor y')%Z) by lia.
    assert (H1 : (round_half_even y <= Qfloor y + 1)%Z).
    { unfold round_half_even.
      destruct (Qcompare _ _); try destruct (Z.even _); lia. }
    assert (H2 : (Qfloor y' <= round_half_even y')%Z).
    { unfold round_half_even.
      destruct (Qcompare _ _); try destruct (Z.even _); lia. }
    lia.
Qed.

Lemma round_half_even_nonneg (y : Q) : 0 <= y -> (0 <= round_half_even y)%Z.
Proof.
  intros H. change 0%Z with (round_half_even (inject_Z 0)) at 1.
  rewrite round_half_even_Z. rewrite <- (round_half_even_Z 0).
  now apply round_half_even_mono.
Qed.


(** The nearest value of the grid. *)
Lemma nearest_zero (a : Q) : a == 0 -> nearest a == 0.
Proof.
  intros E. unfold nearest. generalize (pow2 (grid a)). intros p.
  assert (H : a / p == inject_Z 0).
  { unfold Qdiv. rewrite E. change (inject_Z 0) with 0. ring. }
  rewrite (round_half_even_compat _ _ H), round_half_even_Z.
  change (inject_Z 0) with 0. ring.
Qed.

Lemma grid_compat (a b : Q) : 0 < a -> a == b -> grid a = grid b.
Proof. intros Ha E. unfold grid. now rewrite (ilog2_compat a b Ha E). Qed.

Lemma nearest_compat (a b : Q) : 0 <= a -> a == b -> nearest a == nearest b.
Proof.
  intros Ha E. destruct (Qlt_le_dec 0 a) as [Hpos|Hle].
  - unfold nearest. rewrite (grid_compat a b Hpos E).
    assert (H : a / pow2 (grid b) == b / pow2 (grid b)).
    { generalize (pow2 (grid b)). intros p. now rewrite E. }
    now rewrite (round_half_even_compat _ _ H).
  - rewrite (nearest_zero a), (nearest_zero b); [reflexivity | lra | lra].
Qed.

Lemma nearest_nonneg (a : Q) : 0 <= a -> 0 <= nearest a.
Proof.
  intros Ha. unfold nearest. pose proof (pow2_pos (grid a)) as Hp.
  assert (0 <= a / pow2 (grid a)) by (apply Qle_shift_div_l; lra).
  pose proof (round_half_even_nonneg _ H) as Hn.
  rewrite Zle_Qle in Hn. change (inject_Z 0) with 0 in Hn. nra.
Qed.

(** A value of the grid is its own nearest value. *)
Lemma nearest_on_grid (a : Q) (m : Z) :
  0 < a -> a == inject_Z m * pow2 (grid a) -> nearest a == a.
Proof.
  intros Ha E. unfold nearest. pose proof (pow2_pos (grid a)) as Hp.
  assert (H : a / pow2 (grid a) == inject_Z m).
  { rewrite E at 1. field. lra. }
  rewrite (round_half_even_compat _ _ H), round_half_even_Z. now rewrite <- E.
Qed.

Lemma nearest_mono (a b : Q) : 0 <= a -> a <= b -> nearest a <= nearest b.
Proof.
  intros Ha Hab. destruct (Qlt_le_dec 0 a) as [Hpos|Hle].
  2: { rewrite (nearest_zero a) by lra. apply nearest_nonneg. lra. }
  assert (Hb : 0 < b) by lra.
  pose proof (ilog2_mono a b Hpos Hab) as He.
  pose proof (ilog2_spec a Hpos) as [Ha1 Ha2].
  pose proof (ilog2_spec b Hb) as [Hb1 Hb2].
  destruct (Z.eq_dec (grid a) (grid b)) as [Eg|Eg].
  - unfold nearest. rewrite Eg. pose proof (pow2_pos (grid b)) as Hp.
    assert (H : a / pow2 (grid b) <= b / pow2 (grid b)).
    { apply Qle_shift_div_l; [exact Hp|]. unfold Qdiv.
      rewrite <- Qmult_assoc, (Qmult_comm (/ _)), Qmult_inv_r by lra. lra. }
    apply round_half_even_mono in H. rewrite Zle_Qle in H. nra.
  - assert (Hg : (grid a < grid b)%Z) by (unfold grid in *; lia).
    assert (Egb : grid b = (ilog2 b - 52)%Z) by (unfold grid in *; lia).
    assert (Hlt : (ilog2 a < ilog2 b)%Z) by (unfold grid in *; lia).
    assert (Hmid : a <= pow2 (ilog2 b)).
    { assert (pow2 (ilog2 a + 1) <= pow2 (ilog2 b)) by (apply pow2_le; lia). lra. }
    apply Qle_trans with (pow2 (ilog2 b)).
    + unfold nearest. pose proof (pow2_pos (grid a)) as Hp.
      assert (Hk : (0 <= ilog2 b - grid a)%Z) by lia.
      assert (H : a / pow2 (grid a) <= inject_Z (2 ^ (ilog2 b - grid a))).
      { rewrite <- pow2_Z by exact Hk. rewrite div_pow2, pow2_split.
        pose proof (pow2_pos (- grid a)). nra. }
      apply round_half_even_mono in H. rewrite round_half_even_Z in H.
      rewrite Zle_Qle in H. rewrite <- pow2_Z in H by exact Hk.
      rewrite pow2_split in H. pose proof (pow2_opp (grid a)) as Ho.
      pose proof (pow2_pos (- grid a)). pose proof (pow2_pos (ilog2 b)).
      revert H Ho Hp H0 H1.
      generalize (inject_Z (round_half_even (a / pow2 (grid a)))).
      generalize (pow2 (grid a)) (pow2 (- grid a)) (pow2 (ilog2 b)). clear.
      intros g ig p r H Ho Hg Hig Hp.
      assert (r * g <= p * (ig * g)) by nra.
      rewrite (Qmult_comm ig g), Ho in H0. lra.
    + unfold nearest. pose proof (pow2_pos (grid b)) as Hp.
      assert (H : inject_Z (2 ^ 52) <= b / pow2 (grid b)).
      { rewrite <- pow2_Z by lia. rewrite div_pow2. rewrite Egb.
        replace (pow2 52) with (pow2 (ilog2 b + - (ilog2 b - 52)))
          by (f_equal; lia).
        rewrite pow2_add. pose proof (pow2_pos (- (ilog2 b - 52))). nra. }
      apply round_half_even_mono in H. rewrite round_half_even_Z in H.
      rewrite Zle_Qle in H. rewrite <- pow2_Z in H by lia.
      rewrite Egb in *.
      assert (E : pow2 (ilog2 b) == pow2 52 * pow2 (ilog2 b - 52)).
      { rewrite <- pow2_add. now replace (52 + (ilog2 b - 52))%Z with (ilog2 b) by lia. }
      rewrite E. nra.
Qed.


(** The order of numbers. *)
Lemma compare_finite (x y : number) :
  is_finite x = true -> is_finite y = true ->
  compare x y = Some (Qcompare (to_Q x) (to_Q y)).
Proof. destruct x, y; try discriminate; reflexivity. Qed.

Lemma leb_finite (x y : number) :
  is_finite x = true -> is_finite y = true ->
  (leb x y = true <-> to_Q x <= to_Q y).
Proof.
  intros Hx Hy. unfold leb. rewrite (compare_finite x y Hx Hy).
  destruct (Qcompare_spec (to_Q x) (to_Q y)) as [E|E|E]; split; intros H;
    try reflexivity; try discriminate; lra.
Qed.

Lemma leb_not_NaN (x y : number) : leb x y = true -> is_NaN x = false /\ is_NaN y = false.
Proof. destruct x, y; try discriminate; now split. Qed.

Lemma leb_refl (x : number) : is_NaN x = false -> leb x x = true.
Proof.
  destruct x as [|[]|[]|v]; try discriminate; intros _; try reflexivity.
  unfold leb, compare. cbn [to_Q].
  destruct (Qcompare_spec v v); try reflexivity. exfalso; lra.
Qed.

Lemma leb_trans (x y z : number) : leb x y = true -> leb y z = true -> leb x z = true.
Proof.
  destruct x as [|a|a|v], y as [|b|b|w], z as [|c|c|u];
    try discriminate; try (destruct a); try (destruct b); try (destruct c);
    try discriminate; try reflexivity;
    unfold leb, compare; cbn [to_Q];
    repeat match goal with
    | |- context [Qcompare ?p ?q] => destruct (Qcompare_spec p q)
    end; intros; try reflexivity; try discriminate; exfalso; lra.
Qed.

Lemma leb_Infinity (x : number) : is_NaN x = false -> leb x (Infinity false) = true.
Proof. destruct x as [|[]|[]|v]; try discriminate; reflexivity. Qed.

Lemma pack_compat (s : bool) (a b : Q) : a == b -> pack s a = pack s b.
Proof.
  intros E. unfold pack.
  assert (H0 : Qeq_bool a 0 = Qeq_bool b 0).
  { destruct (Qeq_bool a 0) eqn:Ea, (Qeq_bool b 0) eqn:Eb; try reflexivity.
    - apply Qeq_bool_iff in Ea. apply Qeq_bool_neq in Eb. exfalso. apply Eb. lra.
    - apply Qeq_bool_iff in Eb. apply Qeq_bool_neq in Ea. exfalso. apply Ea. lra. }
  assert (H1 : Qle_bool (pow2 1024) a = Qle_bool (pow2 1024) b).
  { destruct (Qle_bool _ a) eqn:Ea, (Qle_bool _ b) eqn:Eb; try reflexivity.
    - apply Qle_bool_iff in Ea. assert (H : pow2 1024 <= b) by lra.
      apply Qle_bool_iff in H. congruence.
    - apply Qle_bool_iff in Eb. assert (H : pow2 1024 <= a) by lra.
      apply Qle_bool_iff in H. congruence. }
  rewrite H0, H1. destruct (Qeq_bool b 0); [reflexivity|].
  destruct (Qle_bool _ b); [reflexivity|]. f_equal. apply Qred_complete.
  destruct s; now rewrite E.
Qed.

Lemma pack_not_NaN (s : bool) (a : Q) : is_NaN (pack s a) = false.
Proof. unfold pack. destruct (Qeq_bool _ _); [|destruct (Qle_bool _ _)]; reflexivity. Qed.

Lemma pack_cases (s : bool) (a : Q) :
  0 <= a ->
  (a == 0 /\ pack s a = Zero s)
  \/ (0 < a /\ a < pow2 1024 /\ pack s a = Finite (Qred (if s then - a else a)))
  \/ (pow2 1024 <= a /\ pack s a = Infinity s).
Proof.
  intros Ha. unfold pack. destruct (Qeq_bool a 0) eqn:E0.
  - apply Qeq_bool_iff in E0. now left.
  - apply Qeq_bool_neq in E0. destruct (Qle_bool (pow2 1024) a) eqn:E1.
    + apply Qle_bool_iff in E1. right; right. now split.
    + right; left. split; [|split; [|reflexivity]].
      * destruct (Qlt_le_dec 0 a) as [H|H]; [exact H|]. exfalso. apply E0. lra.
      * destruct (Qlt_le_dec a (pow2 1024)) as [H|H]; [exact H|].
        apply Qle_bool_iff in H. congruence.
Qed.

Lemma pack_mono (a b : Q) : 0 <= a -> a <= b -> leb (pack false a) (pack false b) = true.
Proof.
  intros Ha Hab. pose proof (pow2_pos 1024) as Hp. assert (Hb : 0 <= b) by lra.
  destruct (pack_cases false a Ha) as [[A ->]|[[A [A' ->]]|[A ->]]];
    (destruct (pack_cases false b Hb) as [[B ->]|[[B [B' ->]]|[B ->]]]);
    try reflexivity; try (exfalso; lra);
    apply leb_finite; try reflexivity; cbn [to_Q]; rewrite ?Qred_correct; lra.
Qed.

Lemma pack_mono_neg (a b : Q) : 0 <= a -> a <= b -> leb (pack true b) (pack true a) = true.
Proof.
  intros Ha Hab. pose proof (pow2_pos 1024) as Hp. assert (Hb : 0 <= b) by lra.
  destruct (pack_cases true a Ha) as [[A ->]|[[A [A' ->]]|[A ->]]];
    (destruct (pack_cases true b Hb) as [[B ->]|[[B [B' ->]]|[B ->]]]);
    try reflexivity; try (exfalso; lra);
    apply leb_finite; try reflexivity; cbn [to_Q]; rewrite ?Qred_correct; lra.
Qed.

Lemma pack_neg_pos (a b : Q) : 0 <= a -> 0 <= b -> leb (pack true a) (pack false b) = true.
Proof.
  intros Ha Hb. pose proof (pow2_pos 1024) as Hp.
  destruct (pack_cases true a Ha) as [[A ->]|[[A [A' ->]]|[A ->]]];
    (destruct (pack_cases false b Hb) as [[B ->]|[[B [B' ->]]|[B ->]]]);
    try reflexivity; try (exfalso; lra);
    apply leb_finite; try reflexivity; cbn [to_Q]; rewrite ?Qred_correct; lra.
Qed.

(** Rounding a rational. *)
Lemma round_compat (q q' : Q) : q == q' -> round q = round q'.
Proof.
  intros E. unfold round.
  assert (H0 : Qle_bool 0 q = Qle_bool 0 q').
  { destruct (Qle_bool 0 q) eqn:Ea, (Qle_bool 0 q') eqn:Eb; try reflexivity.
    - apply Qle_bool_iff in Ea. assert (H : 0 <= q') by lra.
      apply Qle_bool_iff in H. congruence.
    - apply Qle_bool_iff in Eb. assert (H : 0 <= q) by lra.
      apply Qle_bool_iff in H. congruence. }
  rewrite H0. apply pack_compat. apply nearest_compat; [apply Qabs_nonneg|].
  now rewrite E.
Qed.

Lemma round_not_NaN (q : Q) : is_NaN (round q) = false.
Proof. apply pack_not_NaN. Qed.

Lemma round_nonneg (q : Q) : 0 <= q -> round q = pack false (nearest q).
Proof.
  intros H. unfold round. pose proof H as H'. apply Qle_bool_iff in H'. rewrite H'.
  apply pack_compat. apply nearest_compat; [apply Qabs_nonneg|]. now apply Qabs_pos.
Qed.

Lemma round_neg (q : Q) : q < 0 -> round q = pack true (nearest (- q)).
Proof.
  intros H. unfold round.
  assert (H' : Qle_bool 0 q = false).
  { destruct (Qle_bool 0 q) eqn:E; [|reflexivity]. apply Qle_bool_iff in E. lra. }
  rewrite H'. apply pack_compat. apply nearest_compat; [apply Qabs_nonneg|].
  apply Qabs_neg. lra.
Qed.

Lemma round_mono (q q' : Q) : q <= q' -> leb (round q) (round q') = true.
Proof.
  intros H. destruct (Qlt_le_dec q 0) as [Hq|Hq], (Qlt_le_dec q' 0) as [Hq'|Hq'].
  - rewrite (round_neg q Hq), (round_neg q' Hq').
    apply pack_mono_neg; [apply nearest_nonneg; lra|]. apply nearest_mono; lra.
  - rewrite (round_neg q Hq), (round_nonneg q' Hq').
    apply pack_neg_pos; apply nearest_nonneg; lra.
  - lra.
  - rewrite (round_nonneg q Hq), (round_nonneg q' Hq').
    apply pack_mono; [apply nearest_nonneg; lra|]. apply nearest_mono; lra.
Qed.

(** Integers of at most 53 bits are numbers. *)
Lemma nearest_Z (z : Z) : (0 < z <= 2 ^ 53)%Z -> nearest (inject_Z z) == inject_Z z.
Proof.
  intros [H0 H53].
  assert (Hpos : 0 < inject_Z z) by (change 0 with (inject_Z 0); rewrite <- Zlt_Qlt; lia).
  pose proof (ilog2_spec _ Hpos) as [H1 H2].
  assert (He : (ilog2 (inject_Z z) <= 53)%Z).
  { assert (ilog2 (inject_Z z) < 54)%Z; [|lia]. apply pow2_lt_inv.
    eapply Qle_lt_trans; [exact H1|]. rewrite (pow2_Z 54) by lia.
    rewrite <- Zlt_Qlt. lia. }
  destruct (Z.eq_dec (ilog2 (inject_Z z)) 53%Z) as [E|E].
  - assert (Ez : z = (2 ^ 53)%Z).
    { rewrite E, (pow2_Z 53) in H1 by lia. rewrite <- Zle_Qle in H1. lia. }
    apply (nearest_on_grid _ (2 ^ 52) Hpos). unfold grid. rewrite E, Ez.
    reflexivity.
  - assert (Hg : (grid (inject_Z z) <= 0)%Z) by (unfold grid; lia).
    apply (nearest_on_grid _ (z * 2 ^ (- grid (inject_Z z))) Hpos).
    rewrite inject_Z_mult, <- pow2_Z by lia.
    rewrite <- Qmult_assoc, (Qmult_comm (pow2 (- _))), pow2_opp. ring.
Qed.

Lemma Qred_inject_Z (z : Z) : Qred (inject_Z z) = inject_Z z.
Proof.
  unfold Qred, inject_Z.
  pose proof (Z.ggcd_gcd z 1) as Hg. pose proof (Z.ggcd_correct_divisors z 1) as Hd.
  destruct (Z.ggcd z 1) as [g [aa bb]]. cbn [fst snd] in *.
  rewrite Z.gcd_1_r in Hg. subst g. destruct Hd as [Ha Hb].
  rewrite Z.mul_1_l in Ha, Hb. now subst.
Qed.

Lemma of_Z_pos (z : Z) : (0 < z <= 2 ^ 53)%Z -> of_Z z = Finite (inject_Z z).
Proof.
  intros H. unfold of_Z.
  assert (Hpos : 0 < inject_Z z) by (change 0 with (inject_Z 0); rewrite <- Zlt_Qlt; lia).
  rewrite round_nonneg by lra. rewrite (pack_compat _ _ _ (nearest_Z z H)).
  unfold pack.
  assert (E0 : Qeq_bool (inject_Z z) 0 = false).
  { destruct (Qeq_bool _ _) eqn:E'; [apply Qeq_bool_iff in E'; lra|reflexivity]. }
  assert (E1 : Qle_bool (pow2 1024) (inject_Z z) = false).
  { destruct (Qle_bool _ _) eqn:E'; [|reflexivity]. apply Qle_bool_iff in E'.
    rewrite (pow2_Z 1024) in E' by lia. rewrite <- Zle_Qle in E'.
    assert (2 ^ 53 < 2 ^ 1024)%Z by (apply Z.pow_lt_mono_r; lia). lia. }
  rewrite E0, E1. now rewrite Qred_inject_Z.
Qed.

Lemma of_Z_neg (z : Z) : (- 2 ^ 53 <= z < 0)%Z -> of_Z z = Finite (inject_Z z).
Proof.
  intros H. unfold of_Z.
  assert (Hneg : inject_Z z < 0) by (change 0 with (inject_Z 0); rewrite <- Zlt_Qlt; lia).
  rewrite round_neg by lra.
  assert (E : nearest (- inject_Z z) == inject_Z (- z)).
  { rewrite <- (nearest_Z (- z)) by lia. apply nearest_compat; [lra|].
    now rewrite inject_Z_opp. }
  rewrite (pack_compat _ _ _ E). unfold pack.
  assert (Hpos : 0 < inject_Z (- z)) by (rewrite inject_Z_opp; lra).
  assert (E0 : Qeq_bool (inject_Z (- z)) 0 = false).
  { destruct (Qeq_bool _ _) eqn:E'; [apply Qeq_bool_iff in E'; lra|reflexivity]. }
  assert (E1 : Qle_bool (pow2 1024) (inject_Z (- z)) = false).
  { destruct (Qle_bool _ _) eqn:E'; [|reflexivity]. apply Qle_bool_iff in E'.
    rewrite (pow2_Z 1024) in E' by lia. rewrite <- Zle_Qle in E'.
    assert (2 ^ 53 < 2 ^ 1024)%Z by (apply Z.pow_lt_mono_r; lia). lia. }
  rewrite E0, E1. f_equal. transitivity (Qred (inject_Z z)); [|apply Qred_inject_Z].
  apply Qred_complete. rewrite inject_Z_opp. ring.
Qed.

Lemma of_Z_exact (z : Z) :
  (- 2 ^ 53 <= z <= 2 ^ 53)%Z ->
  is_finite (of_Z z) = true /\ to_Q (of_Z z) = inject_Z z.
Proof.
  intros H. destruct (Z.compare_spec z 0) as [E|E|E].
  - subst z. now split.
  - rewrite of_Z_neg by lia. now split.
  - rewrite of_Z_pos by lia. now split.
Qed.


(** The outcome of an operation. *)
Lemma compare_Zero_l (a b : bool) (z : number) : compare (Zero a) z = compare (Zero b) z.
Proof. now destruct z. Qed.

Lemma compare_Zero_r (a b : bool) (z : number) : compare z (Zero a) = compare z (Zero b).
Proof. now destruct z. Qed.

Lemma compare_antisym (x y : number) : compare y x = option_map CompOpp (compare x y).
Proof.
  destruct x as [|[]|a|v], y as [|[]|b|w]; try reflexivity;
    cbn [compare to_Q option_map]; now rewrite Qcompare_antisym.
Qed.

Lemma pack_zero (s : bool) (a : Q) : a == 0 -> pack s a = Zero s.
Proof. intros E. now rewrite (pack_compat s a 0 E). Qed.

Lemma round_Finite_reduced (q v : Q) : round q = Finite v -> Qred v = v.
Proof.
  unfold round, pack. destruct (Qeq_bool _ _); [discriminate|].
  destruct (Qle_bool (pow2 1024) _); [discriminate|].
  intros [= <-]. apply Qred_complete, Qred_correct.
Qed.

Lemma round_Finite_nonzero (q v : Q) : round q = Finite v -> ~ v == 0.
Proof.
  unfold round, pack. destruct (Qeq_bool _ _) eqn:E0; [discriminate|].
  destruct (Qle_bool (pow2 1024) _); [discriminate|].
  intros [= <-]. apply Qeq_bool_neq in E0. rewrite Qred_correct.
  intros H. apply E0. destruct (negb _); lra.
Qed.

Lemma round_Finite_eq (p q v w : Q) :
  round p = Finite v -> round q = Finite w -> v == w -> v = w.
Proof.
  intros Hp Hq E. rewrite <- (round_Finite_reduced _ _ Hp), <- (round_Finite_reduced _ _ Hq).
  now apply Qred_complete.
Qed.

Lemma is_finite_opp (x : number) : is_finite (opp x) = is_finite x.
Proof. now destruct x. Qed.

Lemma to_Q_opp (x : number) : to_Q (opp x) == - to_Q x.
Proof. destruct x; cbn [opp to_Q]; try reflexivity. apply Qred_correct. Qed.

Lemma leb_opp (x y : number) :
  is_finite x = true -> is_finite y = true -> leb x y = true -> leb (opp y) (opp x) = true.
Proof.
  intros Hx Hy H. apply leb_finite; [now rewrite is_finite_opp..|].
  apply leb_finite in H; [|assumption..]. rewrite !to_Q_opp. lra.
Qed.

Lemma add_finite (x y z : number) :
  is_finite x = true -> is_finite y = true ->
  compare (add x y) z = compare (round (to_Q x + to_Q y)) z
  /\ compare z (add x y) = compare z (round (to_Q x + to_Q y)).
Proof.
  destruct x as [| |a|v], y as [| |b|w]; try discriminate; intros _ _;
    split; reflexivity.
Qed.

Lemma add_not_NaN (x y : number) :
  is_finite x = true -> is_finite y = true -> is_NaN (add x y) = false.
Proof.
  destruct x as [| |a|v], y as [| |b|w]; try discriminate; intros _ _;
    try apply round_not_NaN. reflexivity.
Qed.

Lemma add_mono (x x' y y' : number) :
  is_finite x = true -> is_finite x' = true ->
  is_finite y = true -> is_finite y' = true ->
  leb x x' = true -> leb y y' = true -> leb (add x y) (add x' y') = true.
Proof.
  intros Hx Hx' Hy Hy' H1 H2. unfold leb.
  rewrite (proj1 (add_finite x y _ Hx Hy)), (proj2 (add_finite x' y' _ Hx' Hy')).
  apply round_mono. apply leb_finite in H1, H2; try assumption. lra.
Qed.

Lemma sub_mono (x x' y y' : number) :
  is_finite x = true -> is_finite x' = true ->
  is_finite y = true -> is_finite y' = true ->
  leb x x' = true -> leb y' y = true -> leb (sub x y) (sub x' y') = true.
Proof.
  intros Hx Hx' Hy Hy' H1 H2. unfold sub.
  apply add_mono; try assumption; try (now rewrite is_finite_opp).
  now apply leb_opp.
Qed.

Lemma mul_finite (x y : number) :
  is_finite x = true -> is_finite y = true ->
  mul x y = pack (xorb (sign x) (sign y)) (nearest (Qabs (to_Q x * to_Q y))).
Proof. destruct x as [| |a|v], y as [| |b|w]; try discriminate; reflexivity. Qed.

Lemma sign_nonneg (x : number) :
  is_finite x = true -> 0 < to_Q x -> sign x = false.
Proof.
  destruct x as [| |a|v]; try discriminate; cbn [to_Q sign]; intros _ H.
  assert (H' : 0 <= v) by lra. apply Qle_bool_iff in H'. now rewrite H'.
Qed.

Lemma mul_nonneg (x y z : number) :
  is_finite x = true -> is_finite y = true -> 0 <= to_Q x -> 0 <= to_Q y ->
  compare (mul x y) z = compare (pack false (nearest (to_Q x * to_Q y))) z
  /\ compare z (mul x y) = compare z (pack false (nearest (to_Q x * to_Q y))).
Proof.
  intros Hx Hy H0x H0y. rewrite (mul_finite x y Hx Hy).
  destruct (Qlt_le_dec 0 (to_Q x * to_Q y)) as [Hp|Hp].
  - assert (0 < to_Q x) by nra. assert (0 < to_Q y) by nra.
    rewrite (sign_nonneg x), (sign_nonneg y) by assumption. cbn [xorb].
    rewrite (pack_compat false (nearest (Qabs (to_Q x * to_Q y)))
               (nearest (to_Q x * to_Q y))); [now split|].
    apply nearest_compat; [apply Qabs_nonneg|]. apply Qabs_pos. lra.
  - assert (E : to_Q x * to_Q y == 0) by nra.
    rewrite (pack_zero _ (nearest (Qabs (to_Q x * to_Q y)))),
      (pack_zero false (nearest (to_Q x * to_Q y))).
    + split; [apply compare_Zero_l | apply compare_Zero_r].
    + apply nearest_zero. exact E.
    + apply nearest_zero. rewrite E. reflexivity.
Qed.

Lemma mul_mono (x x' y y' : number) :
  is_finite x = true -> is_finite x' = true ->
  is_finite y = true -> is_finite y' = true ->
  leb (Zero false) x = true -> leb x x' = true ->
  leb (Zero false) y = true -> leb y y' = true ->
  leb (mul x y) (mul x' y') = true.
Proof.
  intros Hx Hx' Hy Hy' H0x H1 H0y H2.
  apply leb_finite in H0x, H1, H0y, H2; try assumption; try reflexivity.
  cbn [to_Q] in H0x, H0y. unfold leb.
  rewrite (proj1 (mul_nonneg x y _ Hx Hy H0x H0y)).
  rewrite (proj2 (mul_nonneg x' y' _ Hx' Hy' ltac:(lra) ltac:(lra))).
  apply pack_mono.
  - apply nearest_nonneg. nra.
  - apply nearest_mono; nra.
Qed.

Lemma is_finite_between (a b x : number) :
  is_finite a = true -> is_finite b = true ->
  leb a x = true -> leb x b = true -> is_finite x = true.
Proof.
  destruct a as [| |a|a], b as [| |b|b]; try discriminate; intros _ _;
    destruct x as [|[]|c|c]; try discriminate; reflexivity.
Qed.

(** [Math.max] and [Math.min] *)
Lemma Math_max_cases (x y : number) :
  is_NaN x = false -> is_NaN y = false ->
  (Math_max x y = x /\ leb y x = true) \/ (Math_max x y = y /\ leb x y = true).
Proof.
  intros Hx Hy. unfold Math_max, leb. rewrite (compare_antisym x y).
  destruct (compare x y) as [[]|] eqn:E; cbn [option_map CompOpp].
  - destruct x as [|[]|[]|v], y as [|[]|[]|w]; try discriminate; auto.
  - now right.
  - now left.
  - destruct x, y; discriminate.
Qed.

Lemma Math_min_cases (x y : number) :
  is_NaN x = false -> is_NaN y = false ->
  (Math_min x y = x /\ leb x y = true) \/ (Math_min x y = y /\ leb y x = true).
Proof.
  intros Hx Hy. unfold Math_min, leb. rewrite (compare_antisym x y).
  destruct (compare x y) as [[]|] eqn:E; cbn [option_map CompOpp].
  - destruct x as [|[]|[]|v], y as [|[]|[]|w]; try discriminate; auto.
  - now left.
  - now right.
  - destruct x, y; discriminate.
Qed.

Lemma Math_max_not_NaN (x y : number) :
  is_NaN x = false -> is_NaN y = false -> is_NaN (Math_max x y) = false.
Proof.
  intros Hx Hy. destruct (Math_max_cases x y Hx Hy) as [[-> _]|[-> _]]; assumption.
Qed.

Lemma Math_min_not_NaN (x y : number) :
  is_NaN x = false -> is_NaN y = false -> is_NaN (Math_min x y) = false.
Proof.
  intros Hx Hy. destruct (Math_min_cases x y Hx Hy) as [[-> _]|[-> _]]; assumption.
Qed.

Lemma Math_max_lub (x y z : number) :
  leb x z = true -> leb y z = true -> leb (Math_max x y) z = true.
Proof.
  intros H1 H2. destruct (leb_not_NaN _ _ H1) as [Hx _].
  destruct (leb_not_NaN _ _ H2) as [Hy _].
  destruct (Math_max_cases x y Hx Hy) as [[-> _]|[-> _]]; assumption.
Qed.

Lemma Math_max_l (x y : number) :
  is_NaN x = false -> is_NaN y = false -> leb x (Math_max x y) = true.
Proof.
  intros Hx Hy. destruct (Math_max_cases x y Hx Hy) as [[-> _]|[-> H]];
    [now apply leb_refl | exact H].
Qed.

Lemma Math_max_r (x y : number) :
  is_NaN x = false -> is_NaN y = false -> leb y (Math_max x y) = true.
Proof.
  intros Hx Hy. destruct (Math_max_cases x y Hx Hy) as [[-> H]|[-> _]];
    [exact H | now apply leb_refl].
Qed.

Lemma Math_max_mono (x x' y y' : number) :
  leb x x' = true -> leb y y' = true -> leb (Math_max x y) (Math_max x' y') = true.
Proof.
  intros H1 H2. destruct (leb_not_NaN _ _ H1) as [_ Hx'].
  destruct (leb_not_NaN _ _ H2) as [_ Hy'].
  apply Math_max_lub.
  - apply (leb_trans _ _ _ H1). now apply Math_max_l.
  - apply (leb_trans _ _ _ H2). now apply Math_max_r.
Qed.

Lemma Math_min_glb (x y z : number) :
  leb z x = true -> leb z y = true -> leb z (Math_min x y) = true.
Proof.
  intros H1 H2. destruct (leb_not_NaN _ _ H1) as [_ Hx].
  destruct (leb_not_NaN _ _ H2) as [_ Hy].
  destruct (Math_min_cases x y Hx Hy) as [[-> _]|[-> _]]; assumption.
Qed.

Lemma Math_min_l (x y : number) :
  is_NaN x = false -> is_NaN y = false -> leb (Math_min x y) x = true.
Proof.
  intros Hx Hy. destruct (Math_min_cases x y Hx Hy) as [[-> _]|[-> H]];
    [now apply leb_refl | exact H].
Qed.

Lemma Math_min_r (x y : number) :
  is_NaN x = false -> is_NaN y = false -> leb (Math_min x y) y = true.
Proof.
  intros Hx Hy. destruct (Math_min_cases x y Hx Hy) as [[-> H]|[-> _]];
    [exact H | now apply leb_refl].
Qed.

Lemma Math_min_mono (x x' y y' : number) :
  leb x x' = true -> leb y y' = true -> leb (Math_min x y) (Math_min x' y') = true.
Proof.
  intros H1 H2. destruct (leb_not_NaN _ _ H1) as [Hx _].
  destruct (leb_not_NaN _ _ H2) as [Hy _].
  apply Math_min_glb.
  - apply (leb_trans _ x); [now apply Math_min_l | exact H1].
  - apply (leb_trans _ y); [now apply Math_min_r | exact H2].
Qed.

(** The larger of two rounded values is the second when the first is
    not above it. *)
Lemma Math_max_round (p q v : Q) :
  round p = Finite v -> leb (round p) (round q) = true ->
  Math_max (round p) (round q) = round q.
Proof.
  intros Hp H. unfold Math_max. unfold leb in H.
  destruct (compare (round p) (round q)) as [[]|] eqn:E; try discriminate;
    [|reflexivity].
  rewrite Hp in E |- *. destruct (round q) as [|[]|b|w] eqn:Hq; try discriminate.
  - exfalso. cbn in E. injection E as E. apply Qeq_alt in E.
    now apply (round_Finite_nonzero _ _ Hp).
  - cbn in E. injection E as E. apply Qeq_alt in E. f_equal.
    exact (round_Finite_eq _ _ _ _ Hp Hq E).
Qed.

End Binary64Facts.

(** * The scheduler on binary64 numbers *)

Section DoublesScheduler.
Import Binary64 Doubles Doubles.SpacedRepetitionScheduler.
Local Open Scope double_scope.

Ltac compare_cases :=
  repeat (cbn [compare to_Q is_NaN];
          try match goal with
              | |- context [Qcompare ?a ?b] => destruct (Qcompare_spec a b)
              end);
  try reflexivity; try (exfalso; lra).

(** [Math.max(lo, Math.min(hi, x))] and [Math.min(hi, Math.max(lo, x))]
    clamp [x] into [[lo, hi]]. *)
Lemma clamp_max_min (h : Q) (x : number) :
  0 < h ->
  Math_max (Zero false) (Math_min (Finite h) x) = clamp (Zero false) (Finite h) x.
Proof.
  intros Hh. unfold clamp, Math_max, Math_min, leb.
  destruct x as [|[]|b|v]; compare_cases.
Qed.

Lemma clamp_min_max (h : Q) (x : number) :
  0 < h ->
  Math_min (Finite h) (Math_max (Zero false) x) = clamp (Zero false) (Finite h) x.
Proof.
  intros Hh. unfold clamp, Math_max, Math_min, leb.
  destruct x as [|[]|b|v]; compare_cases.
Qed.

Lemma clamped_quality (result : ReviewResult.t) : clamped result = SM2.quality result.
Proof.
  unfold clamped, SM2.quality.
  change (lit 0) with (Zero false).
  replace (lit 5) with (Finite 5) by (vm_compute; reflexivity).
  apply clamp_max_min. reflexivity.
Qed.

Lemma clamped_bounds (result : ReviewResult.t) :
  is_NaN (ReviewResult.quality result) = false ->
  is_finite (clamped result) = true
  /\ leb (lit 0) (clamped result) = true /\ leb (clamped result) (lit 5) = true.
Proof.
  intros Hq. unfold clamped.
  assert (Hmin : is_NaN (Math_min (lit 5) (ReviewResult.quality result)) = false)
    by (now apply Math_min_not_NaN).
  assert (Hlo : leb (lit 0) (Math_max (lit 0) (Math_min (lit 5) (ReviewResult.quality result)))
                = true) by (now apply Math_max_l).
  assert (Hhi : leb (Math_max (lit 0) (Math_min (lit 5) (ReviewResult.quality result))) (lit 5)
                = true).
  { apply Math_max_lub; [reflexivity|]. now apply Math_min_l. }
  split; [|now split].
  now apply (is_finite_between (lit 0) (lit 5)).
Qed.

Lemma clamped_monotone (r1 r2 : ReviewResult.t) :
  leb (ReviewResult.quality r1) (ReviewResult.quality r2) = true ->
  leb (clamped r1) (clamped r2) = true.
Proof.
  intros H. unfold clamped. apply Math_max_mono; [reflexivity|].
  apply Math_min_mono; [reflexivity | exact H].
Qed.

Lemma easeFactor_after_review (now : Z) (card : FlashcardData.t) (result : ReviewResult.t) :
  FlashcardData.easeFactor (reviewCard now card result)
  = Math_max MIN_EASE_FACTOR
      (FlashcardData.easeFactor card + SM2.increment (clamped result)).
Proof.
  unfold reviewCard. fold (clamped result).
  destruct (ltb (clamped result) (lit 3)); [reflexivity|].
  destruct (Nat.eqb _ 1); [reflexivity|].
  destruct (Nat.eqb _ 2); reflexivity.
Qed.

(** [Math.round] and [Math.ceil] return the integers that their names
    promise. *)
Lemma Math_round_nearest (x : number) : nearest_integer x (Math_round x).
Proof.
  unfold nearest_integer. destruct x as [| |s|v]; try reflexivity.
  - split; [reflexivity|]. exists 0%Z. split; [reflexivity|].
    cbn [to_Q]. change (inject_Z 0) with 0. split; lra.
  - cbn [is_finite Math_round]. unfold integral.
    pose proof (Qfloor_le (v + (1 # 2))) as Hlo.
    pose proof (Qlt_floor (v + (1 # 2))) as Hhi.
    rewrite inject_Z_plus in Hhi. change (inject_Z 1) with 1 in Hhi.
    destruct (Z.eqb_spec (Qfloor (v + (1 # 2))) 0%Z) as [E|E].
    + split; [reflexivity|]. exists 0%Z. rewrite E in Hlo, Hhi.
      change (inject_Z 0) with 0 in *. split; [reflexivity|].
      cbn [to_Q sign]. split; lra.
    + split; [reflexivity|]. exists (Qfloor (v + (1 # 2))). split; [reflexivity|].
      cbn [to_Q]. split; lra.
Qed.

Lemma Math_ceil_least (x : number) : least_integer_above x (Math_ceil x).
Proof.
  unfold least_integer_above. destruct x as [| |s|v]; try reflexivity.
  - split; [reflexivity|]. exists 0%Z. split; [reflexivity|].
    cbn [to_Q]. change (inject_Z 0) with 0. split; lra.
  - cbn [is_finite Math_ceil]. unfold integral.
    pose proof (Qle_ceiling v) as Hhi.
    pose proof (Qceiling_lt v) as Hlo.
    unfold Z.sub in Hlo. rewrite inject_Z_plus, inject_Z_opp in Hlo.
    change (inject_Z 1) with 1 in Hlo.
    destruct (Z.eqb_spec (Qceiling v) 0%Z) as [E|E].
    + split; [reflexivity|]. exists 0%Z. rewrite E in Hlo, Hhi.
      change (inject_Z 0) with 0 in *. split; [reflexivity|].
      cbn [to_Q sign]. split; lra.
    + split; [reflexivity|]. exists (Qceiling v). split; [reflexivity|].
      cbn [to_Q]. split; lra.
Qed.

(** Integers in the arithmetic of dates. *)
Lemma sign_of_Z (a : Z) : (0 <= a <= 2 ^ 53)%Z -> sign (of_Z a) = false.
Proof.
  intros H. destruct (Z.eq_dec a 0%Z) as [->|Ha]; [reflexivity|].
  rewrite of_Z_pos by lia. cbn [sign].
  assert (H' : 0 <= inject_Z a) by (change 0 with (inject_Z 0); rewrite <- Zle_Qle; lia).
  apply Qle_bool_iff in H'. now rewrite H'.
Qed.

Lemma mul_of_Z (a b : Z) :
  (0 <= a <= 2 ^ 53)%Z -> (0 <= b <= 2 ^ 53)%Z -> (a * b <= 2 ^ 53)%Z ->
  of_Z a * of_Z b = of_Z (a * b).
Proof.
  intros Ha Hb Hab.
  destruct (of_Z_exact a ltac:(lia)) as [Fa Ea].
  destruct (of_Z_exact b ltac:(lia)) as [Fb Eb].
  rewrite (mul_finite _ _ Fa Fb), (sign_of_Z a Ha), (sign_of_Z b Hb), Ea, Eb.
  cbn [xorb]. unfold of_Z at 1.
  assert (H0 : 0 <= inject_Z (a * b))
    by (change 0 with (inject_Z 0); rewrite <- Zle_Qle; lia).
  rewrite (round_nonneg _ H0). apply pack_compat.
  apply nearest_compat; [apply Qabs_nonneg|].
  rewrite <- inject_Z_mult. now apply Qabs_pos.
Qed.

Lemma add_Finite_l (v : Q) (y : number) :
  is_finite y = true -> Finite v + y = round (v + to_Q y).
Proof. destruct y; try discriminate; reflexivity. Qed.

Lemma add_Finite_r (x : number) (w : Q) :
  is_finite x = true -> x + Finite w = round (to_Q x + w).
Proof. destruct x; try discriminate; reflexivity. Qed.

Lemma add_of_Z (a b : Z) :
  (- 2 ^ 53 <= a <= 2 ^ 53)%Z -> (- 2 ^ 53 <= b <= 2 ^ 53)%Z ->
  of_Z a + of_Z b = round (inject_Z (a + b)).
Proof.
  intros Ha Hb.
  destruct (of_Z_exact a Ha) as [Fa Ea]. destruct (of_Z_exact b Hb) as [Fb Eb].
  destruct (Z.eq_dec a 0%Z) as [->|Na].
  - destruct (Z.eq_dec b 0%Z) as [->|Nb]; [reflexivity|].
    assert (E : of_Z b = Finite (inject_Z b)).
    { destruct (Z.lt_ge_cases b 0%Z); [apply of_Z_neg | apply of_Z_pos]; lia. }
    rewrite E, (add_Finite_r _ _ Fa), Ea. apply round_compat.
    rewrite <- inject_Z_plus. reflexivity.
  - assert (E : of_Z a = Finite (inject_Z a)).
    { destruct (Z.lt_ge_cases a 0%Z); [apply of_Z_neg | apply of_Z_pos]; lia. }
    rewrite E, (add_Finite_l _ _ Fb), Eb. apply round_compat.
    rewrite <- inject_Z_plus. reflexivity.
Qed.

Lemma Date_of_Z (s : Z) :
  (0 <= s <= 8640000000000000)%Z -> Date_of_number (round (inject_Z s)) = Valid s.
Proof.
  intros H. destruct (Z.eq_dec s 0%Z) as [->|Hs]; [reflexivity|].
  fold (of_Z s). rewrite of_Z_pos by lia. cbn [Date_of_number].
  assert (H0 : 0 <= inject_Z s) by (change 0 with (inject_Z 0); rewrite <- Zle_Qle; lia).
  assert (H1 : Qabs (inject_Z s) <= 8640000000000000).
  { rewrite Qabs_pos by exact H0.
    change 8640000000000000 with (inject_Z 8640000000000000). rewrite <- Zle_Qle. lia. }
  apply Qle_bool_iff in H0, H1. rewrite H0, H1. now rewrite Qfloor_Z.
Qed.

Lemma Date_beyond (B : Q) (x : number) :
  8640000000000000 < B -> leb (Finite B) x = true -> Date_of_number x = Invalid.
Proof.
  intros HB H. destruct x as [|[]|s|v]; try discriminate; try reflexivity.
  - apply leb_finite in H; [|reflexivity..]. cbn [to_Q] in H. lra.
  - apply leb_finite in H; [|reflexivity..]. cbn [to_Q] in H.
    cbn [Date_of_number].
    destruct (Qle_bool (Qabs v) 8640000000000000) eqn:E; [|reflexivity].
    apply Qle_bool_iff in E. rewrite Qabs_pos in E by lra. lra.
Qed.

Lemma mul_mono_const (x x' c : number) :
  is_finite x = true -> leb (Zero false) x = true -> leb x x' = true ->
  is_finite c = true -> 0 < to_Q c ->
  leb (x * c) (x' * c) = true.
Proof.
  intros Hx H0 H Hc Hpos. destruct (is_finite x') eqn:Hx'.
  - apply mul_mono; try assumption.
    + apply leb_finite; [reflexivity | exact Hc | cbn; lra].
    + apply leb_refl. now destruct c.
  - destruct x' as [|[]| |]; try discriminate; try (now destruct x).
    destruct c as [| |s|w]; try discriminate.
    unfold mul at 2.
    rewrite (sign_nonneg (Finite w) eq_refl Hpos). cbn [sign xorb].
      apply leb_Infinity. rewrite (mul_finite x (Finite w) Hx eq_refl). apply pack_not_NaN.
Qed.

Lemma add_mono_beyond (x x' y y' : number) :
  is_finite x = true -> is_finite x' = true -> is_finite y = true ->
  leb x x' = true -> leb y y' = true -> leb (x + y) (x' + y') = true.
Proof.
  intros Hx Hx' Hy H1 H2. destruct (is_finite y') eqn:Hy'.
  - now apply add_mono.
  - destruct y' as [|[]| |]; try discriminate; try (now destruct y).
    replace (x' + Infinity false) with (Infinity false) by (now destruct x').
    apply leb_Infinity. now apply add_not_NaN.
Qed.

(** The date [days] days after [now], as [reviewCard] computes it. *)
Lemma nextReview_days (now days : Z) :
  (0 <= now <= 8640000000000000)%Z -> (0 <= days)%Z ->
  Date_of_number (getTime (Valid now) + of_Z days * lit 24 * lit 60 * lit 60 * lit 1000)
  = SM2.days_after now days.
Proof.
  intros Hnow Hdays. cbn [getTime]. unfold SM2.days_after.
  assert (H53 : (2 ^ 53 = 9007199254740992)%Z) by reflexivity.
  destruct (Z_le_gt_dec days 104249991%Z) as [Hsmall|Hbig].
  - change (lit 24) with (of_Z 24). change (lit 60) with (of_Z 60).
    change (lit 1000) with (of_Z 1000).
    rewrite (mul_of_Z days 24), (mul_of_Z (days * 24) 60),
      (mul_of_Z (days * 24 * 60) 60), (mul_of_Z (days * 24 * 60 * 60) 1000) by lia.
    rewrite add_of_Z by lia.
    replace (now + days * 24 * 60 * 60 * 1000)%Z with (now + days * 86400000)%Z by lia.
    destruct (Z.leb_spec (now + days * 86400000)%Z 8640000000000000%Z) as [Hin|Hout].
    + apply Date_of_Z. lia.
    + apply (Date_beyond (inject_Z 8640000000000001)); [reflexivity|].
      change (Finite (inject_Z 8640000000000001))
        with (round (inject_Z 8640000000000001)).
      apply round_mono. rewrite <- Zle_Qle. lia.
  - assert (Hout : (now + days * 86400000 <=? 8640000000000000)%Z = false)
      by (apply Z.leb_gt; lia).
    rewrite Hout.
    assert (H0 : leb (of_Z 104249992) (of_Z days) = true)
      by (apply round_mono; rewrite <- Zle_Qle; lia).
    assert (H1 : leb (of_Z 104249992 * lit 24) (of_Z days * lit 24) = true)
      by (apply mul_mono_const; [reflexivity | reflexivity | exact H0 | reflexivity
                                 | reflexivity]).
    assert (H2 : leb (of_Z 104249992 * lit 24 * lit 60) (of_Z days * lit 24 * lit 60) = true)
      by (apply mul_mono_const; [reflexivity | reflexivity | exact H1 | reflexivity
                                 | reflexivity]).
    assert (H3 : leb (of_Z 104249992 * lit 24 * lit 60 * lit 60)
                   (of_Z days * lit 24 * lit 60 * lit 60) = true)
      by (apply mul_mono_const; [reflexivity | reflexivity | exact H2 | reflexivity
                                 | reflexivity]).
    assert (H4 : leb (of_Z 104249992 * lit 24 * lit 60 * lit 60 * lit 1000)
                   (of_Z days * lit 24 * lit 60 * lit 60 * lit 1000) = true)
      by (apply mul_mono_const; [reflexivity | reflexivity | exact H3 | reflexivity
                                 | reflexivity]).
    assert (Hnow0 : leb (of_Z 0) (of_Z now) = true)
      by (apply round_mono; rewrite <- Zle_Qle; lia).
    assert (Hsum : leb (of_Z 0 + of_Z 104249992 * lit 24 * lit 60 * lit 60 * lit 1000)
                     (of_Z now + of_Z days * lit 24 * lit 60 * lit 60 * lit 1000) = true).
    { apply add_mono_beyond; [reflexivity | | reflexivity | exact Hnow0 | exact H4].
      apply of_Z_exact. lia. }
    apply (Date_beyond 9007199308800000); [reflexivity|]. exact Hsum.
Qed.

Lemma nextReview_not_finite (now : Z) (x : number) :
  is_finite x = false ->
  Date_of_number (getTime (Valid now) + x * lit 24 * lit 60 * lit 60 * lit 1000) = Invalid.
Proof.
  intros Hx. cbn [getTime].
  assert (H : is_finite (x * lit 24 * lit 60 * lit 60 * lit 1000) = false)
    by (destruct x as [|[]| |]; try discriminate; reflexivity).
  destruct (x * lit 24 * lit 60 * lit 60 * lit 1000) as [|s| |]; try discriminate.
  - now destruct (of_Z now).
  - destruct (of_Z now) as [|[]| |], s; reflexivity.
Qed.


(** C1 (as amended).  [reviewCard] returns the card updated by the rule,
    in binary64 arithmetic and in the order in which the rule is
    written: with [q] the quality clamped into [[0, 5]], the ease factor
    is the maximum of 1.3 and
    [easeFactor + (0.1 - (5 - q) * (0.08 + (5 - q) * 0.02))], every
    operation rounded; below quality 3 the repetitions are 0 and the
    interval 1, otherwise the repetitions are incremented and the
    interval is 1 at one repetition, 6 at two, and after that the
    integer nearest to the rounded product of the old interval and the
    new ease factor, a tie going up; [nextReview] is the date [interval]
    days after the review time, which is invalid beyond 8.64e15
    milliseconds and when the interval is not finite; [lastReviewed] is
    the review time and [quality] is [q].  The other fields are those of
    the card. *)
Theorem reviewCard_binary64 (now : Z) (card : FlashcardData.t) (result : ReviewResult.t) :
  let q := SM2.quality result in
  let card' := reviewCard now card result in
  FlashcardData.quality card' = Some q
  /\ FlashcardData.easeFactor card' = SM2.easeFactor q (FlashcardData.easeFactor card)
  /\ (ltb q (lit 3) = true ->
      FlashcardData.repetitions card' = 0%nat /\ FlashcardData.interval card' = lit 1)
  /\ (ltb q (lit 3) = false ->
      FlashcardData.repetitions card' = S (FlashcardData.repetitions card)
      /\ (FlashcardData.repetitions card = 0%nat -> FlashcardData.interval card' = lit 1)
      /\ (FlashcardData.repetitions card = 1%nat -> FlashcardData.interval card' = lit 6)
      /\ ((2 <= FlashcardData.repetitions card)%nat ->
          nearest_integer
            (FlashcardData.interval card * FlashcardData.easeFactor card')
            (FlashcardData.interval card')))
  /\ FlashcardData.lastReviewed card' = Some (Valid now)
  /\ (forall days : Z,
        (0 <= now <= 8640000000000000)%Z -> (0 <= days)%Z ->
        FlashcardData.interval card' = of_Z days ->
        FlashcardData.nextReview card' = SM2.days_after now days)
  /\ (is_finite (FlashcardData.interval card') = false ->
      FlashcardData.nextReview card' = Invalid)
  /\ FlashcardData.id card' = FlashcardData.id card
  /\ FlashcardData.front card' = FlashcardData.front card
  /\ FlashcardData.back card' = FlashcardData.back card
  /\ FlashcardData.created card' = FlashcardData.created card
  /\ FlashcardData.tags card' = FlashcardData.tags card
  /\ FlashcardData.source card' = FlashcardData.source card
  /\ FlashcardData.sessionId card' = FlashcardData.sessionId card.
Proof.
  intros q card'.
  assert (Eq : clamped result = q) by apply clamped_quality.
  assert (Eef : FlashcardData.easeFactor card'
                = SM2.easeFactor q (FlashcardData.easeFactor card)).
  { subst card'. now rewrite easeFactor_after_review, Eq. }
  assert (Enext : FlashcardData.nextReview card'
                  = Date_of_number
                      (getTime (Valid now)
                       + FlashcardData.interval card' * lit 24 * lit 60 * lit 60 * lit 1000)).
  { subst card'. unfold reviewCard.
    destruct (ltb (clamped result) (lit 3)); [reflexivity|].
    destruct (Nat.eqb _ 1); [reflexivity|]. destruct (Nat.eqb _ 2); reflexivity. }
  assert (Eround : ltb q (lit 3) = false ->
                   (2 <= FlashcardData.repetitions card)%nat ->
                   FlashcardData.interval card'
                   = Math_round
                       (FlashcardData.interval card * FlashcardData.easeFactor card')).
  { intros Hq Hreps. rewrite Eef. subst card'. unfold reviewCard.
    fold (clamped result). rewrite Eq, Hq, Nat.add_1_r.
    destruct (FlashcardData.repetitions card) as [|[|n]]; [lia | lia |].
    reflexivity. }
  split; [subst card'; unfold reviewCard; fold (clamped result); rewrite Eq;
          destruct (ltb q (lit 3)); [reflexivity|];
          destruct (Nat.eqb _ 1); [reflexivity|]; destruct (Nat.eqb _ 2); reflexivity|].
  split; [exact Eef|].
  split.
  { intros Hq. subst card'. unfold reviewCard. fold (clamped result).
    rewrite Eq, Hq. split; reflexivity. }
  split.
  { intros Hq. split; [|split; [|split]].
    - subst card'. unfold reviewCard. fold (clamped result). rewrite Eq, Hq.
      rewrite Nat.add_1_r.
      destruct (FlashcardData.repetitions card) as [|[|n]]; reflexivity.
    - intros Hreps. subst card'. unfold reviewCard. fold (clamped result).
      rewrite Eq, Hq, Hreps. reflexivity.
    - intros Hreps. subst card'. unfold reviewCard. fold (clamped result).
      rewrite Eq, Hq, Hreps. reflexivity.
    - intros Hreps. rewrite (Eround Hq Hreps). apply Math_round_nearest. }
  split.
  { subst card'. unfold reviewCard.
    destruct (ltb (clamped result) (lit 3)); [reflexivity|].
    destruct (Nat.eqb _ 1); [reflexivity|]. destruct (Nat.eqb _ 2); reflexivity. }
  split.
  { intros days Hnow Hdays Hiv. rewrite Enext, Hiv. now apply nextReview_days. }
  split.
  { intros Hiv. rewrite Enext. now apply nextReview_not_finite. }
  subst card'. unfold reviewCard.
  destruct (ltb (clamped result) (lit 3)); [repeat split|].
  destruct (Nat.eqb _ 1); [repeat split|]. destruct (Nat.eqb _ 2); repeat split.
Qed.

(** The parts of the increment of the ease factor, for a quality in
    [[0, 5]]. *)
Lemma increment_parts (q : number) :
  is_finite q = true -> leb (lit 0) q = true -> leb q (lit 5) = true ->
  (is_finite (lit 5 - q) = true /\ leb (Zero false) (lit 5 - q) = true)
  /\ (is_finite ((lit 5 - q) * lit 0.02) = true
      /\ leb (Zero false) ((lit 5 - q) * lit 0.02) = true)
  /\ (is_finite (lit 0.08 + (lit 5 - q) * lit 0.02) = true
      /\ leb (Zero false) (lit 0.08 + (lit 5 - q) * lit 0.02) = true)
  /\ is_finite ((lit 5 - q) * (lit 0.08 + (lit 5 - q) * lit 0.02)) = true
  /\ is_finite (SM2.increment q) = true.
Proof.
  intros Hq H0 H5.
  assert (Hd : is_finite (lit 5 - q) = true /\ leb (Zero false) (lit 5 - q) = true).
  { assert (Hlo : leb (lit 5 - lit 5) (lit 5 - q) = true)
      by (apply sub_mono; try reflexivity; assumption).
    assert (Hhi : leb (lit 5 - q) (lit 5 - lit 0) = true)
      by (apply sub_mono; try reflexivity; assumption).
    split; [|exact Hlo].
    now apply (is_finite_between (lit 5 - lit 5) (lit 5 - lit 0)). }
  destruct Hd as [Fd Ld].
  assert (Hm : is_finite ((lit 5 - q) * lit 0.02) = true
               /\ leb (Zero false) ((lit 5 - q) * lit 0.02) = true).
  { assert (Hlo : leb (Zero false * lit 0.02) ((lit 5 - q) * lit 0.02) = true)
      by (apply mul_mono; try reflexivity; assumption).
    assert (Hhi : leb ((lit 5 - q) * lit 0.02) ((lit 5 - lit 0) * lit 0.02) = true).
    { apply mul_mono; try reflexivity; try assumption.
      apply sub_mono; try reflexivity; assumption. }
    split; [|exact Hlo].
    now apply (is_finite_between (Zero false * lit 0.02) ((lit 5 - lit 0) * lit 0.02)). }
  destruct Hm as [Fm Lm].
  assert (Hs : is_finite (lit 0.08 + (lit 5 - q) * lit 0.02) = true
               /\ leb (Zero false) (lit 0.08 + (lit 5 - q) * lit 0.02) = true).
  { assert (Hlo : leb (lit 0.08 + Zero false) (lit 0.08 + (lit 5 - q) * lit 0.02) = true)
      by (apply add_mono; try reflexivity; assumption).
    assert (Hhi : leb (lit 0.08 + (lit 5 - q) * lit 0.02)
                    (lit 0.08 + (lit 5 - lit 0) * lit 0.02) = true).
    { apply add_mono; try reflexivity; try assumption.
      apply mul_mono; try reflexivity; try assumption.
      apply sub_mono; try reflexivity; assumption. }
    split.
    - now apply (is_finite_between (lit 0.08 + Zero false)
                   (lit 0.08 + (lit 5 - lit 0) * lit 0.02)).
    - apply (leb_trans _ (lit 0.08 + Zero false)); [reflexivity | exact Hlo]. }
  destruct Hs as [Fs Ls].
  assert (Fp : is_finite ((lit 5 - q) * (lit 0.08 + (lit 5 - q) * lit 0.02)) = true).
  { assert (Hlo : leb (Zero false * Zero false)
                    ((lit 5 - q) * (lit 0.08 + (lit 5 - q) * lit 0.02)) = true)
      by (apply mul_mono; try reflexivity; assumption).
    assert (Hhi : leb ((lit 5 - q) * (lit 0.08 + (lit 5 - q) * lit 0.02))
                    ((lit 5 - lit 0) * (lit 0.08 + (lit 5 - lit 0) * lit 0.02)) = true).
    { apply mul_mono; try reflexivity; try assumption.
      - apply sub_mono; try reflexivity; assumption.
      - apply add_mono; try reflexivity; try assumption.
        apply mul_mono; try reflexivity; try assumption.
        apply sub_mono; try reflexivity; assumption. }
    now apply (is_finite_between (Zero false * Zero false)
                 ((lit 5 - lit 0) * (lit 0.08 + (lit 5 - lit 0) * lit 0.02))). }
  split; [now split|]. split; [now split|]. split; [now split|]. split; [exact Fp|].
  unfold SM2.increment.
  assert (Hlo : leb (lit 0.1 - (lit 5 - lit 0) * (lit 0.08 + (lit 5 - lit 0) * lit 0.02))
                  (lit 0.1 - (lit 5 - q) * (lit 0.08 + (lit 5 - q) * lit 0.02)) = true).
  { apply sub_mono; try reflexivity; try assumption.
    apply mul_mono; try reflexivity; try assumption.
    - apply sub_mono; try reflexivity; assumption.
    - apply add_mono; try reflexivity; try assumption.
      apply mul_mono; try reflexivity; try assumption.
      apply sub_mono; try reflexivity; assumption. }
  assert (Hhi : leb (lit 0.1 - (lit 5 - q) * (lit 0.08 + (lit 5 - q) * lit 0.02))
                  (lit 0.1 - Zero false * Zero false) = true).
  { apply sub_mono; try reflexivity; try assumption.
    apply mul_mono; try reflexivity; assumption. }
  now apply (is_finite_between
               (lit 0.1 - (lit 5 - lit 0) * (lit 0.08 + (lit 5 - lit 0) * lit 0.02))
               (lit 0.1 - Zero false * Zero false)).
Qed.

(** The increment does not go down when the quality goes up. *)
Lemma increment_mono (a b : number) :
  is_finite a = true -> is_finite b = true ->
  leb (lit 0) a = true -> leb a b = true -> leb b (lit 5) = true ->
  leb (SM2.increment a) (SM2.increment b) = true.
Proof.
  intros Fa Fb H0 Hab H5.
  destruct (increment_parts a Fa H0 (leb_trans _ _ _ Hab H5))
    as ((Fda & Lda) & (Fma & Lma) & (Fsa & Lsa) & Fpa & _).
  destruct (increment_parts b Fb (leb_trans _ _ _ H0 Hab) H5)
    as ((Fdb & Ldb) & (Fmb & Lmb) & (Fsb & Lsb) & Fpb & _).
  assert (Hd : leb (lit 5 - b) (lit 5 - a) = true)
    by (apply sub_mono; try reflexivity; assumption).
  assert (Hm : leb ((lit 5 - b) * lit 0.02) ((lit 5 - a) * lit 0.02) = true)
    by (apply mul_mono; try reflexivity; assumption).
  assert (Hs : leb (lit 0.08 + (lit 5 - b) * lit 0.02)
                 (lit 0.08 + (lit 5 - a) * lit 0.02) = true)
    by (apply add_mono; try reflexivity; assumption).
  unfold SM2.increment. apply sub_mono; try reflexivity; try assumption.
  apply mul_mono; assumption.
Qed.

Lemma easeFactor_Finite (x : number) :
  is_finite x = true -> leb MIN_EASE_FACTOR x = true -> exists v, x = Finite v.
Proof.
  destruct x as [| |s|v]; try discriminate. intros _ _. now exists v.
Qed.

Lemma add_zero_binary64 (x : number) :
  is_binary64 x -> is_finite x = true -> leb MIN_EASE_FACTOR x = true ->
  x + Zero false = x.
Proof.
  intros Hb Hf Hmin. destruct (easeFactor_Finite x Hf Hmin) as [v ->].
  cbn [is_binary64] in Hb. rewrite <- Hb at 2.
  change (Finite v + Zero false) with (round (v + 0)). apply round_compat. ring.
Qed.

Lemma Math_max_MIN (q : Q) :
  leb MIN_EASE_FACTOR (round q) = true -> Math_max MIN_EASE_FACTOR (round q) = round q.
Proof.
  intros H. unfold MIN_EASE_FACTOR, lit in *.
  destruct (round 1.3) as [| | |m] eqn:E; try discriminate E.
  rewrite <- E in *. now apply (Math_max_round _ _ m).
Qed.

(** The ease factor after a review with a quality of which the
    increment is known. *)
Lemma easeFactor_after_Infinity (now : Z) (card : FlashcardData.t) (result : ReviewResult.t) :
  FlashcardData.easeFactor card = Infinity false ->
  is_NaN (ReviewResult.quality result) = false ->
  FlashcardData.easeFactor (reviewCard now card result) = Infinity false.
Proof.
  intros E Hq. rewrite easeFactor_after_review, E.
  destruct (clamped_bounds result Hq) as (Fq & H0 & H5).
  destruct (increment_parts _ Fq H0 H5) as (_ & _ & _ & _ & Fi).
  now destruct (SM2.increment (clamped result)).
Qed.

(** C8 (as amended).  For a card whose ease factor is a binary64 number
    of at least 1.3, [reviewCard] leaves the ease factor unchanged at
    quality 4; at quality 5 the new ease factor is the binary64 sum of
    the old one and 0.1, which is not below the old one; at a quality of
    at most 3 the ease factor does not go up; and the new ease factor
    is monotone non-decreasing in the quality. *)
Theorem easeFactor_quality_binary64 (now : Z) (card : FlashcardData.t) :
  is_binary64 (FlashcardData.easeFactor card) ->
  leb (lit 1.3) (FlashcardData.easeFactor card) = true ->
  (forall result, ReviewResult.quality result = lit 4 ->
     FlashcardData.easeFactor (reviewCard now card result)
     = FlashcardData.easeFactor card)
  /\ (forall result, ReviewResult.quality result = lit 5 ->
        FlashcardData.easeFactor (reviewCard now card result)
        = FlashcardData.easeFactor card + lit 0.1
        /\ leb (FlashcardData.easeFactor card)
             (FlashcardData.easeFactor (reviewCard now card result)) = true)
  /\ (forall result, leb (ReviewResult.quality result) (lit 3) = true ->
        leb (FlashcardData.easeFactor (reviewCard now card result))
          (FlashcardData.easeFactor card) = true)
  /\ (forall now' result result',
        leb (ReviewResult.quality result) (ReviewResult.quality result') = true ->
        leb (FlashcardData.easeFactor (reviewCard now card result))
          (FlashcardData.easeFactor (reviewCard now' card result')) = true).
Proof.
  intros Hb Hmin. fold MIN_EASE_FACTOR in Hmin.
  destruct (is_finite (FlashcardData.easeFactor card)) eqn:Hf.
  2: { assert (E : FlashcardData.easeFactor card = Infinity false)
         by (destruct (FlashcardData.easeFactor card) as [|[]| |]; try discriminate;
             reflexivity).
       split; [|split; [|split]].
       - intros result Hq. rewrite E. apply easeFactor_after_Infinity; [exact E|].
         now rewrite Hq.
       - intros result Hq.
         assert (E' : FlashcardData.easeFactor (reviewCard now card result)
                      = Infinity false)
           by (apply easeFactor_after_Infinity; [exact E | now rewrite Hq]).
         rewrite E', E. split; reflexivity.
       - intros result Hq. rewrite E. apply leb_Infinity.
         rewrite easeFactor_after_Infinity; try easy. now apply (leb_not_NaN _ _ Hq).
       - intros now' result result' Hq. destruct (leb_not_NaN _ _ Hq) as [Hn Hn'].
         now rewrite !easeFactor_after_Infinity. }
  destruct (easeFactor_Finite _ Hf Hmin) as [v Ev].
  assert (Hv : round v = Finite v) by (rewrite Ev in Hb; exact Hb).
  assert (Hzero : FlashcardData.easeFactor card + Zero false = FlashcardData.easeFactor card)
    by (now apply add_zero_binary64).
  assert (Hfive : forall result, ReviewResult.quality result = lit 5 ->
            FlashcardData.easeFactor (reviewCard now card result)
            = FlashcardData.easeFactor card + lit 0.1
            /\ leb (FlashcardData.easeFactor card)
                 (FlashcardData.easeFactor card + lit 0.1) = true).
  { intros result Hq. rewrite easeFactor_after_review.
    replace (SM2.increment (clamped result)) with (lit 0.1)
      by (unfold clamped; rewrite Hq; vm_compute; reflexivity).
    rewrite Ev. remember (lit 0.1) as c eqn:Ec. vm_compute in Ec. subst c.
    match goal with |- context [Finite v + Finite ?w] =>
      change (Finite v + Finite w) with (round (v + w));
      assert (Hup : leb (Finite v) (round (v + w)) = true)
    end.
    { rewrite <- Hv. apply round_mono.
      match goal with |- v <= v + ?w => assert (0 <= w) by (vm_compute; discriminate) end.
      lra. }
    split; [|exact Hup]. apply Math_max_MIN.
    rewrite <- Ev in Hup. exact (leb_trans _ _ _ Hmin Hup). }
  split; [|split; [|split]].
  - intros result Hq. rewrite easeFactor_after_review.
    replace (SM2.increment (clamped result)) with (Zero false)
      by (unfold clamped; rewrite Hq; vm_compute; reflexivity).
    rewrite Hzero, Ev, <- Hv. apply Math_max_MIN. rewrite Hv, <- Ev. exact Hmin.
  - intros result Hq. destruct (Hfive result Hq) as [E Hup]. now rewrite E.
  - intros result Hq. rewrite easeFactor_after_review.
    destruct (leb_not_NaN _ _ Hq) as [Hn _].
    destruct (clamped_bounds result Hn) as (Fq & H0 & H5).
    assert (H3 : leb (clamped result) (lit 3) = true).
    { change (lit 3) with (clamped {| ReviewResult.quality := lit 3 |}).
      now apply clamped_monotone. }
    assert (Hi : leb (SM2.increment (clamped result)) (Zero false) = true).
    { apply (leb_trans _ (SM2.increment (lit 3))); [|reflexivity].
      apply increment_mono; try assumption; reflexivity. }
    destruct (increment_parts _ Fq H0 H5) as (_ & _ & _ & _ & Fi).
    apply Math_max_lub; [exact Hmin|].
    rewrite <- Hzero at 2. apply add_mono; try assumption; try reflexivity.
    apply leb_refl. now rewrite Ev.
  - intros now' result result' Hq. rewrite !easeFactor_after_review.
    destruct (leb_not_NaN _ _ Hq) as [Hn Hn'].
    destruct (clamped_bounds result Hn) as (Fq & H0 & H5).
    destruct (clamped_bounds result' Hn') as (Fq' & H0' & H5').
    destruct (increment_parts _ Fq H0 H5) as (_ & _ & _ & _ & Fi).
    destruct (increment_parts _ Fq' H0' H5') as (_ & _ & _ & _ & Fi').
    apply Math_max_mono; [reflexivity|].
    apply add_mono; try assumption.
    + apply leb_refl. now rewrite Ev.
    + apply increment_mono; try assumption. now apply clamped_monotone.
Qed.

End DoublesScheduler.

(** * The progress report on binary64 numbers *)

Section DoublesProgress.
Import Binary64 Doubles Doubles.GoalManager.
Local Open Scope double_scope.

Lemma getGoals_loaded (ls : LocalStorage) : getGoals ls = Ok (loaded_goals ls).
Proof.
  unfold getGoals, loaded_goals.
  destruct (goals_item ls) as [[text|text|goals]|]; cbn; try reflexivity.
  destruct (decide (text = EmptyString)); reflexivity.
Qed.

Lemma calculateProgress_progress_for (ls : LocalStorage) (now : Z) (goalId : string) :
  calculateProgress ls now goalId = Ok (progress_for ls now goalId).
Proof.
  unfold calculateProgress, progress_for, goal_with_id.
  rewrite getGoals_loaded. cbn. now destruct (find _ _).
Qed.

(** The hour target that the program tests, [goal.targetHours || 0], is
    positive exactly when [targetHours] is, and is [targetHours] then. *)
Lemma targetHours_or_0_positive (goal : StudyGoal.t) :
  gtb (targetHours_or_0 goal) (lit 0) = gtb (hour_target goal) (lit 0)
  /\ (gtb (hour_target goal) (lit 0) = true -> targetHours_or_0 goal = hour_target goal).
Proof.
  unfold targetHours_or_0, hour_target.
  destruct (StudyGoal.targetHours goal) as [[|[]|[]|v]|]; split;
    try reflexivity; try discriminate.
Qed.

Ltac report_cases goal :=
  unfold progress_of;
  destruct (StudyGoal.deadline goal) as [deadline|];
  [ destruct (gtb (targetHours_or_0 goal) (lit 0));
    [ match goal with
      | |- context [gtb (Math_ceil ?d) (lit 0)] => destruct (gtb (Math_ceil d) (lit 0))
      end | ]
  | destruct (StudyGoal.dailyCommitment goal) as [dc|];
    [ destruct (truthy dc && gtb (targetHours_or_0 goal) (lit 0)) | ] ].

Lemma progressPercentage_report (now : Z) (goalId : string) (goal : StudyGoal.t) :
  GoalProgress.progressPercentage (progress_of now goalId goal)
  = clamp (lit 0) (lit 100) (raw_progressPercentage goal).
Proof.
  transitivity (Math_min (lit 100) (Math_max (lit 0) (raw_progressPercentage goal))).
  - report_cases goal; reflexivity.
  - change (lit 0) with (Zero false).
    replace (lit 100) with (Finite 100) by (vm_compute; reflexivity).
    apply clamp_min_max. reflexivity.
Qed.

Lemma raw_progressPercentage_cases (goal : StudyGoal.t) :
  let n := length (StudyGoal.tasks goal) in
  let T := hour_target goal in
  ((0 < n)%nat -> gtb T (lit 0) = true ->
     raw_progressPercentage goal = ProgressSpec.blend goal)
  /\ ((0 < n)%nat -> gtb T (lit 0) = false ->
        raw_progressPercentage goal = ProgressSpec.task_ratio goal)
  /\ (n = 0%nat -> gtb T (lit 0) = true ->
        raw_progressPercentage goal = ProgressSpec.hour_ratio goal)
  /\ (n = 0%nat -> gtb T (lit 0) = false -> raw_progressPercentage goal = lit 0).
Proof.
  intros n T. unfold raw_progressPercentage. fold n.
  destruct (targetHours_or_0_positive goal) as [Egt ET]. fold T in Egt, ET.
  rewrite Egt.
  unfold ProgressSpec.blend, ProgressSpec.task_ratio, ProgressSpec.hour_ratio.
  fold n T. repeat split.
  - intros Hn HT. apply Nat.ltb_lt in Hn. now rewrite Hn, HT, (ET HT).
  - intros Hn HT. apply Nat.ltb_lt in Hn. now rewrite Hn, HT.
  - intros Hn HT. now rewrite Hn, HT, (ET HT).
  - intros Hn HT. now rewrite Hn, HT.
Qed.

(** C2 (as amended).  For the goal that [calculateProgress] finds, the
    progress percentage is [p] clamped into [[0, 100]], where [p] is
    computed in binary64 arithmetic in the order of the program: the
    blend
    [(tasksCompleted / totalTasks) * 100 * 0.6 + (hoursCompleted / targetHours) * 100 * 0.4]
    when the goal has a task and a positive hour target; the task ratio
    [(tasksCompleted / totalTasks) * 100] when it only has tasks; the
    hour ratio [(hoursCompleted / targetHours) * 100] when it only has
    a positive hour target; and 0 when it has neither. *)
Theorem progressPercentage_binary64 (ls : LocalStorage) (now : Z) (goalId : string)
    (goal : StudyGoal.t) :
  goal_with_id ls goalId = Some goal ->
  exists p, calculateProgress ls now goalId = Ok p /\
    let n := length (StudyGoal.tasks goal) in
    let T := hour_target goal in
    ((0 < n)%nat -> gtb T (lit 0) = true ->
       GoalProgress.progressPercentage p
       = clamp (lit 0) (lit 100) (ProgressSpec.blend goal))
    /\ ((0 < n)%nat -> gtb T (lit 0) = false ->
          GoalProgress.progressPercentage p
          = clamp (lit 0) (lit 100) (ProgressSpec.task_ratio goal))
    /\ (n = 0%nat -> gtb T (lit 0) = true ->
          GoalProgress.progressPercentage p
          = clamp (lit 0) (lit 100) (ProgressSpec.hour_ratio goal))
    /\ (n = 0%nat -> gtb T (lit 0) = false -> GoalProgress.progressPercentage p = lit 0).
Proof.
  intros Hfind. exists (progress_for ls now goalId).
  split; [apply calculateProgress_progress_for|].
  unfold progress_for. rewrite Hfind, progressPercentage_report.
  destruct (raw_progressPercentage_cases goal) as (H1 & H2 & H3 & H4).
  cbv zeta. repeat split.
  - intros Hn HT. now rewrite (H1 Hn HT).
  - intros Hn HT. now rewrite (H2 Hn HT).
  - intros Hn HT. now rewrite (H3 Hn HT).
  - intros Hn HT. now rewrite (H4 Hn HT).
Qed.

(** ** On track *)

Lemma MS_PER_DAY_binary64 : MS_PER_DAY = lit 86400000.
Proof. vm_compute. reflexivity. Qed.

Lemma currentDailyAverage_average (now : Z) (goal : StudyGoal.t) :
  currentDailyAverage now goal = OnTrackSpec.average_daily_minutes now goal.
Proof.
  unfold currentDailyAverage, OnTrackSpec.average_daily_minutes,
    OnTrackSpec.days_since_creation.
  rewrite MS_PER_DAY_binary64.
  now destruct (StudyGoal.sessionsCompleted goal).
Qed.

Lemma report_tested (now : Z) (goalId : string) (goal : StudyGoal.t) (deadline : Date) :
  StudyGoal.deadline goal = Some deadline ->
  gtb (hour_target goal) (lit 0) = true ->
  gtb (OnTrackSpec.days_until now deadline) (lit 0) = true ->
  let report := progress_of now goalId goal in
  GoalProgress.daysUntilDeadline report = Some (OnTrackSpec.days_until now deadline)
  /\ GoalProgress.recommendedDailyMinutes report
     = Math_ceil
         (OnTrackSpec.required_daily_minutes goal (OnTrackSpec.days_until now deadline))
  /\ GoalProgress.onTrack report
     = geb (OnTrackSpec.average_daily_minutes now goal)
         (GoalProgress.recommendedDailyMinutes report * lit 0.8).
Proof.
  intros Hd HT Hdays. cbv zeta. unfold progress_of. rewrite Hd.
  destruct (targetHours_or_0_positive goal) as [Egt ET].
  rewrite Egt, HT, (ET HT), MS_PER_DAY_binary64.
  change (Math_ceil ((getTime deadline - getTime (Valid now)) / lit 86400000))
    with (OnTrackSpec.days_until now deadline).
  rewrite Hdays, currentDailyAverage_average. cbn. repeat split.
Qed.

Lemma report_untested (now : Z) (goalId : string) (goal : StudyGoal.t) :
  OnTrackSpec.untested now goal -> GoalProgress.onTrack (progress_of now goalId goal) = true.
Proof.
  destruct (targetHours_or_0_positive goal) as [Egt _].
  intros [Hnone | [(deadline & Hd & Hdays) | HT]]; unfold progress_of.
  - rewrite Hnone. destruct (StudyGoal.dailyCommitment goal) as [dc|]; [|reflexivity].
    now destruct (truthy dc && _).
  - rewrite Hd, MS_PER_DAY_binary64.
    change (Math_ceil ((getTime deadline - getTime (Valid now)) / lit 86400000))
      with (OnTrackSpec.days_until now deadline).
    rewrite Hdays. now destruct (gtb _ (lit 0)).
  - rewrite Egt, HT.
    destruct (StudyGoal.deadline goal); [reflexivity|].
    destruct (StudyGoal.dailyCommitment goal); [rewrite andb_false_r|]; reflexivity.
Qed.

(** C4 (as amended).  For the goal that [calculateProgress] finds: when
    it has a positive hour target and a deadline with
    [daysUntilDeadline > 0], [recommendedDailyMinutes] is the least
    integer that is not below
    [((targetHours - hoursCompleted) / daysUntilDeadline) * 60], and
    [onTrack] is true exactly when the average daily minutes since
    creation are at least [recommendedDailyMinutes * 0.8], all of it
    computed in binary64 arithmetic in this order; in every other case
    (no deadline, a deadline that is not ahead, no positive hour
    target) [onTrack] is true. *)
Theorem onTrack_binary64 (ls : LocalStorage) (now : Z) (goalId : string)
    (goal : StudyGoal.t) :
  goal_with_id ls goalId = Some goal ->
  exists p, calculateProgress ls now goalId = Ok p
    /\ (forall deadline,
          StudyGoal.deadline goal = Some deadline ->
          gtb (hour_target goal) (lit 0) = true ->
          let days := OnTrackSpec.days_until now deadline in
          gtb days (lit 0) = true ->
          GoalProgress.daysUntilDeadline p = Some days
          /\ least_integer_above (OnTrackSpec.required_daily_minutes goal days)
               (GoalProgress.recommendedDailyMinutes p)
          /\ (GoalProgress.onTrack p = true
              <-> leb (GoalProgress.recommendedDailyMinutes p * lit 0.8)
                    (OnTrackSpec.average_daily_minutes now goal) = true))
    /\ (OnTrackSpec.untested now goal -> GoalProgress.onTrack p = true).
Proof.
  intros Hfind. exists (progress_for ls now goalId).
  split; [apply calculateProgress_progress_for|].
  unfold progress_for. rewrite Hfind. split.
  - intros deadline Hd HT. cbv zeta. intros Hdays.
    destruct (report_tested now goalId goal deadline Hd HT Hdays) as (Edays & Erec & Eon).
    split; [exact Edays|]. split.
    + rewrite Erec. apply Math_ceil_least.
    + rewrite Eon. reflexivity.
  - apply report_untested.
Qed.

End DoublesProgress.

(** * The round trip of the cards through JSON *)

Section DoublesStorage.
Import Binary64 Doubles Doubles.FlashcardStorage.

Lemma revive_stringify_plain (card : FlashcardData.t) :
  plain_card card -> revive (stringify_card card) = card.
Proof.
  destruct card as [id front back created lastReviewed nextReview interval easeFactor
                      repetitions quality tags source sessionId].
  unfold plain_card, revive, stringify_card. cbn.
  intros (Hc & Hn & Hl & Hi & He & Hq).
  destruct created as [|c]; [contradiction|].
  destruct nextReview as [|n]; [contradiction|].
  destruct lastReviewed as [[|l]|]; [congruence| |];
    (destruct interval as [|?|[]|?]; try contradiction);
    (destruct easeFactor as [|?|[]|?]; try contradiction);
    (destruct quality as [[|?|[]|?]|]; try contradiction);
    reflexivity.
Qed.

Lemma map_revive_stringify_plain (cards : list FlashcardData.t) :
  Forall plain_card cards -> map revive (map stringify_card cards) = cards.
Proof.
  induction 1 as [|card cards Hcard _ IH]; [reflexivity|].
  cbn. now rewrite revive_stringify_plain, IH.
Qed.

(** What a card is after the round trip, whatever it holds: the texts
    and the counter are kept, and so is a valid date; an invalid date
    comes back as the epoch. *)
Lemma revive_stringify_fields (card : FlashcardData.t) :
  let card' := revive (stringify_card card) in
  FlashcardData.id card' = FlashcardData.id card
  /\ FlashcardData.front card' = FlashcardData.front card
  /\ FlashcardData.back card' = FlashcardData.back card
  /\ FlashcardData.repetitions card' = FlashcardData.repetitions card
  /\ FlashcardData.created card' = reloaded_Date (FlashcardData.created card)
  /\ FlashcardData.nextReview card' = reloaded_Date (FlashcardData.nextReview card).
Proof.
  cbn. repeat split.
Qed.

(** X7.  [saveCards] and then [loadCards]: unless the storage refuses
    the write, the cards that are loaded are as many as the cards
    saved, in the same order; each has the texts and the repetitions of
    the card saved, and its dates except that an invalid date has
    become the epoch; cards with valid dates and finite numbers come
    back as they were.  The goals blob is not touched.  When the
    storage refuses the write, [saveCards] throws nothing and leaves
    the storage as it was. *)
Theorem saveCards_loadCards (ls : LocalStorage) (cards : list FlashcardData.t) :
  exists ls', saveCards ls cards = Ok ls'
    /\ (write_fails ls = true -> ls' = ls)
    /\ (write_fails ls = false ->
        goals_item ls' = goals_item ls
        /\ exists cards', loadCards ls' = Ok cards'
             /\ length cards' = length cards
             /\ (forall i card, nth_error cards i = Some card ->
                   exists card', nth_error cards' i = Some card'
                     /\ FlashcardData.id card' = FlashcardData.id card
                     /\ FlashcardData.front card' = FlashcardData.front card
                     /\ FlashcardData.back card' = FlashcardData.back card
                     /\ FlashcardData.repetitions card' = FlashcardData.repetitions card
                     /\ FlashcardData.created card'
                        = reloaded_Date (FlashcardData.created card)
                     /\ FlashcardData.nextReview card'
                        = reloaded_Date (FlashcardData.nextReview card))
             /\ (Forall plain_card cards -> cards' = cards)).
Proof.
  unfold saveCards, setItem_flashcards.
  destruct (write_fails ls) eqn:Hw; cbn.
  - exists ls. split; [reflexivity|]. split; [reflexivity | discriminate].
  - eexists. split; [reflexivity|]. split; [discriminate|]. intros _.
    split; [reflexivity|].
    exists (map revive (map stringify_card cards)). split; [reflexivity|].
    split; [now rewrite !length_map|]. split.
    + intros i card Hi. exists (revive (stringify_card card)).
      split; [now rewrite !nth_error_map, Hi|].
      apply revive_stringify_fields.
    + apply map_revive_stringify_plain.
Qed.

(** X8.  [exportCards] and then [importCards]: the same round trip,
    without the storage.  On a text that is not JSON, and on a JSON
    text whose value is no array, [importCards] throws its own
    error. *)
Theorem importCards_exportCards (cards : list FlashcardData.t) :
  (exists cards', importCards (exportCards cards) = Ok cards'
     /\ length cards' = length cards
     /\ (forall i card, nth_error cards i = Some card ->
           exists card', nth_error cards' i = Some card'
             /\ FlashcardData.id card' = FlashcardData.id card
             /\ FlashcardData.front card' = FlashcardData.front card
             /\ FlashcardData.back card' = FlashcardData.back card
             /\ FlashcardData.repetitions card' = FlashcardData.repetitions card
             /\ FlashcardData.created card' = reloaded_Date (FlashcardData.created card)
             /\ FlashcardData.nextReview card'
                = reloaded_Date (FlashcardData.nextReview card))
     /\ (Forall plain_card cards -> cards' = cards))
  /\ (forall text, importCards (NotJson text) = Throw "Invalid flashcard data format")
  /\ (forall text, importCards (NotArray text) = Throw "Invalid flashcard data format").
Proof.
  split; [|split; reflexivity].
  exists (map revive (map stringify_card cards)). split; [reflexivity|].
  split; [now rewrite !length_map|]. split.
  - intros i card Hi. exists (revive (stringify_card card)).
    split; [now rewrite !nth_error_map, Hi|].
    apply revive_stringify_fields.
  - apply map_revive_stringify_plain.
Qed.

End DoublesStorage.

(** * Instances on binary64 numbers *)

Lemma reviewCard_binary64_witness :
  let card :=
    Doubles.SpacedRepetitionScheduler.reviewAll Doubles.Sample.card
      (Doubles.Sample.reviews_from Doubles.Sample.now (3 :: 3 :: 3 :: 4 :: nil)) in
  let card' :=
    Doubles.SpacedRepetitionScheduler.reviewCard (14 * Doubles.Sample.day)%Z card
      (Doubles.Sample.quality 5) in
  Doubles.FlashcardData.repetitions card' = 5%nat
  /\ Doubles.FlashcardData.nextReview card'
     = Binary64.Valid ((14 + 54) * Doubles.Sample.day)%Z.
Proof.
  intros card card'.
  pose proof (reviewCard_binary64 (14 * Doubles.Sample.day)%Z card (Doubles.Sample.quality 5))
    as H.
  cbv zeta in H. destruct H as (_ & _ & _ & Hpass & _ & Hnext & _).
  split.
  - destruct Hpass as (Hreps & _); [vm_compute; reflexivity|].
    unfold card'. rewrite Hreps. reflexivity.
  - unfold card'. rewrite (Hnext 54%Z).
    + reflexivity.
    + unfold Doubles.Sample.day. lia.
    + lia.
    + vm_compute. reflexivity.
Defined.

(** C1, the counterexample.  A card with interval 15 and ease factor 4
    is reviewed with quality 5: the new ease factor is the binary64
    number 4.1, which is below 4.1, the product is below 61.5 and the
    new interval is 61, where the rule of the claim, over the
    rationals, gives [round (15 * 4.1) = round 61.5 = 62].  A new card
    reviewed with the qualities 3, 3, 3, 4, 5 ends with the interval
    54, where the rule of the claim gives 55.  A card reviewed on the
    last day that a [Date] can hold gets the interval 1 and no date for
    its next review. *)
Lemma reviewCard_binary64_counterexample :
  (let card := Doubles.Sample.card_with (Binary64.of_Z 15) (Binary64.of_Z 4) 2%nat in
   let card' :=
     Doubles.SpacedRepetitionScheduler.reviewCard Doubles.Sample.now card
       (Doubles.Sample.quality 5) in
   Doubles.FlashcardData.easeFactor card' = Binary64.lit 4.1
   /\ Binary64.to_Q (Doubles.FlashcardData.easeFactor card') < 4.1
   /\ Doubles.FlashcardData.interval card' = Binary64.of_Z 61
   /\ 15 * SM2.easeFactor 5 4 == 61.5
   /\ SM2.interval 5 2%nat 15 (SM2.easeFactor 5 4) == 62)
  /\ (let qualities := 3 :: 3 :: 3 :: 4 :: 5 :: nil in
      Doubles.FlashcardData.interval
        (Doubles.SpacedRepetitionScheduler.reviewAll Doubles.Sample.card
           (Doubles.Sample.reviews_from Doubles.Sample.now qualities))
      = Binary64.of_Z 54
      /\ FlashcardData.interval
           (SpacedRepetitionScheduler.reviewAll Sample.card
              (map (fun q => (Sample.now, {| ReviewResult.quality := q |})) qualities))
         == 55)
  /\ (Doubles.FlashcardData.lastReviewed Doubles.Sample.undated
      = Some (Binary64.Valid 8640000000000000)
      /\ Doubles.FlashcardData.interval Doubles.Sample.undated = Binary64.of_Z 1
      /\ Doubles.FlashcardData.nextReview Doubles.Sample.undated = Binary64.Invalid).
Proof.
  split; [|split]; cbv zeta.
  - split; [vm_compute; reflexivity|]. split; [vm_compute; reflexivity|].
    split; [vm_compute; reflexivity|]. split; reflexivity.
  - split; [vm_compute; reflexivity|]. reflexivity.
  - split; [reflexivity|]. split; vm_compute; reflexivity.
Qed.

Lemma easeFactor_quality_binary64_witness :
  let card := Doubles.Sample.card_with (Binary64.lit 6) (Binary64.lit 2.7) 2%nat in
  Doubles.FlashcardData.easeFactor
    (Doubles.SpacedRepetitionScheduler.reviewCard Doubles.Sample.now card
       (Doubles.Sample.quality 4))
  = Binary64.lit 2.7
  /\ Doubles.FlashcardData.easeFactor
       (Doubles.SpacedRepetitionScheduler.reviewCard Doubles.Sample.now card
          (Doubles.Sample.quality 5))
     = Binary64.lit 2.8000000000000003.
Proof.
  intros card.
  destruct (easeFactor_quality_binary64 Doubles.Sample.now card) as (H4 & H5 & _).
  - vm_compute. reflexivity.
  - vm_compute. reflexivity.
  - split.
    + rewrite (H4 (Doubles.Sample.quality 4) eq_refl). reflexivity.
    + destruct (H5 (Doubles.Sample.quality 5) eq_refl) as [E _]. rewrite E.
      vm_compute. reflexivity.
Defined.

(** C8, the counterexample.  At quality 5 the ease factor 2.7 becomes
    2.8000000000000003: that is not 2.8, and the increase, computed as
    the program computes, is 0.10000000000000009 and not 0.1.  The
    ease factor [2 ^ 53] is left as it is. *)
Lemma easeFactor_quality_binary64_counterexample :
  (let card := Doubles.Sample.card_with (Binary64.lit 6) (Binary64.lit 2.7) 2%nat in
   let card' :=
     Doubles.SpacedRepetitionScheduler.reviewCard Doubles.Sample.now card
       (Doubles.Sample.quality 5) in
   Binary64.leb (Binary64.lit 1.3) (Doubles.FlashcardData.easeFactor card) = true
   /\ Doubles.FlashcardData.easeFactor card' = Binary64.lit 2.8000000000000003
   /\ Doubles.FlashcardData.easeFactor card' <> Binary64.lit 2.8
   /\ Binary64.sub (Doubles.FlashcardData.easeFactor card')
        (Doubles.FlashcardData.easeFactor card)
      = Binary64.lit 0.10000000000000009
   /\ Binary64.sub (Doubles.FlashcardData.easeFactor card')
        (Doubles.FlashcardData.easeFactor card)
      <> Binary64.lit 0.1)
  /\ (let card :=
        Doubles.Sample.card_with (Binary64.lit 6) (Binary64.of_Z (2 ^ 53)%Z) 2%nat in
      Binary64.leb (Binary64.lit 1.3) (Doubles.FlashcardData.easeFactor card) = true
      /\ Doubles.FlashcardData.easeFactor
           (Doubles.SpacedRepetitionScheduler.reviewCard Doubles.Sample.now card
              (Doubles.Sample.quality 5))
         = Doubles.FlashcardData.easeFactor card).
Proof.
  split; cbv zeta.
  - split; [vm_compute; reflexivity|]. split; [vm_compute; reflexivity|].
    split; [vm_compute; discriminate|]. split; [vm_compute; reflexivity|].
    vm_compute; discriminate.
  - split; vm_compute; reflexivity.
Qed.

Lemma progressPercentage_binary64_witness :
  exists p,
    Doubles.GoalManager.calculateProgress
      (Doubles.Sample.storage (Doubles.Sample.halfway :: nil)) Doubles.Sample.now "g2"
    = Ok p
    /\ Doubles.GoalProgress.progressPercentage p = Binary64.lit 46.
Proof.
  destruct (progressPercentage_binary64
              (Doubles.Sample.storage (Doubles.Sample.halfway :: nil))
              Doubles.Sample.now "g2" Doubles.Sample.halfway eq_refl)
    as (p & Hp & H1 & _).
  exists p. split; [exact Hp|].
  rewrite H1; [vm_compute; reflexivity | cbn; lia | vm_compute; reflexivity].
Defined.

(** C2, the counterexample.  One task of three done and one hour of
    eight studied: the blend of the claim is 25, over the rationals and
    also in binary64 arithmetic in the order in which the claim writes
    it, and the reported percentage is 24.999999999999996.  One task of
    one done and two hours studied for a target of one: the blend is
    140, the reported percentage is 100. *)
Lemma progressPercentage_binary64_counterexample :
  (ProgressSpec.blend Sample.third == 25
   /\ Binary64.add
        (Binary64.mul (Binary64.lit 0.6)
           (Binary64.div (Binary64.mul (Binary64.lit 100) (Binary64.of_nat 1))
              (Binary64.of_nat 3)))
        (Binary64.mul (Binary64.lit 0.4)
           (Binary64.div (Binary64.mul (Binary64.lit 100) (Binary64.lit 1))
              (Binary64.lit 8)))
      = Binary64.lit 25
   /\ exists p,
        Doubles.GoalManager.calculateProgress
          (Doubles.Sample.storage (Doubles.Sample.third :: nil)) Doubles.Sample.now "g3"
        = Ok p
        /\ Doubles.GoalProgress.progressPercentage p = Binary64.lit 24.999999999999996
        /\ Doubles.GoalProgress.progressPercentage p <> Binary64.lit 25)
  /\ (ProgressSpec.blend Sample.overshoot == 140
      /\ Doubles.ProgressSpec.blend Doubles.Sample.overshoot = Binary64.lit 140
      /\ exists p,
           Doubles.GoalManager.calculateProgress
             (Doubles.Sample.storage (Doubles.Sample.overshoot :: nil))
             Doubles.Sample.now "g1"
           = Ok p
           /\ Doubles.GoalProgress.progressPercentage p = Binary64.lit 100).
Proof.
  split.
  - split; [reflexivity|]. split; [vm_compute; reflexivity|].
    eexists. split; [vm_compute; reflexivity|].
    split; [vm_compute; reflexivity | vm_compute; discriminate].
  - split; [reflexivity|]. split; [vm_compute; reflexivity|].
    eexists. split; [vm_compute; reflexivity|]. vm_compute. reflexivity.
Qed.

Lemma onTrack_binary64_witness :
  exists p,
    Doubles.GoalManager.calculateProgress
      (Doubles.Sample.storage (Doubles.Sample.halfway :: nil)) Doubles.Sample.now "g2"
    = Ok p
    /\ Doubles.GoalProgress.daysUntilDeadline p = Some (Binary64.lit 10)
    /\ Doubles.GoalProgress.onTrack p = false.
Proof.
  destruct (onTrack_binary64
              (Doubles.Sample.storage (Doubles.Sample.halfway :: nil))
              Doubles.Sample.now "g2" Doubles.Sample.halfway eq_refl)
    as (p & Hp & Htested & _).
  exists p. split; [exact Hp|].
  destruct (Htested (Binary64.Valid (20 * Doubles.Sample.day)%Z) eq_refl)
    as (Hdays & _ & Hon); [vm_compute; reflexivity | vm_compute; reflexivity |].
  split; [rewrite Hdays; vm_compute; reflexivity|].
  destruct (Doubles.GoalProgress.onTrack p) eqn:E; [|reflexivity].
  exfalso. apply proj1 in Hon. specialize (Hon eq_refl).
  vm_compute in Hp. injection Hp as <-. vm_compute in Hon. discriminate Hon.
Defined.

(** C4, the counterexample.  25 hours to study in 3 days: the claim
    gives [ceil (60 * 25 / 3) = 500] minutes a day, over the rationals
    and also in binary64 arithmetic in the order in which the claim
    writes it; the program reports 501, the least integer above the
    binary64 value of [25 / 3 * 60].
    0.04 hours to study in a day, after 0.04 hours in half a day: the
    average of 2.4 minutes a day is 80% of the 3 minutes recommended,
    so that the claim gives on track, and the program reports off
    track, the binary64 value of [3 * 0.8] being above that of
    [0.04 * 60]. *)
Lemma onTrack_binary64_counterexample :
  (OnTrackSpec.days_until Sample.now (13 * Sample.day)%Z = 3%Z
   /\ OnTrackSpec.recommended_daily_minutes Sample.cram 3 == 500
   /\ Binary64.Math_ceil
        (Binary64.div
           (Binary64.mul (Binary64.lit 60)
              (Binary64.sub (Binary64.lit 25) (Binary64.lit 0)))
           (Binary64.lit 3))
      = Binary64.of_Z 500
   /\ exists p,
        Doubles.GoalManager.calculateProgress
          (Doubles.Sample.storage (Doubles.Sample.cram :: nil)) Doubles.Sample.now "g4"
        = Ok p
        /\ Doubles.GoalProgress.daysUntilDeadline p = Some (Binary64.of_Z 3)
        /\ Doubles.GoalProgress.recommendedDailyMinutes p = Binary64.of_Z 501)
  /\ (OnTrackSpec.days_until Sample.noon (Sample.noon + Sample.day)%Z = 1%Z
      /\ OnTrackSpec.recommended_daily_minutes Sample.sprint 1 == 3
      /\ 0.8 * OnTrackSpec.recommended_daily_minutes Sample.sprint 1
         <= OnTrackSpec.average_daily_minutes Sample.noon Sample.sprint
      /\ exists p,
           Doubles.GoalManager.calculateProgress
             (Doubles.Sample.storage (Doubles.Sample.sprint :: nil))
             Doubles.Sample.noon "g5"
           = Ok p
           /\ Doubles.GoalProgress.daysUntilDeadline p = Some (Binary64.of_Z 1)
           /\ Doubles.GoalProgress.recommendedDailyMinutes p = Binary64.of_Z 3
           /\ Doubles.OnTrackSpec.average_daily_minutes Doubles.Sample.noon
                Doubles.Sample.sprint
              = Binary64.lit 2.4
           /\ Doubles.GoalProgress.onTrack p = false).
Proof.
  split.
  - split; [reflexivity|]. split; [reflexivity|]. split; [vm_compute; reflexivity|].
    eexists. split; [vm_compute; reflexivity|]. split; vm_compute; reflexivity.
  - split; [reflexivity|]. split; [reflexivity|]. split; [vm_compute; discriminate|].
    eexists. split; [vm_compute; reflexivity|].
    split; [vm_compute; reflexivity|]. split; [vm_compute; reflexivity|].
    split; vm_compute; reflexivity.
Qed.

Lemma saveCards_loadCards_witness :
  exists ls',
    Doubles.FlashcardStorage.saveCards (Doubles.Sample.storage nil)
      (Doubles.Sample.card :: Doubles.Sample.undated :: nil)
    = Ok ls'
    /\ Doubles.FlashcardData.nextReview Doubles.Sample.undated = Binary64.Invalid
    /\ exists cards',
         Doubles.FlashcardStorage.loadCards ls' = Ok cards'
         /\ length cards' = 2%nat
         /\ exists card',
              nth_error cards' 1 = Some card'
              /\ Doubles.FlashcardData.id card' = "c1"
              /\ Doubles.FlashcardData.nextReview card' = Binary64.Valid 0.
Proof.
  destruct (saveCards_loadCards (Doubles.Sample.storage nil)
              (Doubles.Sample.card :: Doubles.Sample.undated :: nil))
    as (ls' & Hsave & _ & Hok).
  exists ls'. split; [exact Hsave|]. split; [vm_compute; reflexivity|].
  destruct (Hok eq_refl) as (_ & cards' & Hload & Hlen & Hnth & _).
  exists cards'. split; [exact Hload|]. split; [exact Hlen|].
  destruct (Hnth 1%nat Doubles.Sample.undated eq_refl)
    as (card' & Hcard & Hid & _ & _ & _ & _ & Hnext).
  exists card'. split; [exact Hcard|]. split; [exact Hid|].
  rewrite Hnext. vm_compute. reflexivity.
Defined.

Lemma importCards_exportCards_witness :
  Doubles.FlashcardStorage.importCards
    (Doubles.FlashcardStorage.exportCards (Doubles.Sample.card :: nil))
  = Ok (Doubles.Sample.card :: nil).
Proof.
  destruct (importCards_exportCards (Doubles.Sample.card :: nil))
    as ((cards' & Himport & _ & _ & Hplain) & _).
  rewrite Himport. f_equal. apply Hplain.
  constructor; [|constructor].
  vm_compute. repeat split; try exact I. discriminate.
Defined.
